(** * Poliigon addon core: download units, orchestration and the asset index

    A shallow embedding of the download-related parts of
    [modules/poliigon_core/api.py], [modules/poliigon_core/addon.py] and
    [modules/poliigon_core/asset_index.py], with the properties of the
    specification stated and proved over it.

    Conventions.
    - Python [int] is [Z]; [str] is [string]; [Optional[T]] is [option T];
      a [dict] is a [gmap]; a [set] is a [gset]; a [list] is a [list].
    - A method that mutates [self] takes the object and returns the new one.
    - The file system and the network are explicit: a [World] holds the
      files (path to size in bytes), the paths the operating system refuses
      to rename or remove, and the log of stream requests sent. *)

From stdpp Require Import gmap strings list fin_maps.
From Stdlib Require Import ZArith Lia Ascii.

Local Open Scope Z_scope.
Local Open Scope string_scope.
Local Open Scope list_scope.

Set Warnings "-register-all".

(** ** os.path and the file system *)

Module Os.

(** [os.path.join(a, b)] for two components (POSIX): an absolute [b]
    discards [a]; otherwise one separator is put between them unless [a]
    is empty or already ends with one. *)
Definition ends_with_sep (a : string) : bool :=
  match String.rev a with
  | String c _ => bool_decide (c = "/"%char)
  | EmptyString => false
  end.

Definition starts_with_sep (b : string) : bool :=
  match b with
  | String c _ => bool_decide (c = "/"%char)
  | EmptyString => false
  end.

Definition path_join (a b : string) : string :=
  if starts_with_sep b then b
  else if bool_decide (a = "") || ends_with_sep a then a +:+ b
  else a +:+ "/" +:+ b.

(** [ApiStatus] of api.py, the event the connector signals. *)
Inductive ApiStatus :=
  | CONNECTION_OK
  | NO_INTERNET
  | PROXY_ERROR.

(** The operating system errors the code distinguishes. *)
Inductive OSError :=
  | FileExistsError
  | FileNotFoundError
  | PermissionError.

#[global] Instance OSError_eq_dec : EqDecision OSError.
Proof. solve_decision. Defined.

(** [files]: every regular file with its size in bytes.
    [locked]: paths for which [os.rename] (as source) and [os.remove]
    raise [PermissionError].
    [rename_replaces]: [os.rename] onto an existing file replaces it
    silently (POSIX) or raises [FileExistsError] (Windows).
    [requests]: URLs for which a stream was requested, latest first.
    [api_status]: the status the connector signalled last. *)
Record World := mkWorld {
  files : gmap string Z;
  locked : gset string;
  rename_replaces : bool;
  requests : list string;
  api_status : ApiStatus
}.

Definition set_files (f : gmap string Z -> gmap string Z) (w : World) : World :=
  mkWorld (f (files w)) (locked w) (rename_replaces w) (requests w)
          (api_status w).

Definition log_request (u : string) (w : World) : World :=
  mkWorld (files w) (locked w) (rename_replaces w) (u :: requests w)
          (api_status w).

Definition trigger_status_change (s : ApiStatus) (w : World) : World :=
  mkWorld (files w) (locked w) (rename_replaces w) (requests w) s.

(** [os.path.exists] *)
Definition path_exists (p : string) (w : World) : bool :=
  bool_decide (is_Some (files w !! p)).

(** [os.path.getsize] of an existing file. *)
Definition getsize (p : string) (w : World) : Z :=
  default 0 (files w !! p).

(** [os.remove] *)
Definition remove (p : string) (w : World) : OSError + World :=
  match files w !! p with
  | None => inl FileNotFoundError
  | Some _ =>
      if bool_decide (p ∈ locked w) then inl PermissionError
      else inr (set_files (delete p) w)
  end.

(** [os.rename] *)
Definition rename (src dst : string) (w : World) : OSError + World :=
  match files w !! src with
  | None => inl FileNotFoundError
  | Some sz =>
      if bool_decide (src ∈ locked w) then inl PermissionError
      else if path_exists dst w && negb (rename_replaces w)
           then inl FileExistsError
      else inr (set_files (fun m => <[dst := sz]> (delete src m)) w)
  end.

(** [open(p, "wb")]: creates or truncates; refused on a locked path. *)
Definition open_wb (p : string) (w : World) : OSError + World :=
  if bool_decide (p ∈ locked w) then inl PermissionError
  else inr (set_files (<[p := 0]>) w).

(** [write_file.write(chunk)] with [len(chunk) = n]. *)
Definition append (p : string) (n : Z) (w : World) : World :=
  set_files (<[p := getsize p w + n]>) w.

End Os.

(** ** api.py: the file download unit *)

Module Api.
Import Os.

Definition DOWNLOAD_TEMP_SUFFIX : string := "dl".
Definition MAX_RETRIES_PER_FILE : Z := 3.

Definition ERR_CONNECTION := "Connection error".
Definition ERR_OS_NO_SPACE := "No space left on device".
Definition ERR_OS_NO_PERMISSION := "Disk permission denied".
Definition ERR_OS_WRITE := "Failed to write file".
Definition ERR_USER_CANCEL_MSG := "User cancelled download".
Definition ERR_TIMEOUT := "Connection timed out after 20 seconds".
Definition ERR_MISSING_STREAM := "Requests response object missing from stream".
Definition ERR_URL_EXPIRED := "Download URL expired".
Definition ERR_FILESIZE_MISMATCH := "Download filesize mismatch".

Inductive DownloadStatus :=
  | INITIALIZED
  | WAITING
  | ONGOING
  | CANCELLED
  | DONE   (* final state *)
  | ERROR. (* final state *)

#[global] Instance DownloadStatus_eq_dec : EqDecision DownloadStatus.
Proof. solve_decision. Defined.

(** The [error] member of an [ApiResponse]: one of the message constants,
    the JSON text built by [construct_error] (kept as its three fields),
    or the formatted write error of [download_asset_file]. *)
Inductive ApiError :=
  | ErrText (msg : string)
  | ErrConstructed (request_url server_response source_request : string)
  | ErrDownloadOsWrite (asset : Z).

#[global] Instance ApiError_eq_dec : EqDecision ApiError.
Proof. solve_decision. Defined.

(** [ApiResponse]; of the body only its shape is kept. *)
Inductive Body :=
  | BodyDownload          (* {"download": download, ...} *)
  | BodyError             (* {"error": ..., "CF-RAY": ...} *)
  | BodyMessage           (* {"message": ..., "CF-RAY": ...} *)
  | BodyRequest.          (* the body of a failed stream request *)

Record ApiResponse := mkResp {
  body : Body;
  ok : bool;
  resp_error : option ApiError
}.

(** The state of a [concurrent.futures.Future], as far as the scheduler
    and the poll tell it apart: not done yet, cancelled, or done with the
    worker's response. Whether a future that is not done has started
    running is left to [Units.cancel_downloads_waiting], which needs it. *)
Inductive Future :=
  | FutPending
  | FutCancelled
  | FutDone (res : ApiResponse).

(** [FileDownload]; [duration] (a float) and [lock] are left out, every
    method below is one atomic step, as it is under the lock. *)
Record FileDownload := mkDl {
  asset_id : Z;
  url : string;
  filename : string;
  size_expected : Z;
  size_downloaded : Z;
  status : DownloadStatus;
  directory : string;
  fut : option Future;
  retries : Z;
  error : option string
}.

Definition new_FileDownload (a : Z) (u f : string) (sz : Z) : FileDownload :=
  mkDl a u f sz 0 INITIALIZED "" None MAX_RETRIES_PER_FILE None.

Definition with_status (s : DownloadStatus) (d : FileDownload) : FileDownload :=
  mkDl (asset_id d) (url d) (filename d) (size_expected d) (size_downloaded d)
       s (directory d) (fut d) (retries d) (error d).

Definition with_size_downloaded (n : Z) (d : FileDownload) : FileDownload :=
  mkDl (asset_id d) (url d) (filename d) (size_expected d) n
       (status d) (directory d) (fut d) (retries d) (error d).

Definition with_directory (dir : string) (d : FileDownload) : FileDownload :=
  mkDl (asset_id d) (url d) (filename d) (size_expected d) (size_downloaded d)
       (status d) dir (fut d) (retries d) (error d).

Definition with_fut (f : option Future) (d : FileDownload) : FileDownload :=
  mkDl (asset_id d) (url d) (filename d) (size_expected d) (size_downloaded d)
       (status d) (directory d) f (retries d) (error d).

Definition with_error (e : option string) (d : FileDownload) : FileDownload :=
  mkDl (asset_id d) (url d) (filename d) (size_expected d) (size_downloaded d)
       (status d) (directory d) (fut d) (retries d) e.

Definition get_filename (d : FileDownload) (temp : bool) : string :=
  if temp then filename d +:+ DOWNLOAD_TEMP_SUFFIX else filename d.

Definition get_path (d : FileDownload) (temp : bool) : string :=
  path_join (directory d) (get_filename d temp).

(** do not overwrite final states *)
Definition set_status_cancelled (d : FileDownload) : FileDownload :=
  let is_done := bool_decide (status d = DONE) in
  let has_error := bool_decide (status d = ERROR) in
  if negb is_done && negb has_error then with_status CANCELLED d else d.

(** do not overwrite user cancellation *)
Definition set_status_ongoing (d : FileDownload) : bool * FileDownload :=
  if bool_decide (status d ≠ CANCELLED)
  then (true, with_status ONGOING d)
  else (false, d).

Definition set_status_error (d : FileDownload) : FileDownload :=
  with_status ERROR d.

Definition set_status_done (d : FileDownload) : FileDownload :=
  with_status DONE d.

(** The states the specification calls terminal, and those a terminal
    state must not fall back to. *)
Definition terminal (s : DownloadStatus) : Prop := s = DONE \/ s = ERROR.

Definition regressed (s : DownloadStatus) : Prop :=
  s = WAITING \/ s = ONGOING \/ s = CANCELLED.

(** *** The network as the connector sees it

    [_request_stream(url)] either fails with an error text, answers without
    a stream, or hands over a stream with its [Content-Length] and what
    iterating it yields. The events of a stream also place what happens
    concurrently: another thread cancelling the unit while it is streamed. *)

Inductive StreamFault :=
  | RequestsConnectionError
  | RequestsTimeout
  | OSError_ENOSPC
  | OSError_EACCES
  | OSError_other
  | OtherException.

Inductive StreamEvent :=
  | EvChunk (n : nat)        (* [iter_content] yields [n] bytes *)
  | EvNone                   (* [iter_content] yields [None] *)
  | EvCancel                 (* another thread: [download.set_status_cancelled()] *)
  | EvRaise (f : StreamFault).

Inductive RequestOutcome :=
  | ReqFailed (err : string)
  | ReqNoStream
  | ReqStream (content_length : Z) (events : list StreamEvent).

Definition Network : Type := string -> RequestOutcome.

Definition check_exist_and_finished
    (path : string) (download : FileDownload) (w : World) : bool :=
  if negb (path_exists path w) then false
  else bool_decide (getsize path w = size_expected download).

(** Deliberately silencing all exceptions of [os.remove]. *)
Definition delete_file (path : string) (w : World) : World :=
  if negb (path_exists path w) then w
  else match remove path w with
       | inr w' => w'
       | inl _ => w
       end.

(** The body of [with open(path_temp, "wb")]: the loop over
    [stream.iter_content]. Returns the exception that ended it, if any. *)
Fixpoint stream_loop (path_temp : string) (events : list StreamEvent)
    (download : FileDownload) (w : World)
    : option StreamFault * FileDownload * World :=
  match events with
  | [] => (None, download, w)
  | EvNone :: rest => stream_loop path_temp rest download w
  | EvCancel :: rest =>
      stream_loop path_temp rest (set_status_cancelled download) w
  | EvRaise f :: _ => (Some f, download, w)
  | EvChunk n :: rest =>
      let w := append path_temp (Z.of_nat n) w in
      let download :=
        with_size_downloaded (size_downloaded download + Z.of_nat n) download in
      if bool_decide (status download = CANCELLED)
      then (None, download, w)
      else stream_loop path_temp rest download w
  end.

(** The [except] clauses of the streaming block. *)
Definition fault_response (asset : Z) (download : FileDownload)
    (f : StreamFault) (w : World) : ApiResponse * World :=
  match f with
  | RequestsConnectionError =>
      (mkResp BodyError false (Some (ErrText ERR_CONNECTION)), w)
  | RequestsTimeout =>
      (mkResp BodyError false (Some (ErrText ERR_TIMEOUT)),
       trigger_status_change NO_INTERNET w)
  | OSError_ENOSPC =>
      (mkResp BodyError false (Some (ErrText ERR_OS_NO_SPACE)), w)
  | OSError_EACCES =>
      (mkResp BodyError false (Some (ErrText ERR_OS_NO_PERMISSION)), w)
  | OSError_other =>
      (mkResp BodyError false (Some (ErrDownloadOsWrite asset)), w)
  | OtherException =>
      (mkResp BodyError false
         (Some (ErrConstructed (url download)
                  "Streaming error during download" (filename download))), w)
  end.

(** Stream download a single file of a purchased asset. Returns the
    response, the unit and the world as the call leaves them; the session,
    the CF-RAY header and the measured duration are left out. The stream
    answered is one whose [Content-Length] header reads as an integer, and
    the unit's directory is there; a header that is missing or malformed
    raises out of the call, see [Units.download_asset_file_served]. *)
Definition download_asset_file (net : Network) (download : FileDownload)
    (w : World) : ApiResponse * FileDownload * World :=
  let path_temp := get_path download true in
  let file_exists_temp := check_exist_and_finished path_temp download w in
  let path_final := get_path download false in
  let file_exists_final := check_exist_and_finished path_final download w in
  if file_exists_temp || file_exists_final then
    let download := set_status_done download in
    let download := with_size_downloaded (size_expected download) download in
    (mkResp BodyDownload true None, download, w)
  else
    let w := log_request (url download) w in
    match net (url download) with
    | ReqFailed err =>
        let e :=
          if bool_decide (err = ERR_URL_EXPIRED) then ErrText err
          else ErrConstructed (url download)
                 ("Received " +:+ err +:+ " error during download")
                 (filename download) in
        (mkResp BodyRequest false (Some e), set_status_error download, w)
    | ReqNoStream =>
        (mkResp BodyMessage false
           (Some (ErrConstructed (url download) ERR_MISSING_STREAM
                    (filename download))),
         set_status_error download, w)
    | ReqStream stream_size events =>
        match set_status_ongoing download with
        | (false, download) =>
            (mkResp BodyError false (Some (ErrText ERR_USER_CANCEL_MSG)),
             download, w)
        | (true, download) =>
            let asset := asset_id download in
            let download := with_size_downloaded 0 download in
            let streamed :=
              match open_wb path_temp w with
              | inl _ => (Some OSError_EACCES, download, w)
              | inr w => stream_loop path_temp events download w
              end in
            match streamed with
            | (Some f, download, w) =>
                let download := set_status_error download in
                let w := delete_file path_temp w in
                let '(resp, w) := fault_response asset download f w in
                (resp, download, w)
            | (None, download, w) =>
                if bool_decide (size_expected download = size_downloaded download)
                   && bool_decide (size_downloaded download = stream_size)
                then
                  (* Download success *)
                  (mkResp BodyDownload true None, set_status_done download, w)
                else
                  (* Download cancelled or error *)
                  let msg :=
                    if bool_decide (status download = CANCELLED)
                    then ERR_USER_CANCEL_MSG
                    else ERR_FILESIZE_MISMATCH in
                  let download := set_status_error download in
                  (* Delete incomplete file *)
                  let w := delete_file path_temp w in
                  (mkResp BodyError false (Some (ErrText msg)), download, w)
            end
        end
    end.

End Api.

(** ** Python results and ordered dictionaries *)

Module Py.

(** The exceptions the modelled code raises or lets escape. *)
Inductive Exn :=
  | KeyError
  | IndexError
  | AttributeError
  | UnboundLocalError
  | NotImplementedError
  | TypeError
  | ZeroDivisionError
  | CancelledError
  | PollLimit (* not of Python: the bound the model puts on polling *)
  | ValueError (tag : string)
  | FileNotFound (msg : string)
  | OSFailure (e : Os.OSError).

#[global] Instance Exn_eq_dec : EqDecision Exn.
Proof. solve_decision. Defined.

(** A call either raises or returns. *)
Inductive Result (A : Type) :=
  | Raised (e : Exn)
  | Returned (a : A).
Arguments Raised {A} e.
Arguments Returned {A} a.

(** Sequencing: [x ← c; k] runs [k] unless [c] raised. *)
#[global] Instance Result_bind : MBind Result := fun A B k r =>
  match r with
  | Raised e => Raised e
  | Returned a => k a
  end.

#[global] Instance Result_ret : MRet Result := fun A a => Returned a.

Definition of_option {A} (e : Exn) (o : option A) : Result A :=
  match o with
  | Some a => Returned a
  | None => Raised e
  end.

(** A [dict] in insertion order: an association list with distinct keys. *)
Section Dict.
Context {K V : Type} `{EqDecision K}.

Fixpoint dict_get (k : K) (d : list (K * V)) : option V :=
  match d with
  | [] => None
  | (k', v) :: rest => if decide (k = k') then Some v else dict_get k rest
  end.

(** [d[k] = v]: in place for a present key, at the end for a new one. *)
Fixpoint dict_set (k : K) (v : V) (d : list (K * V)) : list (K * V) :=
  match d with
  | [] => [(k, v)]
  | (k', v') :: rest =>
      if decide (k = k') then (k, v) :: rest
      else (k', v') :: dict_set k v rest
  end.

(** [del d[k]] for a present key. *)
Fixpoint dict_del (k : K) (d : list (K * V)) : list (K * V) :=
  match d with
  | [] => []
  | (k', v') :: rest =>
      if decide (k = k') then rest else (k', v') :: dict_del k rest
  end.

Definition dict_keys (d : list (K * V)) : list K := d.*1.
Definition dict_values (d : list (K * V)) : list V := d.*2.
Definition dict_mem (k : K) (d : list (K * V)) : bool :=
  bool_decide (is_Some (dict_get k d)).

End Dict.

(** [s.split(sep, 1)[0]]: what precedes the first [sep], all of [s] when
    there is none. *)
Fixpoint before_first (sep s : string) : string :=
  if String.prefix sep s then ""
  else match s with
       | EmptyString => ""
       | String c r => String c (before_first sep r)
       end.

(** [x in l] for a list. *)
Definition py_in {A} `{EqDecision A} (x : A) (l : list A) : bool :=
  bool_decide (x ∈ l).

End Py.

(** ** assets.py, as far as the code at hand uses it *)

Module Assets.
Import Py.

(** Modelled from the spec: the asset types of assets.py ("enum: Texture,
    Model, HDRI, Brush", and the historical unsupported type the index
    names SUBSTANCE). *)
Inductive AssetType :=
  | BRUSH
  | HDRI
  | MODEL
  | SUBSTANCE
  | TEXTURE.

#[global] Instance AssetType_eq_dec : EqDecision AssetType.
Proof. solve_decision. Defined.

(** Modelled from the spec: the mesh formats asset_index.py tells apart. *)
Inductive ModelType :=
  | FBX
  | BLEND
  | C4D
  | MAX.

#[global] Instance ModelType_eq_dec : EqDecision ModelType.
Proof. solve_decision. Defined.

(** Modelled from the spec: a member of the [MapType] enum is kept by its
    name ([MapType[name]], [map_type.name]). *)
Definition MapType : Type := string.

(** Modelled from the spec: "TextureMap / ModelMesh (concrete file record):
    map_type + size + variant + lod + filename + directory". *)
Record TextureMap := mkTextureMap {
  map_type : MapType;
  tm_size : option string;
  tm_variant : option string;
  tm_lod : option string;
  tm_filename : string;
  tm_directory : string
}.

Record ModelMesh := mkModelMesh {
  model_type : ModelType;
  mm_lod : option string;
  mm_filename : string;
  mm_directory : string
}.

(** Modelled from the spec: "TextureMapDescriptor: one logical map channel
    with its code, display name, available sizes, preview filename, and
    variant tags". *)
Record TextureMapDesc := mkTextureMapDesc {
  map_type_code : string;
  td_display_name : string;
  td_sizes : list string;
  filename_preview : string;
  td_variants : list string
}.

#[global] Instance TextureMap_eq_dec : EqDecision TextureMap.
Proof. solve_decision. Defined.
#[global] Instance ModelMesh_eq_dec : EqDecision ModelMesh.
Proof. solve_decision. Defined.
#[global] Instance TextureMapDesc_eq_dec : EqDecision TextureMapDesc.
Proof. solve_decision. Defined.

(** Modelled from the spec: the type-specific payloads, "holding available
    sizes, workflows, variants, LODs, and the concrete file listing"; a
    member that is [None] in Python is [None] here. The real-world
    dimension of a texture (a pair of floats) is left out. *)
Record Texture := mkTexture {
  map_descs : option (list (string * list TextureMapDesc));
  maps : option (list (string * list TextureMap));
  tex_sizes : option (list string);
  tex_variants : option (list string);
  tex_lods : option (list string);
  watermarked_urls : option (list string)
}.

Definition Texture_empty : Texture := mkTexture None None None None None None.

Record Model := mkModel {
  meshes : option (list ModelMesh);
  model_texture : option Texture;
  model_lods : option (list string);
  model_sizes : option (list string);
  size_default : option string;
  model_variants : option (list string)
}.

Definition Model_empty : Model := mkModel None None None None None None.

Record Hdri := mkHdri { bg : Texture; light : Texture }.
Record Brush := mkBrush { alpha : Texture }.

#[global] Instance Texture_eq_dec : EqDecision Texture.
Proof. solve_decision. Defined.
#[global] Instance Model_eq_dec : EqDecision Model.
Proof. solve_decision. Defined.
#[global] Instance Hdri_eq_dec : EqDecision Hdri.
Proof. solve_decision. Defined.
#[global] Instance Brush_eq_dec : EqDecision Brush.
Proof. solve_decision. Defined.

(** Modelled from the spec: "AssetData: the per-asset aggregate": identity,
    display metadata, tri-state purchase and local flags, and the payload
    of its type. The time stamps (floats) and the download state are left
    out. *)
Record AssetData := mkAssetData {
  asset_id : Z;
  asset_type : AssetType;
  asset_name : string;
  display_name : option string;
  categories : option (list string);
  asset_url : option string;
  slug : option string;
  credits : option Z;
  thumb_urls : option (list string);
  is_local : option bool;
  is_purchased : option bool;
  brush : option Brush;
  hdri : option Hdri;
  model : option Model;
  texture : option Texture
}.

#[global] Instance AssetData_eq_dec : EqDecision AssetData.
Proof. solve_decision. Defined.

(** [AssetData(asset_id, asset_type, asset_name)] *)
Definition new_AssetData (i : Z) (t : AssetType) (n : string) : AssetData :=
  mkAssetData i t n None None None None None None None None None None None None.

Definition with_is_local (b : option bool) (a : AssetData) : AssetData :=
  mkAssetData (asset_id a) (asset_type a) (asset_name a) (display_name a)
    (categories a) (asset_url a) (slug a) (credits a) (thumb_urls a)
    b (is_purchased a) (brush a) (hdri a) (model a) (texture a).

Definition with_payload (b : option Brush) (h : option Hdri) (m : option Model)
    (t : option Texture) (a : AssetData) : AssetData :=
  mkAssetData (asset_id a) (asset_type a) (asset_name a) (display_name a)
    (categories a) (asset_url a) (slug a) (credits a) (thumb_urls a)
    (is_local a) (is_purchased a) b h m t.

(** What the code at hand calls in assets.py without its text being among
    the sources: the vocabularies and the queries on an asset's type data
    ([asset_data.get_type_data().f(...)] is [f asset_data ...]). *)
Class AssetsModule := {
  SIZES : list string;
  LODS : list string;
  VARIANTS : list string;
  WORKFLOWS : list string;
  MAPS_TYPE_NAMES : list string;
  PREVIEWS : list string;
  get_size_list : AssetData -> bool -> list string;
  get_workflow : AssetData -> option string -> option string;
  get_workflow_list : AssetData -> list string;
  get_map_type_code_list : AssetData -> option string -> list string;
  get_maps : AssetData -> string -> string -> list TextureMap;
  has_mesh : AssetData -> option ModelType -> bool -> bool;
  get_lod_list : AssetData -> option (list string);
  get_mesh : AssetData -> string -> option ModelType -> list ModelMesh;
  get_files : AssetData -> list string
}.

End Assets.

(** ** Python string methods used by the index *)

Module Str.

Definition lower_ascii (c : ascii) : ascii :=
  let n := nat_of_ascii c in
  if (65 <=? n)%nat && (n <=? 90)%nat then ascii_of_nat (n + 32) else c.

(** [s.lower()] on ASCII text: the letters A to Z are lowered, every other
    byte is kept. It is Python's [lower] for the strings [Text.isascii]
    accepts; on other text Python lowers further letters. *)
Fixpoint lower (s : string) : string :=
  match s with
  | EmptyString => EmptyString
  | String c r => String (lower_ascii c) (lower r)
  end.

(** [s.startswith(p)] *)
Fixpoint startswith (p s : string) : bool :=
  match p, s with
  | EmptyString, _ => true
  | String a p', String b s' => bool_decide (a = b) && startswith p' s'
  | String _ _, EmptyString => false
  end.

(** [s.endswith(p)] *)
Definition endswith (p s : string) : bool :=
  startswith (String.rev p) (String.rev s).

(** [p in s] *)
Fixpoint contains (p s : string) : bool :=
  startswith p s ||
  match s with
  | EmptyString => false
  | String _ s' => contains p s'
  end.

(** [s.split(c)] for a one-character separator. *)
Fixpoint split_aux (c : ascii) (s : string) (cur : string) : list string :=
  match s with
  | EmptyString => [String.rev cur]
  | String a r =>
      if bool_decide (a = c) then String.rev cur :: split_aux c r EmptyString
      else split_aux c r (String a cur)
  end.

Definition split (c : ascii) (s : string) : list string :=
  split_aux c s EmptyString.

(** [os.path.splitext] on a file name without separators: the extension
    starts at the last dot, unless only dots precede it. *)
Fixpoint all_dots (s : string) : bool :=
  match s with
  | EmptyString => true
  | String c r => bool_decide (c = "."%char) && all_dots r
  end.

Fixpoint ext_rev (r : string) (acc : string) : option (string * string) :=
  match r with
  | EmptyString => None
  | String c r' =>
      if bool_decide (c = "."%char)
      then Some (String.rev r', String c acc)
      else ext_rev r' (String c acc)
  end.

Definition splitext (name : string) : string * string :=
  match ext_rev (String.rev name) EmptyString with
  | Some (root, ext) => if all_dots root then (name, "") else (root, ext)
  | None => (name, "")
  end.

(** Every character of [s] is [c]. *)
Fixpoint all_of (c : ascii) (s : string) : bool :=
  match s with
  | EmptyString => true
  | String a r => bool_decide (a = c) && all_of c r
  end.

(** [sorted(list(set(l)))] for strings. *)
Fixpoint insert_sorted (x : string) (l : list string) : list string :=
  match l with
  | [] => [x]
  | y :: r => if String.leb x y then x :: y :: r else y :: insert_sorted x r
  end.

Definition sorted_set (l : list string) : list string :=
  foldr insert_sorted [] (remove_dups l).

End Str.

(** ** assets.py: [AssetData.update], from the spec *)

Module AssetsSpec.
Import Py Assets.

(** Modelled from the spec: how [update] treats a member, missing with
    assets.py: "non-null fields from the new snapshot overwrite". *)
Definition overwrite {A} (old new : option A) : option A :=
  match new with
  | Some x => Some x
  | None => old
  end.

Section Merge.
Context {A : Type} (name : A -> string).

(** Modelled from the spec: how [update] merges file listings, missing
    with assets.py. One file record put into a listing takes the place of
    the records with its file name, or is added at the end. *)
Definition upsert (x : A) (l : list A) : list A :=
  if existsb (fun y => bool_decide (name y = name x)) l
  then map (fun y => if bool_decide (name y = name x) then x else y) l
  else l ++ [x].

Definition merge_files (old new : list A) : list A :=
  foldl (fun acc x => upsert x acc) old new.

End Merge.

(** Modelled from the spec: the maps of [Texture.update], missing with
    assets.py; per workflow the new listing is merged into the old one. *)
Definition merge_maps (old new : list (string * list TextureMap))
    : list (string * list TextureMap) :=
  foldl (fun acc '(wf, ms) =>
           dict_set wf (merge_files tm_filename (default [] (dict_get wf acc)) ms) acc)
        old new.

(** Modelled from the spec: [Texture.update(new, purge_maps)], missing with
    assets.py. "Non-null fields from the new snapshot overwrite, preserving
    unspecified fields"; the file listing is merged so that a rescan "wins"
    "for any filename collision", after being emptied when [purge_maps]. *)
Definition Texture_update (purge_maps : bool) (old new : Texture) : Texture :=
  let old_maps := if purge_maps then Some [] else maps old in
  mkTexture
    (overwrite (map_descs old) (map_descs new))
    (match maps new with
     | Some n => Some (merge_maps (default [] old_maps) n)
     | None => old_maps
     end)
    (overwrite (tex_sizes old) (tex_sizes new))
    (overwrite (tex_variants old) (tex_variants new))
    (overwrite (tex_lods old) (tex_lods new))
    (overwrite (watermarked_urls old) (watermarked_urls new)).

(** Modelled from the spec: how [update] treats a payload, missing with
    assets.py: updated when both snapshots have it, else the one there. *)
Definition update_opt {A} (f : A -> A -> A) (old new : option A) : option A :=
  match old, new with
  | Some o, Some n => Some (f o n)
  | None, Some n => Some n
  | o, None => o
  end.

(** Modelled from the spec: [Model.update], as [Texture_update]; meshes are
    file records like texture maps. *)
Definition Model_update (purge_maps : bool) (old new : Model) : Model :=
  mkModel
    (match meshes new with
     | Some n => Some (merge_files mm_filename (default [] (meshes old)) n)
     | None => meshes old
     end)
    (update_opt (Texture_update purge_maps) (model_texture old) (model_texture new))
    (overwrite (model_lods old) (model_lods new))
    (overwrite (model_sizes old) (model_sizes new))
    (overwrite (size_default old) (size_default new))
    (overwrite (model_variants old) (model_variants new)).

(** Modelled from the spec: [Hdri.update] and [Brush.update], missing with
    assets.py; their textures are updated as [Texture_update] does. *)
Definition Hdri_update (purge_maps : bool) (old new : Hdri) : Hdri :=
  mkHdri (Texture_update purge_maps (bg old) (bg new))
         (Texture_update purge_maps (light old) (light new)).

Definition Brush_update (purge_maps : bool) (old new : Brush) : Brush :=
  mkBrush (Texture_update purge_maps (alpha old) (alpha new)).

(** Modelled from the spec: [AssetData.update(asset_data_new, purge_maps)],
    missing with assets.py: "mutated in place by subsequent query results
    (non-null fields from the new snapshot overwrite, preserving unspecified
    fields) and by local-directory rescans (which only touch the
    local-file-derived subfields)". Identity and type are never touched. *)
Definition AssetData_update (purge_maps : bool) (old new : AssetData) : AssetData :=
  mkAssetData (asset_id old) (asset_type old) (asset_name old)
    (overwrite (display_name old) (display_name new))
    (overwrite (categories old) (categories new))
    (overwrite (asset_url old) (asset_url new))
    (overwrite (slug old) (slug new))
    (overwrite (credits old) (credits new))
    (overwrite (thumb_urls old) (thumb_urls new))
    (overwrite (is_local old) (is_local new))
    (overwrite (is_purchased old) (is_purchased new))
    (update_opt (Brush_update purge_maps) (brush old) (brush new))
    (update_opt (Hdri_update purge_maps) (hdri old) (hdri new))
    (update_opt (Model_update purge_maps) (model old) (model new))
    (update_opt (Texture_update purge_maps) (texture old) (texture new)).

(** The file listings of an asset: its textures, each under the name of
    the member that holds it, the maps of a texture for a workflow, and the
    meshes. *)
Definition all_textures (a : AssetData) : list (string * Texture) :=
  option_list ((fun t => ("texture", t)) <$> texture a)
  ++ option_list ((fun t => ("model.texture", t)) <$> (m ← model a; model_texture m))
  ++ option_list ((fun h => ("hdri.bg", bg h)) <$> hdri a)
  ++ option_list ((fun h => ("hdri.light", light h)) <$> hdri a)
  ++ option_list ((fun b => ("brush.alpha", alpha b)) <$> brush a).

Definition maps_at (t : Texture) (workflow : string) : list TextureMap :=
  default [] (m ← maps t; dict_get workflow m).

Definition all_meshes (a : AssetData) : list ModelMesh :=
  default [] (m ← model a; meshes m).

(** The workflows that key a texture's maps are distinct, as the keys of a
    [dict] are. *)
Definition maps_keys_nodup (t : Texture) : Prop :=
  NoDup (dict_keys (default [] (maps t))).

(** The records of [winner] take precedence in [listing]: a record of the
    listing that bears the file name of one of them is one of them, and
    each of their file names is in the listing. *)
Definition takes_precedence {A} (name : A -> string) (winner listing : list A)
    : Prop :=
  (forall x, x ∈ listing -> name x ∈ name <$> winner -> x ∈ winner)
  /\ (forall y, y ∈ winner -> name y ∈ name <$> listing).

End AssetsSpec.

(** ** assets.py: [asdict] and [AssetData._from_dict], from the spec *)

Module AssetsJson.
Import Py Assets.

(** A JSON document, as [json.dumps] writes and [json.loads] reads it. *)
Inductive Json :=
  | JNull
  | JBool (b : bool)
  | JInt (z : Z)
  | JStr (s : string)
  | JList (l : list Json)
  | JDict (d : list (string * Json)).

(** [d.get(k)] on a JSON object; a missing key reads as [null]. *)
Fixpoint json_get (k : string) (d : list (string * Json)) : Json :=
  match d with
  | [] => JNull
  | (k', v) :: rest => if String.eqb k k' then v else json_get k rest
  end.

Definition field (k : string) (j : Json) : option Json :=
  match j with
  | JDict d => Some (json_get k d)
  | _ => None
  end.

(** *** Writing

    Modelled from the spec: the members [asdict] writes for each dataclass
    of the missing assets.py. *)

Definition enc_opt {A} (f : A -> Json) (o : option A) : Json :=
  match o with
  | Some x => f x
  | None => JNull
  end.

Definition enc_list {A} (f : A -> Json) (l : list A) : Json := JList (map f l).

Definition enc_dict {A} (f : A -> Json) (d : list (string * A)) : Json :=
  JDict (map (fun '(k, v) => (k, f v)) d).

Definition AssetType_name (t : AssetType) : string :=
  match t with
  | BRUSH => "BRUSH"
  | HDRI => "HDRI"
  | MODEL => "MODEL"
  | SUBSTANCE => "SUBSTANCE"
  | TEXTURE => "TEXTURE"
  end.

Definition ModelType_name (t : ModelType) : string :=
  match t with
  | FBX => "FBX"
  | BLEND => "BLEND"
  | C4D => "C4D"
  | MAX => "MAX"
  end.

Definition enc_TextureMap (m : TextureMap) : Json :=
  JDict [("map_type", JStr (map_type m));
         ("size", enc_opt JStr (tm_size m));
         ("variant", enc_opt JStr (tm_variant m));
         ("lod", enc_opt JStr (tm_lod m));
         ("filename", JStr (tm_filename m));
         ("directory", JStr (tm_directory m))].

Definition enc_ModelMesh (m : ModelMesh) : Json :=
  JDict [("model_type", JStr (ModelType_name (model_type m)));
         ("lod", enc_opt JStr (mm_lod m));
         ("filename", JStr (mm_filename m));
         ("directory", JStr (mm_directory m))].

Definition enc_TextureMapDesc (d : TextureMapDesc) : Json :=
  JDict [("map_type_code", JStr (map_type_code d));
         ("display_name", JStr (td_display_name d));
         ("sizes", enc_list JStr (td_sizes d));
         ("filename_preview", JStr (filename_preview d));
         ("variants", enc_list JStr (td_variants d))].

Definition enc_Texture (t : Texture) : Json :=
  JDict [("map_descs", enc_opt (enc_dict (enc_list enc_TextureMapDesc)) (map_descs t));
         ("maps", enc_opt (enc_dict (enc_list enc_TextureMap)) (maps t));
         ("sizes", enc_opt (enc_list JStr) (tex_sizes t));
         ("variants", enc_opt (enc_list JStr) (tex_variants t));
         ("lods", enc_opt (enc_list JStr) (tex_lods t));
         ("watermarked_urls", enc_opt (enc_list JStr) (watermarked_urls t))].

Definition enc_Model (m : Model) : Json :=
  JDict [("meshes", enc_opt (enc_list enc_ModelMesh) (meshes m));
         ("texture", enc_opt enc_Texture (model_texture m));
         ("lods", enc_opt (enc_list JStr) (model_lods m));
         ("sizes", enc_opt (enc_list JStr) (model_sizes m));
         ("size_default", enc_opt JStr (size_default m));
         ("variants", enc_opt (enc_list JStr) (model_variants m))].

Definition enc_Hdri (h : Hdri) : Json :=
  JDict [("bg", enc_Texture (bg h)); ("light", enc_Texture (light h))].

Definition enc_Brush (b : Brush) : Json :=
  JDict [("alpha", enc_Texture (alpha b))].

(** Modelled from the spec: [dataclasses.asdict(asset_data)] as written by
    [json.dumps], for the dataclasses of the missing assets.py: "a
    structured snapshot of all AssetData records", one object per record,
    one member per field, enum members by name. *)
Definition asdict (a : AssetData) : Json :=
  JDict [("asset_id", JInt (asset_id a));
         ("asset_type", JStr (AssetType_name (asset_type a)));
         ("asset_name", JStr (asset_name a));
         ("display_name", enc_opt JStr (display_name a));
         ("categories", enc_opt (enc_list JStr) (categories a));
         ("url", enc_opt JStr (asset_url a));
         ("slug", enc_opt JStr (slug a));
         ("credits", enc_opt JInt (credits a));
         ("thumb_urls", enc_opt (enc_list JStr) (thumb_urls a));
         ("is_local", enc_opt JBool (is_local a));
         ("is_purchased", enc_opt JBool (is_purchased a));
         ("brush", enc_opt enc_Brush (brush a));
         ("hdri", enc_opt enc_Hdri (hdri a));
         ("model", enc_opt enc_Model (model a));
         ("texture", enc_opt enc_Texture (texture a))].

(** *** Reading

    Modelled from the spec: the readers [_from_dict] uses for the members
    of each dataclass of the missing assets.py; [None] is a malformed
    document. *)

Definition dec_str (j : Json) : option string :=
  match j with JStr s => Some s | _ => None end.

Definition dec_int (j : Json) : option Z :=
  match j with JInt z => Some z | _ => None end.

Definition dec_bool (j : Json) : option bool :=
  match j with JBool b => Some b | _ => None end.

(** A member that is [null] (or missing) is unset. *)
Definition dec_opt {A} (f : Json -> option A) (j : Json) : option (option A) :=
  match j with
  | JNull => Some None
  | _ => x ← f j; Some (Some x)
  end.

Definition dec_list {A} (f : Json -> option A) (j : Json) : option (list A) :=
  match j with
  | JList l => mapM f l
  | _ => None
  end.

Definition dec_dict {A} (f : Json -> option A) (j : Json)
    : option (list (string * A)) :=
  match j with
  | JDict d => mapM (fun '(k, v) => x ← f v; Some (k, x)) d
  | _ => None
  end.

Definition AssetType_of_name (s : string) : option AssetType :=
  if String.eqb s "BRUSH" then Some BRUSH
  else if String.eqb s "HDRI" then Some HDRI
  else if String.eqb s "MODEL" then Some MODEL
  else if String.eqb s "SUBSTANCE" then Some SUBSTANCE
  else if String.eqb s "TEXTURE" then Some TEXTURE
  else None.

Definition ModelType_of_name (s : string) : option ModelType :=
  if String.eqb s "FBX" then Some FBX
  else if String.eqb s "BLEND" then Some BLEND
  else if String.eqb s "C4D" then Some C4D
  else if String.eqb s "MAX" then Some MAX
  else None.

Definition dec_TextureMap (j : Json) : option TextureMap :=
  mt ← field "map_type" j ≫= dec_str;
  sz ← field "size" j ≫= dec_opt dec_str;
  va ← field "variant" j ≫= dec_opt dec_str;
  lo ← field "lod" j ≫= dec_opt dec_str;
  fn ← field "filename" j ≫= dec_str;
  di ← field "directory" j ≫= dec_str;
  Some (mkTextureMap mt sz va lo fn di).

Definition dec_ModelMesh (j : Json) : option ModelMesh :=
  mn ← field "model_type" j ≫= dec_str;
  mt ← ModelType_of_name mn;
  lo ← field "lod" j ≫= dec_opt dec_str;
  fn ← field "filename" j ≫= dec_str;
  di ← field "directory" j ≫= dec_str;
  Some (mkModelMesh mt lo fn di).

Definition dec_TextureMapDesc (j : Json) : option TextureMapDesc :=
  co ← field "map_type_code" j ≫= dec_str;
  dn ← field "display_name" j ≫= dec_str;
  sz ← field "sizes" j ≫= dec_list dec_str;
  fp ← field "filename_preview" j ≫= dec_str;
  va ← field "variants" j ≫= dec_list dec_str;
  Some (mkTextureMapDesc co dn sz fp va).

Definition dec_Texture (j : Json) : option Texture :=
  md ← field "map_descs" j ≫= dec_opt (dec_dict (dec_list dec_TextureMapDesc));
  ma ← field "maps" j ≫= dec_opt (dec_dict (dec_list dec_TextureMap));
  sz ← field "sizes" j ≫= dec_opt (dec_list dec_str);
  va ← field "variants" j ≫= dec_opt (dec_list dec_str);
  lo ← field "lods" j ≫= dec_opt (dec_list dec_str);
  wm ← field "watermarked_urls" j ≫= dec_opt (dec_list dec_str);
  Some (mkTexture md ma sz va lo wm).

Definition dec_Model (j : Json) : option Model :=
  me ← field "meshes" j ≫= dec_opt (dec_list dec_ModelMesh);
  te ← field "texture" j ≫= dec_opt dec_Texture;
  lo ← field "lods" j ≫= dec_opt (dec_list dec_str);
  sz ← field "sizes" j ≫= dec_opt (dec_list dec_str);
  sd ← field "size_default" j ≫= dec_opt dec_str;
  va ← field "variants" j ≫= dec_opt (dec_list dec_str);
  Some (mkModel me te lo sz sd va).

Definition dec_Hdri (j : Json) : option Hdri :=
  b ← field "bg" j ≫= dec_Texture;
  l ← field "light" j ≫= dec_Texture;
  Some (mkHdri b l).

Definition dec_Brush (j : Json) : option Brush :=
  a ← field "alpha" j ≫= dec_Texture;
  Some (mkBrush a).

(** Modelled from the spec: [AssetData._from_dict(asset_dict)], missing with
    assets.py: "deserialization must reconstruct every AssetData variant
    exactly"; "missing fields default to null/unset, not an error". The
    three members of the identity are required. *)
Definition _from_dict (j : Json) : option AssetData :=
  i ← field "asset_id" j ≫= dec_int;
  tn ← field "asset_type" j ≫= dec_str;
  t ← AssetType_of_name tn;
  n ← field "asset_name" j ≫= dec_str;
  dn ← field "display_name" j ≫= dec_opt dec_str;
  ca ← field "categories" j ≫= dec_opt (dec_list dec_str);
  ur ← field "url" j ≫= dec_opt dec_str;
  sl ← field "slug" j ≫= dec_opt dec_str;
  cr ← field "credits" j ≫= dec_opt dec_int;
  th ← field "thumb_urls" j ≫= dec_opt (dec_list dec_str);
  il ← field "is_local" j ≫= dec_opt dec_bool;
  ip ← field "is_purchased" j ≫= dec_opt dec_bool;
  br ← field "brush" j ≫= dec_opt dec_Brush;
  hd ← field "hdri" j ≫= dec_opt dec_Hdri;
  mo ← field "model" j ≫= dec_opt dec_Model;
  te ← field "texture" j ≫= dec_opt dec_Texture;
  Some (mkAssetData i t n dn ca ur sl cr th il ip br hd mo te).

End AssetsJson.

(** ** asset_index.py *)

Module Index.
Import Py Assets AssetsSpec AssetsJson.

(** [AssetIndex]: [all_assets] in insertion order; [reporting_callable]
    tells whether the reporting hook is set, [reports] what
    [capture_message] passed to it (the error tags, latest first). *)
Record AssetIndex := mkIndex {
  all_assets : list (Z * AssetData);
  path_cache : string;
  reporting_callable : bool;
  reports : list string
}.

(** [AssetIndex(path_cache)] *)
Definition new_AssetIndex (path : string) : AssetIndex :=
  mkIndex [] path false [].

Definition set_assets (f : list (Z * AssetData) -> list (Z * AssetData))
    (idx : AssetIndex) : AssetIndex :=
  mkIndex (f (all_assets idx)) (path_cache idx) (reporting_callable idx)
          (reports idx).

Definition capture_message (tag : string) (idx : AssetIndex) : AssetIndex :=
  if reporting_callable idx
  then mkIndex (all_assets idx) (path_cache idx) true (tag :: reports idx)
  else idx.

(** What every writer of [all_assets] in asset_index.py keeps: a record is
    stored under its own id, and under no other key twice. *)
Definition index_wf (idx : AssetIndex) : Prop :=
  NoDup (dict_keys (all_assets idx))
  /\ Forall (fun e => asset_id e.2 = e.1) (all_assets idx).

(** A method of the index: it raises or returns, and leaves an index. *)
Definition Outcome (A : Type) : Type := Result A * AssetIndex.

Definition update_asset (asset_id_arg : Z) (asset_data_new : AssetData)
    (purge_maps : bool) (idx : AssetIndex) : Outcome unit :=
  match dict_get asset_id_arg (all_assets idx) with
  | None => (Returned (), idx)
  | Some asset_data =>
      (* Some members are not meant to be updated:
         Namely: asset_id, asset_type, asset_name *)
      if bool_decide (asset_id_arg ≠ asset_id asset_data_new) then
        (Raised (ValueError "Cannot change asset ID"),
         capture_message "assetindex_update_id_mismatch" idx)
      else if bool_decide (asset_name asset_data ≠ asset_name asset_data_new) then
        (Raised (ValueError "Cannot change asset name"),
         capture_message "assetindex_update_name_mismatch" idx)
      else if bool_decide (asset_type asset_data ≠ asset_type asset_data_new) then
        (Raised (ValueError "Cannot change asset type"),
         capture_message "assetindex_update_type_mismatch" idx)
      else
        (Returned (),
         set_assets
           (dict_set asset_id_arg
              (AssetData_update purge_maps asset_data asset_data_new)) idx)
  end.

Definition get_asset (asset_id_arg : Z) (idx : AssetIndex) : option AssetData :=
  dict_get asset_id_arg (all_assets idx).

Definition load_asset (asset_data : AssetData) (idx : AssetIndex) : Outcome unit :=
  let asset_id_arg := asset_id asset_data in
  if negb (dict_mem asset_id_arg (all_assets idx))
  then (Returned (), set_assets (dict_set asset_id_arg asset_data) idx)
  else update_asset asset_id_arg asset_data false idx.

(** The second comprehension of [get_asset_id_list]:
    [self.all_assets[asset_id].is_purchased == purchased]. *)
Fixpoint filter_purchased (purchased : bool) (ids : list Z) (idx : AssetIndex)
    : Result (list Z) :=
  match ids with
  | [] => Returned []
  | i :: rest =>
      a ← of_option KeyError (dict_get i (all_assets idx));
      r ← filter_purchased purchased rest idx;
      Returned (if bool_decide (is_purchased a = Some purchased)
                then i :: r else r)
  end.

Definition get_asset_id_list (type_filter : option AssetType)
    (purchased : option bool) (idx : AssetIndex) : Result (list Z) :=
  let asset_id_list :=
    map asset_id
      (filter (fun a => type_filter = None \/ type_filter = Some (asset_type a))
              (dict_values (all_assets idx))) in
  match purchased with
  | None => Returned asset_id_list
  | Some p => filter_purchased p asset_id_list idx
  end.

Section Scan.
Context `{AM : AssetsModule}.

(** What a directory scan collects. *)
Record Scan := mkScan {
  s_lods : list string;
  s_sizes : list string;
  s_variants : list string;
  s_previews : list string;
  s_texture_maps : list (string * list TextureMap);
  s_meshes : list ModelMesh
}.

Definition Scan_empty : Scan := mkScan [] [] [] [] [] [].

Definition first_in (vocabulary parts : list string) : option string :=
  head (filter (fun v => v ∈ parts) vocabulary).

Definition _map_type_from_filename_parts (filename_parts : list string)
    : MapType * option string :=
  let map_type_name :=
    default "DIFF" (head (filter (fun p => p ∈ MAPS_TYPE_NAMES) filename_parts)) in
  let workflow := head (filter (fun p => p ∈ WORKFLOWS) filename_parts) in
  (map_type_name, workflow).

Definition _lod_from_filename_parts (filename_parts : list string) : option string :=
  first_in LODS filename_parts.

Definition _size_from_filename_parts (filename_parts : list string) : option string :=
  first_in SIZES filename_parts.

Definition _variant_from_filename_parts (filename_parts : list string) : option string :=
  first_in VARIANTS filename_parts.

Definition IMAGE_SUFFIXES : list string :=
  [".jpg"; ".jpeg"; ".png"; ".tif"; ".exr"; ".psd"].

Definition add_mesh (t : ModelType) (lod : string) (filename path : string)
    (s : Scan) (lods sizes variants : list string) : Scan :=
  mkScan lods sizes variants (s_previews s) (s_texture_maps s)
         (s_meshes s ++ [mkModelMesh t (Some lod) filename path]).

Definition _analyze_single_file (path filename workflow_fallback : string)
    (s : Scan) : Scan :=
  let '(base_filename, suffix) := Str.splitext filename in
  let base_filename_low := Str.lower base_filename in
  let suffix := Str.lower suffix in
  if existsb (fun preview_name => Str.endswith preview_name base_filename_low)
             PREVIEWS
  then mkScan (s_lods s) (s_sizes s) (s_variants s)
              (s_previews s ++ [filename]) (s_texture_maps s) (s_meshes s)
  else if Str.contains "_SOURCE" base_filename then s
  else
    let name_parts := Str.split "_" base_filename in
    let '(map_type, workflow_file) :=
      if bool_decide (suffix ∈ IMAGE_SUFFIXES)
      then let '(m, w) := _map_type_from_filename_parts name_parts in (Some m, w)
      else (None, None) in
    let lod := _lod_from_filename_parts name_parts in
    let size := _size_from_filename_parts name_parts in
    let variant := _variant_from_filename_parts name_parts in
    let workflow_file := default workflow_fallback workflow_file in
    let lods := s_lods s ++ [default "NONE" lod] in
    let lod := default "NONE" lod in
    let sizes := s_sizes s ++ option_list size in
    let variants := s_variants s ++ option_list variant in
    match map_type with
    | Some map_type =>
        let tex_map :=
          mkTextureMap map_type size variant (Some lod) filename path in
        let texture_maps :=
          match dict_get workflow_file (s_texture_maps s) with
          | Some l => dict_set workflow_file (l ++ [tex_map]) (s_texture_maps s)
          | None => dict_set workflow_file [tex_map] (s_texture_maps s)
          end in
        mkScan lods sizes variants (s_previews s) texture_maps (s_meshes s)
    | None =>
        if bool_decide (suffix = ".fbx") then add_mesh FBX lod filename path s lods sizes variants
        else if bool_decide (suffix = ".blend") then add_mesh BLEND lod filename path s lods sizes variants
        else if bool_decide (suffix = ".c4d") then add_mesh C4D lod filename path s lods sizes variants
        else if bool_decide (suffix = ".max") then add_mesh MAX lod filename path s lods sizes variants
        else
          (* a temporary file from a cancelled download, or an unexpected
             file type *)
          mkScan lods sizes variants (s_previews s) (s_texture_maps s) (s_meshes s)
    end.

(** [os.walk(dir)]: the triples [(path, dirs, files)] it yields. *)
Definition Walk : Type := string -> list (string * list string * list string).

Definition _analyze_files (walk : Walk) (dir_asset workflow_fallback : string)
    (s : Scan) : Scan :=
  foldl (fun s '(path, _, files) =>
           foldl (fun s file => _analyze_single_file path file workflow_fallback s)
                 s (Str.sorted_set files))
        s (walk dir_asset).

End Scan.

Section Directories.
Context `{AM : AssetsModule}.

Definition _prepare_brush_update_asset_data (workflow : string)
    (texture_maps : list (string * list TextureMap))
    (asset_data_update : AssetData) : bool * AssetData :=
  match dict_get workflow texture_maps with
  | None => (false, asset_data_update)
  | Some tex_maps =>
      let found := filter (fun m => map_type m = "ALPHA") tex_maps in
      let alpha :=
        mkTexture None (Some [(workflow, found)]) None None None None in
      (bool_decide (found ≠ []),
       with_payload (Some (mkBrush alpha)) (hdri asset_data_update)
         (model asset_data_update) (texture asset_data_update)
         asset_data_update)
  end.

Definition is_bg (m : TextureMap) : bool :=
  bool_decide (map_type m = "ENV") || bool_decide (map_type m = "JPG").

Definition is_light (m : TextureMap) : bool :=
  bool_decide (map_type m = "LIGHT") || bool_decide (map_type m = "HDR").

Definition _prepare_hdri_update_asset_data (workflow : string)
    (texture_maps : list (string * list TextureMap))
    (asset_data_update : AssetData) : bool * AssetData :=
  match dict_get workflow texture_maps with
  | None => (false, asset_data_update)
  | Some tex_maps =>
      let bg_maps := filter (fun m => is_bg m = true) tex_maps in
      let light_maps :=
        filter (fun m => is_bg m = false /\ is_light m = true) tex_maps in
      let bg := mkTexture None (Some [(workflow, bg_maps)]) None None None None in
      let light :=
        mkTexture None (Some [(workflow, light_maps)]) None None None None in
      (bool_decide (bg_maps ≠ []) || bool_decide (light_maps ≠ []),
       with_payload (brush asset_data_update) (Some (mkHdri bg light))
         (model asset_data_update) (texture asset_data_update)
         asset_data_update)
  end.

(** The descriptors of a workflow's maps, each kept once. *)
Definition descs_of (sizes variants : list string) (tex_maps : list TextureMap)
    : list TextureMapDesc :=
  foldl (fun acc m =>
           let d := mkTextureMapDesc (map_type m) "" sizes "" variants in
           if bool_decide (d ∈ acc) then acc else acc ++ [d])
        [] tex_maps.

Definition _prepare_model_update_asset_data (workflow : string)
    (meshes : list ModelMesh) (texture_maps : list (string * list TextureMap))
    (sizes variants lods : list string) (asset_data_update : AssetData)
    : bool * AssetData :=
  let files_found := bool_decide (texture_maps ≠ []) in
  if negb files_found then (false, asset_data_update)
  else
    let descs :=
      map (fun '(workflow_tex, l) => (workflow_tex, descs_of sizes variants l))
          (filter (fun e => e.2 ≠ []) texture_maps) in
    let tex :=
      mkTexture (Some descs) (Some texture_maps) (Some sizes) (Some variants)
                (Some lods) None in
    (* Do not touch sizes, it contains ALL sizes from query *)
    let m := mkModel (Some meshes) (Some tex) (Some lods) None None (Some variants) in
    (files_found,
     with_payload (brush asset_data_update) (hdri asset_data_update) (Some m)
       (texture asset_data_update) asset_data_update).

Definition _prepare_tex_update_asset_data (workflow : string)
    (texture_maps : list (string * list TextureMap)) (sizes : list string)
    (asset_data_update : AssetData) : bool * AssetData :=
  let tex := mkTexture None (Some texture_maps) (Some sizes) None None None in
  let files_found := bool_decide (texture_maps ≠ []) in
  (* If only maps of size WM got found, the asset will not be regarded local *)
  let files_found := if bool_decide (sizes = ["WM"]) then false else files_found in
  (files_found,
   with_payload (brush asset_data_update) (hdri asset_data_update)
     (model asset_data_update) (Some tex) asset_data_update).

(** The first part of [update_from_directory]: the directory is analysed
    and the update for the asset prepared; [None] stands for the asset type
    none of the branches handles, for which [files_found] stays unbound. *)
Definition prepare_update (walk : Walk) (asset_id_arg : Z)
    (asset_data : AssetData) (dir_asset workflow_fallback : string)
    : option bool * AssetData :=
  let name := asset_name asset_data in
  let type := asset_type asset_data in
  let workflow :=
    default workflow_fallback
            (get_workflow asset_data (Some workflow_fallback)) in
  let s := _analyze_files walk dir_asset workflow Scan_empty in
  let lods := Str.sorted_set (s_lods s) in
  let sizes := Str.sorted_set (s_sizes s) in
  let variants := Str.sorted_set (s_variants s) in
  (* append files to asset_data *)
  let asset_data_update := new_AssetData asset_id_arg type name in
  match type with
  | BRUSH =>
      let '(f, u) := _prepare_brush_update_asset_data workflow_fallback
                       (s_texture_maps s) asset_data_update in (Some f, u)
  | HDRI =>
      let '(f, u) := _prepare_hdri_update_asset_data workflow_fallback
                       (s_texture_maps s) asset_data_update in (Some f, u)
  | MODEL =>
      let '(f, u) := _prepare_model_update_asset_data workflow_fallback
                       (s_meshes s) (s_texture_maps s) sizes variants lods
                       asset_data_update in (Some f, u)
  | TEXTURE =>
      let '(f, u) := _prepare_tex_update_asset_data workflow_fallback
                       (s_texture_maps s) sizes asset_data_update in (Some f, u)
  | SUBSTANCE => (None, asset_data_update)
  end.

(** [asset_data.is_local = True] when files were found. *)
Definition found_local (files_found : bool) (a : AssetData) : AssetData :=
  if files_found then with_is_local (Some true) a else a.

(** [asset_data.is_local = True] on the stored record. *)
Definition mark_local (asset_id_arg : Z) (idx : AssetIndex) : AssetIndex :=
  set_assets
    (fun d => match dict_get asset_id_arg d with
              | Some a => dict_set asset_id_arg (with_is_local (Some true) a) d
              | None => d
              end) idx.

Definition update_from_directory (walk : Walk) (asset_id_arg : Z)
    (dir_asset workflow_fallback : string) (idx : AssetIndex) : Outcome bool :=
  match dict_get asset_id_arg (all_assets idx) with
  | None => (Raised KeyError, capture_message "assetindex_update_id_missing" idx)
  | Some asset_data =>
      let '(files_found, asset_data_update) :=
        prepare_update walk asset_id_arg asset_data dir_asset
          workflow_fallback in
      match update_asset asset_id_arg asset_data_update false idx with
      | (Raised e, idx) => (Raised e, idx)
      | (Returned _, idx) =>
          match files_found with
          | None => (Raised UnboundLocalError, idx)
          | Some true => (Returned true, mark_local asset_id_arg idx)
          | Some false => (Returned false, idx)
          end
      end
  end.

(** [{self.all_assets[asset_id].asset_name: asset_id for asset_id in l}] *)
Fixpoint asset_name_dict_of (ids : list Z) (idx : AssetIndex)
    (acc : list (string * Z)) : Result (list (string * Z)) :=
  match ids with
  | [] => Returned acc
  | i :: rest =>
      a ← of_option KeyError (dict_get i (all_assets idx));
      asset_name_dict_of rest idx (dict_set (asset_name a) i acc)
  end.

(** [for _asset_id in asset_id_list: self.get_asset(_asset_id).is_local = False] *)
Fixpoint clear_is_local (ids : list Z) (idx : AssetIndex) : Outcome unit :=
  match ids with
  | [] => (Returned (), idx)
  | i :: rest =>
      match get_asset i idx with
      | None => (Raised AttributeError, idx)
      | Some a =>
          clear_is_local rest
            (set_assets (dict_set i (with_is_local (Some false) a)) idx)
      end
  end.

(** The state of the loops of [update_all_local_assets]. *)
Record Reconcile := mkReconcile {
  r_index : AssetIndex;
  matched_assets : list string;
  unmatched_directories : list string
}.

(** [for directory in dirs] *)
Fixpoint scan_directories (walk : Walk) (names : list (string * Z))
    (workflow_fallback dir_library path : string) (dirs : list string)
    (r : Reconcile) : Result unit * Reconcile :=
  match dirs with
  | [] => (Returned (), r)
  | directory :: rest =>
      (* Match _directory_ names with list of purchased assets *)
      let dir_asset := Os.path_join path directory in
      match dict_get directory names with
      | Some asset_id_found =>
          match update_from_directory walk asset_id_found dir_asset
                  workflow_fallback (r_index r) with
          | (Raised e, idx) =>
              (Raised e, mkReconcile idx (matched_assets r)
                                     (unmatched_directories r))
          | (Returned files_found, idx) =>
              let matched :=
                if files_found && negb (py_in directory (matched_assets r))
                then matched_assets r ++ [directory]
                else matched_assets r in
              scan_directories walk names workflow_fallback dir_library path
                rest (mkReconcile idx matched (unmatched_directories r))
          end
      | None =>
          let unmatched :=
            if bool_decide (dir_asset ≠ dir_library)
            then unmatched_directories r ++ [dir_asset]
            else unmatched_directories r in
          scan_directories walk names workflow_fallback dir_library path rest
            (mkReconcile (r_index r) (matched_assets r) unmatched)
      end
  end.

(** [for path, dirs, files in os.walk(dir_library)] *)
Fixpoint scan_walk (walk : Walk) (names : list (string * Z))
    (workflow_fallback dir_library : string)
    (entries : list (string * list string * list string))
    (r : Reconcile) : Result unit * Reconcile :=
  match entries with
  | [] => (Returned (), r)
  | (path, dirs, _) :: rest =>
      match scan_directories walk names workflow_fallback dir_library path
              dirs r with
      | (Raised e, r) => (Raised e, r)
      | (Returned _, r) =>
          scan_walk walk names workflow_fallback dir_library rest r
      end
  end.

(** [for dir_library in library_dirs] *)
Fixpoint scan_libraries (walk : Walk) (names : list (string * Z))
    (workflow_fallback : string) (library_dirs : list string)
    (r : Reconcile) : Result unit * Reconcile :=
  match library_dirs with
  | [] => (Returned (), r)
  | dir_library :: rest =>
      match scan_walk walk names workflow_fallback dir_library
              (walk dir_library) r with
      | (Raised e, r) => (Raised e, r)
      | (Returned _, r) => scan_libraries walk names workflow_fallback rest r
      end
  end.

(** The first part of [update_all_local_assets]: the assets to update are
    selected, their names gathered, and their [is_local] cleared. *)
Definition select_assets (purchased : option bool) (idx : AssetIndex)
    : Outcome (list (string * Z)) :=
  (* Gather list with names of purchased assets *)
  match get_asset_id_list None purchased idx with
  | Raised e => (Raised e, idx)
  | Returned asset_id_list =>
      match asset_name_dict_of asset_id_list idx [] with
      | Raised e => (Raised e, idx)
      | Returned asset_name_dict =>
          match clear_is_local asset_id_list idx with
          | (Raised e, idx) => (Raised e, idx)
          | (Returned _, idx) => (Returned asset_name_dict, idx)
          end
      end
  end.

Definition update_all_local_assets (walk : Walk) (library_dirs : list string)
    (workflow_fallback : string) (purchased : option bool) (idx : AssetIndex)
    : Outcome (list (string * Z) * list string) :=
  match select_assets purchased idx with
  | (Raised e, idx) => (Raised e, idx)
  | (Returned asset_name_dict, idx) =>
      (* update_from_directory() overwrites file reference entries.
         Thus the primary library directory has to be scanned last. *)
      let library_dirs := reverse library_dirs in
      (* Browse library_dirs recursively *)
      match scan_libraries walk asset_name_dict workflow_fallback
              library_dirs (mkReconcile idx [] []) with
      | (Raised e, r) => (Raised e, r_index r)
      | (Returned _, r) =>
          let '(remaining, idx) :=
            foldl (fun '(d, idx) asset_name_matched =>
                     if dict_mem asset_name_matched d
                     then (dict_del asset_name_matched d, idx)
                     else (d, capture_message
                                "assetindex_update_local_key_error" idx))
                  (asset_name_dict, r_index r) (matched_assets r) in
          (Returned (remaining, unmatched_directories r), idx)
      end
  end.

End Directories.

Section Locality.
Context `{AM : AssetsModule}.

Definition check_asset_local_sizes (asset_id_arg : Z) (workflow : option string)
    (incl_watermarked : bool) (idx : AssetIndex) : list (string * bool) :=
  match dict_get asset_id_arg (all_assets idx) with
  | None => []
  | Some asset_data =>
      let all_sizes := get_size_list asset_data incl_watermarked in
      foldl (fun local_sizes size =>
               match workflow with
               | None =>
                   let workflow_list := get_workflow_list asset_data in
                   dict_set size
                     (existsb (fun workflow_check =>
                                 bool_decide (get_maps asset_data workflow_check size ≠ []))
                              workflow_list)
                     local_sizes
               | Some workflow =>
                   dict_set size
                     (bool_decide (get_maps asset_data workflow size ≠ []))
                     local_sizes
               end)
            [] all_sizes
  end.

Definition check_asset_local_lods (asset_id_arg : Z)
    (model_type_arg : option ModelType) (native_only : bool) (idx : AssetIndex)
    : list (string * bool) :=
  match dict_get asset_id_arg (all_assets idx) with
  | None => []
  | Some asset_data =>
      if bool_decide (asset_type asset_data ≠ MODEL) then []
      else
        match get_lod_list asset_data with
        | None => []
        | Some all_lods =>
            foldl (fun local_lods lod =>
                     let meshes_fbx := get_mesh asset_data lod (Some FBX) in
                     let meshes_native :=
                       match model_type_arg with
                       | Some t => get_mesh asset_data lod (Some t)
                       | None => []
                       end in
                     let lod_is_local :=
                       if native_only
                       then bool_decide (meshes_native ≠ [])
                       else bool_decide (meshes_fbx ≠ [])
                            || bool_decide (meshes_native ≠ []) in
                     dict_set lod lod_is_local local_lods)
                  [] all_lods
        end
  end.

(** [any(d.values())] *)
Definition any_value (d : list (string * bool)) : bool :=
  existsb id (dict_values d).

(** [k in d and d[k]] *)
Definition in_and_true (k : string) (d : list (string * bool)) : bool :=
  match dict_get k d with
  | Some b => b
  | None => false
  end.

(** Returns what Python returns: [asset_data.is_local] may be [None]. *)
Definition check_asset_is_local (asset_id_arg : Z) (workflow size lod : option string)
    (model_type_arg : option ModelType) (native_only : bool) (idx : AssetIndex)
    : Outcome (option bool) :=
  match dict_get asset_id_arg (all_assets idx) with
  | None =>
      (* except KeyError *)
      (Returned (Some false), capture_message "assetindex_asset_missing" idx)
  | Some asset_data =>
      let mesh_is_local :=
        if bool_decide (asset_type asset_data = MODEL)
        then has_mesh asset_data model_type_arg native_only
        else true in
      if bool_decide (workflow = None) && bool_decide (size = None)
         && bool_decide (lod = None) && bool_decide (model_type_arg = None)
      then (Returned (is_local asset_data), idx)
      else
        let incl_watermarked := bool_decide (size = Some "WM") in
        let local_sizes :=
          check_asset_local_sizes asset_id_arg workflow incl_watermarked idx in
        let tex_is_local :=
          match size with
          | None => any_value local_sizes
          | Some sz => in_and_true sz local_sizes
          end in
        if bool_decide (asset_type asset_data ≠ MODEL)
        then (Returned (Some tex_is_local), idx)
        else
          let local_lods :=
            check_asset_local_lods asset_id_arg model_type_arg native_only idx in
          let lod_is_local :=
            match lod with
            | None => any_value local_lods
            | Some l => in_and_true l local_lods
            end in
          (Returned (Some (tex_is_local && lod_is_local && mesh_is_local)), idx)
  end.

End Locality.

(** *** The cache file

    [CacheStore]: the cache files on disk, each with the way it was written
    ([True]: through [gzip.open]) and the JSON document it holds; the text
    encoding and the compression are the library's. *)
Abbreviation CacheStore := (gmap string (bool * Json)).

Definition NO_CACHE_PATH : string := "No cache path set!".
Definition NO_SAVED_CACHE : string := "No saved cache found".

Definition save_cache (use_gzip : bool) (idx : AssetIndex) (store : CacheStore)
    : Result unit * CacheStore :=
  if bool_decide (String.length (path_cache idx) < 2)%nat
  then (Raised (FileNotFound NO_CACHE_PATH), store)
  else
    let asset_list := map asdict (dict_values (all_assets idx)) in
    (Returned (), <[path_cache idx := (use_gzip, JList asset_list)]> store).

(** [for asset_dict in asset_list]; a record that cannot be rebuilt ends
    the load with what was loaded so far. *)
Fixpoint load_assets (asset_list : list Json) (idx : AssetIndex) : Outcome unit :=
  match asset_list with
  | [] => (Returned (), idx)
  | asset_dict :: rest =>
      match _from_dict asset_dict with
      | None => (Raised (ValueError "malformed asset record"), idx)
      | Some asset_data =>
          load_assets rest
            (set_assets (dict_set (asset_id asset_data) asset_data) idx)
      end
  end.

Definition load_cache (use_gzip : bool) (idx : AssetIndex) (store : CacheStore)
    : Outcome unit :=
  if bool_decide (String.length (path_cache idx) < 2)%nat
  then (Raised (FileNotFound NO_CACHE_PATH), idx)
  else
    match store !! path_cache idx with
    | None => (Raised (FileNotFound NO_SAVED_CACHE), idx)
    | Some (written_gzip, document) =>
        if negb (bool_decide (written_gzip = use_gzip))
        then (Raised (ValueError "not a cache in this encoding"), idx)
        else
          match document with
          | JList asset_list =>
              load_assets asset_list (set_assets (fun _ => []) idx)
          | _ => (Raised (ValueError "malformed cache"), idx)
          end
    end.

End Index.

(** ** addon.py: resolving what to download *)

Module Addon.
Import Os Py Assets.

Definition MAX_DOWNLOAD_RETRIES : nat := 10.

(** The [download] section of [settings_config]. *)
Record Settings := mkSettings {
  tex_res : option string;
  model_res : option string;
  hdri_bg : option string;
  brush_res : option string;
  settings_download_lods : bool
}.

(** [download_data["assets"][0]]; a key that is not set is [None]. *)
Record DownloadData := mkDownloadData {
  dd_id : Z;
  dd_name : string;
  dd_workflows : option (list (option string));
  dd_type_codes : option (list string);
  dd_lods : option Z;
  dd_softwares : option (list string);
  dd_renders : option (list string);
  dd_sizes : list string
}.

Section Resolve.
Context `{AM : AssetsModule}.

(** [size in ["", None]] *)
Definition size_unspecified (size : option string) : bool :=
  match size with
  | None => true
  | Some s => bool_decide (s = "")
  end.

(** The sizes asked for: the one passed in, or the default of the
    preferences for the asset's type. *)
Definition requested_sizes (settings : Settings) (asset_data : AssetData)
    (size : option string) : Result (list (option string)) :=
  if size_unspecified size then
    match asset_type asset_data with
    | TEXTURE => Returned [tex_res settings]
    | MODEL =>
        let settings_size := model_res settings in
        m ← of_option AttributeError (model asset_data);
        let size_default_model := size_default m in
        if (match settings_size with
            | None => true
            | Some s => bool_decide (s = "") || bool_decide (s = "NONE")
            end)
           && bool_decide (size_default_model ≠ None)
        then Returned [size_default_model]
        else Returned [settings_size]
    | HDRI => Returned [hdri_bg settings]
    | BRUSH => Returned [brush_res settings]
    | SUBSTANCE => Raised UnboundLocalError
    end
  else Returned [size].

(** [[_size for _size in sizes if _size in sizes_data]] *)
Definition valid_sizes (sizes : list (option string)) (sizes_data : list string)
    : list string :=
  omap (fun o => match o with
                 | Some s => if py_in s sizes_data then Some s else None
                 | None => None
                 end) sizes.

(** [for _size in reversed(SIZES): if _size in sizes_data: ...; break] *)
Definition first_available (sizes_data : list string) : option string :=
  head (filter (fun s => s ∈ sizes_data) (reverse SIZES)).

Definition MSG_MISSING_SIZES : string :=
  "Missing sizes for download! Setting size to minimum value.".

(** The three steps that fix [download_data["assets"][0]["sizes"]]; with
    them the warnings logged. *)
Definition resolve_sizes (sizes : list (option string)) (sizes_data : list string)
    : Result (list string * list string) :=
  let chosen := valid_sizes sizes sizes_data in
  (* If no valid size found, try to find at least one matching asset's
     available size data *)
  let chosen :=
    if bool_decide (chosen = []) then option_list (first_available sizes_data)
    else chosen in
  (* If still no valid size found, request minimum size *)
  if bool_decide (chosen = []) then
    smallest ← of_option IndexError (head SIZES);
    Returned ([smallest], [MSG_MISSING_SIZES])
  else Returned (chosen, []).

Definition get_download_data (settings : Settings) (software_dl_dcc : string)
    (asset_data : AssetData) (size : option string)
    (download_lods : option bool) (native_mesh : bool)
    (renderer : option string) : Result (DownloadData * list string) :=
  let incl_watermarked := bool_decide (size = Some "WM") in
  let sizes_data := get_size_list asset_data incl_watermarked in
  let workflow := get_workflow asset_data None in
  (* If no size specified use defaults from preferences *)
  sizes ← requested_sizes settings asset_data size;
  let base :=
    mkDownloadData (asset_id asset_data) (asset_name asset_data)
                   None None None None None [] in
  let base :=
    match asset_type asset_data with
    | HDRI | TEXTURE =>
        let map_codes := get_map_type_code_list asset_data workflow in
        mkDownloadData (dd_id base) (dd_name base) (Some [workflow])
                       (Some map_codes) None None None []
    | MODEL =>
        let download_lods :=
          default (settings_download_lods settings) download_lods in
        let lods := Some (if download_lods then 1 else 0) in
        match native_mesh, renderer with
        | true, Some r =>
            mkDownloadData (dd_id base) (dd_name base) None None lods
                           (Some [software_dl_dcc]) (Some [r]) []
        | _, _ =>
            mkDownloadData (dd_id base) (dd_name base) None None lods
                           (Some ["ALL_OTHERS"]) None []
        end
    | BRUSH | SUBSTANCE =>
        (* No special data needed for Brushes *)
        base
    end in
  '(chosen, warnings) ← resolve_sizes sizes sizes_data;
  Returned (mkDownloadData (dd_id base) (dd_name base) (dd_workflows base)
              (dd_type_codes base) (dd_lods base) (dd_softwares base)
              (dd_renders base) chosen,
            warnings).

End Resolve.

(** *** The download scheduler *)

(** [dl_list.sort(key=lambda dl: dl.size_expected)], a stable sort. *)
Fixpoint insert_by_size (d : Api.FileDownload) (l : list Api.FileDownload)
    : list Api.FileDownload :=
  match l with
  | [] => [d]
  | x :: r =>
      if (Api.size_expected d <? Api.size_expected x)%Z then d :: x :: r
      else x :: insert_by_size d r
  end.

Definition sort_by_size (l : list Api.FileDownload) : list Api.FileDownload :=
  foldl (fun acc d => insert_by_size d acc) [] l.

(** The body of the loop of [schedule_downloads]: the unit is given its
    directory, marked WAITING and submitted. The future is the one
    [submit] returns, taken before its worker has run; the workers run in
    [run_pool]. *)
Definition submit (directory : string) (download : Api.FileDownload)
    : Api.FileDownload :=
  Api.with_fut (Some Api.FutPending)
    (Api.with_status Api.WAITING (Api.with_directory directory download)).

Definition schedule_downloads (dl_list : list Api.FileDownload)
    (directory : string) : list Api.FileDownload :=
  map (submit directory) (sort_by_size dl_list).

(** What the pool does while the orchestrator sleeps: the worker of a
    pending unit runs [download_asset_file] to its end if the schedule
    [runs] lets it, and its future holds the response. *)
Fixpoint run_pool (net : Api.Network) (runs : Api.FileDownload -> bool)
    (dl_list : list Api.FileDownload) (w : World)
    : list Api.FileDownload * World :=
  match dl_list with
  | [] => ([], w)
  | d :: rest =>
      match Api.fut d with
      | Some Api.FutPending =>
          if runs d then
            let '(res, d, w) := Api.download_asset_file net d w in
            let '(rest, w) := run_pool net runs rest w in
            (Api.with_fut (Some (Api.FutDone res)) d :: rest, w)
          else
            let '(rest, w) := run_pool net runs rest w in
            (d :: rest, w)
      | _ =>
          let '(rest, w) := run_pool net runs rest w in
          (d :: rest, w)
      end
  end.

(** The flags and the byte count [check_downloads] returns. *)
Record Poll := mkPoll {
  all_done : bool;
  any_error : bool;
  poll_size_downloaded : Z;
  res_error : option Api.ApiError
}.

Fixpoint check_downloads_from (dl_list : list Api.FileDownload) (p : Poll)
    : Result Poll :=
  match dl_list with
  | [] => Returned p
  | download :: rest =>
      let size := poll_size_downloaded p + Api.size_downloaded download in
      match Api.fut download with
      | None => Raised AttributeError
      | Some Api.FutPending =>
          check_downloads_from rest (mkPoll false (any_error p) size (res_error p))
      | Some Api.FutCancelled => Raised CancelledError
      | Some (Api.FutDone res) =>
          if negb (Api.ok res)
          then Returned (mkPoll false true size (Api.resp_error res))
          else check_downloads_from rest
                 (mkPoll (all_done p) (any_error p) size (res_error p))
      end
  end.

Definition check_downloads (dl_list : list Api.FileDownload) : Result Poll :=
  check_downloads_from dl_list (mkPoll true false 0 None).

(** [download.set_status_cancelled(); download.fut.cancel()]: a future that
    has not run is cancelled, one that is done stays as it is. *)
Definition cancel_download (download : Api.FileDownload) : Result Api.FileDownload :=
  let download := Api.set_status_cancelled download in
  match Api.fut download with
  | None => Raised AttributeError
  | Some Api.FutPending => Returned (Api.with_fut (Some Api.FutCancelled) download)
  | Some _ => Returned download
  end.

(** The first loop of [cancel_downloads], with no worker in mid-transfer:
    every future is then cancelled or done, and the second loop, which
    waits for the futures that run, has nothing to wait for.
    [Units.cancel_downloads_waiting] has both loops. *)
Definition cancel_downloads (dl_list : list Api.FileDownload)
    : Result (list Api.FileDownload) :=
  mapM cancel_download dl_list.

(** *** Renaming the finished temporary files *)

Definition MSG_MISSING_FILE : string := "Missing file: ".
Definition MSG_NO_PERMISSION : string :=
  "Lacking permission to rename downloaded file: ".

(** The state of the loop of [rename_downloads]; an exception that no
    clause catches leaves it in [rn_raised]. *)
Record Rename := mkRename {
  rn_list : list Api.FileDownload;
  rn_all_successful : bool;
  rn_error_msg : string;
  rn_world : World;
  rn_raised : option OSError
}.

Definition rename_one (download : Api.FileDownload) (r : Rename) : Rename :=
  let w := rn_world r in
  let path_temp := Api.get_path download true in
  let temp_exists := path_exists path_temp w in
  let path_final := Api.get_path download false in
  let final_exists := path_exists path_final w in
  if negb temp_exists && final_exists then
    mkRename (rn_list r ++ [download]) (rn_all_successful r) (rn_error_msg r)
             w None
  else
    let '(download, ok_now, w, raised) :=
      match rename path_temp path_final w with
      | inr w' => (download, true, w', None)
      | inl FileExistsError =>
          match remove path_temp w with
          | inr w' => (download, true, w', None)
          | inl e => (download, true, w, Some e)
          end
      | inl FileNotFoundError =>
          (Api.with_error (Some (MSG_MISSING_FILE +:+ path_temp))
             (Api.with_status Api.ERROR download), false, w, None)
      | inl PermissionError =>
          (Api.with_error (Some (MSG_NO_PERMISSION +:+ path_temp))
             (Api.with_status Api.ERROR download), false, w, None)
      end in
    (* Gets the first error found to give feedback for the user *)
    let error_msg :=
      match Api.error download with
      | Some e => if bool_decide (e = "") then rn_error_msg r else e
      | None => rn_error_msg r
      end in
    mkRename (rn_list r ++ [download]) (rn_all_successful r && ok_now)
             (match raised with
              | Some _ => rn_error_msg r
              | None => error_msg
              end) w raised.

Fixpoint rename_loop (dl_list : list Api.FileDownload) (r : Rename) : Rename :=
  match dl_list with
  | [] => r
  | download :: rest =>
      let r' := rename_one download r in
      match rn_raised r' with
      | Some _ =>
          mkRename (rn_list r' ++ rest) (rn_all_successful r')
                   (rn_error_msg r') (rn_world r') (rn_raised r')
      | None => rename_loop rest r'
      end
  end.

(** Returns [(all_successful, error_msg)] with the units and the files as
    the renames left them. *)
Definition rename_downloads (dl_list : list Api.FileDownload) (w : World)
    : Rename :=
  rename_loop dl_list (mkRename [] true "" w None).

(** *** The orchestrator *)

(** An entry of [download_queue]; the progress fraction (a float) is left
    out. *)
Record QueueEntry := mkEntry {
  q_data : AssetData;
  q_size : option string;
  q_download_size : option Z
}.

(** [PoliigonAddon], as far as downloading goes. [done_calls] lists the
    calls of [done_callback] (asset and error, latest first), [ticks]
    counts the calls of [download_update]. *)
Record State := mkState {
  library_paths : list string;
  download_queue : gmap Z QueueEntry;
  download_cancelled : gset Z;
  settings : Settings;
  software_dl_dcc : string;
  asset_index : Index.AssetIndex;
  warnings : list string;
  done_calls : list (Z * option Api.ApiError);
  ticks : nat
}.

Definition set_queue (f : gmap Z QueueEntry -> gmap Z QueueEntry) (a : State) : State :=
  mkState (library_paths a) (f (download_queue a)) (download_cancelled a)
    (settings a) (software_dl_dcc a) (asset_index a) (warnings a)
    (done_calls a) (ticks a).

Definition set_cancelled (f : gset Z -> gset Z) (a : State) : State :=
  mkState (library_paths a) (download_queue a) (f (download_cancelled a))
    (settings a) (software_dl_dcc a) (asset_index a) (warnings a)
    (done_calls a) (ticks a).

Definition set_index (i : Index.AssetIndex) (a : State) : State :=
  mkState (library_paths a) (download_queue a) (download_cancelled a)
    (settings a) (software_dl_dcc a) i (warnings a) (done_calls a) (ticks a).

Definition add_warnings (l : list string) (a : State) : State :=
  mkState (library_paths a) (download_queue a) (download_cancelled a)
    (settings a) (software_dl_dcc a) (asset_index a) (warnings a ++ l)
    (done_calls a) (ticks a).

Definition tick (a : State) : State :=
  mkState (library_paths a) (download_queue a) (download_cancelled a)
    (settings a) (software_dl_dcc a) (asset_index a) (warnings a)
    (done_calls a) (S (ticks a)).

(** What lies outside the addon. [download_urls asset data is_retry n]: the
    answer of the API to the request for the asset's URLs made with [n]
    retries left, [None] when it is not ok, else the units and their total
    size.
    [makedirs]: how [os.makedirs] fails, if it does. [walk]: [os.walk] on
    the files as they are. [runs n]: which pending workers get to run
    during the sleep before poll [n]. [user_cancels n]: whether the user
    has pressed cancel by the [n]-th call of [download_update].
    [max_polls]: the bound on polling one list of units. *)
Record Env := mkEnv {
  net : Api.Network;
  download_urls :
    Z -> DownloadData -> bool -> nat -> option (list Api.FileDownload * Z);
  makedirs : string -> World -> option OSError;
  walk : World -> Index.Walk;
  runs : nat -> Api.FileDownload -> bool;
  user_cancels : nat -> bool;
  max_polls : nat
}.

(** [done_callback(asset_id, error)]; calling a callback that is [None]
    raises. *)
Definition call_done (done_callback : bool) (asset : Z)
    (err : option Api.ApiError) (a : State) : Result State :=
  if done_callback
  then Returned
         (mkState (library_paths a) (download_queue a) (download_cancelled a)
            (settings a) (software_dl_dcc a) (asset_index a) (warnings a)
            ((asset, err) :: done_calls a) (ticks a))
  else Raised TypeError.

Definition should_continue_asset_download (asset : Z) (a : State) : bool :=
  bool_decide (asset ∉ download_cancelled a).

(** Updates info for download progress bar, return false to cancel. The
    user's cancel, pressed in another thread, is placed before it. *)
Definition download_update (env : Env) (asset : Z) (download_size : Z)
    (a : State) : bool * State :=
  let a :=
    if user_cancels env (ticks a) then set_cancelled (union {[asset]}) a else a in
  let a := tick a in
  let a :=
    set_queue (fun q => match q !! asset with
                        | Some e => <[asset := mkEntry (q_data e) (q_size e)
                                                (Some download_size)]> q
                        | None => q
                        end) a in
  (should_continue_asset_download asset a, a).

Definition get_library_path (a : State) : option string :=
  head (library_paths a).

(** [os.path.dirname] *)
Definition dirname (p : string) : string :=
  let parts := Str.split "/" p in
  let head_parts := take (length parts - 1) parts in
  let joined := foldr (fun x acc => x +:+ "/" +:+ acc) "" head_parts in
  (* the separators at the end go, unless the head is separators only *)
  let fix strip (r : string) : string :=
    match r with
    | String c r' => if bool_decide (c = "/"%char) then strip r' else r
    | EmptyString => EmptyString
    end in
  if Str.all_of "/"%char joined then joined
  else String.rev (strip (String.rev joined)).

Section Orchestrate.
Context `{AM : AssetsModule}.

Definition get_destination_library_directory (a : State) (w : World)
    (asset_data : AssetData)
    : option string * list string * list string :=
  let name := asset_name asset_data in
  let library_dir := get_library_path a in
  if negb (bool_decide (is_local asset_data = Some true))
  then (library_dir, [], [])
  else
    let known :=
      match Index.get_asset (asset_id asset_data) (asset_index a) with
      | Some stored => get_files stored
      | None => []
      end in
    let present := filter (fun f => path_exists f w = true) known in
    let primary_files :=
      filter (fun f => Some (before_first name f) = library_dir) present in
    let add_files :=
      filter (fun f => Some (before_first name f) ≠ library_dir) present in
    let library_dir :=
      match primary_files, add_files with
      | [], file :: _ =>
          (* Asset must be located in an additional directory *)
          if Str.contains name (dirname file)
          then Some (before_first name file)
          else library_dir
      | _, _ => library_dir
      end in
    (library_dir, primary_files, add_files).

Definition update_asset_data (env : Env) (asset : Z) (download_dir : string)
    (a : State) (w : World) : Result unit * State :=
  let entries := walk env w download_dir in
  if bool_decide (entries = []) then (Returned (), a)
  else
    let asset_files :=
      flat_map (fun '(path, _, files) =>
                  map (path_join path)
                      (filter (fun f => Str.endswith Api.DOWNLOAD_TEMP_SUFFIX f = false)
                              files))
               entries in
    if bool_decide (asset_files = []) then (Returned (), a)
    else
      match Index.update_from_directory (walk env w) asset download_dir
              "REGULAR" (asset_index a) with
      | (Raised e, idx) => (Raised e, set_index idx a)
      | (Returned _, idx) => (Returned (), set_index idx a)
      end.

(** Requests download URLs for an asset: the optional download list and
    the size of all files in it. *)
Definition get_download_list (env : Env) (asset : Z) (download_data : DownloadData)
    (is_retry : bool) (retries : nat) : option (list Api.FileDownload) * Z :=
  match download_urls env asset download_data is_retry retries with
  | Some (dl_list, size_asset) => (Some dl_list, size_asset)
  | None => (None, 0)
  end.

(** How the polling of one list of units ends. *)
Inductive PollEnd :=
  | AllDone                                (* break: ALL DONE *)
  | AnyError (err : option Api.ApiError)   (* return False *)
  | UserCancel                             (* break: CANCELLING *)
  | Raise (e : Exn).

(** The poll loop of [download_asset]; [n] is the number of the poll. *)
Fixpoint poll_loop (env : Env) (asset : Z) (size_asset : Z)
    (fuel : nat) (n : nat) (dl_list : list Api.FileDownload)
    (a : State) (w : World)
    : PollEnd * list Api.FileDownload * State * World :=
  match fuel with
  | O => (Raise PollLimit, dl_list, a, w)
  | S fuel =>
      (* time.sleep(DOWNLOAD_POLL_INTERVAL) *)
      let '(dl_list, w) := run_pool (net env) (runs env n) dl_list w in
      match check_downloads dl_list with
      | Raised e => (Raise e, dl_list, a, w)
      | Returned p =>
          (* Get user cancel and update progress UI *)
          if bool_decide (size_asset = 0)
          then (Raise ZeroDivisionError, dl_list, a, w)
          else
            let '(continue, a) := download_update env asset size_asset a in
            let user_cancel := negb continue in
            if all_done p && negb (any_error p) then (AllDone, dl_list, a, w)
            else if any_error p then (AnyError (res_error p), dl_list, a, w)
            else if user_cancel then (UserCancel, dl_list, a, w)
            else poll_loop env asset size_asset fuel (S n) dl_list a w
      end
  end.

(** How the retry loop of [download_asset] ends: the function returns
    from inside it, an exception escapes, or the loop is left with its
    flags and the units of the last attempt. *)
Inductive LoopEnd :=
  | LoopReturn (b : bool)
  | LoopRaise (e : Exn)
  | LoopExit (all_done any_error user_cancel : bool).

Fixpoint retry_loop (env : Env) (asset : Z) (download_data : DownloadData)
    (download_dir : string) (done_callback : bool) (retries : nat)
    (a : State) (w : World)
    : LoopEnd * list Api.FileDownload * State * World :=
  match retries with
  | O => (LoopExit false false false, [], a, w)
  | S retries' =>
      let '(_, a) := download_update env asset 1 a in  (* Init progress bar *)
      (* Pass in retry so we can avoid signalling track event on retry. *)
      let is_retry := bool_decide (retries < MAX_DOWNLOAD_RETRIES)%nat in
      let '(dl_list, size_asset) :=
        get_download_list env asset download_data is_retry retries in
      let '(continue, a) := download_update env asset 1 a in
      let user_cancel := negb continue in
      if user_cancel then (LoopExit false false true, default [] dl_list, a, w)
      else
        match dl_list with
        | None =>
            (* URL RETRIEVE -> no downloads *)
            retry_loop env asset download_data download_dir done_callback
              retries' a w
        | Some dl_list =>
            let dl_list := schedule_downloads dl_list download_dir in
            match poll_loop env asset size_asset (max_polls env) 0 dl_list a w with
            | (Raise e, dl_list, a, w) => (LoopRaise e, dl_list, a, w)
            | (AnyError err, dl_list, a, w) =>
                match call_done done_callback asset err a with
                | Raised e => (LoopRaise e, dl_list, a, w)
                | Returned a =>
                    match cancel_downloads dl_list with
                    | Raised e => (LoopRaise e, dl_list, a, w)
                    | Returned dl_list => (LoopReturn false, dl_list, a, w)
                    end
                end
            | (AllDone, dl_list, a, w) =>
                (LoopExit true false false, dl_list, a, w)
            | (UserCancel, dl_list, a, w) =>
                match cancel_downloads dl_list with
                | Raised e => (LoopRaise e, dl_list, a, w)
                | Returned dl_list => (LoopExit false false true, dl_list, a, w)
                end
            end
        end
  end.

(** What a run of [download_asset] leaves: its result, the units of the
    last attempt, the addon and the files. *)
Record Run := mkRun {
  result : Result bool;
  units : list Api.FileDownload;
  addon : State;
  world : World
}.

(** The body of [download_asset], run in a thread of the asset pool. *)
Definition download_asset (env : Env) (asset_data : AssetData)
    (size : option string) (done_callback : bool) (native_mesh : bool)
    (renderer : option string) (a : State) (w : World) : Run :=
  let asset := asset_id asset_data in
  (* A queued download may have been cancelled again before we reach this
     point *)
  let user_cancel := bool_decide (asset ∈ download_cancelled a) in
  if user_cancel then
    match download_queue a !! asset with
    | None => mkRun (Raised KeyError) [] a w
    | Some _ =>
        mkRun (Returned false) []
              (set_cancelled (fun c => c ∖ {[asset]}) (set_queue (delete asset) a)) w
    end
  else
    match download_queue a !! asset with
    | None => mkRun (Returned false) [] a w
    | Some entry =>
        let asset_size := q_size entry in
        let asset_data := q_data entry in
        match get_download_data (settings a) (software_dl_dcc a) asset_data
                asset_size None native_mesh renderer with
        | Raised e => mkRun (Raised e) [] a w
        | Returned (download_data, logged) =>
            let a := add_warnings logged a in
            let '(library_dir, primary_files, add_files) :=
              get_destination_library_directory a w asset_data in
            match library_dir with
            | None => mkRun (Raised TypeError) [] a w
            | Some library_dir =>
                let download_dir := path_join library_dir (asset_name asset_data) in
                match makedirs env download_dir w with
                | Some e =>
                    let err :=
                      if bool_decide (e = PermissionError)
                      then Api.ERR_OS_NO_PERMISSION else Api.ERR_OS_WRITE in
                    match call_done done_callback asset (Some (Api.ErrText err)) a with
                    | Raised x => mkRun (Raised x) [] a w
                    | Returned a =>
                        mkRun (Returned false) [] (set_queue (delete asset) a) w
                    end
                | None =>
                    match retry_loop env asset download_data download_dir
                            done_callback MAX_DOWNLOAD_RETRIES a w with
                    | (LoopReturn b, dl_list, a, w) => mkRun (Returned b) dl_list a w
                    | (LoopRaise e, dl_list, a, w) => mkRun (Raised e) dl_list a w
                    | (LoopExit all_done any_error user_cancel, dl_list, a, w) =>
                        let success :=
                          all_done && negb any_error && negb user_cancel in
                        let r :=
                          if success then rename_downloads dl_list w
                          else mkRename dl_list true "" w None in
                        match rn_raised r with
                        | Some e =>
                            mkRun (Raised (OSFailure e)) (rn_list r) a (rn_world r)
                        | None =>
                            let dl_list := rn_list r in
                            let w := rn_world r in
                            match update_asset_data env asset download_dir a w with
                            | (Raised e, a) => mkRun (Raised e) dl_list a w
                            | (Returned _, a) =>
                                let a := set_queue (delete asset) a in
                                let a := set_cancelled (fun c => c ∖ {[asset]}) a in
                                let a :=
                                  if done_callback
                                  then mkState (library_paths a) (download_queue a)
                                         (download_cancelled a) (settings a)
                                         (software_dl_dcc a) (asset_index a)
                                         (warnings a)
                                         ((asset, None) :: done_calls a) (ticks a)
                                  else a in
                                mkRun (Returned true) dl_list a w
                            end
                        end
                    end
                end
            end
        end
    end.

(** *** The synchronous download *)

(** Modelled from the spec: [asset_data.state.dl], the download state kept
    in the asset ("simply set the cancel flag in asset_data and the download
    will cancel"; errors "will be provided in asset_data, too"), missing
    with assets.py. The progress fraction (a float) is left out. *)
Record DlState := mkDlState {
  dl_active : bool;
  dl_cancelled : bool;
  dl_has_error : bool;
  dl_error : option Api.ApiError;
  dl_directory : string;
  dl_downloaded_bytes : Z
}.

Definition dl_start (d : DlState) : DlState :=
  mkDlState true (dl_cancelled d) (dl_has_error d) (dl_error d) (dl_directory d)
       (dl_downloaded_bytes d).

Definition dl_set_error (e : option Api.ApiError) (d : DlState) : DlState :=
  mkDlState (dl_active d) (dl_cancelled d) true e (dl_directory d)
       (dl_downloaded_bytes d).

Definition dl_set_directory (dir : string) (d : DlState) : DlState :=
  mkDlState (dl_active d) (dl_cancelled d) (dl_has_error d) (dl_error d) dir
       (dl_downloaded_bytes d).

Definition dl_set_downloaded_bytes (n : Z) (d : DlState) : DlState :=
  mkDlState (dl_active d) (dl_cancelled d) (dl_has_error d) (dl_error d)
       (dl_directory d) n.

(** [asset_data.state.dl.is_cancelled()], with the user's cancel, set in
    another thread, placed before it. *)
Definition dl_is_cancelled (env : Env) (d : DlState) (a : State)
    : bool * DlState * State :=
  let d :=
    if user_cancels env (ticks a)
    then mkDlState (dl_active d) true (dl_has_error d) (dl_error d) (dl_directory d)
              (dl_downloaded_bytes d)
    else d in
  (dl_cancelled d, d, tick a).

(** Used in download_asset_sync to poll results inside download loop. *)
Fixpoint _download_asset_loop_poll (env : Env) (fuel : nat) (n : nat)
    (dl_list : list Api.FileDownload) (d : DlState) (a : State) (w : World)
    : Result bool * list Api.FileDownload * DlState * State * World :=
  match fuel with
  | O => (Raised PollLimit, dl_list, d, a, w)
  | S fuel =>
      let '(dl_list, w) := run_pool (net env) (runs env n) dl_list w in
      match check_downloads dl_list with
      | Raised e => (Raised e, dl_list, d, a, w)
      | Returned p =>
          let d := if any_error p then dl_set_error (res_error p) d else d in
          (* Get user cancel and update progress UI *)
          if bool_decide (dl_downloaded_bytes d = 0)
          then (Raised ZeroDivisionError, dl_list, d, a, w)
          else
            let any_error_now := dl_has_error d in
            if all_done p && negb any_error_now
            then (Returned (all_done p), dl_list, d, a, w)
            else
              let '(is_cancelled, d, a) := dl_is_cancelled env d a in
              if any_error_now || is_cancelled then
                match cancel_downloads dl_list with
                | Raised e => (Raised e, dl_list, d, a, w)
                | Returned dl_list => (Returned (all_done p), dl_list, d, a, w)
                end
              else _download_asset_loop_poll env fuel (S n) dl_list d a w
      end
  end.

Definition MSG_NO_DOWNLOADS : string := "URL retrieve: No downloads".

(** The actual download loop in download_asset_sync(). Returns
    [(all_done, dl_list)]; [dl_list] is [None] before the first answer. *)
Fixpoint _asset_download_loop (env : Env) (asset : Z)
    (download_data : DownloadData) (retries : nat)
    (dl_prev : option (list Api.FileDownload)) (d : DlState) (a : State)
    (w : World)
    : Result bool * option (list Api.FileDownload) * DlState * State * World :=
  match retries with
  | O => (Returned false, dl_prev, d, a, w)
  | S retries' =>
      let '(is_cancelled, d, a) := dl_is_cancelled env d a in
      if is_cancelled then (Returned false, dl_prev, d, a, w)
      else
        let is_retry := bool_decide (retries < MAX_DOWNLOAD_RETRIES)%nat in
        (* Pass in retry so we can avoid signalling track event on retry. *)
        let '(dl_list, size_asset_bytes) :=
          get_download_list env asset download_data is_retry retries in
        let d := dl_set_downloaded_bytes size_asset_bytes d in
        let '(is_cancelled, d, a) := dl_is_cancelled env d a in
        if is_cancelled then (Returned false, dl_list, d, a, w)
        else
          match dl_list with
          | None =>
              let d :=
                if bool_decide (retries' = O)
                then dl_set_error (Some (Api.ErrText MSG_NO_DOWNLOADS)) d
                else d in
              _asset_download_loop env asset download_data retries' None d a w
          | Some dl_list =>
              let dl_list := schedule_downloads dl_list (dl_directory d) in
              match _download_asset_loop_poll env (max_polls env) 0 dl_list
                      d a w with
              | (Raised e, dl_list, d, a, w) =>
                  (Raised e, Some dl_list, d, a, w)
              | (Returned true, dl_list, d, a, w) =>
                  (Returned true, Some dl_list, d, a, w)
              | (Returned false, dl_list, d, a, w) =>
                  _asset_download_loop env asset download_data retries'
                    (Some dl_list) d a w
              end
          end
  end.

(** What a run of [download_asset_sync] leaves. *)
Record RunSync := mkRunSync {
  sync_result : Result bool;
  sync_units : list Api.FileDownload;
  sync_dl : DlState;
  sync_addon : State;
  sync_world : World
}.

(** Synchronously download an asset. *)
Definition download_asset_sync (env : Env) (asset_data : AssetData)
    (size : option string) (download_lods : bool) (native_mesh : bool)
    (renderer : option string) (dir_target : option string)
    (d : DlState) (a : State) (w : World) : RunSync :=
  let d := dl_start d in
  (* A queued download may have been cancelled again before we reach this
     point *)
  let '(is_cancelled, d, a) := dl_is_cancelled env d a in
  if is_cancelled then mkRunSync (Returned false) [] d a w
  else
    match get_download_data (settings a) (software_dl_dcc a) asset_data size
            (Some download_lods) native_mesh renderer with
    | Raised e => mkRunSync (Raised e) [] d a w
    | Returned (download_data, logged) =>
        let a := add_warnings logged a in
        let '(library_dir, _, _) :=
          get_destination_library_directory a w asset_data in
        match (match dir_target with
               | None => library_dir
               | Some t => Some t
               end) with
        | None => mkRunSync (Raised TypeError) [] d a w
        | Some dir =>
            let download_dir := path_join dir (asset_name asset_data) in
            match makedirs env download_dir w with
            | Some e =>
                let err :=
                  if bool_decide (e = PermissionError)
                  then Api.ERR_OS_NO_PERMISSION else Api.ERR_OS_WRITE in
                mkRunSync (Returned false) []
                          (dl_set_error (Some (Api.ErrText err)) d) a w
            | None =>
                let d := dl_set_directory download_dir d in
                match _asset_download_loop env (asset_id asset_data)
                        download_data MAX_DOWNLOAD_RETRIES None d a w with
                | (Raised e, dl_list, d, a, w) =>
                    mkRunSync (Raised e) (default [] dl_list) d a w
                | (Returned all_done, dl_list, d, a, w) =>
                    let has_error := dl_has_error d in
                    let '(is_cancelled, d, a) := dl_is_cancelled env d a in
                    if negb all_done || has_error || is_cancelled
                    then mkRunSync (Returned false) (default [] dl_list) d a w
                    else
                      match dl_list with
                      | None => mkRunSync (Raised TypeError) [] d a w
                      | Some dl_list =>
                          let r := rename_downloads dl_list w in
                          match rn_raised r with
                          | Some e =>
                              mkRunSync (Raised (OSFailure e)) (rn_list r) d a
                                        (rn_world r)
                          | None =>
                              if negb (rn_all_successful r)
                              then mkRunSync (Returned false) (rn_list r)
                                     (dl_set_error
                                        (Some (Api.ErrText (rn_error_msg r))) d)
                                     a (rn_world r)
                              else mkRunSync (Returned true) (rn_list r) d a
                                             (rn_world r)
                          end
                      end
                end
            end
        end
    end.

End Orchestrate.

End Addon.

(** ** An instance of the missing module *)

Module SpecAssets.
Import Py Assets.

(** Modelled from the spec: the size vocabulary of assets.py, "closed,
    ordered"; the order is the one addon.py notes for its reversed scan
    (WM -> HIRES -> 18K -> ... -> 1K). *)
Definition SIZES_spec : list string :=
  ["1K"; "2K"; "3K"; "4K"; "5K"; "6K"; "7K"; "8K"; "9K"; "10K"; "11K"; "12K";
   "13K"; "14K"; "15K"; "16K"; "17K"; "18K"; "HIRES"; "WM"].

(** The texture that carries an asset's sizes and maps. *)
Definition main_texture (a : AssetData) : option Texture :=
  match asset_type a with
  | TEXTURE => texture a
  | MODEL => m ← model a; model_texture m
  | HDRI => bg <$> hdri a
  | BRUSH => alpha <$> brush a
  | SUBSTANCE => None
  end.

Definition all_sizes (a : AssetData) : list string :=
  match asset_type a with
  | MODEL => default [] (m ← model a; model_sizes m)
  | _ => default [] (t ← main_texture a; tex_sizes t)
  end.

Definition workflows_of (a : AssetData) : list string :=
  dict_keys (default [] (t ← main_texture a; map_descs t)).

Definition maps_of (a : AssetData) (workflow : string) : list TextureMap :=
  default [] (t ← main_texture a; m ← maps t; dict_get workflow m).

Definition meshes_of (a : AssetData) : list ModelMesh :=
  default [] (m ← model a; meshes m).

(** Modelled from the spec: the vocabularies and type-data queries of
    assets.py, read off the payload: sizes without the watermarked one
    unless asked for, workflows as they key the descriptors, maps and
    meshes filtered by the tags asked for. *)
#[global] Instance spec_assets : AssetsModule := {|
  SIZES := SIZES_spec;
  LODS := ["SOURCE"; "LOD0"; "LOD1"; "LOD2"; "LOD3"; "LOD4"];
  VARIANTS := ["VAR1"; "VAR2"; "VAR3"; "VAR4"; "VAR5"; "VAR6"; "VAR7"; "VAR8"; "VAR9"];
  WORKFLOWS := ["REGULAR"; "SPECULAR"; "METALNESS"];
  MAPS_TYPE_NAMES :=
    ["ALPHA"; "AO"; "BUMP"; "BUMP16"; "COL"; "DIFF"; "DISP"; "DISP16"; "ENV";
     "HDR"; "JPG"; "LIGHT"; "METALNESS"; "NRM"; "NRM16"; "REFL"; "ROUGHNESS"];
  PREVIEWS := ["_atlas"; "_sphere"; "_cylinder"; "_fabric"; "_preview1"];
  get_size_list a incl_watermarked :=
    filter (fun s => incl_watermarked = true \/ s ≠ "WM") (all_sizes a);
  get_workflow a fallback :=
    match fallback with
    | Some w => if py_in w (workflows_of a) then Some w else head (workflows_of a)
    | None => head (workflows_of a)
    end;
  get_workflow_list a := workflows_of a;
  get_map_type_code_list a workflow :=
    match workflow with
    | Some w =>
        map map_type_code
            (default [] (t ← main_texture a; d ← map_descs t; dict_get w d))
    | None => []
    end;
  get_maps a workflow size :=
    filter (fun m => tm_size m = Some size) (maps_of a workflow);
  has_mesh a model_type_arg native_only :=
    existsb (fun m => match model_type_arg with
                      | Some t => bool_decide (model_type m = t)
                      | None => negb native_only
                      end) (meshes_of a);
  get_lod_list a := m ← model a; model_lods m;
  get_mesh a lod model_type_arg :=
    filter (fun m => mm_lod m = Some lod
                     /\ (model_type_arg = None \/ model_type_arg = Some (model_type m)))
           (meshes_of a);
  get_files a :=
    map (fun m => Os.path_join (tm_directory m) (tm_filename m))
        (concat (dict_values (default [] (t ← main_texture a; maps t))))
    ++ map (fun m => Os.path_join (mm_directory m) (mm_filename m)) (meshes_of a)
|}.

(** The asset of the specification's scenario: Metal001, a texture with id
    42 and the sizes 1K, 2K and 4K, no local files. *)
Definition Metal001 : AssetData :=
  mkAssetData 42 TEXTURE "Metal001" (Some "Metal 001") (Some ["Metal"])
    None None (Some 2) None None (Some true) None None None
    (Some (mkTexture
             (Some [("REGULAR",
                     [mkTextureMapDesc "COL" "Color" ["1K"; "2K"; "4K"] "" [];
                      mkTextureMapDesc "NRM" "Normal" ["1K"; "2K"; "4K"] "" [];
                      mkTextureMapDesc "ROUGHNESS" "Roughness" ["1K"; "2K"; "4K"] "" []])])
             (Some []) (Some ["1K"; "2K"; "4K"]) (Some []) None None)).

Definition settings_default : Addon.Settings :=
  Addon.mkSettings (Some "2K") (Some "2K") (Some "1K") (Some "2K") false.

(** An asset whose only size lies outside the order. *)
Definition Odd24K : AssetData :=
  mkAssetData 7 TEXTURE "Odd24K" None None None None None None None None
    None None None
    (Some (mkTexture None None (Some ["24K"]) None None None)).

(** A unit of Metal001 that finished. *)
Definition finished_unit : Api.FileDownload :=
  Api.mkDl 42 "https://cdn/Metal001_COL_4K.jpg" "Metal001_COL_4K.jpg" 3000000
       3000000 Api.DONE "/lib/Metal001" None Api.MAX_RETRIES_PER_FILE None.

(** The same unit as the scheduler hands it to a worker, for a file of
    twelve bytes. *)
Definition waiting_unit : Api.FileDownload :=
  Api.mkDl 42 "https://cdn/Metal001_COL_4K.jpg" "Metal001_COL_4K.jpg" 12
       0 Api.WAITING "/lib/Metal001" (Some Api.FutPending)
       Api.MAX_RETRIES_PER_FILE None.

(** A server that streams the file in chunks of four bytes; the user
    cancels after the first chunk. *)
Definition net_cancelled_midway : Api.Network := fun _ =>
  Api.ReqStream 12 [Api.EvChunk 4; Api.EvCancel; Api.EvChunk 4; Api.EvChunk 4].

(** The same server, left alone. *)
Definition net_complete : Api.Network := fun _ =>
  Api.ReqStream 12 [Api.EvChunk 4; Api.EvChunk 4; Api.EvChunk 4].

(** No file yet, on a system where renaming replaces. *)
Definition world_empty : Os.World :=
  Os.mkWorld ∅ ∅ true [] Os.CONNECTION_OK.

(** The temporary file is there already, complete. *)
Definition world_temp_complete : Os.World :=
  Os.mkWorld {["/lib/Metal001/Metal001_COL_4K.jpgdl" := 12]} ∅ true []
             Os.CONNECTION_OK.

(** The unit, cancelled while it waited for a worker. *)
Definition cancelled_unit : Api.FileDownload :=
  Api.set_status_cancelled waiting_unit.

(** The addon with Metal001 queued for 4K, and the user's cancel recorded
    before the download thread got to run. *)
Definition addon_cancelled : Addon.State :=
  Addon.mkState ["/lib"]
    {[42 := Addon.mkEntry Metal001 (Some "4K") None]} {[42]}
    settings_default "Blender"
    (Index.mkIndex [(42, Metal001)] "/cache/index.json.gz" false [])
    [] [] 0.

(** The API answers with the one unit; every worker runs at once; nothing
    else happens. *)
Definition env_simple (net : Api.Network) : Addon.Env :=
  Addon.mkEnv net
    (fun _ _ _ _ =>
       Some ([Api.new_FileDownload 42 "https://cdn/Metal001_COL_4K.jpg"
                "Metal001_COL_4K.jpg" 12], 12))
    (fun _ _ => None)
    (fun w dir =>
       [(dir, [], ["Metal001_COL_4K.jpg"])])
    (fun _ _ => true)
    (fun _ => false)
    8.

(** An index that holds Metal001, with a cache path. *)
Definition index_metal : Index.AssetIndex :=
  Index.mkIndex [(42, Metal001)] "/cache/index.json.gz" true [].

(** A record that claims Metal001's id under another name. *)
Definition Metal001_renamed : AssetData :=
  new_AssetData 42 TEXTURE "Metal002".

(** One asset of each type, with local files. *)
Definition col_4k (dir : string) : TextureMap :=
  mkTextureMap "COL" (Some "4K") None (Some "NONE") "Metal001_COL_4K.jpg" dir.

Definition Metal001_local : AssetData :=
  mkAssetData 42 TEXTURE "Metal001" (Some "Metal 001") (Some ["Metal"])
    None None (Some 2) None (Some true) (Some true) None None None
    (Some (mkTexture None (Some [("REGULAR", [col_4k "/lib/Metal001"])])
             (Some ["4K"]) None None None)).

Definition Chair003 : AssetData :=
  mkAssetData 77 MODEL "Chair003" None None None None None None
    (Some true) (Some true) None None
    (Some (mkModel
             (Some [mkModelMesh FBX (Some "LOD1") "Chair003_LOD1.fbx" "/lib/Chair003"])
             (Some (mkTexture None
                      (Some [("METALNESS",
                              [mkTextureMap "NRM" (Some "2K") None (Some "LOD1")
                                 "Chair003_NRM_2K_METALNESS.png" "/lib/Chair003"])])
                      (Some ["2K"]) (Some []) (Some ["LOD1"]) None))
             (Some ["LOD1"]) (Some ["1K"; "2K"]) (Some "2K") (Some [])))
    None.

Definition Sky012 : AssetData :=
  mkAssetData 90 HDRI "Sky012" None None None None None None
    (Some false) None None
    (Some (mkHdri
             (mkTexture None
                (Some [("REGULAR",
                        [mkTextureMap "JPG" (Some "8K") None (Some "NONE")
                           "Sky012_JPG_8K.jpg" "/lib/Sky012"])])
                None None None None)
             (mkTexture None (Some [("REGULAR", [])]) None None None None)))
    None None.

Definition Brush005 : AssetData :=
  mkAssetData 91 BRUSH "Brush005" None None None None None None
    None (Some true)
    (Some (mkBrush
             (mkTexture None
                (Some [("REGULAR",
                        [mkTextureMap "ALPHA" (Some "2K") None (Some "NONE")
                           "Brush005_ALPHA_2K.png" "/lib/Brush005"])])
                None None None None)))
    None None None.

Definition index_library : Index.AssetIndex :=
  Index.mkIndex
    [(42, Metal001_local); (77, Chair003); (90, Sky012); (91, Brush005)]
    "/cache/index.json.gz" false [].

(** Two libraries that both hold a directory of Metal001: the primary one
    with the color and normal maps in 4K, the secondary one with the color
    map in 4K and in 2K. *)
Definition walk_two_libraries : Index.Walk := fun dir =>
  if bool_decide (dir = "/lib") then
    [("/lib", ["Metal001"], []);
     ("/lib/Metal001", [], ["Metal001_COL_4K.jpg"; "Metal001_NRM_4K.jpg"])]
  else if bool_decide (dir = "/lib/Metal001") then
    [("/lib/Metal001", [], ["Metal001_COL_4K.jpg"; "Metal001_NRM_4K.jpg"])]
  else if bool_decide (dir = "/lib2") then
    [("/lib2", ["Metal001"], []);
     ("/lib2/Metal001", [], ["Metal001_COL_4K.jpg"; "Metal001_COL_2K.jpg"])]
  else if bool_decide (dir = "/lib2/Metal001") then
    [("/lib2/Metal001", [], ["Metal001_COL_4K.jpg"; "Metal001_COL_2K.jpg"])]
  else [].

(** The addon with Metal001 queued for 4K and no cancel. *)
Definition addon_queued : Addon.State :=
  Addon.mkState ["/lib"]
    {[42 := Addon.mkEntry Metal001 (Some "4K") None]} ∅
    settings_default "Blender" index_metal [] [] 0.

(** The temporary file is there, complete, left by an earlier run, and the
    system refuses to rename or remove it. *)
Definition world_temp_locked : Os.World :=
  Os.mkWorld {["/lib/Metal001/Metal001_COL_4K.jpgdl" := 12]}
             {["/lib/Metal001/Metal001_COL_4K.jpgdl"]} true []
             Os.CONNECTION_OK.

(** The download state of an asset that was not cancelled. *)
Definition dl_fresh : Addon.DlState :=
  Addon.mkDlState false false false None "" 0.

End SpecAssets.


(** * More of the code: definitions *)

From stdpp Require Import sorting.

Local Open Scope Z_scope.
Local Open Scope string_scope.
Local Open Scope list_scope.

(** ** Strings of ASCII characters

    [Str.lower] lowers the letters A to Z and leaves every other character
    as it is, which is what [str.lower()] does to a string of ASCII
    characters. *)

Module Text.

(** [s.isascii()] *)
Fixpoint isascii (s : string) : bool :=
  match s with
  | EmptyString => true
  | String c r => (nat_of_ascii c <? 128)%nat && isascii r
  end.

End Text.

(** ** addon.py: reading the state of the units *)

Module Units.
Import Api.

(** What tells a unit from the others, whatever its worker does to it:
    the asset, the url, the file name and the expected size. *)
Definition unit_key (d : FileDownload) : Z * string * string * Z :=
  (asset_id d, url d, filename d, size_expected d).

(** The worker of the unit returned, with an answer that is ok. *)
Definition finished_ok (d : FileDownload) : bool :=
  match fut d with
  | Some (FutDone res) => ok res
  | _ => false
  end.

(** The worker of the unit returned, with an answer that is not ok. *)
Definition finished_failed (d : FileDownload) : bool :=
  match fut d with
  | Some (FutDone res) => negb (ok res)
  | _ => false
  end.

(** The sum of [size_downloaded] over the units. *)
Definition bytes_of (l : list FileDownload) : Z :=
  foldr Z.add 0 (size_downloaded <$> l).

(** What the progress updates of a download change of the addon: the
    sizes noted in the queue entries and the count of updates, and nothing
    of what this relation lists. *)
Definition progress_only (a a' : Addon.State) : Prop :=
  Addon.library_paths a' = Addon.library_paths a
  /\ Addon.download_cancelled a' = Addon.download_cancelled a
  /\ Addon.settings a' = Addon.settings a
  /\ Addon.software_dl_dcc a' = Addon.software_dl_dcc a
  /\ Addon.asset_index a' = Addon.asset_index a
  /\ Addon.warnings a' = Addon.warnings a
  /\ Addon.done_calls a' = Addon.done_calls a.

(** *** [download_asset_file] and the length of the stream

    [Api.Network] hands over every stream with its [Content-Length].
    The code reads it with [int(stream.headers["Content-Length"])],
    outside any [try]: a header that is missing raises [KeyError], one
    that holds no number [ValueError], and the exception leaves the
    worker. *)
Inductive LengthFault :=
  | HeaderMissing
  | HeaderNoInt.

Definition length_exn (f : LengthFault) : Py.Exn :=
  match f with
  | HeaderMissing => Py.KeyError
  | HeaderNoInt => Py.ValueError "invalid literal for int()"
  end.

(** What [_request_stream] answers: as [Api.Network] has it, or with a
    stream whose length cannot be read. *)
Inductive Served :=
  | ServedAs (r : RequestOutcome)
  | StreamUnreadable (f : LengthFault).

(** Stream download a single file of a purchased asset, on such a network:
    the answer or the exception, and the unit and the world as the call
    leaves them. *)
Definition download_asset_file_served (net : string -> Served)
    (download : FileDownload) (w : Os.World)
    : Py.Result ApiResponse * FileDownload * Os.World :=
  let path_temp := get_path download true in
  let file_exists_temp := check_exist_and_finished path_temp download w in
  let path_final := get_path download false in
  let file_exists_final := check_exist_and_finished path_final download w in
  if file_exists_temp || file_exists_final then
    let download := set_status_done download in
    let download := with_size_downloaded (size_expected download) download in
    (Py.Returned (mkResp BodyDownload true None), download, w)
  else
    match net (url download) with
    | StreamUnreadable f =>
        (* res = self._request_stream(download.url), ok and with a stream;
           stream_size = int(stream.headers["Content-Length"]) raises *)
        (Py.Raised (length_exn f), download,
         Os.trigger_status_change Os.CONNECTION_OK
           (Os.log_request (url download) w))
    | ServedAs r =>
        let '(res, download, w) :=
          download_asset_file (fun _ => r) download w in
        (Py.Returned res, download, w)
    end.

(** *** [cancel_downloads] and the workers in mid-transfer

    A future that is [FutPending] was submitted and has no answer yet:
    its worker has not started, or it is in mid-transfer.
    [fut.cancel()] stops the first and not the second, for which the
    second loop of [cancel_downloads] waits. [running d] tells the two
    apart: [Some finish] when the worker of the unit is in mid-transfer,
    [finish] telling how it ends on the unit as [set_status_cancelled]
    leaves it: with an answer and the unit as the worker leaves it, with
    an exception, or not within the 60 seconds waited for it ([None]). *)
Definition Finish : Type :=
  FileDownload -> option (Py.Result (ApiResponse * FileDownload)).

(** What [cancel_downloads] raises: the [TimeoutError] of the wait, or an
    exception it lets through. *)
Inductive WaitRaises :=
  | WaitTimeout
  | Raises (e : Py.Exn).

(** The first loop:
    [download.set_status_cancelled(); download.fut.cancel()]. The worker
    in mid-transfer is kept with the unit for the second loop. *)
Definition cancel_first (running : FileDownload -> option Finish)
    (download : FileDownload) : Py.Result (FileDownload * option Finish) :=
  let worker := running download in
  let download := set_status_cancelled download in
  match fut download with
  | None => Py.Raised Py.AttributeError
  | Some FutPending =>
      match worker with
      | None => Py.Returned (with_fut (Some FutCancelled) download, None)
      | Some finish => Py.Returned (download, Some finish)
      end
  | Some _ => Py.Returned (download, None)
  end.

(** The second loop, for one unit: [if download.fut.cancelled(): continue]
    and [download.fut.result(timeout=60)], every exception raised again. *)
Definition wait_for (u : FileDownload * option Finish)
    : WaitRaises + FileDownload :=
  match fut u.1 with
  | None => inl (Raises Py.AttributeError)
  | Some FutCancelled => inr u.1
  | Some (FutDone _) => inr u.1
  | Some FutPending =>
      match u.2 with
      | Some finish =>
          match finish u.1 with
          | None => inl WaitTimeout
          | Some (Py.Raised e) => inl (Raises e)
          | Some (Py.Returned (res, download)) =>
              inr (with_fut (Some (FutDone res)) download)
          end
      | None =>
          (* not met: a future that has not started was cancelled above *)
          inl WaitTimeout
      end
  end.

Fixpoint wait_all (l : list (FileDownload * option Finish))
    : WaitRaises + list FileDownload :=
  match l with
  | [] => inr []
  | u :: rest =>
      match wait_for u with
      | inl e => inl e
      | inr download =>
          match wait_all rest with
          | inl e => inl e
          | inr rest => inr (download :: rest)
          end
      end
  end.

(** Cancels all download threads, and waits for threads to actually
    return. *)
Definition cancel_downloads_waiting (running : FileDownload -> option Finish)
    (dl_list : list FileDownload) : WaitRaises + list FileDownload :=
  match mapM (cancel_first running) dl_list with
  | Py.Raised e => inl (Raises e)
  | Py.Returned l => wait_all l
  end.

End Units.

(** ** asset_index.py: what a directory scan records *)

Module Records.
Import Py Assets Index.

(** The suffix [_analyze_single_file] asks of a mesh file of a type. *)
Definition mesh_suffix (t : ModelType) : string :=
  match t with
  | FBX => ".fbx"
  | BLEND => ".blend"
  | C4D => ".c4d"
  | MAX => ".max"
  end.

(** The file of a record, as the scan saw it: its name split by
    [os.path.splitext], the suffix in lower case. *)
Definition base_of (filename : string) : string := (Str.splitext filename).1.
Definition suffix_of (filename : string) : string :=
  Str.lower (Str.splitext filename).2.

Section Vocabulary.
Context `{AM : AssetsModule}.

(** The file name is one of a preview: its base, in lower case, ends with
    one of [PREVIEWS]. *)
Definition is_preview_name (filename : string) : bool :=
  existsb (fun preview_name =>
             Str.endswith preview_name (Str.lower (base_of filename)))
          PREVIEWS.

(** A texture map as a scan may record it, [seen path filename] telling
    the files the walk came by. *)
Definition map_record_ok (seen : string -> string -> Prop) (m : TextureMap)
    : Prop :=
  seen (tm_directory m) (tm_filename m)
  /\ suffix_of (tm_filename m) ∈ IMAGE_SUFFIXES
  /\ is_preview_name (tm_filename m) = false
  /\ Str.contains "_SOURCE" (base_of (tm_filename m)) = false
  /\ is_Some (tm_lod m).

(** A mesh as a scan may record it. *)
Definition mesh_record_ok (seen : string -> string -> Prop) (m : ModelMesh)
    : Prop :=
  seen (mm_directory m) (mm_filename m)
  /\ suffix_of (mm_filename m) = mesh_suffix (model_type m)
  /\ is_preview_name (mm_filename m) = false
  /\ Str.contains "_SOURCE" (base_of (mm_filename m)) = false
  /\ is_Some (mm_lod m).

(** The file is one [_analyze_single_file] records as a texture map: no
    preview, no "_SOURCE" file, and with the suffix of an image. *)
Definition is_map_file (filename : string) : bool :=
  negb (is_preview_name filename)
  && negb (Str.contains "_SOURCE" (base_of filename))
  && bool_decide (suffix_of filename ∈ IMAGE_SUFFIXES).

(** The scan holds a texture map of the file [filename] in [path]. *)
Definition recorded (s : Scan) (path filename : string) : Prop :=
  exists workflow l m,
    dict_get workflow (s_texture_maps s) = Some l
    /\ m ∈ l /\ tm_filename m = filename /\ tm_directory m = path.

(** All records of a scan are as above, and its previews are previews. *)
Definition scan_ok (seen : string -> string -> Prop) (s : Scan) : Prop :=
  Forall (fun e => Forall (map_record_ok seen) e.2) (s_texture_maps s)
  /\ Forall (mesh_record_ok seen) (s_meshes s)
  /\ Forall (fun f => is_preview_name f = true) (s_previews s).

End Vocabulary.

(** [os.walk(dir)] comes by the file [filename] in [path]. *)
Definition walked (walk : Walk) (dir path filename : string) : Prop :=
  exists dirs files, (path, dirs, files) ∈ walk dir /\ filename ∈ files.

(** [os.walk(dir)] comes by no directory of the name. *)
Definition holds_no (walk : Walk) (name dir : string) : Prop :=
  Forall (fun e => name ∉ e.1.2) (walk dir).

(** The assets selected by name are in the index, each under the name it
    was selected by, and none is of the type the scan does not handle. *)
Definition selected_ok (names : list (string * Z)) (idx : AssetIndex) : Prop :=
  forall n i, dict_get n names = Some i ->
    exists a, dict_get i (all_assets idx) = Some a
              /\ asset_name a = n /\ asset_type a ≠ SUBSTANCE.

End Records.

(** ** api.py: asking for the download URLs of an asset *)

Module Urls.
Import Api.

Definition ERR_NOT_AUTHORIZED : string := "Not authorized".
Definition ERR_PROXY : string := "Cannot connect due to proxy error".

(** Reusable lists of err constants for which don't warrant reporting. *)
Definition SKIP_REPORT_ERRS : list string :=
  [ERR_NOT_AUTHORIZED; ERR_CONNECTION; ERR_TIMEOUT; ERR_PROXY].

Definition MODEL_FILE_EXT : list string :=
  ["fbx"; "blend"; "max"; "c4d"; "skp"; "ma"].

(** An entry of [body["files"]], as the loop reads it:
    [url_dict.get("url")], [url_dict.get("name")] and
    [url_dict.get("bytes", 0)]. *)
Record UrlDict := mkUrlDict {
  ud_url : option string;
  ud_name : option string;
  ud_bytes : Z
}.

(** The body of an answer of the API, as far as it is read here. Of the
    key "url": absent, there with a value that is no [str], or a [str].
    "files", when there, is a list. *)
Record UrlBody := mkUrlBody {
  b_request_url : option string;
  b_message : option string;
  b_url : option (option string);
  b_files : option (list UrlDict)
}.

(** What [_request_authenticated] and [_request_url] answer. *)
Record RawResponse := mkRaw {
  r_body : UrlBody;
  r_ok : bool;
  r_error : option string
}.

(** The [error] of the answers made here: a text as it came, or the JSON
    text of [construct_error(url, response, download_data)], kept by its
    first two fields. *)
Inductive UrlError :=
  | UText (msg : string)
  | UConstructed (request_url : string) (server_response : option string).

Record UrlResponse := mkUrlResp {
  u_body : UrlBody;
  u_ok : bool;
  u_error : option UrlError
}.

(** [res] handed on as it came. *)
Definition as_it_came (res : RawResponse) : UrlResponse :=
  mkUrlResp (r_body res) (r_ok res) (UText <$> r_error res).

(** [{"message": msg}] *)
Definition message_body (msg : string) : UrlBody :=
  mkUrlBody None (Some msg) None None.

(** [res.body.get("message") and "expired" in res.body["message"]] *)
Definition message_expired (body : UrlBody) : bool :=
  match b_message body with
  | Some m => negb (bool_decide (m = "")) && Str.contains "expired" m
  | None => false
  end.

(** Request the download URL(s) for a purchased asset.
    [request_authenticated skip_mp] stands for
    [self._request_authenticated("/assets/download", payload=download_data,
    skip_mp=is_retry)]. *)
Definition get_download_url (request_authenticated : bool -> RawResponse)
    (is_retry : bool) : UrlResponse :=
  let res := request_authenticated is_retry in
  let request_url :=
    default "No request_url in body." (b_request_url (r_body res)) in
  if r_ok res then
    if message_expired (r_body res) then
      mkUrlResp (message_body (default "" (b_message (r_body res)))) false
        (Some (UConstructed request_url (Some "Download link expired")))
    else if negb (bool_decide (is_Some (b_url (r_body res))))
            && negb (bool_decide (is_Some (b_files (r_body res)))) then
      mkUrlResp (message_body "Failed to fetch download url") false
        (Some (UConstructed request_url (Some "Download failed")))
    else as_it_came res
  else if match r_error res with
          | Some e => bool_decide (e ∈ SKIP_REPORT_ERRS)
          | None => false
          end
  then as_it_came res
  else mkUrlResp (r_body res) (r_ok res)
         (Some (UConstructed request_url (r_error res))).

(** The state of the loop over the file list. [source]: file name, url
    and size of the last "..._SOURCE....fbx" entry seen; [reported]: the
    messages handed to [report_message], latest first. *)
Record Collect := mkCollect {
  dl_list : list FileDownload;
  size_asset : Z;
  model_exists : bool;
  source : option (string * string * Z);
  reported : list string
}.

(** [os.path.splitext(filename)[1]]: the extension of what follows the
    last separator. *)
Definition ext_of (filename : string) : string :=
  (Str.splitext (List.last (Str.split "/" filename) "")).2.

(** [not x] for an optional string. *)
Definition falsy (x : option string) : bool :=
  match x with
  | None => true
  | Some s => bool_decide (s = "")
  end.

(** [filename_ext.lower() in MODEL_FILE_EXT], for the extension of the
    file name in lower case without its dot. *)
Definition is_model_file (filename : string) : bool :=
  let filename_ext := Str.lower (ext_of filename) in
  let filename_ext := (* get rid of dot *)
    match filename_ext with
    | String _ rest => rest
    | EmptyString => EmptyString
    end in
  bool_decide (Str.lower filename_ext ∈ MODEL_FILE_EXT).

(** The body of the loop; [inl url] stands for
    [raise RuntimeError(f"Missing url or filename {url}")]. *)
Definition collect_one (asset : Z) (url_dict : UrlDict) (c : Collect)
    : option string + Collect :=
  match ud_url url_dict, ud_name url_dict with
  | Some url, Some filename =>
      if bool_decide (url = "") || bool_decide (filename = "")
      then inl (ud_url url_dict)
      else
      let size_expected := ud_bytes url_dict in
      if Str.contains "_SOURCE" filename then
        if Str.endswith ".fbx" (Str.lower filename)
        then inr (mkCollect (dl_list c) (size_asset c) (model_exists c)
                    (Some (filename, url, size_expected)) (reported c))
        else inr c
      else
        let size_asset := size_asset c + size_expected in
        (* Ignore duplicates *)
        match find (fun check =>
                      bool_decide (Str.lower (Api.filename check)
                                   = Str.lower filename)) (dl_list c) with
        | Some check =>
            let reported :=
              if bool_decide (Api.size_expected check = size_expected)
              then reported c
              else "asset_duplicate_file_url" :: reported c in
            inr (mkCollect (dl_list c) size_asset (model_exists c) (source c)
                   reported)
        | None =>
            let model_exists :=
              if is_model_file filename then true else model_exists c in
            inr (mkCollect
                   (dl_list c ++ [new_FileDownload asset url filename size_expected])
                   size_asset model_exists (source c) (reported c))
        end
  | _, _ => inl (ud_url url_dict)
  end.

Fixpoint collect (asset : Z) (files_list : list UrlDict) (c : Collect)
    : option string + Collect :=
  match files_list with
  | [] => inr c
  | url_dict :: rest =>
      match collect_one asset url_dict c with
      | inl e => inl e
      | inr c => collect asset rest c
      end
  end.

(** Fallback if "xyz_SOURCE.fbx" is the only model file. *)
Definition source_fallback (asset : Z) (c : Collect) : Collect :=
  match source c with
  | Some (filename, url, size_expected) =>
      if negb (model_exists c)
      then mkCollect
             (dl_list c ++ [new_FileDownload asset url filename size_expected])
             (size_asset c) (model_exists c) (source c)
             ("model_with_only_source_lod" :: reported c)
      else c
  | None => c
  end.

(** How [download_asset_get_urls] ends. *)
Inductive Raises :=
  | RuntimeError (url : option string)  (* Missing url or filename *)
  | FilesKeyError.                      (* res.body["files"] *)

Inductive UrlsOutcome :=
  | NotOk (res : UrlResponse)
  | Downloads (downloads : list FileDownload) (size_asset : Z)
              (reported : list string).

(** The first half of [download_asset_get_urls]: the list of files to
    collect, or how the function ends before collecting.
    [request_url url] stands for [self._request_url(url, method="GET")]. *)
Definition fetch_files_list (request_authenticated : bool -> RawResponse)
    (request_url : string -> RawResponse) (is_retry : bool)
    : (Raises + UrlsOutcome) + list UrlDict :=
  (* Fetch the download URLs (or legacy: downloader request). *)
  let res := get_download_url request_authenticated is_retry in
  if negb (u_ok res) then inl (inr (NotOk res))
  else
    match b_url (u_body res) with
    | Some (Some url_resp) =>
        let downloader_url := url_resp +:+ "&individual=1" in
        let res := request_url downloader_url in
        if negb (r_ok res) then
          inl (inr (NotOk
                 (mkUrlResp (r_body res) (r_ok res)
                    (Some (UConstructed downloader_url
                             (Some ("Received " +:+ default "None" (r_error res)
                                    +:+ " error during download")))))))
        else
          match b_files (r_body res) with
          | Some l => inr l
          | None => inl (inl FilesKeyError)
          end
    | _ => inr (default [] (b_files (u_body res)))
    end.

(** Request a set of download URLs for a purchased asset. *)
Definition download_asset_get_urls (request_authenticated : bool -> RawResponse)
    (request_url : string -> RawResponse) (asset : Z) (is_retry : bool)
    : Raises + UrlsOutcome :=
  match fetch_files_list request_authenticated request_url is_retry with
  | inl early => early
  | inr files_list =>
      match collect asset files_list (mkCollect [] 0 false None []) with
      | inl url => inl (RuntimeError url)
      | inr c =>
          let c := source_fallback asset c in
          inr (Downloads (dl_list c) (size_asset c) (reported c))
      end
  end.

(** *** Reading a file list and the units made of it *)

(** An entry the loop raises on: its url or its name is missing or empty. *)
Definition lacking (e : UrlDict) : bool :=
  falsy (ud_url e) || falsy (ud_name e).

Definition listed_name (e : UrlDict) : string := default "" (ud_name e).

(** The entry is one of a "_SOURCE" file. *)
Definition listed_source (e : UrlDict) : bool :=
  Str.contains "_SOURCE" (listed_name e).

(** The sum of the sizes the entries give. *)
Definition bytes_listed (l : list UrlDict) : Z :=
  foldr Z.add 0 (ud_bytes <$> l).

(** The unit made of an entry. *)
Definition unit_of (asset : Z) (e : UrlDict) : FileDownload :=
  new_FileDownload asset (default "" (ud_url e)) (listed_name e) (ud_bytes e).

(** The name by which the loop tells duplicates. *)
Definition name_key (d : FileDownload) : string := Str.lower (filename d).

Definition unit_source (d : FileDownload) : bool :=
  Str.contains "_SOURCE" (filename d).

(** The first entry of a list that lacks its url or its name. *)
Definition first_lacking (l : list UrlDict) : option UrlDict :=
  find lacking l.

(** What the loop keeps true of the units it has made so far. *)
Definition units_made (asset : Z) (c : Collect) : Prop :=
  NoDup (name_key <$> dl_list c)
  /\ Forall (fun d => unit_source d = false
                      /\ url d ≠ "" /\ filename d ≠ ""
                      /\ d = new_FileDownload asset (url d) (filename d)
                                              (size_expected d))
            (dl_list c)
  /\ (model_exists c = false ->
      Forall (fun d => is_model_file (filename d) = false) (dl_list c))
  /\ (forall f u s, source c = Some (f, u, s) ->
        Str.contains "_SOURCE" f = true
        /\ Str.endswith ".fbx" (Str.lower f) = true /\ u ≠ "" /\ f ≠ "").

End Urls.

(** ** asset_index.py: the query cache *)

Module Queries.
Import Py Assets Index.

(** ["sep".join(l)] *)
Fixpoint join (sep : string) (l : list string) : string :=
  match l with
  | [] => ""
  | [x] => x
  | x :: rest => x +:+ sep +:+ join sep rest
  end.

(** The key of a cached query:
    [(query_tab, query_type, query_category, query_search, chunk,
    chunk_size)]. [T] is the type of the values of
    [assets.CATEGORY_NAME_TO_ASSET_TYPE]. *)
Record QueryTuple (T : Type) := mkQuery {
  query_tab : string;
  query_type : T;
  query_category : option string;
  query_search : option string;
  q_chunk : option Z;
  q_chunk_size : option Z
}.
Arguments mkQuery {T}.
Arguments query_tab {T}.
Arguments query_type {T}.
Arguments query_category {T}.
Arguments query_search {T}.
Arguments q_chunk {T}.
Arguments q_chunk_size {T}.

#[global] Instance QueryTuple_eq_dec {T} `{EqDecision T} :
  EqDecision (QueryTuple T).
Proof. solve_decision. Defined.

Section Cache.
Context {T : Type} `{EqDecision T}.
(** [assets.CATEGORY_NAME_TO_ASSET_TYPE] *)
Variable CATEGORY_NAME_TO_ASSET_TYPE : list (string * T).

(** [self.cached_queries] *)
Definition Cached : Type := list (QueryTuple T * list Z).

(** [l[2:-1]] *)
Definition from_third_but_last (l : list string) : list string :=
  removelast (drop 2 l).

(** key_query format: "tab/type[/category[/search]]" *)
Definition _query_key_to_tuple (key_query : string)
    (chunk chunk_size : option Z) (idx : AssetIndex)
    : Outcome (QueryTuple T) :=
  let parsed :=
    if Str.contains "/" key_query
    then Some (Str.split "/" key_query, false)
    else if Str.contains "@" key_query
    then Some (Str.split "@" key_query, true)
    else None in
  match parsed with
  | None =>
      (Raised (ValueError "Unknown query format"),
       capture_message "assetindex_query_unknown" idx)
  | Some (query_parts, has_search) =>
      (* Query tab, one of: poliigon, my_assets, imported *)
      (query_tab ← of_option IndexError (query_parts !! 0%nat);
       (* Query type, one of: All Assets, Brushes, HDRIs, Models, Textures *)
       type_name ← of_option IndexError (query_parts !! 1%nat);
       query_type ← of_option KeyError
                      (dict_get type_name CATEGORY_NAME_TO_ASSET_TYPE);
       let '(query_category, query_search) :=
         if has_search then
           (if bool_decide (2 < length query_parts)%nat
            then Some (join "/" (from_third_but_last query_parts))
            else None,
            Some (Str.lower (List.last query_parts "")))
         else
           (if bool_decide (2 < length query_parts)%nat
            then Some (join "/" (drop 2 query_parts))
            else None,
            None) in
       Returned (mkQuery query_tab query_type query_category query_search
                   chunk chunk_size),
       idx)
  end.

(** A method that reads or writes the query cache: it raises or returns,
    and leaves an index and a cache. *)
Definition Cached_outcome (A : Type) : Type := Result A * AssetIndex * Cached.

(** Returns a list of asset IDs based on key_query, with [fail_on_miss]
    left at its default [True]. *)
Definition query (key_query : string) (chunk chunk_size : option Z)
    (idx : AssetIndex) (cached_queries : Cached)
    : Cached_outcome (option (list Z)) :=
  match _query_key_to_tuple key_query chunk chunk_size idx with
  | (Raised e, idx) => (Raised e, idx, cached_queries)
  | (Returned query_tuple, idx) =>
      (* [None]: subtle hint to request data from server *)
      (Returned (dict_get query_tuple cached_queries), idx, cached_queries)
  end.

(** Stores a list of asset IDs in query cache. *)
Definition store_query (asset_ids : list Z) (key_query : string)
    (chunk chunk_size : option Z)
    (idx : AssetIndex) (cached_queries : Cached) : Cached_outcome unit :=
  match _query_key_to_tuple key_query chunk chunk_size idx with
  | (Raised e, idx) => (Raised e, idx, cached_queries)
  | (Returned query_tuple, idx) =>
      (Returned (), idx, dict_set query_tuple asset_ids cached_queries)
  end.

(** Returns True if query in cache. *)
Definition query_exists (key_query : string) (chunk chunk_size : option Z)
    (idx : AssetIndex) (cached_queries : Cached) : Cached_outcome bool :=
  match _query_key_to_tuple key_query chunk chunk_size idx with
  | (Raised e, idx) => (Raised e, idx, cached_queries)
  | (Returned query_tuple, idx) =>
      (Returned (dict_mem query_tuple cached_queries), idx, cached_queries)
  end.

(** Flushes all queries of a given tab from query cache. *)
Definition flush_queries_by_tab (tab : string) (cached_queries : Cached)
    : Cached :=
  foldl (fun cached_queries key =>
           if bool_decide (query_tab key = tab)
           then dict_del key cached_queries
           else cached_queries)
        cached_queries (dict_keys cached_queries).

End Cache.

End Queries.

(** ** api.py: the meta fields of a payload, and the events signalled *)

Module Signals.
Import Py.

Definition ERR_INTERNAL : string := "Internal Server Error".
Definition ERR_OPTED_OUT : string := "Did not send event, user is opted out".
Definition ERR_INVALID_SCREEN_NAME : string := "Invalid screen name".
Definition ERR_INTERVAL_VIEW : string :=
  "Last view was too recent per min interval".

(** [d.update(other)] *)
Definition dict_update {K V} `{EqDecision K} (other d : list (K * V))
    : list (K * V) :=
  foldl (fun d e => dict_set e.1 e.2 d) d other.

(** A value of the meta dict: a flag set here, or a value [V] that is
    passed on without being looked into. *)
Inductive MetaVal (V : Type) :=
  | MBool (b : bool)
  | MOther (v : V).
Arguments MBool {V} b.
Arguments MOther {V} v.

(** A value of a payload: a dict, as "meta" is to be, or any other value. *)
Inductive PayloadVal (V : Type) :=
  | PDict (d : list (string * MetaVal V))
  | POther (v : V).
Arguments PDict {V} d.
Arguments POther {V} v.

(** The fields of [PoliigonConnector] read when a payload is sent.
    [get_optin]: [None] when there is no callable, else what it returns. *)
Record Connector (V : Type) := mkConnector {
  get_optin : option bool;
  _mp_relevant : bool;
  software_version : V;
  common_meta : list (string * MetaVal V);
  _platform : V
}.
Arguments mkConnector {V}.
Arguments get_optin {V}.
Arguments _mp_relevant {V}.
Arguments software_version {V}.
Arguments common_meta {V}.
Arguments _platform {V}.

(** [self.get_optin and self.get_optin()], as a truth value. *)
Definition _is_opted_in {V} (self : Connector V) : bool :=
  match get_optin self with
  | Some b => b
  | None => false
  end.

(** Take the given payload and add or update its meta fields.
    [payload["meta"]["mp"] = ...] on a "meta" that is no dict raises
    [TypeError]. *)
Definition _update_meta_payload {V} (self : Connector V)
    (payload : list (string * PayloadVal V)) (skip_mp : bool)
    : Result (list (string * PayloadVal V)) :=
  let payload :=
    if negb (dict_mem "meta" payload)
    then dict_set "meta" (PDict []) payload
    else payload in
  match dict_get "meta" payload with
  | Some (PDict meta) =>
      (* mp flag is independent of opted_in state,
         overwritten if opted out. *)
      let meta := dict_set "mp" (MBool (_mp_relevant self)) meta in
      let meta :=
        if _is_opted_in self then
          dict_set "software_version" (MOther (software_version self))
            (dict_set "optin" (MBool true) meta)
        else
          (* Clear out any existing tracking. *)
          dict_set "optin" (MBool false) (dict_set "mp" (MBool false) []) in
      (* Very last, override to always assign skip, if skip is defined. *)
      let meta := if skip_mp then dict_set "mp" (MBool false) meta else meta in
      (* Always populate addon version and platform. *)
      let meta := dict_update (common_meta self) meta in
      Returned (dict_set "platform" (POther (_platform self))
                  (dict_set "meta" (PDict meta) payload))
  | Some (POther _) => Raised TypeError
  | None => Raised KeyError
  end.

(** The body of an answer to a signal: [None], [{}],
    [{"invalid_screen": screen_name}], or what the request answered. *)
Inductive SignalBody (B : Type) :=
  | BodyNone
  | BodyEmpty
  | BodyInvalidScreen (screen_name : string)
  | BodyAnswer (b : B).
Arguments BodyNone {B}.
Arguments BodyEmpty {B}.
Arguments BodyInvalidScreen {B} screen_name.
Arguments BodyAnswer {B} b.

Record SignalResponse (B : Type) := mkSignal {
  s_body : SignalBody B;
  s_ok : bool;
  s_error : option string
}.
Arguments mkSignal {B}.
Arguments s_body {B}.
Arguments s_ok {B}.
Arguments s_error {B}.

(** What [_request] answers, and whether [_request_url] took the answer
    for one of an invalid login ([self.token = None]). *)
Record Reply (B : Type) := mkReply {
  reply_body : B;
  reply_ok : bool;
  reply_error : option string;
  reply_unauthorized : bool
}.
Arguments mkReply {B}.
Arguments reply_body {B}.
Arguments reply_ok {B}.
Arguments reply_error {B}.
Arguments reply_unauthorized {B}.

(** The state of the connector the signals read and write: the token, the
    time of the last screen view and, latest first, the paths a request
    was made for. *)
Record Session (Time : Type) := mkSession {
  token : option string;
  _last_screen_view : option Time;
  sent : list string
}.
Arguments mkSession {Time}.
Arguments token {Time}.
Arguments _last_screen_view {Time}.
Arguments sent {Time}.

(** Any name changes here require server-side coordination. *)
Definition valid_screens : list string :=
  ["home"; "my_assets"; "imported"; "my_account"; "settings"; "help";
   "onboarding"; "large_preview"; "blend_node_add"; "blend_browser_lib";
   "blend_browser_import"].

Section Events.
Context {B Time : Type}.
(** [self.get_optin and self.get_optin()] *)
Variable opted_in : bool.
(** [self._request(path, method, payload=payload, headers=headers)], by
    the requests made before and the path. *)
Variable request : list string -> string -> Reply B.
(** [bool(t)] of a time, and [now - last < MIN_VIEW_SCREEN_INTERVAL]. *)
Variable nonzero : Time -> bool.
Variable too_recent : Time -> Time -> bool.

(** Make an authenticated request to the API using the user token. *)
Definition _request_authenticated (path : string) (s : Session Time)
    : SignalResponse B * Session Time :=
  match token s with
  | Some (String _ _) =>
      let res := request (sent s) path in
      let s :=
        mkSession (if reply_unauthorized res then None else token s)
          (_last_screen_view s) (path :: sent s) in
      if match reply_error res with
         | Some e => negb (bool_decide (e = ""))
                     && Str.contains "server error" (Str.lower e)
         | None => false
         end
      then (mkSignal (BodyAnswer (reply_body res)) false (Some ERR_INTERNAL), s)
      else (mkSignal (BodyAnswer (reply_body res)) (reply_ok res)
              (reply_error res), s)
  | _ => (mkSignal BodyEmpty false (Some Urls.ERR_NOT_AUTHORIZED), s)
  end.

(** Reusable entry to send an event, only if opted in. *)
Definition _signal_event (event_name : string) (s : Session Time)
    : SignalResponse B * Session Time :=
  if negb opted_in
  then (mkSignal BodyNone false (Some ERR_OPTED_OUT), s)
  else _request_authenticated ("/t/" +:+ event_name) s.

(** Sends view screen event if opted in. [now] is [time.time()]. *)
Definition signal_view_screen (now : Time) (screen_name : string)
    (s : Session Time) : SignalResponse B * Session Time :=
  let proceed (s : Session Time) :=
    if negb (bool_decide (screen_name ∈ valid_screens))
    then (mkSignal (BodyInvalidScreen screen_name) false
            (Some ERR_INVALID_SCREEN_NAME), s)
    else _signal_event "view_screen" s in
  let seen := mkSession (token s) (Some now) (sent s) in
  match _last_screen_view s with
  | Some last =>
      if nonzero last then
        if too_recent now last
        then (mkSignal BodyEmpty false (Some ERR_INTERVAL_VIEW), s)
        else proceed seen
      else proceed seen
  | None => proceed seen
  end.

(** The view is refused for the time of the last one. *)
Definition view_refused (now : Time) (s : Session Time) : bool :=
  match _last_screen_view s with
  | Some last => nonzero last && too_recent now last
  | None => false
  end.

End Events.

End Signals.

(** ** addon.py: the library paths *)

Module Library.
Import Addon.

Definition set_library_paths (f : list string -> list string) (a : State)
    : State :=
  mkState (f (library_paths a)) (download_queue a) (download_cancelled a)
    (settings a) (software_dl_dcc a) (asset_index a) (warnings a)
    (done_calls a) (ticks a).

(** [add_library_path]; [isdir path] is [os.path.isdir(path)]. *)
Definition add_library_path (isdir : string -> bool) (path : string)
    (primary : bool) (a : State) : State :=
  if negb (isdir path) then a
  else if bool_decide (path ∈ library_paths a) then a
  else
    match library_paths a with
    | _ :: rest =>
        if primary then set_library_paths (fun _ => path :: rest) a
        else set_library_paths (fun l => l ++ [path]) a
    | [] => set_library_paths (fun l => l ++ [path]) a
    end.

End Library.

(** ** api.py: the version parameter of a download url *)

Module Patch.
Import Py Queries.

(** [s.split(c, 1)] when [c] is in [s]: what precedes the first [c] and
    what follows it. *)
Fixpoint split_once (c : ascii) (s : string) : option (string * string) :=
  match s with
  | EmptyString => None
  | String a r =>
      if bool_decide (a = c) then Some (EmptyString, r)
      else match split_once c r with
           | Some (x, y) => Some (String a x, y)
           | None => None
           end
  end.

Section Version.
(** [int(s)] of a string, [None] for its [ValueError], and [str(n)]. *)
Variable int_of : string -> option Z.
Variable str_of : Z -> string.

(** The loop over the parameters: the first one that starts with "v=" is
    dealt with, and the loop left. *)
Fixpoint patch_params (url_new_params : list string) : Result (list string) :=
  match url_new_params with
  | [] => Returned []
  | param :: rest =>
      if negb (Str.startswith "v=" param) then
        rest ← patch_params rest; Returned (param :: rest)
      else
        match Str.split "=" param with
        | [_; version] =>
            match int_of version with
            | Some version => Returned (("v=" +:+ str_of (version + 1)) :: rest)
            | None => (* Version in URL not numeric *) Returned (param :: rest)
            end
        | _ => Raised (ValueError "too many values to unpack")
        end
  end.

Definition patch_download_url_increment_version (url : string)
    : Result string :=
  match split_once "?" url with
  | None => Raised (ValueError "not enough values to unpack")
  | Some (url_new_base, url_new_all_params) =>
      url_new_params ← patch_params (Str.split "&" url_new_all_params);
      let url_new_all_params := join "&" url_new_params in
      Returned (join "?" [url_new_base; url_new_all_params])
  end.

End Version.

End Patch.

(** ** Scenarios the properties are run on *)

Module Scenarios.
Import Os Api Py Assets Index Addon SpecAssets.

(** A unit of Metal001 whose worker returned with the file complete. *)
Definition unit_col_done : FileDownload :=
  mkDl 42 "https://cdn/Metal001_COL_4K.jpg" "Metal001_COL_4K.jpg" 12
       12 DONE "/lib/Metal001" (Some (FutDone (mkResp BodyDownload true None)))
       MAX_RETRIES_PER_FILE None.

(** One whose worker lost the connection after four bytes. *)
Definition unit_nrm_failed : FileDownload :=
  mkDl 42 "https://cdn/Metal001_NRM_4K.jpg" "Metal001_NRM_4K.jpg" 12
       4 ERROR "/lib/Metal001"
       (Some (FutDone (mkResp BodyError false (Some (ErrText ERR_CONNECTION)))))
       MAX_RETRIES_PER_FILE (Some ERR_CONNECTION).

(** A unit whose worker is in mid-transfer, four bytes in; cancelled, the
    worker writes one more chunk and ends with the unit ERROR. *)
Definition unit_nrm_running : FileDownload :=
  mkDl 42 "https://cdn/Metal001_NRM_4K.jpg" "Metal001_NRM_4K.jpg" 12
       4 ONGOING "/lib/Metal001" (Some FutPending) MAX_RETRIES_PER_FILE None.

Definition running_nrm (d : FileDownload) : option Units.Finish :=
  if bool_decide (filename d = "Metal001_NRM_4K.jpg")
  then Some (fun d =>
               Some (Returned
                       (mkResp BodyError false
                          (Some (ErrText ERR_USER_CANCEL_MSG)),
                        set_status_error (with_size_downloaded 8 d))))
  else None.

(** The API gives no urls, the library directory is empty, and nobody
    cancels. *)
Definition env_no_urls : Env :=
  mkEnv net_complete
    (fun _ _ _ _ => None)
    (fun _ _ => None)
    (fun w dir => [(dir, [], [])])
    (fun _ _ => true)
    (fun _ => false)
    8.

(** The files the API lists: the color map, the same name again in another
    case and size, and a "_SOURCE" model. *)
Definition entry_col : Urls.UrlDict :=
  Urls.mkUrlDict (Some "https://cdn/Metal001_COL_4K.jpg")
    (Some "Metal001_COL_4K.jpg") 12.

Definition entry_col_again : Urls.UrlDict :=
  Urls.mkUrlDict (Some "https://cdn2/metal001_col_4k.JPG")
    (Some "METAL001_COL_4K.JPG") 10.

Definition entry_source : Urls.UrlDict :=
  Urls.mkUrlDict (Some "https://cdn/Chair003_SOURCE.fbx")
    (Some "Chair003_SOURCE.fbx") 100.

(** An entry without a name. *)
Definition entry_nameless : Urls.UrlDict :=
  Urls.mkUrlDict (Some "https://cdn/unnamed") None 0.

(** The API answers with a list of files. *)
Definition answer_files (l : list Urls.UrlDict) (skip_mp : bool)
    : Urls.RawResponse :=
  Urls.mkRaw (Urls.mkUrlBody None None None (Some l)) true None.

(** The user is not logged in. *)
Definition answer_unauthorized (skip_mp : bool) : Urls.RawResponse :=
  Urls.mkRaw (Urls.mkUrlBody None None None None) false
    (Some Urls.ERR_NOT_AUTHORIZED).

(** No second request is answered. *)
Definition no_request_url (url : string) : Urls.RawResponse :=
  Urls.mkRaw (Urls.mkUrlBody None None None None) false None.

(** Names of asset types as a query gives them. *)
Definition type_names : list (string * option AssetType) :=
  [("All Assets", None); ("Textures", Some TEXTURE); ("Models", Some MODEL)].

(** A cache with the first page of the purchased textures. *)
Definition cache_my_textures : Queries.Cached (T:=option AssetType) :=
  [(Queries.mkQuery "my_assets" (Some TEXTURE) None None (Some 0) (Some 10),
    [42])].

(** Whole seconds for the time, [2] for [MIN_VIEW_SCREEN_INTERVAL]. *)
Definition seconds_nonzero (t : Z) : bool := negb (Z.eqb t 0).
Definition seconds_too_recent (now last : Z) : bool :=
  Z.ltb (now - last) 2.

(** Every request is answered ok. *)
Definition request_ok (sent : list string) (path : string)
    : Signals.Reply unit :=
  Signals.mkReply () true None false.

(** A session of a user logged in, before any view. *)
Definition session_fresh : Signals.Session Z :=
  Signals.mkSession (Some "token") None [].

(** [int] and [str] on the versions met. *)
Definition int_small (s : string) : option Z :=
  if bool_decide (s = "7") then Some 7
  else if bool_decide (s = "9") then Some 9
  else None.

Definition str_small (n : Z) : string :=
  if bool_decide (n = 8) then "8"
  else if bool_decide (n = 10) then "10"
  else "".

End Scenarios.

(** * Properties *)

(** ** Checks of the string helpers against Python *)

Example splitext_jpg : Str.splitext "Metal001_COL_4K.jpg" = ("Metal001_COL_4K", ".jpg").
Proof. reflexivity. Qed.
Example splitext_hidden : Str.splitext ".cache" = (".cache", "").
Proof. reflexivity. Qed.
Example split_parts : Str.split "_" "Metal001_COL_4K" = ["Metal001"; "COL"; "4K"].
Proof. reflexivity. Qed.
Example sorted_set_ex : Str.sorted_set ["4K"; "1K"; "4K"; "2K"] = ["1K"; "2K"; "4K"].
Proof. vm_compute. reflexivity. Qed.
Example endswith_ex : Str.endswith "_sphere" "metal_sphere" = true.
Proof. reflexivity. Qed.

Example dirname_ex : Addon.dirname "/lib/Metal001/sub/a.jpg" = "/lib/Metal001/sub".
Proof. reflexivity. Qed.
Example dirname_root : Addon.dirname "/a.jpg" = "/".
Proof. reflexivity. Qed.
Example dirname_none : Addon.dirname "a.jpg" = "".
Proof. reflexivity. Qed.
Example before_first_ex : Py.before_first "Metal001" "/lib/Metal001/a.jpg" = "/lib/".
Proof. reflexivity. Qed.
Example path_join_ex : Os.path_join "/lib/Metal001" "a.jpg" = "/lib/Metal001/a.jpg".
Proof. reflexivity. Qed.

(** ** Ordered dictionaries *)

Section Dictionaries.
Import Py.

Lemma dict_get_set_eq {K V} `{EqDecision K} (k : K) (v : V) (d : list (K * V)) :
  dict_get k (dict_set k v d) = Some v.
Proof.
  induction d as [| [k' v'] d IH]; simpl.
  - by rewrite decide_True.
  - destruct (decide (k = k')) as [-> | Hne]; simpl.
    + by rewrite decide_True.
    + by rewrite decide_False.
Qed.

Lemma dict_get_set_ne {K V} `{EqDecision K} (k k' : K) (v : V) (d : list (K * V)) :
  k ≠ k' -> dict_get k' (dict_set k v d) = dict_get k' d.
Proof.
  intros Hne. induction d as [| [k0 v0] d IH]; simpl.
  - by rewrite decide_False.
  - destruct (decide (k = k0)) as [-> | Hne0]; simpl.
    + by rewrite !decide_False.
    + destruct (decide (k' = k0)); [done | exact IH].
Qed.

Lemma dict_get_not_key {K V} `{EqDecision K} (k : K) (d : list (K * V)) :
  k ∉ dict_keys d -> dict_get k d = None.
Proof.
  unfold dict_keys. induction d as [| [k' v'] d IH]; simpl; [done |].
  intros H. apply not_elem_of_cons in H as [Hne H].
  rewrite decide_False by done. by apply IH.
Qed.

Lemma dict_set_fresh {K V} `{EqDecision K} (k : K) (v : V) (d : list (K * V)) :
  k ∉ dict_keys d -> dict_set k v d = d ++ [(k, v)].
Proof.
  unfold dict_keys. induction d as [| [k' v'] d IH]; simpl; [done |].
  intros Hk. apply not_elem_of_cons in Hk as [Hne Hk].
  rewrite decide_False by done. by rewrite IH.
Qed.

Lemma dict_set_Forall {K V} `{EqDecision K} (P : K * V -> Prop) (k : K) (v : V)
    (d : list (K * V)) :
  P (k, v) -> Forall P d -> Forall P (dict_set k v d).
Proof.
  intros Hk. induction 1 as [| [k' v'] d Hh Ht IH]; simpl.
  - by apply Forall_singleton.
  - destruct (decide (k = k')); apply Forall_cons; done.
Qed.

Lemma dict_set_keys {K V} `{EqDecision K} (k : K) (v : V) (d : list (K * V)) :
  dict_keys (dict_set k v d)
  = if decide (k ∈ dict_keys d) then dict_keys d else dict_keys d ++ [k].
Proof.
  unfold dict_keys. induction d as [| [k' v'] d IH].
  - simpl. destruct (decide (k ∈ [])) as [Hin | _]; [| done].
    by apply elem_of_nil in Hin.
  - cbn [dict_set]. destruct (decide (k = k')) as [-> | Hne].
    + destruct (decide (k' ∈ ((k', v') :: d).*1)) as [_ | Hout]; [done |].
      exfalso. apply Hout. left.
    + rewrite fmap_cons, IH. cbn [fst].
      destruct (decide (k ∈ d.*1)) as [Hin | Hout];
        destruct (decide (k ∈ ((k', v') :: d).*1)) as [Hin' | Hout']; try done.
      * exfalso. apply Hout'. by right.
      * exfalso. apply elem_of_cons in Hin' as [? | ?]; done.
Qed.

Lemma dict_set_NoDup {K V} `{EqDecision K} (k : K) (v : V) (d : list (K * V)) :
  NoDup (dict_keys d) -> NoDup (dict_keys (dict_set k v d)).
Proof.
  intros Hnd. rewrite dict_set_keys. case_decide as Hin; [done |].
  apply NoDup_app. split; [done |]. split; [| apply NoDup_singleton].
  intros x Hx Hk. apply list_elem_of_singleton in Hk. by subst.
Qed.

End Dictionaries.

(** ** The file download unit (api.py) *)

Section FileDownloadStatus.
Import Api SpecAssets.

Lemma terminal_not_regressed s : terminal s -> ~ regressed s.
Proof. unfold terminal, regressed. intros [-> | ->] [H | [H | H]]; discriminate. Qed.

Lemma set_status_cancelled_terminal d :
  terminal (status d) -> set_status_cancelled d = d.
Proof.
  unfold terminal, set_status_cancelled. intros [H | H]; rewrite H; reflexivity.
Qed.

Lemma status_with_status s d : status (with_status s d) = s.
Proof. reflexivity. Qed.

Lemma status_submit dir d : status (Addon.submit dir d) = WAITING.
Proof. reflexivity. Qed.

Lemma schedule_downloads_waiting dl_list dir d :
  d ∈ Addon.schedule_downloads dl_list dir -> status d = WAITING.
Proof.
  unfold Addon.schedule_downloads. intros H.
  apply list_elem_of_fmap in H as (d0 & -> & _). apply status_submit.
Qed.

(** C1, as stated, fails: [set_status_ongoing] turns a DONE unit ONGOING,
    and [schedule_downloads] marks a DONE unit WAITING when it is
    submitted again. *)
Lemma C1_counterexample :
  terminal (status finished_unit)
  /\ regressed (status (set_status_ongoing finished_unit).2)
  /\ (exists d, Addon.schedule_downloads [finished_unit] "/lib/Metal001" = [d]
                /\ regressed (status d)).
Proof.
  split; [left; reflexivity |].
  split; [right; left; reflexivity |].
  eexists. split; [reflexivity | left; reflexivity].
Qed.

(** C1, amended: once a unit is DONE or ERROR, [set_status_cancelled]
    leaves it as it is (a cancellation arriving late is ignored), and
    [set_status_done] and [set_status_error] only lead to DONE and ERROR, so
    none of the three moves it to WAITING, ONGOING or CANCELLED; submitting
    it again is not covered: [schedule_downloads] marks every unit it
    submits WAITING. *)
Theorem C1_terminal_states (d : FileDownload) :
  terminal (status d) ->
  set_status_cancelled d = d
  /\ ~ regressed (status (set_status_cancelled d))
  /\ ~ regressed (status (set_status_done d))
  /\ ~ regressed (status (set_status_error d))
  /\ (forall dl_list dir d', d' ∈ Addon.schedule_downloads dl_list dir ->
        status d' = WAITING).
Proof.
  intros Ht.
  pose proof (set_status_cancelled_terminal d Ht) as Hc.
  repeat split.
  - exact Hc.
  - rewrite Hc. by apply terminal_not_regressed.
  - apply terminal_not_regressed. left. reflexivity.
  - apply terminal_not_regressed. right. reflexivity.
  - intros dl_list dir d'. apply schedule_downloads_waiting.
Qed.

Lemma C1_terminal_states_witness :
  terminal (status finished_unit)
  /\ set_status_cancelled finished_unit = finished_unit.
Proof.
  split; [left; reflexivity |].
  apply (C1_terminal_states finished_unit). left. reflexivity.
Defined.

End FileDownloadStatus.

(** ** Resolving the size to download (addon.py) *)

Section SizeFallback.
Import Py Assets Addon.
Context `{AM : AssetsModule}.

Lemma valid_sizes_unavailable (sizes : list (option string))
    (sizes_data : list string) :
  (forall s, Some s ∈ sizes -> s ∉ sizes_data) ->
  valid_sizes sizes sizes_data = [].
Proof.
  unfold valid_sizes. induction sizes as [| o sizes IH]; intros H; [done |].
  assert (omap
    (λ o0 : option string,
       match o0 with
       | Some s => if py_in s sizes_data then Some s else None
       | None => None
       end) sizes = []) as IH'.
  { apply IH. intros s Hs. apply H. by right. }
  destruct o as [s |]; simpl.
  - unfold py_in at 1. rewrite bool_decide_eq_false_2; [exact IH' |]. apply H. left.
  - exact IH'.
Qed.

Lemma requested_sizes_given (settings : Settings) (a : AssetData) (requested : string) :
  requested ≠ "" -> requested_sizes settings a (Some requested) = Returned [Some requested].
Proof.
  intros H. unfold requested_sizes, size_unspecified.
  rewrite bool_decide_eq_false_2 by exact H. reflexivity.
Qed.

(** What the reversed scan finds is the first available size of the order
    read from its large end. *)
Lemma first_available_spec (sizes_data : list string) (s : string) :
  first_available sizes_data = Some s <->
  exists larger smaller,
    reverse SIZES = larger ++ s :: smaller
    /\ s ∈ sizes_data
    /\ (forall x, x ∈ larger -> x ∉ sizes_data).
Proof.
  unfold first_available. generalize (reverse SIZES) as l.
  induction l as [| x l IH]; simpl.
  - split; [discriminate |]. intros (la & sm & H & _). by destruct la.
  - rewrite filter_cons. destruct (decide (x ∈ sizes_data)) as [Hx | Hx]; simpl.
    + split.
      * intros [= ->]. exists [], l. split; [done |]. split; [done |].
        intros y Hy. by apply elem_of_nil in Hy.
      * intros (la & sm & H & Hs & Hla). destruct la as [| y la]; simpl in H.
        -- by inversion H.
        -- inversion H; subst. exfalso. apply (Hla y); [left | done].
    + rewrite IH. split.
      * intros (la & sm & -> & Hs & Hla). exists (x :: la), sm.
        split; [done |]. split; [done |].
        intros y Hy. apply elem_of_cons in Hy as [-> | Hy]; [done | by apply Hla].
      * intros (la & sm & H & Hs & Hla). destruct la as [| y la]; simpl in H.
        -- inversion H; subst. done.
        -- inversion H; subst. exists la, sm. split; [done |]. split; [done |].
           intros z Hz. apply Hla. by right.
Qed.

Lemma first_available_none (sizes_data : list string) :
  first_available sizes_data = None <->
  (forall x, x ∈ SIZES -> x ∉ sizes_data).
Proof.
  unfold first_available. rewrite head_None. split.
  - intros H x Hx Hin.
    assert (x ∈ filter (fun s => s ∈ sizes_data) (reverse SIZES)) as Hf.
    { apply list_elem_of_filter. split; [done |]. by rewrite elem_of_reverse. }
    rewrite H in Hf. by apply elem_of_nil in Hf.
  - intros H.
    assert (forall x, x ∈ reverse SIZES -> x ∉ sizes_data) as H'.
    { intros x Hx. apply H. by rewrite elem_of_reverse in Hx. }
    clear H. induction (reverse SIZES) as [| x l IH]; [done |].
    rewrite filter_cons. destruct (decide (x ∈ sizes_data)) as [Hx | Hx].
    + exfalso. apply (H' x); [left | done].
    + apply IH. intros y Hy. apply H'. by right.
Qed.

Lemma resolve_sizes_unavailable (sizes : list (option string)) (sizes_data : list string) :
  valid_sizes sizes sizes_data = [] ->
  resolve_sizes sizes sizes_data =
    match first_available sizes_data with
    | Some s => Returned ([s], [])
    | None =>
        match head SIZES with
        | Some smallest => Returned ([smallest], [MSG_MISSING_SIZES])
        | None => Raised IndexError
        end
    end.
Proof.
  intros H. unfold resolve_sizes. rewrite H.
  destruct (first_available sizes_data) as [s |]; simpl.
  - repeat case_bool_decide; try done.
  - repeat case_bool_decide; try done. by destruct (head SIZES).
Qed.

(** C3, amended: when the size asked for (the one passed in or, without
    one, the default of the preferences) is not among the asset's available
    sizes, [get_download_data] scans the size order from its large end and
    takes the first size available for the asset; when that scan finds
    none, it takes the smallest size of the order, [SIZES[0]], whether
    available or not, and logs a warning. *)
Theorem C3_size_fallback (settings : Settings) (dcc : string) (a : AssetData)
    (size : option string) (sizes : list (option string))
    (download_lods : option bool) (native_mesh : bool)
    (renderer : option string) :
  let sizes_data := get_size_list a (bool_decide (size = Some "WM")) in
  requested_sizes settings a size = Returned sizes ->
  (forall s, Some s ∈ sizes -> s ∉ sizes_data) ->
  match first_available sizes_data with
  | Some s =>
      (exists larger smaller,
         reverse SIZES = larger ++ s :: smaller
         /\ s ∈ sizes_data
         /\ (forall x, x ∈ larger -> x ∉ sizes_data))
      /\ exists dd,
           get_download_data settings dcc a size download_lods
             native_mesh renderer = Returned (dd, [])
           /\ dd_sizes dd = [s]
  | None =>
      (forall x, x ∈ SIZES -> x ∉ sizes_data)
      /\ match head SIZES with
         | Some smallest =>
             exists dd,
               get_download_data settings dcc a size download_lods
                 native_mesh renderer = Returned (dd, [MSG_MISSING_SIZES])
               /\ dd_sizes dd = [smallest]
         | None =>
             get_download_data settings dcc a size download_lods
               native_mesh renderer = Raised IndexError
         end
  end.
Proof.
  intros sizes_data Hreq Hun.
  unfold get_download_data. fold sizes_data.
  rewrite Hreq. simpl.
  rewrite resolve_sizes_unavailable by (by apply valid_sizes_unavailable).
  destruct (first_available sizes_data) as [s |] eqn:E.
  - split; [by apply first_available_spec |].
    simpl. eexists. split; reflexivity.
  - split; [by apply first_available_none |].
    destruct (head SIZES) as [m |]; simpl.
    + eexists. split; reflexivity.
    + reflexivity.
Qed.

End SizeFallback.

Section SizeFallbackScenario.
Import Py Assets Addon SpecAssets.

(** The scenario of the specification: Metal001 has the sizes 1K, 2K and
    4K; asked for 8K, the download data names exactly 4K. *)
Lemma C3_size_fallback_witness :
  requested_sizes settings_default Metal001 (Some "8K") = Returned [Some "8K"]
  /\ (forall s, Some s ∈ [Some "8K"] -> s ∉ get_size_list Metal001 false)
  /\ exists dd,
       get_download_data settings_default "Blender" Metal001 (Some "8K") None
         false None = Returned (dd, [])
       /\ dd_sizes dd = ["4K"].
Proof.
  assert (forall s, Some s ∈ [Some "8K"] ->
                    s ∉ get_size_list Metal001 (bool_decide (Some "8K" = Some "WM")))
    as H2.
  { intros s Hs. apply list_elem_of_singleton in Hs. injection Hs as ->.
    vm_compute. intros H.
    repeat (apply elem_of_cons in H as [H | H]; [discriminate |]).
    by apply elem_of_nil in H. }
  split; [reflexivity |]. split; [exact H2 |].
  pose proof (C3_size_fallback settings_default "Blender" Metal001 (Some "8K")
                [Some "8K"] None false None eq_refl H2) as H.
  exact (proj2 H).
Defined.

(** Without a size passed in, the default of the preferences (2K for
    textures here) is the size asked for. *)
Example default_size_scenario :
  exists dd,
    get_download_data settings_default "Blender" Metal001 None None false None
      = Returned (dd, [])
    /\ dd_sizes dd = ["2K"]
    /\ dd_workflows dd = Some [Some "REGULAR"]
    /\ dd_type_codes dd = Some ["COL"; "NRM"; "ROUGHNESS"].
Proof. eexists. repeat split; reflexivity. Qed.

(** C3, as stated, fails in its last step: when the scan finds no available
    size, the size taken is not an available one, hence not the smallest
    available one: for the available sizes [24K] and the request 8K the
    download data names 1K. *)
Lemma C3_counterexample :
  get_size_list Odd24K false = ["24K"]
  /\ first_available (get_size_list Odd24K false) = None
  /\ exists dd,
       get_download_data settings_default "Blender" Odd24K (Some "8K") None
         false None = Returned (dd, [MSG_MISSING_SIZES])
       /\ dd_sizes dd = ["1K"]
       /\ ~ (exists s, s ∈ get_size_list Odd24K false /\ dd_sizes dd = [s]).
Proof.
  split; [reflexivity |]. split; [reflexivity |].
  eexists. split; [reflexivity |]. split; [reflexivity |].
  intros (s & Hs & E). simpl in E. injection E as <-.
  vm_compute in Hs. apply elem_of_cons in Hs as [Hs | Hs]; [discriminate |].
  by apply elem_of_nil in Hs.
Qed.

End SizeFallbackScenario.

(** ** Downloading one file (api.py) *)

Section DownloadFile.
Import Os Api SpecAssets.

Lemma check_exist_and_finished_spec (p : string) (d : FileDownload) (w : World) :
  check_exist_and_finished p d w = true <-> files w !! p = Some (size_expected d).
Proof.
  unfold check_exist_and_finished, path_exists, getsize.
  destruct (files w !! p) as [n |] eqn:E; simpl.
  - rewrite bool_decide_eq_true. split; congruence.
  - split; discriminate.
Qed.

(** C4: when the final path or the temporary path (the file name with
    "dl" appended) already holds a file of exactly [size_expected] bytes,
    [download_asset_file] marks the unit DONE, sets [size_downloaded] to
    [size_expected] and returns success, without requesting a stream and
    without touching a file; calling it again changes nothing. *)
Theorem C4_already_complete (net : Network) (d : FileDownload) (w : World) :
  files w !! get_path d true = Some (size_expected d)
  \/ files w !! get_path d false = Some (size_expected d) ->
  exists resp d',
    download_asset_file net d w = (resp, d', w)
    /\ status d' = DONE
    /\ size_downloaded d' = size_expected d
    /\ ok resp = true
    /\ resp_error resp = None
    /\ download_asset_file net d' w = (resp, d', w).
Proof.
  intros H.
  assert (check_exist_and_finished (get_path d true) d w
          || check_exist_and_finished (get_path d false) d w = true) as Hc.
  { apply orb_true_iff.
    destruct H as [H | H]; [left | right]; by apply check_exist_and_finished_spec. }
  unfold download_asset_file at 1. rewrite Hc.
  eexists _, _. split; [reflexivity |].
  repeat split; try reflexivity.
  unfold download_asset_file.
  change (get_path ?x true) with (get_path d true).
  change (get_path ?x false) with (get_path d false).
  unfold check_exist_and_finished in *. simpl. rewrite Hc. reflexivity.
Qed.


Lemma stream_loop_frame (p : string) (events : list StreamEvent)
    (d : FileDownload) (w : World) f d1 w1 :
  stream_loop p events d w = (f, d1, w1) ->
  locked w1 = locked w
  /\ requests w1 = requests w
  /\ size_expected d1 = size_expected d
  /\ (forall q, q ≠ p -> files w1 !! q = files w !! q).
Proof.
  revert d w. induction events as [| e events IH]; intros d w H; simpl in H.
  - by inversion H.
  - destruct e as [n | | | x].
    + case_bool_decide.
      * inversion H; subst. repeat split; try reflexivity.
        intros q Hq. simpl. by rewrite lookup_insert_ne.
      * apply IH in H as (H1 & H2 & H3 & H4). repeat split; try done.
        intros q Hq. rewrite H4 by done. simpl. by rewrite lookup_insert_ne.
    + by apply IH in H.
    + apply IH in H as (H1 & H2 & H3 & H4). repeat split; try done.
      rewrite H3. unfold set_status_cancelled.
      by destruct (negb _ && negb _).
    + by inversion H.
Qed.

Lemma delete_file_removes (p : string) (w : World) :
  p ∉ locked w -> files (delete_file p w) !! p = None.
Proof.
  intros Hl. unfold delete_file, path_exists, remove.
  destruct (files w !! p) as [n |] eqn:E; simpl; [| done].
  rewrite bool_decide_eq_false_2 by done. simpl. apply lookup_delete_eq.
Qed.

Lemma delete_file_frame (p : string) (w : World) :
  locked (delete_file p w) = locked w
  /\ requests (delete_file p w) = requests w
  /\ (forall q, q ≠ p -> files (delete_file p w) !! q = files w !! q).
Proof.
  unfold delete_file, path_exists, remove.
  destruct (files w !! p) as [n |] eqn:E; simpl; [| done].
  case_bool_decide; simpl; [done |]. repeat split.
  intros q Hq. by rewrite lookup_delete_ne.
Qed.

Lemma open_wb_inr (p : string) (w w0 : World) :
  open_wb p w = inr w0 ->
  (p ∉ locked w) /\ w0 = set_files (<[p := 0]>) w.
Proof.
  unfold open_wb. case_bool_decide; [discriminate |]. by intros [= <-].
Qed.

(** C7: when the streaming loop of [download_asset_file] has run to its end
    without an exception, the unit is marked DONE exactly if
    [size_downloaded] equals [size_expected] and equals the Content-Length
    the server reported; on any mismatch, a user cancellation during the
    stream included, the unit is marked ERROR, the temporary file is gone
    and the response is an error, whose message tells a user cancellation
    from a file size mismatch. *)
Theorem C7_stream_completion (net : Network) (d : FileDownload) (w w0 w1 : World)
    (stream_size : Z) (events : list StreamEvent) (d1 : FileDownload) :
  check_exist_and_finished (get_path d true) d w = false ->
  check_exist_and_finished (get_path d false) d w = false ->
  net (url d) = ReqStream stream_size events ->
  status d ≠ CANCELLED ->
  open_wb (get_path d true) (log_request (url d) w) = inr w0 ->
  stream_loop (get_path d true) events
    (with_size_downloaded 0 (with_status ONGOING d)) w0 = (None, d1, w1) ->
  exists resp d' w',
    download_asset_file net d w = (resp, d', w')
    /\ (status d' = DONE <->
        size_expected d = size_downloaded d1 /\ size_downloaded d1 = stream_size)
    /\ (status d' = DONE -> ok resp = true /\ w' = w1)
    /\ (status d' ≠ DONE ->
        status d' = ERROR
        /\ files w' !! get_path d true = None
        /\ ok resp = false
        /\ resp_error resp =
             Some (ErrText (if bool_decide (status d1 = CANCELLED)
                            then ERR_USER_CANCEL_MSG
                            else ERR_FILESIZE_MISMATCH)))
    /\ ERR_USER_CANCEL_MSG ≠ ERR_FILESIZE_MISMATCH.
Proof.
  intros Ht Hf Hnet Hst Hopen Hloop.
  pose proof (stream_loop_frame _ _ _ _ _ _ _ Hloop) as (Hl & _ & Hse & _).
  simpl in Hse.
  apply open_wb_inr in Hopen as Hopen'. destruct Hopen' as [Hnl Hw0].
  assert (get_path d true ∉ locked w1) as Hnl1.
  { rewrite Hl, Hw0. exact Hnl. }
  unfold download_asset_file. rewrite Ht, Hf, Hnet. simpl.
  unfold set_status_ongoing. rewrite bool_decide_eq_true_2 by exact Hst.
  change (get_path (with_status ONGOING d) true) with (get_path d true) in *.
  rewrite Hopen. simpl.
  change (get_path ?x true) with (get_path d true).
  rewrite Hloop. rewrite Hse.
  destruct (bool_decide (size_expected d = size_downloaded d1)
            && bool_decide (size_downloaded d1 = stream_size)) eqn:E.
  - apply andb_true_iff in E as [E1 E2].
    apply bool_decide_eq_true in E1, E2.
    eexists _, _, _. split; [reflexivity |]. simpl.
    repeat split; try done.
  - assert (~ (size_expected d = size_downloaded d1
               /\ size_downloaded d1 = stream_size)) as Hn.
    { intros [E1 E2]. apply andb_false_iff in E as [E | E];
        apply bool_decide_eq_false in E; contradiction. }
    eexists _, _, _. split; [reflexivity |]. simpl.
    split; [split; [discriminate | intros; contradiction] |].
    split; [discriminate |].
    split; [| discriminate].
    intros _. repeat split.
    by apply delete_file_removes.
Qed.


Lemma C4_already_complete_witness :
  exists resp d',
    download_asset_file net_complete waiting_unit world_temp_complete
      = (resp, d', world_temp_complete)
    /\ status d' = DONE
    /\ size_downloaded d' = 12
    /\ ok resp = true
    /\ resp_error resp = None
    /\ download_asset_file net_complete d' world_temp_complete
         = (resp, d', world_temp_complete).
Proof.
  apply (C4_already_complete net_complete waiting_unit world_temp_complete).
  left. reflexivity.
Defined.

Lemma C7_stream_completion_witness :
  exists resp d' w',
    download_asset_file net_cancelled_midway waiting_unit world_empty
      = (resp, d', w')
    /\ status d' = ERROR
    /\ files w' !! get_path waiting_unit true = None
    /\ ok resp = false
    /\ resp_error resp = Some (ErrText ERR_USER_CANCEL_MSG).
Proof.
  destruct (C7_stream_completion net_cancelled_midway waiting_unit world_empty
              _ _ 12 _ _ eq_refl eq_refl eq_refl ltac:(discriminate)
              eq_refl eq_refl)
    as (resp & d' & w' & Hrun & Hdone & _ & Herr & _).
  exists resp, d', w'. split; [exact Hrun |].
  apply Herr. intros Hd. apply Hdone in Hd as [Hd _]. discriminate Hd.
Defined.

End DownloadFile.

(** ** Cancelling before the start (addon.py, api.py) *)

Section CancelBeforeStart.
Import Os Py Assets Api Addon SpecAssets.

Lemma download_asset_file_cancelled (net : Network) (d : FileDownload) (w : World) :
  status d = CANCELLED ->
  exists resp d' w',
    download_asset_file net d w = (resp, d', w')
    /\ files w' = files w
    /\ (check_exist_and_finished (get_path d true) d w = false ->
        check_exist_and_finished (get_path d false) d w = false ->
        forall n events, net (url d) = ReqStream n events ->
        d' = d /\ ok resp = false
        /\ resp_error resp = Some (ErrText ERR_USER_CANCEL_MSG)).
Proof.
  intros Hs. unfold download_asset_file.
  destruct (check_exist_and_finished (get_path d true) d w
            || check_exist_and_finished (get_path d false) d w) eqn:E.
  - eexists _, _, _. split; [reflexivity |]. split; [reflexivity |].
    intros H1 H2. rewrite H1, H2 in E. discriminate.
  - destruct (net (url d)) as [err | | n events] eqn:En.
    + eexists _, _, _. split; [reflexivity |]. split; [reflexivity |]. discriminate.
    + eexists _, _, _. split; [reflexivity |]. split; [reflexivity |]. discriminate.
    + unfold set_status_ongoing. rewrite Hs. simpl.
      eexists _, _, _. split; [reflexivity |]. split; [reflexivity |]. done.
Qed.

(** C6: a download cancelled while still queued writes no byte.
    [download_asset] returns before it resolves, requests or schedules
    anything when the asset is in the cancelled set (leaving the files as
    they are and no unit behind); and a unit that is CANCELLED when its
    worker runs leaves the files as they are: [set_status_ongoing] returns
    false without changing the unit, and the worker returns the user-cancel
    error before it opens the output file. *)
Theorem C6_cancel_before_start `{AM : AssetsModule} :
  (forall (env : Env) (asset_data : AssetData) (size : option string)
          (done_callback native_mesh : bool) (renderer : option string)
          (a : State) (w : World),
      Assets.asset_id asset_data ∈ download_cancelled a ->
      let run := download_asset env asset_data size done_callback native_mesh
                   renderer a w in
      world run = w
      /\ units run = []
      /\ done_calls (addon run) = done_calls a
      /\ match download_queue a !! Assets.asset_id asset_data with
         | Some _ =>
             result run = Returned false
             /\ download_queue (addon run) !! Assets.asset_id asset_data = None
             /\ Assets.asset_id asset_data ∉ download_cancelled (addon run)
         | None => result run = Raised KeyError
         end)
  /\ (forall (net : Network) (d : FileDownload) (w : World),
        status d = CANCELLED ->
        set_status_ongoing d = (false, d)
        /\ exists resp d' w',
             download_asset_file net d w = (resp, d', w')
             /\ files w' = files w
             /\ (check_exist_and_finished (get_path d true) d w = false ->
                 check_exist_and_finished (get_path d false) d w = false ->
                 forall n events, net (url d) = ReqStream n events ->
                 d' = d /\ ok resp = false
                 /\ resp_error resp = Some (ErrText ERR_USER_CANCEL_MSG))).
Proof.
  split.
  - intros env asset_data size done_callback native_mesh renderer a w Hc run.
    subst run. unfold download_asset.
    rewrite bool_decide_eq_true_2 by exact Hc.
    destruct (download_queue a !! Assets.asset_id asset_data) as [e |] eqn:E; simpl.
    + repeat split; try reflexivity.
      * apply lookup_delete_eq.
      * rewrite elem_of_difference. intros [_ Hn]. apply Hn. by apply elem_of_singleton.
    + repeat split; reflexivity.
  - intros net d w Hs. split.
    + unfold set_status_ongoing. rewrite Hs. reflexivity.
    + by apply download_asset_file_cancelled.
Qed.

Lemma C6_cancel_before_start_witness :
  (let run := download_asset (env_simple net_complete) Metal001 (Some "4K")
                true false None addon_cancelled world_empty in
   world run = world_empty /\ units run = [] /\ result run = Returned false)
  /\ exists resp w',
       download_asset_file net_complete cancelled_unit world_empty
         = (resp, cancelled_unit, w')
       /\ files w' = files world_empty
       /\ ok resp = false.
Proof.
  pose proof (@C6_cancel_before_start spec_assets) as [Ha Hb].
  split.
  - assert (Assets.asset_id Metal001 ∈ download_cancelled addon_cancelled) as Hin.
    { change ((42 : Z) ∈ ({[42]} : gset Z)). by apply elem_of_singleton. }
    destruct (Ha (env_simple net_complete) Metal001 (Some "4K") true false None
                 addon_cancelled world_empty Hin) as (H1 & H2 & _ & H4).
    split; [exact H1 |]. split; [exact H2 |]. exact (proj1 H4).
  - destruct (Hb net_complete cancelled_unit world_empty eq_refl)
      as (_ & resp & d' & w' & Hrun & Hfiles & Hstream).
    destruct (Hstream eq_refl eq_refl _ _ eq_refl) as (-> & Hok & _).
    exists resp, w'. split; [exact Hrun |]. split; [exact Hfiles | exact Hok].
Defined.

End CancelBeforeStart.

(** ** Renaming the downloaded files (addon.py) *)

Section RenameDownloads.
Import Os Py Assets Api Addon SpecAssets.

Lemma length_append (s1 s2 : string) :
  String.length (s1 +:+ s2) = (String.length s1 + String.length s2)%nat.
Proof. induction s1 as [| c s1 IH]; simpl; [done | by rewrite IH]. Qed.

(** The temporary path of a unit is never its final path. *)
Lemma get_path_temp_ne (d : FileDownload) : get_path d true ≠ get_path d false.
Proof.
  intros H. apply (f_equal String.length) in H. revert H.
  unfold get_path, get_filename, path_join, DOWNLOAD_TEMP_SUFFIX.
  destruct (filename d) as [| c f]; simpl.
  - repeat case_match; rewrite ?length_append; simpl; lia.
  - repeat case_match; simpl; rewrite ?length_append; simpl;
      rewrite ?length_append; simpl; lia.
Qed.

(** A file already under the final name is no error: the temporary file
    is renamed over it or, where renaming refuses that, removed. *)
Lemma rename_one_final_exists (d : FileDownload) (r : Rename) :
  is_Some (files (rn_world r) !! get_path d false) ->
  get_path d true ∉ locked (rn_world r) ->
  let r' := rename_one d r in
  rn_raised r' = None
  /\ rn_all_successful r' = rn_all_successful r
  /\ rn_list r' = rn_list r ++ [d]
  /\ files (rn_world r') !! get_path d true = None
  /\ is_Some (files (rn_world r') !! get_path d false)
  /\ (rename_replaces (rn_world r) = false ->
      files (rn_world r') !! get_path d false
      = files (rn_world r) !! get_path d false).
Proof.
  intros [szf Hf] Hnl. pose proof (get_path_temp_ne d) as Hne.
  assert (path_exists (get_path d false) (rn_world r) = true) as Hpe.
  { unfold path_exists. rewrite Hf. apply bool_decide_eq_true_2. by eexists. }
  unfold rename_one, rename, remove. rewrite Hpe.
  destruct (files (rn_world r) !! get_path d true) as [sz |] eqn:Et.
  - assert (path_exists (get_path d true) (rn_world r) = true) as Hpt.
    { unfold path_exists. rewrite Et. apply bool_decide_eq_true_2. by eexists. }
    rewrite Hpt. simpl. rewrite (bool_decide_eq_false_2 _ Hnl).
    destruct (rename_replaces (rn_world r)) eqn:Er; simpl.
    + rewrite andb_true_r.
      split; [done |]. split; [done |]. split; [done |].
      split; [rewrite lookup_insert_ne by done; apply lookup_delete_eq |].
      split; [rewrite lookup_insert_eq; by eexists | discriminate].
    + rewrite andb_true_r.
      split; [done |]. split; [done |]. split; [done |].
      split; [apply lookup_delete_eq |].
      split; [rewrite lookup_delete_ne by done; by eexists |].
      intros _. by rewrite lookup_delete_ne.
  - assert (path_exists (get_path d true) (rn_world r) = false) as Hpt.
    { unfold path_exists. rewrite Et. apply bool_decide_eq_false_2.
      intros [x Hx]. discriminate. }
    rewrite Hpt. simpl.
    split; [done |]. split; [done |]. split; [done |]. split; [done |].
    split; [by eexists | done].
Qed.

(** A temporary file that is missing, with no file under the final name
    either, or that the system refuses to rename, marks the unit ERROR and
    makes [rename_downloads] report that not all went well. *)
Lemma rename_one_failure (d : FileDownload) (r : Rename) :
  (files (rn_world r) !! get_path d true = None
   /\ files (rn_world r) !! get_path d false = None)
  \/ (is_Some (files (rn_world r) !! get_path d true)
      /\ get_path d true ∈ locked (rn_world r)) ->
  let r' := rename_one d r in
  exists d',
    rn_list r' = rn_list r ++ [d']
    /\ status d' = ERROR
    /\ is_Some (error d')
    /\ rn_all_successful r' = false
    /\ rn_raised r' = None
    /\ rn_world r' = rn_world r.
Proof.
  intros H. unfold rename_one, rename, path_exists.
  destruct H as [[Ht Hf] | [[sz Ht] Hl]]; rewrite Ht.
  - rewrite Hf.
    rewrite !bool_decide_eq_false_2 by (intros [x Hx]; discriminate). simpl.
    eexists. repeat split; try done. apply andb_false_r.
  - rewrite (bool_decide_eq_true_2 (is_Some (Some sz))) by (by eexists). simpl.
    rewrite (bool_decide_eq_true_2 _ Hl). simpl.
    eexists. repeat split; try done. apply andb_false_r.
Qed.

Lemma rename_loop_all_successful (dl_list : list FileDownload) (r : Rename) :
  rn_all_successful r = false ->
  rn_all_successful (rename_loop dl_list r) = false.
Proof.
  revert r. induction dl_list as [| d dl_list IH]; intros r Hr; simpl; [done |].
  assert (rn_all_successful (rename_one d r) = false) as H1.
  { unfold rename_one. repeat case_match; simpl; by rewrite ?Hr. }
  destruct (rn_raised (rename_one d r)); simpl; [done | by apply IH].
Qed.

(** C8, where the code departs from it. The one file of Metal001 is on
    disk as a complete temporary file that the system refuses to rename:
    [rename_downloads] marks the unit ERROR, as the claim says, and
    [download_asset_sync] returns False with the error set; but
    [download_asset] drops what [rename_downloads] returns, calls
    [done_callback] without an error and returns True, just as it does
    when the download went through. *)
Theorem C8_rename_failure_unreported :
  let env := env_simple net_complete in
  let failed :=
    download_asset env Metal001 (Some "4K") true false None addon_queued
      world_temp_locked in
  let synced :=
    download_asset_sync env Metal001 (Some "4K") false false None None
      dl_fresh addon_queued world_temp_locked in
  let went_through :=
    download_asset env Metal001 (Some "4K") true false None addon_queued
      world_empty in
  (status <$> units failed) = [ERROR]
  /\ result failed = Returned true
  /\ done_calls (addon failed) = [(42, None)]
  /\ (status <$> sync_units synced) = [ERROR]
  /\ sync_result synced = Returned false
  /\ dl_has_error (sync_dl synced) = true
  /\ (status <$> units went_through) = [DONE]
  /\ result went_through = result failed
  /\ done_calls (addon went_through) = done_calls (addon failed).
Proof. vm_compute. repeat split; reflexivity. Qed.

End RenameDownloads.

(** ** The invariant of the index (asset_index.py) *)

Section IndexInvariant.
Import Py Assets AssetsSpec Index.

Lemma index_wf_new (path : string) : index_wf (new_AssetIndex path).
Proof. split; [apply NoDup_nil_2 | apply Forall_nil_2]. Qed.

Lemma index_wf_capture_message tag idx :
  index_wf idx -> index_wf (capture_message tag idx).
Proof. unfold index_wf, capture_message. by destruct (reporting_callable idx). Qed.

(** [update_asset] keeps the invariant, and the identity of the record. *)
Lemma update_asset_wf id asset_data_new purge_maps idx :
  index_wf idx -> index_wf (update_asset id asset_data_new purge_maps idx).2.
Proof.
  intros Hwf. unfold update_asset.
  destruct (dict_get id (all_assets idx)) as [stored |] eqn:E; [| done].
  repeat case_bool_decide; simpl; try by apply index_wf_capture_message.
  destruct Hwf as [Hnd Hf]. split; simpl.
  - by apply dict_set_NoDup.
  - apply dict_set_Forall; [| done]. simpl.
    assert (index_wf idx) as Hwf by done.
    clear -E Hf. induction Hf as [| [k a] l Hh Ht IH]; simpl in *; [done |].
    case_decide; simplify_eq/=; [done | by apply IH].
Qed.

Lemma load_asset_wf asset_data idx :
  index_wf idx -> index_wf (load_asset asset_data idx).2.
Proof.
  intros Hwf. unfold load_asset. case_match.
  - destruct Hwf as [Hnd Hf]. split; simpl.
    + by apply dict_set_NoDup.
    + by apply dict_set_Forall.
  - by apply update_asset_wf.
Qed.

Lemma update_asset_keeps_identity id asset_data_new purge_maps idx idx' stored :
  dict_get id (all_assets idx) = Some stored ->
  update_asset id asset_data_new purge_maps idx = (Returned (), idx') ->
  exists updated,
    dict_get id (all_assets idx') = Some updated
    /\ asset_id updated = asset_id stored
    /\ asset_name updated = asset_name stored
    /\ asset_type updated = asset_type stored.
Proof.
  intros Hget. unfold update_asset. rewrite Hget.
  repeat case_bool_decide; try discriminate.
  intros [= <-]. eexists.
  split; [unfold set_assets; simpl; apply dict_get_set_eq | done].
Qed.

End IndexInvariant.

(** ** The identity of a stored asset (asset_index.py) *)

Section IndexIdentity.
Import Py Assets Index SpecAssets.

Lemma dict_get_wf (idx : AssetIndex) (k : Z) (a : AssetData) :
  index_wf idx -> dict_get k (all_assets idx) = Some a -> asset_id a = k.
Proof.
  intros [_ Hf]. induction (all_assets idx) as [| [k' a'] l IH]; simpl; [done |].
  apply Forall_cons in Hf as [Hh Ht]. case_decide as Hk.
  - intros [= <-]. by subst.
  - by apply IH.
Qed.

(** C9: for an id stored in the index, [update_asset] with a record whose
    id, name or type differs from the stored record raises ValueError and
    leaves every stored record as it was. *)
Theorem C9_identity_not_rebound (idx : AssetIndex) (id : Z)
    (stored asset_data_new : AssetData) (purge_maps : bool) :
  index_wf idx ->
  dict_get id (all_assets idx) = Some stored ->
  asset_id asset_data_new ≠ asset_id stored
  \/ asset_name asset_data_new ≠ asset_name stored
  \/ asset_type asset_data_new ≠ asset_type stored ->
  exists msg idx',
    update_asset id asset_data_new purge_maps idx = (Raised (ValueError msg), idx')
    /\ all_assets idx' = all_assets idx
    /\ dict_get id (all_assets idx') = Some stored.
Proof.
  intros Hwf Hget Hdiff.
  pose proof (dict_get_wf idx id stored Hwf Hget) as Hid.
  unfold update_asset. rewrite Hget.
  assert (forall tag, all_assets (capture_message tag idx) = all_assets idx) as Hcap.
  { intros tag. unfold capture_message. by destruct (reporting_callable idx). }
  case_bool_decide as H1.
  { eexists _, _. split; [reflexivity |]. by rewrite Hcap. }
  case_bool_decide as H2.
  { eexists _, _. split; [reflexivity |]. by rewrite Hcap. }
  case_bool_decide as H3.
  { eexists _, _. split; [reflexivity |]. by rewrite Hcap. }
  exfalso. destruct Hdiff as [H | [H | H]].
  - apply H. congruence.
  - apply H. congruence.
  - apply H. congruence.
Qed.

Lemma C9_identity_not_rebound_witness :
  exists msg idx',
    update_asset 42 Metal001_renamed false index_metal
      = (Raised (ValueError msg), idx')
    /\ all_assets idx' = all_assets index_metal
    /\ dict_get 42 (all_assets idx') = Some Metal001.
Proof.
  apply (C9_identity_not_rebound index_metal 42 Metal001 Metal001_renamed false).
  - split.
    + apply NoDup_singleton.
    + apply Forall_singleton. reflexivity.
  - reflexivity.
  - right. left. discriminate.
Defined.

End IndexIdentity.

(** ** Locality of an asset (asset_index.py) *)

Section IndexLocality.
Import Py Assets Index SpecAssets.
Context `{AM : AssetsModule}.

(** C10: for an id that is not in the index, [check_asset_is_local] returns
    False whatever the workflow, size, lod and model type asked for, and
    raises nothing; it reports the missing id when a reporting hook is
    set. *)
Theorem C10_missing_asset_not_local (idx : AssetIndex) (id : Z)
    (workflow size lod : option string) (model_type_arg : option ModelType)
    (native_only : bool) :
  dict_get id (all_assets idx) = None ->
  check_asset_is_local id workflow size lod model_type_arg native_only idx
    = (Returned (Some false), capture_message "assetindex_asset_missing" idx).
Proof.
  intros H. unfold check_asset_is_local. by rewrite H.
Qed.

End IndexLocality.

Section IndexLocalityScenario.
Import Py Assets Index SpecAssets.

Lemma C10_missing_asset_not_local_witness :
  check_asset_is_local 43 (Some "REGULAR") (Some "4K") None (Some FBX) false
    index_metal
  = (Returned (Some false), capture_message "assetindex_asset_missing" index_metal).
Proof.
  apply (C10_missing_asset_not_local index_metal 43). reflexivity.
Defined.

End IndexLocalityScenario.

(** ** The cache of the index (asset_index.py) *)

Section CacheRoundTrip.
Import Py Assets AssetsJson Index SpecAssets.

Lemma dec_enc_opt {A} (f : Json -> option A) (g : A -> Json) (o : option A) :
  (forall x, f (g x) = Some x) -> (forall x, g x ≠ JNull) ->
  dec_opt f (enc_opt g o) = Some o.
Proof.
  intros Hfg Hn. destruct o as [x |]; simpl; [| done].
  unfold dec_opt. specialize (Hn x). specialize (Hfg x).
  destruct (g x); try done; by rewrite Hfg.
Qed.

Lemma dec_enc_list {A} (f : Json -> option A) (g : A -> Json) (l : list A) :
  (forall x, f (g x) = Some x) -> dec_list f (enc_list g l) = Some l.
Proof.
  intros Hfg. unfold dec_list, enc_list.
  induction l as [| x l IH]; simpl; [done |].
  rewrite Hfg. simpl. rewrite IH. done.
Qed.

Lemma dec_enc_dict {A} (f : Json -> option A) (g : A -> Json)
    (d : list (string * A)) :
  (forall x, f (g x) = Some x) -> dec_dict f (enc_dict g d) = Some d.
Proof.
  intros Hfg. unfold dec_dict, enc_dict.
  induction d as [| [k x] d IH]; simpl; [done |].
  rewrite Hfg. simpl. rewrite IH. done.
Qed.

Lemma dec_str_JStr s : dec_str (JStr s) = Some s.
Proof. done. Qed.

Lemma enc_list_not_null {A} (g : A -> Json) l : enc_list g l ≠ JNull.
Proof. done. Qed.

Lemma enc_dict_not_null {A} (g : A -> Json) d : enc_dict g d ≠ JNull.
Proof. done. Qed.

Lemma ModelType_of_name_name t : ModelType_of_name (ModelType_name t) = Some t.
Proof. by destruct t. Qed.

Lemma AssetType_of_name_name t : AssetType_of_name (AssetType_name t) = Some t.
Proof. by destruct t. Qed.

(** Reads the members of a written object, leaving the encoders folded. *)
Ltac read_fields :=
  cbn [field json_get String.eqb Ascii.eqb Bool.eqb mbind option_bind
       dec_int dec_str dec_bool].

Lemma dec_enc_TextureMap m : dec_TextureMap (enc_TextureMap m) = Some m.
Proof.
  destruct m. unfold dec_TextureMap, enc_TextureMap. read_fields.
  rewrite !(dec_enc_opt dec_str JStr) by done. done.
Qed.

Lemma dec_enc_ModelMesh m : dec_ModelMesh (enc_ModelMesh m) = Some m.
Proof.
  destruct m. unfold dec_ModelMesh, enc_ModelMesh. read_fields.
  rewrite ModelType_of_name_name. read_fields.
  rewrite !(dec_enc_opt dec_str JStr) by done. done.
Qed.

Lemma dec_enc_TextureMapDesc d : dec_TextureMapDesc (enc_TextureMapDesc d) = Some d.
Proof.
  destruct d. unfold dec_TextureMapDesc, enc_TextureMapDesc. read_fields.
  rewrite !(dec_enc_list dec_str JStr) by done. done.
Qed.

Lemma dec_enc_str_list (o : option (list string)) :
  dec_opt (dec_list dec_str) (enc_opt (enc_list JStr) o) = Some o.
Proof.
  apply dec_enc_opt; [| done]. intros l. by apply dec_enc_list.
Qed.

Lemma dec_enc_Texture t : dec_Texture (enc_Texture t) = Some t.
Proof.
  destruct t. unfold dec_Texture, enc_Texture. read_fields.
  rewrite !dec_enc_str_list.
  rewrite (dec_enc_opt (dec_dict (dec_list dec_TextureMapDesc))
             (enc_dict (enc_list enc_TextureMapDesc))); [| | done].
  2:{ intros d. apply dec_enc_dict. intros l. apply dec_enc_list.
      apply dec_enc_TextureMapDesc. }
  rewrite (dec_enc_opt (dec_dict (dec_list dec_TextureMap))
             (enc_dict (enc_list enc_TextureMap))); [| | done].
  2:{ intros d. apply dec_enc_dict. intros l. apply dec_enc_list.
      apply dec_enc_TextureMap. }
  done.
Qed.

Lemma enc_Texture_not_null t : enc_Texture t ≠ JNull.
Proof. done. Qed.

Lemma dec_enc_Model m : dec_Model (enc_Model m) = Some m.
Proof.
  destruct m. unfold dec_Model, enc_Model. read_fields.
  rewrite !dec_enc_str_list.
  rewrite (dec_enc_opt (dec_list dec_ModelMesh) (enc_list enc_ModelMesh));
    [| intros l; apply dec_enc_list, dec_enc_ModelMesh | done].
  rewrite (dec_enc_opt dec_Texture enc_Texture);
    [| apply dec_enc_Texture | done].
  rewrite (dec_enc_opt dec_str JStr) by done.
  done.
Qed.

Lemma dec_enc_Hdri h : dec_Hdri (enc_Hdri h) = Some h.
Proof.
  destruct h. unfold dec_Hdri, enc_Hdri. read_fields.
  rewrite !dec_enc_Texture. done.
Qed.

Lemma dec_enc_Brush b : dec_Brush (enc_Brush b) = Some b.
Proof.
  destruct b. unfold dec_Brush, enc_Brush. read_fields.
  rewrite !dec_enc_Texture. done.
Qed.

(** Reading back what [asdict] wrote gives the record. *)
Lemma from_dict_asdict (a : AssetData) : _from_dict (asdict a) = Some a.
Proof.
  destruct a. unfold _from_dict, asdict.
  read_fields. rewrite AssetType_of_name_name. read_fields.
  rewrite !dec_enc_str_list.
  rewrite !(dec_enc_opt dec_str JStr) by done.
  rewrite (dec_enc_opt dec_int JInt) by done.
  rewrite !(dec_enc_opt dec_bool JBool) by done.
  rewrite (dec_enc_opt dec_Brush enc_Brush); [| apply dec_enc_Brush | done].
  rewrite (dec_enc_opt dec_Hdri enc_Hdri); [| apply dec_enc_Hdri | done].
  rewrite (dec_enc_opt dec_Model enc_Model); [| apply dec_enc_Model | done].
  rewrite (dec_enc_opt dec_Texture enc_Texture); [| apply dec_enc_Texture | done].
  done.
Qed.


(** Loading the records written from a listing appends the listing, when
    its keys are new, distinct, and the records' own ids. *)
Lemma load_assets_rebuild (l : list (Z * AssetData)) (idx : AssetIndex) :
  NoDup (dict_keys (all_assets idx) ++ dict_keys l) ->
  Forall (fun e => asset_id e.2 = e.1) l ->
  load_assets (map asdict (dict_values l)) idx
    = (Returned (), set_assets (fun d => d ++ l) idx).
Proof.
  revert idx. induction l as [| [k a] l IH]; intros idx Hnd Hwf; simpl.
  - unfold set_assets. rewrite app_nil_r. by destruct idx.
  - rewrite from_dict_asdict.
    apply Forall_cons in Hwf as [Hk Hwf]. simpl in Hk. rewrite Hk.
    unfold dict_keys in *. simpl in Hnd.
    assert (k ∉ (all_assets idx).*1) as Hfresh.
    { apply NoDup_app in Hnd as (_ & Hd & _). intros Hin.
      apply (Hd k Hin). left. }
    rewrite IH.
    + f_equal. unfold set_assets. simpl.
      rewrite dict_set_fresh by done. by rewrite <- app_assoc.
    + unfold set_assets. simpl. rewrite dict_set_fresh by done.
      rewrite fmap_app. simpl. by rewrite <- app_assoc.
    + done.
Qed.

(** C2: for an index whose cache path is set, [load_cache] applied to what
    [save_cache] wrote rebuilds [all_assets] exactly: the same records
    under the same ids in the same order, hence for every asset the same
    id, type, name, local and purchased flags and file listings, whichever
    of the Texture, Model, HDRI and Brush payloads it carries. *)
Theorem C2_cache_round_trip (idx : AssetIndex) (use_gzip : bool)
    (store : CacheStore) :
  (2 <= String.length (path_cache idx))%nat ->
  index_wf idx ->
  exists store',
    save_cache use_gzip idx store = (Returned (), store')
    /\ forall idx0 : AssetIndex,
         path_cache idx0 = path_cache idx ->
         exists idx',
           load_cache use_gzip idx0 store' = (Returned (), idx')
           /\ all_assets idx' = all_assets idx
           /\ path_cache idx' = path_cache idx.
Proof.
  intros Hlen [Hnd Hwf]. unfold save_cache.
  rewrite bool_decide_eq_false_2 by lia.
  eexists. split; [reflexivity |].
  intros idx0 Hpath. unfold load_cache. rewrite Hpath.
  rewrite bool_decide_eq_false_2 by lia.
  rewrite lookup_insert_eq. rewrite bool_decide_eq_true_2 by done. simpl.
  rewrite load_assets_rebuild; [| done | done].
  eexists. split; [reflexivity |]. split; [reflexivity | exact Hpath].
Qed.

Lemma C2_cache_round_trip_witness :
  exists store',
    save_cache true index_library ∅ = (Returned (), store')
    /\ forall idx0 : AssetIndex,
         path_cache idx0 = path_cache index_library ->
         exists idx',
           load_cache true idx0 store' = (Returned (), idx')
           /\ all_assets idx' = all_assets index_library
           /\ path_cache idx' = path_cache index_library.
Proof.
  apply (C2_cache_round_trip index_library true ∅).
  - simpl. lia.
  - split.
    + unfold dict_keys. simpl. repeat (apply NoDup_cons; split; [| ]).
      all: try apply NoDup_nil_2.
      all: intros H; repeat (apply elem_of_cons in H as [H | H]; [discriminate |]);
        by apply elem_of_nil in H.
    + repeat (apply Forall_cons; split; [reflexivity |]). apply Forall_nil_2.
Defined.

End CacheRoundTrip.

(** ** Merging file listings ([AssetData.update]) *)

Section MergePrecedence.
Import Py Assets AssetsSpec.
Context {A : Type} (name : A -> string).

Lemma elem_of_upsert (x z : A) (l : list A) :
  z ∈ upsert name x l -> z = x \/ (z ∈ l /\ name z ≠ name x).
Proof.
  unfold upsert. destruct (existsb _ l) eqn:E.
  - intros H. apply list_elem_of_fmap in H as (y & -> & Hy).
    case_bool_decide; [by left | right; done].
  - intros H. apply elem_of_app in H as [H | H].
    + right. split; [done |]. intros Hn.
      assert (existsb (fun y => bool_decide (name y = name x)) l = true) as E'.
      { apply existsb_exists. exists z. split; [by apply list_elem_of_In |].
        by apply bool_decide_eq_true. }
      congruence.
    + left. by apply list_elem_of_singleton in H.
Qed.

Lemma upsert_names (x : A) (l : list A) (s : string) :
  s ∈ name <$> l \/ s = name x -> s ∈ name <$> upsert name x l.
Proof.
  unfold upsert. destruct (existsb _ l) eqn:E.
  - apply existsb_exists in E as (y & Hy & Hn).
    apply bool_decide_eq_true in Hn. apply list_elem_of_In in Hy.
    intros [H | ->].
    + apply list_elem_of_fmap in H as (z & -> & Hz).
      apply list_elem_of_fmap. destruct (decide (name z = name x)) as [Hzx | Hzx].
      * exists x. split; [done |]. apply list_elem_of_fmap. exists z.
        split; [| done]. by rewrite bool_decide_eq_true_2.
      * exists z. split; [done |]. apply list_elem_of_fmap. exists z.
        split; [| done]. by rewrite bool_decide_eq_false_2.
    + apply list_elem_of_fmap. exists x. split; [done |].
      apply list_elem_of_fmap. exists y. split; [| done].
      by rewrite bool_decide_eq_true_2.
  - intros [H | ->]; rewrite fmap_app; apply elem_of_app; [by left | right].
    simpl. by apply list_elem_of_singleton.
Qed.

Lemma merge_files_other (old new : list A) (z : A) :
  z ∈ merge_files name old new -> name z ∉ name <$> new -> z ∈ old.
Proof.
  unfold merge_files. revert old. induction new as [| x new IH]; intros old; simpl.
  - done.
  - intros Hz Hn. apply not_elem_of_cons in Hn as [Hx Hn].
    apply IH in Hz; [| done]. apply elem_of_upsert in Hz as [-> | [Hz _]]; done.
Qed.

Lemma merge_files_names (old new : list A) (s : string) :
  s ∈ name <$> old \/ s ∈ name <$> new -> s ∈ name <$> merge_files name old new.
Proof.
  unfold merge_files. revert old. induction new as [| x new IH]; intros old; simpl.
  - intros [H | H]; [done | by apply elem_of_nil in H].
  - intros [H | H].
    + apply IH. left. apply upsert_names. by left.
    + apply elem_of_cons in H as [-> | H].
      * apply IH. left. apply upsert_names. by right.
      * apply IH. by right.
Qed.

(** Merging gives precedence to the records merged in. *)
Lemma merge_files_precedence (old new : list A) :
  takes_precedence name new (merge_files name old new).
Proof.
  split.
  - unfold merge_files. revert old.
    induction new as [| x new IH]; intros old z; simpl.
    + intros _ H. by apply elem_of_nil in H.
    + intros Hz Hn. destruct (decide (name z ∈ name <$> new)) as [Hin | Hout].
      * right. by eapply IH.
      * apply elem_of_cons in Hn as [Hn | Hn]; [| done].
        pose proof (merge_files_other _ _ _ Hz Hout) as Hu.
        apply elem_of_upsert in Hu as [-> | [_ Hne]]; [left | done].
  - intros y Hy. apply merge_files_names. right.
    apply list_elem_of_fmap. by exists y.
Qed.

End MergePrecedence.

Section UpdatePrecedence.
Import Py Assets AssetsSpec.

(** The maps merged in for a workflow are merged into that workflow's
    listing; the other workflows keep theirs. *)
Lemma merge_maps_get (old new : list (string * list TextureMap)) (w : string) :
  NoDup (dict_keys new) ->
  dict_get w (merge_maps old new) =
    match dict_get w new with
    | Some ms => Some (merge_files tm_filename (default [] (dict_get w old)) ms)
    | None => dict_get w old
    end.
Proof.
  unfold merge_maps, dict_keys. revert old.
  induction new as [| [k ms] new IH]; intros old Hnd; simpl; [done |].
  apply NoDup_cons in Hnd as [Hk Hnd].
  rewrite IH by done. destruct (decide (w = k)) as [-> | Hne].
  - rewrite dict_get_not_key by done. by rewrite dict_get_set_eq.
  - rewrite dict_get_set_ne by done. done.
Qed.

Lemma takes_precedence_nil {A} (name : A -> string) (l : list A) :
  takes_precedence name [] l.
Proof.
  split.
  - intros x _ H. by apply elem_of_nil in H.
  - intros y H. by apply elem_of_nil in H.
Qed.

Lemma takes_precedence_refl {A} (name : A -> string) (l : list A) :
  takes_precedence name l l.
Proof.
  split; [done |]. intros y Hy. apply list_elem_of_fmap. by exists y.
Qed.

(** Modelled [Texture.update]: the maps of the new snapshot take
    precedence, workflow by workflow. *)
Lemma Texture_update_precedence (old new : Texture) (w : string) :
  maps_keys_nodup new ->
  takes_precedence tm_filename (maps_at new w)
    (maps_at (Texture_update false old new) w).
Proof.
  unfold maps_keys_nodup, maps_at, Texture_update. simpl.
  destruct (maps new) as [n |]; simpl; [| intros _; apply takes_precedence_nil].
  intros Hnd. rewrite merge_maps_get by done.
  destruct (dict_get w n) as [ms |]; simpl.
  - apply merge_files_precedence.
  - apply takes_precedence_nil.
Qed.

End UpdatePrecedence.

Section AssetUpdatePrecedence.
Import Py Assets AssetsSpec.

Lemma update_opt_Some {A} (f : A -> A -> A) (old : option A) (n : A) :
  exists r, update_opt f old (Some n) = Some r
            /\ (r = n \/ exists o, old = Some o /\ r = f o n).
Proof.
  destruct old as [o |]; simpl; eexists; split; try reflexivity.
  - right. by exists o.
  - by left.
Qed.

Lemma in_all_textures_texture a t :
  texture a = Some t -> ("texture", t) ∈ all_textures a.
Proof.
  intros H. unfold all_textures. rewrite H, !elem_of_app. left.
  by apply list_elem_of_singleton.
Qed.

Lemma in_all_textures_model a m t :
  model a = Some m -> model_texture m = Some t ->
  ("model.texture", t) ∈ all_textures a.
Proof.
  intros H Ht. unfold all_textures. rewrite H, !elem_of_app. right. left.
  simpl. rewrite Ht. by apply list_elem_of_singleton.
Qed.

Lemma in_all_textures_bg a h :
  hdri a = Some h -> ("hdri.bg", bg h) ∈ all_textures a.
Proof.
  intros H. unfold all_textures. rewrite H, !elem_of_app. right. right. left.
  by apply list_elem_of_singleton.
Qed.

Lemma in_all_textures_light a h :
  hdri a = Some h -> ("hdri.light", light h) ∈ all_textures a.
Proof.
  intros H. unfold all_textures. rewrite H, !elem_of_app. do 3 right. left.
  by apply list_elem_of_singleton.
Qed.

Lemma in_all_textures_alpha a b :
  brush a = Some b -> ("brush.alpha", alpha b) ∈ all_textures a.
Proof.
  intros H. unfold all_textures. rewrite H, !elem_of_app. do 4 right.
  by apply list_elem_of_singleton.
Qed.

(** Every texture of the new snapshot is found, updated, under the same
    member of the updated asset. *)
Lemma AssetData_update_textures (old new : AssetData) (tag : string) (tn : Texture) :
  (tag, tn) ∈ all_textures new ->
  exists tf,
    (tag, tf) ∈ all_textures (AssetData_update false old new)
    /\ (tf = tn \/ exists to, tf = Texture_update false to tn).
Proof.
  unfold all_textures at 1. rewrite !elem_of_app.
  intros [H | [H | [H | [H | H]]]].
  - destruct (texture new) as [t |] eqn:E; simpl in H; [| by apply elem_of_nil in H].
    apply list_elem_of_singleton in H. injection H as -> ->.
    destruct (update_opt_Some (Texture_update false) (texture old) t)
      as (r & Hu & Hr).
    exists r. split.
    + apply in_all_textures_texture. simpl. by rewrite E.
    + destruct Hr as [Hr | (o & _ & Hr)]; [left | right; exists o]; exact Hr.
  - destruct (model new) as [mn |] eqn:E; simpl in H; [| by apply elem_of_nil in H].
    destruct (model_texture mn) as [t |] eqn:Et; simpl in H;
      [| by apply elem_of_nil in H].
    apply list_elem_of_singleton in H. injection H as -> ->.
    destruct (model old) as [mo |] eqn:Eo.
    + destruct (update_opt_Some (Texture_update false) (model_texture mo) t)
        as (r & Hu & Hr).
      exists r. split.
      * eapply in_all_textures_model.
        -- simpl. rewrite E, Eo. reflexivity.
        -- simpl. by rewrite Et.
      * destruct Hr as [Hr | (o & _ & Hr)]; [left | right; exists o]; exact Hr.
    + exists t. split; [| by left].
      eapply in_all_textures_model.
      * simpl. rewrite E, Eo. reflexivity.
      * exact Et.
  - destruct (hdri new) as [hn |] eqn:E; simpl in H; [| by apply elem_of_nil in H].
    apply list_elem_of_singleton in H. injection H as -> ->.
    destruct (hdri old) as [ho |] eqn:Eo.
    + exists (Texture_update false (bg ho) (bg hn)). split; [| right; by eexists].
      apply (in_all_textures_bg _ (Hdri_update false ho hn)).
      simpl. by rewrite E, Eo.
    + exists (bg hn). split; [| by left].
      apply in_all_textures_bg. simpl. by rewrite E, Eo.
  - destruct (hdri new) as [hn |] eqn:E; simpl in H; [| by apply elem_of_nil in H].
    apply list_elem_of_singleton in H. injection H as -> ->.
    destruct (hdri old) as [ho |] eqn:Eo.
    + exists (Texture_update false (light ho) (light hn)).
      split; [| right; by eexists].
      apply (in_all_textures_light _ (Hdri_update false ho hn)).
      simpl. by rewrite E, Eo.
    + exists (light hn). split; [| by left].
      apply in_all_textures_light. simpl. by rewrite E, Eo.
  - destruct (brush new) as [bn |] eqn:E; simpl in H; [| by apply elem_of_nil in H].
    apply list_elem_of_singleton in H. injection H as -> ->.
    destruct (brush old) as [bo |] eqn:Eo.
    + exists (Texture_update false (alpha bo) (alpha bn)).
      split; [| right; by eexists].
      apply (in_all_textures_alpha _ (Brush_update false bo bn)).
      simpl. by rewrite E, Eo.
    + exists (alpha bn). split; [| by left].
      apply in_all_textures_alpha. simpl. by rewrite E, Eo.
Qed.

(** Modelled [AssetData.update]: in every texture of the asset the maps of
    the new snapshot take precedence, and so do its meshes. *)
Lemma AssetData_update_precedence (old new : AssetData) :
  (forall tag tn, (tag, tn) ∈ all_textures new -> maps_keys_nodup tn) ->
  (forall tag tn w, (tag, tn) ∈ all_textures new ->
     exists tf, (tag, tf) ∈ all_textures (AssetData_update false old new)
                /\ takes_precedence tm_filename (maps_at tn w) (maps_at tf w))
  /\ takes_precedence mm_filename (all_meshes new)
       (all_meshes (AssetData_update false old new)).
Proof.
  intros Hnd. split.
  - intros tag tn w Hin.
    destruct (AssetData_update_textures old new tag tn Hin) as (tf & Hf & Hr).
    exists tf. split; [done |].
    destruct Hr as [-> | (to & ->)].
    + apply takes_precedence_refl.
    + apply Texture_update_precedence. by eapply Hnd.
  - unfold all_meshes, AssetData_update. simpl.
    destruct (model new) as [mn |]; simpl; [| apply takes_precedence_nil].
    destruct (model old) as [mo |]; simpl.
    + destruct (meshes mn) as [ms |]; simpl; [| apply takes_precedence_nil].
      apply merge_files_precedence.
    + apply takes_precedence_refl.
Qed.

Lemma all_textures_with_is_local b a :
  all_textures (with_is_local b a) = all_textures a.
Proof. reflexivity. Qed.

Lemma all_meshes_with_is_local b a :
  all_meshes (with_is_local b a) = all_meshes a.
Proof. reflexivity. Qed.

End AssetUpdatePrecedence.

(** ** Scanning the library directories (asset_index.py) *)

Section ScanDirectory.
Import Py Assets AssetsSpec Index.
Context `{AM : AssetsModule} (walk : Walk).

Lemma _analyze_single_file_nodup path filename workflow_fallback s :
  NoDup (dict_keys (s_texture_maps s)) ->
  NoDup (dict_keys (s_texture_maps
                      (_analyze_single_file path filename workflow_fallback s))).
Proof.
  intros Hnd. unfold _analyze_single_file, add_mesh.
  destruct (Str.splitext filename) as [base suffix].
  repeat (case_match; simpl; try done);
    by apply dict_set_NoDup.
Qed.

Lemma _analyze_files_nodup dir workflow_fallback :
  NoDup (dict_keys (s_texture_maps
                      (_analyze_files walk dir workflow_fallback Scan_empty))).
Proof.
  unfold _analyze_files.
  assert (NoDup (dict_keys (s_texture_maps Scan_empty))) as H0 by apply NoDup_nil_2.
  revert H0. generalize Scan_empty as s.
  induction (walk dir) as [| [[path dirs] files] entries IH]; intros s Hs; simpl.
  - done.
  - apply IH. clear IH. revert s Hs.
    induction (Str.sorted_set files) as [| f fs IHf]; intros s Hs; simpl; [done |].
    apply IHf. by apply _analyze_single_file_nodup.
Qed.

Lemma prepare_update_identity id a dir workflow_fallback :
  let u := (prepare_update walk id a dir workflow_fallback).2 in
  asset_id u = id /\ asset_name u = asset_name a /\ asset_type u = asset_type a.
Proof.
  unfold prepare_update, _prepare_brush_update_asset_data,
    _prepare_hdri_update_asset_data, _prepare_model_update_asset_data,
    _prepare_tex_update_asset_data.
  destruct (asset_type a); simpl; repeat case_match; simplify_eq/=; done.
Qed.

Lemma prepare_update_found id a dir workflow_fallback :
  asset_type a ≠ SUBSTANCE ->
  exists f, (prepare_update walk id a dir workflow_fallback).1 = Some f.
Proof.
  unfold prepare_update. intros Ht.
  destruct (asset_type a); try done; repeat case_match; simplify_eq/=; by eexists.
Qed.

Lemma prepare_update_nodup id a dir workflow_fallback tag t :
  (tag, t) ∈ all_textures (prepare_update walk id a dir workflow_fallback).2 ->
  maps_keys_nodup t.
Proof.
  unfold prepare_update, _prepare_brush_update_asset_data,
    _prepare_hdri_update_asset_data, _prepare_model_update_asset_data,
    _prepare_tex_update_asset_data, maps_keys_nodup.
  pose proof (_analyze_files_nodup dir
                (default workflow_fallback (get_workflow a (Some workflow_fallback))))
    as Hnd.
  destruct (asset_type a); simpl; repeat case_match; simplify_eq/=;
    unfold all_textures; simpl; intros H;
    repeat (apply elem_of_cons in H as [H | H];
            [injection H as -> ->; simpl; try done; try apply NoDup_singleton |]);
    try by apply elem_of_nil in H.
Qed.

Lemma update_from_directory_returns id dir workflow_fallback idx a :
  dict_get id (all_assets idx) = Some a ->
  asset_type a ≠ SUBSTANCE ->
  exists f idx',
    update_from_directory walk id dir workflow_fallback idx = (Returned f, idx')
    /\ dict_get id (all_assets idx')
       = Some (found_local f
                 (AssetData_update false a
                    (prepare_update walk id a dir workflow_fallback).2)).
Proof.
  intros Hget Ht.
  destruct (prepare_update_found id a dir workflow_fallback Ht) as (f & Hf).
  pose proof (prepare_update_identity id a dir workflow_fallback) as (Hi & Hn & Hty).
  unfold update_from_directory. rewrite Hget.
  destruct (prepare_update walk id a dir workflow_fallback) as [ff u] eqn:E.
  simpl in *. subst ff.
  unfold update_asset. rewrite Hget.
  rewrite bool_decide_eq_false_2 by (intros H; by apply H).
  rewrite bool_decide_eq_false_2 by (intros H; by apply H).
  rewrite bool_decide_eq_false_2 by (intros H; by apply H).
  destruct f; simpl.
  - eexists _, _. split; [reflexivity |].
    unfold mark_local, set_assets. simpl.
    rewrite dict_get_set_eq. by rewrite dict_get_set_eq.
  - eexists _, _. split; [reflexivity |].
    unfold set_assets. simpl. by rewrite dict_get_set_eq.
Qed.

Lemma all_assets_capture_message tag idx :
  all_assets (capture_message tag idx) = all_assets idx.
Proof. unfold capture_message. by destruct (reporting_callable idx). Qed.

Lemma remove_matched_assets (matched : list string) (d : list (string * Z)) idx :
  all_assets
    (foldl (fun '(d, idx) asset_name_matched =>
              if dict_mem asset_name_matched d
              then (dict_del asset_name_matched d, idx)
              else (d, capture_message "assetindex_update_local_key_error" idx))
           (d, idx) matched).2
  = all_assets idx.
Proof.
  revert d idx. induction matched as [| m matched IH]; intros d idx; simpl; [done |].
  destruct (dict_mem m d); rewrite IH; [done |]. apply all_assets_capture_message.
Qed.

Lemma found_local_type f a : asset_type (found_local f a) = asset_type a.
Proof. by destruct f. Qed.

Lemma found_local_textures f a : all_textures (found_local f a) = all_textures a.
Proof. by destruct f. Qed.

Lemma found_local_meshes f a : all_meshes (found_local f a) = all_meshes a.
Proof. by destruct f. Qed.

End ScanDirectory.

Section LibraryPriorityScenario.
Import Py Assets AssetsSpec Index SpecAssets.

(** The scenario run: the color map in 4K, found in both libraries, points
    to the primary one; the 2K map of the secondary and the normal map of
    the primary library are both listed. *)
Example library_priority_scenario :
  exists res idx',
    update_all_local_assets walk_two_libraries ["/lib"; "/lib2"] "REGULAR"
      (Some true) index_metal = (Returned res, idx')
    /\ ((fun a => (fun t => maps_at t "REGULAR") <$> texture a)
          <$> dict_get 42 (all_assets idx'))
       = Some (Some
           [mkTextureMap "COL" (Some "2K") None (Some "NONE")
              "Metal001_COL_2K.jpg" "/lib2/Metal001";
            mkTextureMap "COL" (Some "4K") None (Some "NONE")
              "Metal001_COL_4K.jpg" "/lib/Metal001";
            mkTextureMap "NRM" (Some "4K") None (Some "NONE")
              "Metal001_NRM_4K.jpg" "/lib/Metal001"]).
Proof. eexists _, _. split; vm_compute; reflexivity. Qed.

End LibraryPriorityScenario.
(** ** The library directories in their order of priority (asset_index.py) *)

Section ScanInvariant.
Import Py Assets Index Records SpecAssets.
Context `{AM : AssetsModule}.

Lemma _analyze_single_file_ok (seen : string -> string -> Prop)
    (path filename workflow_fallback : string) (s : Scan) :
  seen path filename -> scan_ok seen s ->
  scan_ok seen (_analyze_single_file path filename workflow_fallback s).
Proof.
  intros Hseen (Hm & Hmesh & Hp). unfold _analyze_single_file.
  destruct (Str.splitext filename) as [base suffix] eqn:Es.
  assert (base_of filename = base) as Hb by (unfold base_of; by rewrite Es).
  assert (suffix_of filename = Str.lower suffix) as Hsf
    by (unfold suffix_of; by rewrite Es).
  destruct (existsb _ PREVIEWS) eqn:Epre.
  { split; [done |]. split; [done |]. simpl.
    apply Forall_app. split; [done |]. constructor; [| done].
    unfold is_preview_name. by rewrite Hb. }
  assert (is_preview_name filename = false) as Hnp.
  { unfold is_preview_name. by rewrite Hb. }
  destruct (Str.contains "_SOURCE" base) eqn:Esrc; [done |].
  assert (forall t lod lods sizes variants,
            suffix_of filename = mesh_suffix t ->
            scan_ok seen (add_mesh t lod filename path s lods sizes variants))
    as Hadd.
  { intros t lod lods sizes variants Ht. split; [done |]. split; [| done].
    simpl. apply Forall_app. split; [done |]. constructor; [| done].
    split; [done |]. split; [done |]. split; [done |].
    split; [simpl; by rewrite Hb | simpl; eauto]. }
  case_bool_decide as Himg.
  - destruct (_map_type_from_filename_parts _) as [m w].
    split; [| done]. simpl.
    assert (map_record_ok seen
              (mkTextureMap m
                 (_size_from_filename_parts (Str.split "_" base))
                 (_variant_from_filename_parts (Str.split "_" base))
                 (Some (default "NONE"
                          (_lod_from_filename_parts (Str.split "_" base))))
                 filename path)) as Hrec.
    { split; [done |]. split; [simpl; by rewrite Hsf |]. split; [done |].
      split; [simpl; by rewrite Hb | simpl; eauto]. }
    destruct (dict_get (default workflow_fallback w) (s_texture_maps s))
      as [l |] eqn:El.
    + apply dict_set_Forall; [| done]. simpl. apply Forall_app. split.
      * clear -Hm El. induction Hm as [| [k v] d Hk _ IH]; [done |].
        simpl in El. destruct (decide _); [by simplify_eq | by apply IH].
      * by constructor.
    + apply dict_set_Forall; [| done]. simpl. by constructor.
  - simpl. repeat case_bool_decide; try (apply Hadd; by rewrite Hsf).
    done.
Qed.

Lemma elem_of_insert_sorted (x y : string) (l : list string) :
  x ∈ Str.insert_sorted y l -> x = y \/ x ∈ l.
Proof.
  induction l as [| z l IH]; simpl.
  - intros ?%list_elem_of_singleton. by left.
  - destruct (String.leb y z).
    + intros [-> | ?]%elem_of_cons; [by left | by right].
    + intros [-> | H]%elem_of_cons.
      * right. apply list_elem_of_here.
      * destruct (IH H); [by left | right; by apply list_elem_of_further].
Qed.

Lemma elem_of_sorted_set (x : string) (l : list string) :
  x ∈ Str.sorted_set l -> x ∈ l.
Proof.
  unfold Str.sorted_set. intros H.
  assert (x ∈ remove_dups l) as H'.
  { induction (remove_dups l) as [| y r IH]; simpl in H; [done |].
    apply elem_of_insert_sorted in H as [-> | H].
    - apply list_elem_of_here.
    - apply list_elem_of_further. by apply IH. }
  by apply elem_of_remove_dups.
Qed.

End ScanInvariant.

Section LibraryPriority.
Import Py Assets AssetsSpec Index Records.
Context `{AM : AssetsModule} (walk : Walk).

(** A scan of a directory for one asset leaves the others as they are. *)
Lemma update_from_directory_other (i j : Z) (dir wf : string)
    (idx idx' : AssetIndex) (f : bool) :
  update_from_directory walk i dir wf idx = (Returned f, idx') ->
  j ≠ i ->
  dict_get j (all_assets idx') = dict_get j (all_assets idx).
Proof.
  unfold update_from_directory. intros H Hne.
  destruct (dict_get i (all_assets idx)) as [a |] eqn:Ha; [| done].
  destruct (prepare_update walk i a dir wf) as [ff u].
  unfold update_asset in H. rewrite Ha in H.
  repeat (case_bool_decide; [done |]).
  destruct ff as [[|] |]; simplify_eq; unfold mark_local, set_assets;
    cbn [all_assets].
  - rewrite dict_get_set_eq. by rewrite !dict_get_set_ne.
  - by rewrite dict_get_set_ne.
Qed.

Lemma AssetData_update_identity (old new : AssetData) :
  asset_name (AssetData_update false old new) = asset_name old
  /\ asset_type (AssetData_update false old new) = asset_type old.
Proof. done. Qed.

Lemma found_local_name f a : asset_name (found_local f a) = asset_name a.
Proof. by destruct f. Qed.

(** One visit of a directory that bears the name of a selected asset. *)
Lemma visit_selected (names : list (string * Z)) (d dir wf : string) (i : Z)
    (idx : AssetIndex) :
  selected_ok names idx ->
  dict_get d names = Some i ->
  exists f idx' a,
    dict_get i (all_assets idx) = Some a
    /\ update_from_directory walk i dir wf idx = (Returned f, idx')
    /\ dict_get i (all_assets idx')
       = Some (found_local f
                 (AssetData_update false a (prepare_update walk i a dir wf).2))
    /\ (forall j, j ≠ i ->
          dict_get j (all_assets idx') = dict_get j (all_assets idx))
    /\ selected_ok names idx'.
Proof.
  intros Hok Hd. destruct (Hok d i Hd) as (a & Ha & Hname & Htype).
  destruct (update_from_directory_returns walk i dir wf idx a Ha Htype)
    as (f & idx' & Hu & Hget).
  exists f, idx', a. split; [done |]. split; [done |]. split; [done |].
  assert (forall j, j ≠ i ->
            dict_get j (all_assets idx') = dict_get j (all_assets idx)) as Hoth.
  { intros j Hj. by eapply update_from_directory_other. }
  split; [done |].
  intros n' i' Hn'. destruct (Hok n' i' Hn') as (a' & Ha' & Hname' & Htype').
  destruct (decide (i' = i)) as [-> | Hne].
  - eexists. split; [exact Hget |].
    rewrite found_local_name, found_local_type. simpl.
    by simplify_eq.
  - exists a'. by rewrite Hoth.
Qed.

Section OneAsset.
Variables (names : list (string * Z)) (wf : string) (n : string) (id : Z).
Hypothesis Hn : dict_get n names = Some id.

(** Another name is another asset. *)
Lemma selected_other (idx : AssetIndex) (d : string) (i : Z) :
  selected_ok names idx -> dict_get d names = Some i -> d ≠ n -> i ≠ id.
Proof.
  intros Hok Hd Hne ->.
  destruct (Hok d id Hd) as (a & Ha & Hname & _).
  destruct (Hok n id Hn) as (a' & Ha' & Hname' & _).
  by simplify_eq.
Qed.

Lemma scan_directories_app (lib path : string) (l1 l2 : list string)
    (r : Reconcile) :
  scan_directories walk names wf lib path (l1 ++ l2) r
  = match scan_directories walk names wf lib path l1 r with
    | (Raised e, r1) => (Raised e, r1)
    | (Returned _, r1) => scan_directories walk names wf lib path l2 r1
    end.
Proof.
  revert r. induction l1 as [| d l1 IH]; intros r; simpl; [done |].
  destruct (dict_get d names) as [i |]; [| apply IH].
  destruct (update_from_directory walk i _ wf (r_index r)) as [[e | f] idx'];
    [done | apply IH].
Qed.

(** The directories of one place of a walk: the scan returns, keeps the
    selected assets as they have to be, and leaves the asset as it is when
    none of the directories bears its name. *)
Lemma scan_directories_ok (lib path : string) (dirs : list string)
    (r : Reconcile) :
  selected_ok names (r_index r) ->
  exists r',
    scan_directories walk names wf lib path dirs r = (Returned (), r')
    /\ selected_ok names (r_index r')
    /\ (n ∉ dirs ->
          dict_get id (all_assets (r_index r'))
          = dict_get id (all_assets (r_index r))).
Proof.
  revert r. induction dirs as [| d dirs IH]; intros r Hok; simpl.
  - by exists r.
  - destruct (dict_get d names) as [i |] eqn:Hd.
    + destruct (visit_selected names d (Os.path_join path d) wf i (r_index r)
                  Hok Hd) as (f & idx' & a & _ & -> & _ & Hoth & Hok').
      destruct (IH (mkReconcile idx'
                      (if f && negb (py_in d (matched_assets r))
                       then matched_assets r ++ [d] else matched_assets r)
                      (unmatched_directories r)) Hok')
        as (r' & -> & Hok'' & Hkeep).
      exists r'. split; [done |]. split; [done |].
      intros [Hne Hnot]%not_elem_of_cons. rewrite (Hkeep Hnot). cbn [r_index].
      apply Hoth. apply not_eq_sym.
      eapply (selected_other (r_index r) d i); [done | done | congruence].
    + destruct (IH (mkReconcile (r_index r) (matched_assets r)
                      (if bool_decide (Os.path_join path d ≠ lib)
                       then unmatched_directories r ++ [Os.path_join path d]
                       else unmatched_directories r)) Hok)
        as (r' & -> & Hok'' & Hkeep).
      exists r'. split; [done |]. split; [done |].
      intros [Hne Hnot]%not_elem_of_cons. by rewrite (Hkeep Hnot).
Qed.

(** The last directory of the asset's name among those of one place. *)
Lemma scan_directories_last (lib path : string) (ds_b ds_a : list string)
    (r : Reconcile) :
  selected_ok names (r_index r) ->
  n ∉ ds_a ->
  exists r' a_prev f,
    scan_directories walk names wf lib path (ds_b ++ n :: ds_a) r
      = (Returned (), r')
    /\ selected_ok names (r_index r')
    /\ dict_get id (all_assets (r_index r'))
       = Some (found_local f
                 (AssetData_update false a_prev
                    (prepare_update walk id a_prev (Os.path_join path n)
                       wf).2)).
Proof.
  intros Hok Hnot. rewrite scan_directories_app.
  destruct (scan_directories_ok lib path ds_b r Hok) as (r1 & -> & Hok1 & _).
  simpl. rewrite Hn.
  destruct (visit_selected names n (Os.path_join path n) wf id (r_index r1)
              Hok1 Hn) as (f & idx' & a & _ & -> & Hget & _ & Hok').
  destruct (scan_directories_ok lib path ds_a
              (mkReconcile idx'
                 (if f && negb (py_in n (matched_assets r1))
                  then matched_assets r1 ++ [n] else matched_assets r1)
                 (unmatched_directories r1)) Hok')
    as (r' & -> & Hok'' & Hkeep).
  exists r', a, f. split; [done |]. split; [done |].
  by rewrite (Hkeep Hnot).
Qed.

Lemma scan_walk_app (lib : string)
    (l1 l2 : list (string * list string * list string)) (r : Reconcile) :
  scan_walk walk names wf lib (l1 ++ l2) r
  = match scan_walk walk names wf lib l1 r with
    | (Raised e, r1) => (Raised e, r1)
    | (Returned _, r1) => scan_walk walk names wf lib l2 r1
    end.
Proof.
  revert r. induction l1 as [| [[path dirs] files] l1 IH]; intros r; simpl;
    [done |].
  destruct (scan_directories walk names wf lib path dirs r) as [[e | []] r1];
    [done | apply IH].
Qed.

Lemma scan_walk_ok (lib : string)
    (entries : list (string * list string * list string)) (r : Reconcile) :
  selected_ok names (r_index r) ->
  exists r',
    scan_walk walk names wf lib entries r = (Returned (), r')
    /\ selected_ok names (r_index r')
    /\ (Forall (fun e => n ∉ e.1.2) entries ->
          dict_get id (all_assets (r_index r'))
          = dict_get id (all_assets (r_index r))).
Proof.
  revert r. induction entries as [| [[path dirs] files] entries IH];
    intros r Hok; simpl.
  - by exists r.
  - destruct (scan_directories_ok lib path dirs r Hok)
      as (r1 & -> & Hok1 & Hkeep1).
    destruct (IH r1 Hok1) as (r' & -> & Hok' & Hkeep).
    exists r'. split; [done |]. split; [done |].
    intros [Hd He]%Forall_cons. rewrite (Hkeep He). by apply Hkeep1.
Qed.

Lemma scan_walk_last (lib path : string) (ds_b ds_a files : list string)
    (before after : list (string * list string * list string))
    (r : Reconcile) :
  selected_ok names (r_index r) ->
  n ∉ ds_a ->
  Forall (fun e => n ∉ e.1.2) after ->
  exists r' a_prev f,
    scan_walk walk names wf lib
      (before ++ (path, ds_b ++ n :: ds_a, files) :: after) r
      = (Returned (), r')
    /\ selected_ok names (r_index r')
    /\ dict_get id (all_assets (r_index r'))
       = Some (found_local f
                 (AssetData_update false a_prev
                    (prepare_update walk id a_prev (Os.path_join path n)
                       wf).2)).
Proof.
  intros Hok Hnot Hafter. rewrite scan_walk_app.
  destruct (scan_walk_ok lib before r Hok) as (r1 & -> & Hok1 & _).
  simpl.
  destruct (scan_directories_last lib path ds_b ds_a r1 Hok1 Hnot)
    as (r2 & a_prev & f & -> & Hok2 & Hget).
  destruct (scan_walk_ok lib after r2 Hok2) as (r' & -> & Hok' & Hkeep).
  exists r', a_prev, f. split; [done |]. split; [done |].
  by rewrite (Hkeep Hafter).
Qed.

Lemma scan_libraries_app (l1 l2 : list string) (r : Reconcile) :
  scan_libraries walk names wf (l1 ++ l2) r
  = match scan_libraries walk names wf l1 r with
    | (Raised e, r1) => (Raised e, r1)
    | (Returned _, r1) => scan_libraries walk names wf l2 r1
    end.
Proof.
  revert r. induction l1 as [| lib l1 IH]; intros r; simpl; [done |].
  destruct (scan_walk walk names wf lib (walk lib) r) as [[e | []] r1];
    [done | apply IH].
Qed.

Lemma scan_libraries_ok (libs : list string) (r : Reconcile) :
  selected_ok names (r_index r) ->
  exists r',
    scan_libraries walk names wf libs r = (Returned (), r')
    /\ selected_ok names (r_index r')
    /\ (Forall (holds_no walk n) libs ->
          dict_get id (all_assets (r_index r'))
          = dict_get id (all_assets (r_index r))).
Proof.
  revert r. induction libs as [| lib libs IH]; intros r Hok; simpl.
  - by exists r.
  - destruct (scan_walk_ok lib (walk lib) r Hok) as (r1 & -> & Hok1 & Hkeep1).
    destruct (IH r1 Hok1) as (r' & -> & Hok' & Hkeep).
    exists r'. split; [done |]. split; [done |].
    intros [Hd He]%Forall_cons. rewrite (Hkeep He). by apply Hkeep1.
Qed.

End OneAsset.
End LibraryPriority.

Section SelectedAssets.
Import Py Assets AssetsSpec Index Records.
Context `{AM : AssetsModule}.

Lemma asset_name_dict_of_inv (ids : list Z) (idx : AssetIndex)
    (acc names : list (string * Z)) :
  asset_name_dict_of ids idx acc = Returned names ->
  forall n i, dict_get n names = Some i ->
    dict_get n acc = Some i
    \/ (i ∈ ids /\ exists a, dict_get i (all_assets idx) = Some a
                             /\ asset_name a = n).
Proof.
  revert acc. induction ids as [| j ids IH]; intros acc H n i Hn; simpl in H.
  - simplify_eq. by left.
  - destruct (dict_get j (all_assets idx)) as [a |] eqn:Ha; [| done].
    simpl in H. destruct (IH _ H n i Hn) as [Hacc | [Hin Hex]].
    + destruct (decide (asset_name a = n)) as [<- | Hne].
      * rewrite dict_get_set_eq in Hacc. simplify_eq. right.
        split; [apply list_elem_of_here | by exists a].
      * rewrite dict_get_set_ne in Hacc by done. by left.
    + right. split; [by apply list_elem_of_further | done].
Qed.

Lemma clear_is_local_inv (ids : list Z) (idx idx1 : AssetIndex) :
  clear_is_local ids idx = (Returned (), idx1) ->
  forall j a, dict_get j (all_assets idx) = Some a ->
    exists a1, dict_get j (all_assets idx1) = Some a1
               /\ asset_name a1 = asset_name a
               /\ asset_type a1 = asset_type a.
Proof.
  revert idx. induction ids as [| i ids IH]; intros idx H j a Ha; simpl in H.
  - simplify_eq. by exists a.
  - unfold get_asset in H.
    destruct (dict_get i (all_assets idx)) as [b |] eqn:Hb; [| done].
    destruct (decide (j = i)) as [-> | Hne].
    + assert (b = a) as -> by congruence.
      destruct (IH _ H i (with_is_local (Some false) a)) as (a1 & ? & ? & ?).
      { cbn. apply dict_get_set_eq. }
      by exists a1.
    + apply (IH _ H). cbn. by rewrite dict_get_set_ne.
Qed.

(** What [select_assets] selects is in the index it leaves, under the
    name it was selected by. *)
Lemma select_assets_selected (purchased : option bool)
    (idx idx1 : AssetIndex) (names : list (string * Z)) :
  select_assets purchased idx = (Returned names, idx1) ->
  (forall n i a, dict_get n names = Some i ->
     dict_get i (all_assets idx) = Some a -> asset_type a ≠ SUBSTANCE) ->
  selected_ok names idx1.
Proof.
  unfold select_assets. intros H Hsub.
  destruct (get_asset_id_list None purchased idx) as [e | ids]; [done |].
  destruct (asset_name_dict_of ids idx []) as [e | names'] eqn:En; [done |].
  destruct (clear_is_local ids idx) as [[e | []] idx'] eqn:Ec; [done |].
  simplify_eq. intros n i Hn.
  destruct (asset_name_dict_of_inv _ _ _ _ En n i Hn)
    as [? | (_ & a & Ha & Hname)]; [done |].
  destruct (clear_is_local_inv _ _ _ Ec i a Ha) as (a1 & Ha1 & Hn1 & Ht1).
  exists a1. split; [done |]. split; [congruence |].
  rewrite Ht1. by eapply Hsub.
Qed.
End SelectedAssets.

Section ScanContent.
Import Py Assets AssetsSpec Index Records.
Context `{AM : AssetsModule} (walk : Walk).

Lemma elem_of_insert_sorted_2 (x y : string) (l : list string) :
  x = y \/ x ∈ l -> x ∈ Str.insert_sorted y l.
Proof.
  induction l as [| z l IH]; simpl.
  - intros [-> | []%elem_of_nil]. apply list_elem_of_here.
  - destruct (String.leb y z).
    + intros [-> | H]; [apply list_elem_of_here | by apply list_elem_of_further].
    + intros [-> | [-> | H]%elem_of_cons].
      * apply list_elem_of_further, IH. by left.
      * apply list_elem_of_here.
      * apply list_elem_of_further, IH. by right.
Qed.

Lemma elem_of_sorted_set_2 (x : string) (l : list string) :
  x ∈ l -> x ∈ Str.sorted_set l.
Proof.
  unfold Str.sorted_set. intros H. apply elem_of_remove_dups in H.
  induction (remove_dups l) as [| y r IH]; simpl; [done |].
  apply elem_of_insert_sorted_2.
  apply elem_of_cons in H as [-> | H]; [by left | right; by apply IH].
Qed.

(** A record made is kept by what is scanned afterwards. *)
Lemma _analyze_single_file_keeps (path filename wf p f : string) (s : Scan) :
  recorded s p f -> recorded (_analyze_single_file path filename wf s) p f.
Proof.
  intros (w & l & m & Hl & Hm & Hf & Hp). unfold _analyze_single_file, add_mesh.
  destruct (Str.splitext filename) as [base suffix].
  destruct (existsb _ PREVIEWS); [by exists w, l, m |].
  destruct (Str.contains "_SOURCE" base); [by exists w, l, m |].
  case_bool_decide.
  - destruct (_map_type_from_filename_parts _) as [mt wfile].
    cbn [s_texture_maps].
    set (w' := default wf wfile).
    destruct (decide (w = w')) as [-> | Hne].
    + unfold recorded. cbn [s_texture_maps]. rewrite Hl.
      eexists w', _, m. rewrite dict_get_set_eq.
      split; [done |]. split; [| done]. apply elem_of_app. by left.
    + unfold recorded. cbn [s_texture_maps].
      destruct (dict_get w' (s_texture_maps s)); exists w, l, m;
        by rewrite dict_get_set_ne.
  - repeat case_bool_decide; by exists w, l, m.
Qed.

(** A map file is recorded with its name and its directory. *)
Lemma _analyze_single_file_records (path filename wf : string) (s : Scan) :
  is_map_file filename = true ->
  recorded (_analyze_single_file path filename wf s) path filename.
Proof.
  unfold is_map_file, is_preview_name, base_of, suffix_of, _analyze_single_file.
  destruct (Str.splitext filename) as [base suffix]. cbn [fst snd].
  intros [[Hp Hs]%andb_true_iff Hi]%andb_true_iff.
  apply negb_true_iff in Hp, Hs. apply bool_decide_eq_true in Hi.
  rewrite Hp, Hs. rewrite bool_decide_eq_true_2 by done.
  destruct (_map_type_from_filename_parts _) as [mt wfile].
  unfold recorded. cbn [s_texture_maps]. set (w' := default wf wfile).
  destruct (dict_get w' (s_texture_maps s)) as [l |];
    eexists w', _, _; rewrite dict_get_set_eq; (split; [done |]).
  - split; [apply elem_of_app; right; apply list_elem_of_here | done].
  - split; [apply list_elem_of_here | done].
Qed.

Lemma _analyze_files_records (dir wf p f : string) :
  walked walk dir p f -> is_map_file f = true ->
  recorded (_analyze_files walk dir wf Scan_empty) p f.
Proof.
  intros (dirs & files & Hin & Hf) Hmap. unfold _analyze_files.
  generalize Scan_empty as s. revert Hin.
  induction (walk dir) as [| [[path ds] fs] entries IH]; intros Hin s;
    [by apply elem_of_nil in Hin |].
  assert (forall (entries' : list (string * list string * list string)) s0,
            recorded s0 p f ->
            recorded
              (foldl (fun s '(path, _, files) =>
                        foldl (fun s file =>
                                 _analyze_single_file path file wf s)
                              s (Str.sorted_set files))
                     s0 entries') p f) as Hkeep.
  { induction entries' as [| [[path' ds'] fs'] entries' IH']; intros s0 H0;
      simpl; [done |].
    apply IH'. revert s0 H0.
    induction (Str.sorted_set fs') as [| g gs IHg]; intros s0 H0; simpl;
      [done |].
    apply IHg. by apply _analyze_single_file_keeps. }
  apply elem_of_cons in Hin as [Heq | Hin].
  - injection Heq as <- <- <-. simpl. apply Hkeep.
    apply elem_of_sorted_set_2 in Hf. revert s.
    induction (Str.sorted_set files) as [| g gs IHg]; intros s;
      [by apply elem_of_nil in Hf |].
    simpl. apply elem_of_cons in Hf as [<- | Hf].
    + assert (forall gs' s0, recorded s0 p f ->
                recorded (foldl (fun s file =>
                                   _analyze_single_file p file wf s) s0 gs')
                         p f) as Hk2.
      { induction gs' as [| h hs IHh]; intros s0 H0; simpl; [done |].
        apply IHh. by apply _analyze_single_file_keeps. }
      apply Hk2. by apply _analyze_single_file_records.
    + by apply IHg.
  - simpl. by apply IH.
Qed.

(** Every record of the scan is a file the walk came by. *)
Lemma _analyze_files_walked (dir wf : string) :
  scan_ok (walked walk dir) (_analyze_files walk dir wf Scan_empty).
Proof.
  unfold _analyze_files.
  assert (forall entries s,
            (forall e, e ∈ entries -> e ∈ walk dir) ->
            scan_ok (walked walk dir) s ->
            scan_ok (walked walk dir)
              (foldl (fun s '(path, _, files) =>
                        foldl (fun s file =>
                                 _analyze_single_file path file wf s)
                              s (Str.sorted_set files))
                     s entries)) as H.
  { induction entries as [| [[path dirs] files] entries IH]; intros s Hin Hs;
      simpl; [done |].
    apply IH; [intros e He; by apply Hin, list_elem_of_further |].
    assert (forall fs s0,
              (forall f, f ∈ fs -> f ∈ files) ->
              scan_ok (walked walk dir) s0 ->
              scan_ok (walked walk dir)
                (foldl (fun s file => _analyze_single_file path file wf s)
                       s0 fs)) as Hfiles.
    { induction fs as [| f fs IHf]; intros s0 Hfs Hs0; simpl; [done |].
      apply IHf; [intros g Hg; by apply Hfs, list_elem_of_further |].
      apply _analyze_single_file_ok; [| done].
      exists dirs, files. split.
      - apply Hin, list_elem_of_here.
      - apply Hfs, list_elem_of_here. }
    apply Hfiles; [| done]. intros f. apply elem_of_sorted_set. }
  apply H; [done |]. by repeat split.
Qed.

(** For a texture or a model the update prepared holds, under one of its
    textures, all texture maps of the scan, when there is one. *)
Lemma prepare_update_maps (id : Z) (a : AssetData) (dir wf : string) :
  asset_type a = TEXTURE \/ asset_type a = MODEL ->
  let s := _analyze_files walk dir
             (default wf (get_workflow a (Some wf))) Scan_empty in
  s_texture_maps s ≠ [] ->
  exists tag tn,
    (tag, tn) ∈ all_textures (prepare_update walk id a dir wf).2
    /\ maps tn = Some (s_texture_maps s).
Proof.
  intros Ht s Hne. unfold prepare_update. fold s.
  destruct Ht as [-> | ->]; cbn [snd].
  - unfold _prepare_tex_update_asset_data. cbn [snd].
    eexists "texture", _. split.
    + apply in_all_textures_texture. reflexivity.
    + reflexivity.
  - unfold _prepare_model_update_asset_data.
    rewrite bool_decide_eq_true_2 by done. cbn [negb snd].
    eexists "model.texture", _. split.
    + eapply in_all_textures_model; reflexivity.
    + reflexivity.
Qed.
End ScanContent.

Section PrimaryLast.
Import Py Assets AssetsSpec Index Records.
Context `{AM : AssetsModule} (walk : Walk).

Lemma dict_get_Some_elem {K V} `{EqDecision K} (k : K) (v : V)
    (d : list (K * V)) :
  dict_get k d = Some v -> (k, v) ∈ d.
Proof.
  induction d as [| [k' v'] d IH]; simpl; [done |].
  destruct (decide (k = k')) as [-> | Hne].
  - intros [= ->]. apply list_elem_of_here.
  - intros H. by apply list_elem_of_further, IH.
Qed.

End PrimaryLast.

Section LibraryPriorityGeneral.
Import Py Assets AssetsSpec Index Records SpecAssets.


End LibraryPriorityGeneral.


(** * Further properties of the code

    ** The worker of one file: [download_asset_file] *)

Section DownloadFileMore.
Import Os Api SpecAssets.

(** Streaming changes the byte count and, on a cancel, the status of a
    unit, and nothing else of it. *)
Lemma stream_loop_unit (p : string) (events : list StreamEvent)
    (d : FileDownload) (w : World) f d1 w1 :
  stream_loop p events d w = (f, d1, w1) ->
  asset_id d1 = asset_id d /\ url d1 = url d /\ filename d1 = filename d
  /\ directory d1 = directory d /\ size_expected d1 = size_expected d
  /\ fut d1 = fut d /\ retries d1 = retries d /\ error d1 = error d.
Proof.
  revert d w. induction events as [| e events IH]; intros d w H; simpl in H.
  - by simplify_eq.
  - destruct e as [n | | | x].
    + case_bool_decide.
      * by simplify_eq.
      * apply IH in H. simpl in H. exact H.
    + by apply IH in H.
    + apply IH in H. unfold set_status_cancelled in H.
      by destruct (negb _ && negb _).
    + by simplify_eq.
Qed.

(** While a file is streamed the bytes on disk are the bytes counted. *)
Lemma stream_loop_bytes (p : string) (events : list StreamEvent)
    (d : FileDownload) (w : World) f d1 w1 :
  stream_loop p events d w = (f, d1, w1) ->
  files w !! p = Some (size_downloaded d) ->
  files w1 !! p = Some (size_downloaded d1).
Proof.
  revert d w. induction events as [| e events IH]; intros d w H Hp; simpl in H.
  - by simplify_eq.
  - destruct e as [n | | | x].
    + assert (files (append p (Z.of_nat n) w) !! p
              = Some (size_downloaded d + Z.of_nat n)) as Hq.
      { unfold append, set_files, getsize. simpl. rewrite lookup_insert_eq, Hp.
        reflexivity. }
      case_bool_decide.
      * by simplify_eq.
      * apply IH in H; [exact H | exact Hq].
    + by apply IH in H.
    + apply IH in H; [exact H |]. unfold set_status_cancelled.
      by destruct (negb _ && negb _).
    + by simplify_eq.
Qed.
End DownloadFileMore.

Section DownloadFileOutcome.
Import Os Api Units SpecAssets.

Lemma fault_response_shape asset d f w :
  ok (fault_response asset d f w).1 = false
  /\ is_Some (resp_error (fault_response asset d f w).1)
  /\ files (fault_response asset d f w).2 = files w
  /\ locked (fault_response asset d f w).2 = locked w
  /\ requests (fault_response asset d f w).2 = requests w.
Proof. destruct f; simpl; repeat split; eauto. Qed.

(** What an answer of [download_asset_file] says of the unit. *)
Lemma download_asset_file_answer (net : Network) (d : FileDownload) (w : World) :
  let '(resp, d', _) := download_asset_file net d w in
  (ok resp = true <-> status d' = DONE)
  /\ (ok resp = true ->
      resp_error resp = None /\ size_downloaded d' = size_expected d)
  /\ (ok resp = false ->
      is_Some (resp_error resp)
      /\ (status d' = ERROR \/ (status d = CANCELLED /\ d' = d)))
  /\ asset_id d' = asset_id d /\ url d' = url d /\ filename d' = filename d
  /\ directory d' = directory d /\ size_expected d' = size_expected d.
Proof.
  unfold download_asset_file.
  destruct (check_exist_and_finished _ d w || check_exist_and_finished _ d w).
  { simpl. repeat split; try done. }
  destruct (net (url d)) as [err | | n events].
  { simpl. repeat split; try done; eauto. }
  { simpl. repeat split; try done; eauto. }
  unfold set_status_ongoing. case_bool_decide as Hc; simpl.
  2: { repeat split; try done; eauto.
       intros E. by rewrite Hc in E. }
  set (d0 := with_size_downloaded 0 (with_status ONGOING d)).
  set (w0 := log_request (url d) w).
  assert (exists f d1 w1,
    match open_wb (get_path d true) w0 with
    | inl _ => (Some OSError_EACCES, d0, w0)
    | inr w2 => stream_loop (get_path d true) events d0 w2
    end = (f, d1, w1)
    /\ asset_id d1 = asset_id d /\ url d1 = url d /\ filename d1 = filename d
    /\ directory d1 = directory d /\ size_expected d1 = size_expected d)
    as (f & d1 & w1 & -> & Ha & Hu & Hf & Hd & Hs).
  { destruct (open_wb _ w0) as [e | w2].
    - eexists _, _, _. split; [reflexivity | done].
    - destruct (stream_loop (get_path d true) events d0 w2) as [[f d1] w1] eqn:E.
      eexists _, _, _. split; [reflexivity |].
      apply stream_loop_unit in E as (? & ? & ? & ? & ? & _). done. }
  destruct f as [f |].
  - destruct (fault_response_shape (asset_id d) (set_status_error d1) f
                (delete_file (get_path d true) w1)) as (Hok & Herr & _).
    destruct (fault_response _ _ f _) as [resp w'] eqn:E. simpl in *.
    rewrite Hok. split; [split; intros; done |].
    split; [intros; done |]. split; [eauto | done].
  - destruct (bool_decide (size_expected d1 = size_downloaded d1)
              && bool_decide (size_downloaded d1 = n)) eqn:E; simpl.
    + apply andb_true_iff in E as [E1 E2].
      apply bool_decide_eq_true in E1.
      split; [done |]. split; [intros _; split; [done | congruence] |].
      split; [intros; done | done].
    + split; [split; intros; done |]. split; [intros; done |].
      split; [eauto | done].
Qed.


(** X2: [download_asset_file] touches no file but the unit's temporary
    file: every other path, the file under the final name among them, holds
    what it held before; and it asks for at most one stream, that of the
    unit's url. *)
Theorem X2_download_touches_temp_only (net : Network) (d : FileDownload) (w : World) :
  let '(_, _, w') := download_asset_file net d w in
  locked w' = locked w
  /\ (forall q, q ≠ get_path d true -> files w' !! q = files w !! q)
  /\ files w' !! get_path d false = files w !! get_path d false
  /\ (requests w' = requests w \/ requests w' = url d :: requests w).
Proof.
  assert (forall w' : World,
    locked w' = locked w
    /\ (forall q, q ≠ get_path d true -> files w' !! q = files w !! q)
    /\ (requests w' = requests w \/ requests w' = url d :: requests w) ->
    locked w' = locked w
    /\ (forall q, q ≠ get_path d true -> files w' !! q = files w !! q)
    /\ files w' !! get_path d false = files w !! get_path d false
    /\ (requests w' = requests w \/ requests w' = url d :: requests w)) as Hfinal.
  { intros w' (H1 & H2 & H3). repeat split; try done.
    apply H2. intros E. by apply (get_path_temp_ne d). }
  unfold download_asset_file.
  destruct (check_exist_and_finished _ d w || check_exist_and_finished _ d w).
  { apply Hfinal. repeat split; eauto. }
  set (w0 := log_request (url d) w).
  assert (locked w0 = locked w
          /\ (forall q, q ≠ get_path d true -> files w0 !! q = files w !! q)
          /\ (requests w0 = requests w \/ requests w0 = url d :: requests w))
    as Hw0.
  { repeat split; eauto. }
  destruct (net (url d)) as [err | | n events].
  { by apply Hfinal. }
  { by apply Hfinal. }
  unfold set_status_ongoing. case_bool_decide as Hc.
  2: { by apply Hfinal. }
  set (d0 := with_size_downloaded 0 (with_status ONGOING d)).
  assert (exists f d1 w1,
    match open_wb (get_path d true) w0 with
    | inl _ => (Some OSError_EACCES, d0, w0)
    | inr w2 => stream_loop (get_path d true) events d0 w2
    end = (f, d1, w1)
    /\ locked w1 = locked w
    /\ requests w1 = url d :: requests w
    /\ (forall q, q ≠ get_path d true -> files w1 !! q = files w !! q))
    as (f & d1 & w1 & -> & Hl & Hr & Hq).
  { destruct (open_wb _ w0) as [e | w2] eqn:Eo.
    - eexists _, _, _. split; [reflexivity | done].
    - destruct (stream_loop (get_path d true) events d0 w2) as [[f d1] w1] eqn:E.
      eexists _, _, _. split; [reflexivity |].
      apply open_wb_inr in Eo as [_ ->].
      apply stream_loop_frame in E as (E1 & E2 & _ & E4).
      repeat split; try done.
      intros q Hne. rewrite E4 by done. simpl. by rewrite lookup_insert_ne. }
  assert (locked (delete_file (get_path d true) w1) = locked w
          /\ (forall q, q ≠ get_path d true ->
                files (delete_file (get_path d true) w1) !! q = files w !! q)
          /\ requests (delete_file (get_path d true) w1) = url d :: requests w)
    as (D1 & D2 & D3).
  { destruct (delete_file_frame (get_path d true) w1) as (D1 & D2 & D3).
    repeat split; [congruence | | congruence].
    intros q Hne. rewrite D3 by done. by apply Hq. }
  destruct f as [f |].
  - destruct (fault_response_shape (asset_id d0) (set_status_error d1) f
                (delete_file (get_path d true) w1)) as (_ & _ & F1 & F2 & F3).
    destruct (fault_response _ _ f _) as [resp w'] eqn:E.
    cbn [fst snd] in F1, F2, F3.
    apply Hfinal. repeat split; [congruence | | right; congruence].
    intros q Hne. rewrite F1. by apply D2.
  - destruct (bool_decide (size_expected d1 = size_downloaded d1)
              && bool_decide (size_downloaded d1 = n)).
    + apply Hfinal. repeat split; eauto.
    + apply Hfinal. repeat split; eauto.
Qed.

End DownloadFileOutcome.

Section DownloadFileAgain.
Import Os Api SpecAssets.

(** What [download_asset_file] does once it holds a stream for a unit that
    is not cancelled: it opens the temporary file, streams, and answers by
    how the stream ended. *)
Lemma download_asset_file_stream (net : Network) (d : FileDownload) (w : World)
    (n : Z) (events : list StreamEvent) :
  check_exist_and_finished (get_path d true) d w
  || check_exist_and_finished (get_path d false) d w = false ->
  net (url d) = ReqStream n events ->
  status d ≠ CANCELLED ->
  exists f d1 w1,
    match open_wb (get_path d true) (log_request (url d) w) with
    | inl _ => (Some OSError_EACCES, with_size_downloaded 0 (with_status ONGOING d),
                log_request (url d) w)
    | inr w2 => stream_loop (get_path d true) events
                  (with_size_downloaded 0 (with_status ONGOING d)) w2
    end = (f, d1, w1)
    /\ locked w1 = locked w
    /\ (get_path d true ∉ locked w -> f = None ->
        files w1 !! get_path d true = Some (size_downloaded d1))
    /\ size_expected d1 = size_expected d
    /\ directory d1 = directory d /\ filename d1 = filename d
    /\ download_asset_file net d w =
       match f with
       | Some x =>
           let '(resp, w') :=
             fault_response (asset_id d) (set_status_error d1) x
               (delete_file (get_path d true) w1) in
           (resp, set_status_error d1, w')
       | None =>
           if bool_decide (size_expected d1 = size_downloaded d1)
              && bool_decide (size_downloaded d1 = n)
           then (mkResp BodyDownload true None, set_status_done d1, w1)
           else (mkResp BodyError false
                   (Some (ErrText (if bool_decide (status d1 = CANCELLED)
                                   then ERR_USER_CANCEL_MSG
                                   else ERR_FILESIZE_MISMATCH))),
                 set_status_error d1, delete_file (get_path d true) w1)
       end.
Proof.
  intros Hex Hnet Hc.
  set (d0 := with_size_downloaded 0 (with_status ONGOING d)).
  set (w0 := log_request (url d) w).
  destruct (match open_wb (get_path d true) w0 with
            | inl _ => (Some OSError_EACCES, d0, w0)
            | inr w2 => stream_loop (get_path d true) events d0 w2
            end) as [[f d1] w1] eqn:E.
  exists f, d1, w1. split; [reflexivity |].
  assert (locked w1 = locked w
          /\ (get_path d true ∉ locked w -> f = None ->
              files w1 !! get_path d true = Some (size_downloaded d1))
          /\ size_expected d1 = size_expected d
          /\ directory d1 = directory d /\ filename d1 = filename d)
    as (H1 & H2 & H3 & H4 & H5).
  { destruct (open_wb (get_path d true) w0) as [e | w2] eqn:Eo.
    - simplify_eq. repeat split; done.
    - apply open_wb_inr in Eo as [Hl ->].
      pose proof (stream_loop_frame _ _ _ _ _ _ _ E) as (F1 & _ & _ & _).
      pose proof (stream_loop_unit _ _ _ _ _ _ _ E) as (_ & _ & U3 & U4 & U5 & _).
      repeat split; try done.
      intros _ _. eapply stream_loop_bytes; [exact E |].
      simpl. by rewrite lookup_insert_eq. }
  repeat split; try done.
  unfold download_asset_file. rewrite Hex, Hnet.
  unfold set_status_ongoing. rewrite bool_decide_eq_true_2 by done.
  fold d0 w0. rewrite E.
  destruct f as [x |]; [reflexivity |].
  by destruct (bool_decide (size_expected d1 = size_downloaded d1)
               && bool_decide (size_downloaded d1 = n)).
Qed.

Lemma set_status_done_id (d : FileDownload) :
  status d = DONE -> size_downloaded d = size_expected d ->
  with_size_downloaded (size_expected (set_status_done d)) (set_status_done d) = d.
Proof. destruct d. simpl. intros -> ->. reflexivity. Qed.

(** X3: a download that was answered ok is recognised as complete by the
    next call for the same unit: a file of exactly [size_expected] bytes is
    on disk under the temporary or the final name, and calling
    [download_asset_file] again, with any network, answers ok at once and
    leaves the unit and the files as they are. *)
Theorem X3_completed_download_recognised (net net' : Network)
    (d d' : FileDownload) (w w' : World) (resp : ApiResponse) :
  download_asset_file net d w = (resp, d', w') ->
  ok resp = true ->
  (files w' !! get_path d' true = Some (size_expected d')
   \/ files w' !! get_path d' false = Some (size_expected d'))
  /\ download_asset_file net' d' w' = (mkResp BodyDownload true None, d', w').
Proof.
  intros H Hok.
  assert ((files w' !! get_path d' true = Some (size_expected d')
           \/ files w' !! get_path d' false = Some (size_expected d'))
          /\ status d' = DONE /\ size_downloaded d' = size_expected d')
    as (Hfile & Hst & Hsd).
  { destruct (check_exist_and_finished (get_path d true) d w
              || check_exist_and_finished (get_path d false) d w) eqn:Hex.
    { unfold download_asset_file in H. rewrite Hex in H. simplify_eq.
      split; [| done]. apply orb_true_iff in Hex.
      destruct Hex as [Hex | Hex]; [left | right];
        by apply check_exist_and_finished_spec in Hex. }
    destruct (net (url d)) as [err | | n events] eqn:Hnet.
    { unfold download_asset_file in H. rewrite Hex, Hnet in H. by simplify_eq. }
    { unfold download_asset_file in H. rewrite Hex, Hnet in H. by simplify_eq. }
    destruct (decide (status d = CANCELLED)) as [Hc | Hc].
    { unfold download_asset_file, set_status_ongoing in H.
      rewrite Hex, Hnet in H.
      rewrite bool_decide_eq_false_2 in H by (by intros E; apply E).
      by simplify_eq. }
    destruct (download_asset_file_stream net d w n events Hex Hnet Hc)
      as (f & d1 & w1 & Hrun & Hl & Hb & Hs & Hd & Hf & Heq).
    rewrite Heq in H. destruct f as [x |].
    { destruct (fault_response_shape (asset_id d) (set_status_error d1) x
                  (delete_file (get_path d true) w1)) as (F & _).
      destruct (fault_response _ _ x _) as [r w2]. simplify_eq.
      simpl in F. by rewrite F in Hok. }
    destruct (bool_decide (size_expected d1 = size_downloaded d1)
              && bool_decide (size_downloaded d1 = n)) eqn:E;
      [| by simplify_eq].
    apply andb_true_iff in E as [E1 _]. apply bool_decide_eq_true in E1.
    simplify_eq. split; [| done]. left.
    destruct (decide (get_path d true ∈ locked w)) as [Hlk | Hlk].
    { unfold open_wb in Hrun. simpl in Hrun.
      rewrite bool_decide_eq_true_2 in Hrun by done. by simplify_eq. }
    unfold get_path, get_filename in *. simpl.
    rewrite Hd, Hf, E1. by apply Hb. }
  split; [exact Hfile |].
  unfold download_asset_file.
  assert (check_exist_and_finished (get_path d' true) d' w'
          || check_exist_and_finished (get_path d' false) d' w' = true) as ->.
  { apply orb_true_iff.
    destruct Hfile; [left | right]; by apply check_exist_and_finished_spec. }
  rewrite set_status_done_id; [reflexivity | done | done].
Qed.

(** X4: when a stream was handed over for a unit that is not cancelled and
    the call still fails, whether an exception ended the stream, the sizes
    did not match or the user cancelled in between, the unit is left ERROR
    and no temporary file of it is left on disk (the system allowing its
    removal). *)
Theorem X4_failed_stream_leaves_no_temp_file (net : Network)
    (d d' : FileDownload) (w w' : World) (resp : ApiResponse)
    (n : Z) (events : list StreamEvent) :
  download_asset_file net d w = (resp, d', w') ->
  net (url d) = ReqStream n events ->
  status d ≠ CANCELLED ->
  get_path d true ∉ locked w ->
  ok resp = false ->
  files w' !! get_path d true = None /\ status d' = ERROR.
Proof.
  intros H Hnet Hc Hlk Hok.
  destruct (check_exist_and_finished (get_path d true) d w
            || check_exist_and_finished (get_path d false) d w) eqn:Hex.
  { unfold download_asset_file in H. rewrite Hex in H. by simplify_eq. }
  destruct (download_asset_file_stream net d w n events Hex Hnet Hc)
    as (f & d1 & w1 & Hrun & Hl & Hb & Hs & Hd & Hf & Heq).
  rewrite Heq in H.
  assert (files (delete_file (get_path d true) w1) !! get_path d true = None)
    as Hdel.
  { apply delete_file_removes. by rewrite Hl. }
  destruct f as [x |].
  - destruct (fault_response_shape (asset_id d) (set_status_error d1) x
                (delete_file (get_path d true) w1)) as (_ & _ & F & _).
    destruct (fault_response _ _ x _) as [r w2]. simplify_eq.
    simpl in F. by rewrite F.
  - destruct (bool_decide (size_expected d1 = size_downloaded d1)
              && bool_decide (size_downloaded d1 = n)); by simplify_eq.
Qed.

End DownloadFileAgain.

Section DownloadFileAgainScenario.
Import Os Api SpecAssets.

Lemma X3_completed_download_recognised_witness :
  exists resp d' w',
    download_asset_file net_complete waiting_unit world_empty = (resp, d', w')
    /\ ok resp = true
    /\ download_asset_file net_cancelled_midway d' w'
       = (mkResp BodyDownload true None, d', w').
Proof.
  eexists _, _, _. split; [reflexivity |]. split; [reflexivity |].
  exact (proj2 (X3_completed_download_recognised net_complete
                  net_cancelled_midway waiting_unit _ world_empty _ _
                  eq_refl eq_refl)).
Defined.

Lemma X4_failed_stream_leaves_no_temp_file_witness :
  exists resp d' w',
    download_asset_file net_cancelled_midway waiting_unit world_empty
      = (resp, d', w')
    /\ ok resp = false
    /\ files w' !! get_path waiting_unit true = None
    /\ status d' = ERROR.
Proof.
  eexists _, _, _. split; [reflexivity |]. split; [reflexivity |].
  apply (X4_failed_stream_leaves_no_temp_file net_cancelled_midway
           waiting_unit _ world_empty _ _ 12
           [EvChunk 4; EvCancel; EvChunk 4; EvChunk 4] eq_refl eq_refl).
  - discriminate.
  - apply not_elem_of_empty.
  - reflexivity.
Defined.

End DownloadFileAgainScenario.

(** ** Scheduling, polling and cancelling the units (addon.py) *)

Section ScheduleMore.
Import Os Py Api Addon Units SpecAssets.

Lemma insert_by_size_perm (d : FileDownload) (l : list FileDownload) :
  insert_by_size d l ≡ₚ d :: l.
Proof.
  induction l as [| x l IH]; simpl; [done |].
  case_match; [done |]. rewrite IH. apply Permutation_swap.
Qed.

Lemma insert_by_size_sorted (d : FileDownload) (l : list FileDownload) :
  StronglySorted Z.le (size_expected <$> l) ->
  StronglySorted Z.le (size_expected <$> insert_by_size d l).
Proof.
  induction l as [| x l IH]; intros Hs; simpl.
  - repeat constructor.
  - inversion Hs as [| ? ? Hs' Hx]; subst.
    destruct (size_expected d <? size_expected x)%Z eqn:E.
    + apply Z.ltb_lt in E. simpl. constructor; [done |].
      constructor; [lia |].
      eapply Forall_impl; [exact Hx |]. simpl. intros. lia.
    + apply Z.ltb_ge in E. simpl. constructor; [by apply IH |].
      rewrite (insert_by_size_perm d l). simpl. constructor; done.
Qed.

Lemma filter_size_above (n : Z) (l : list FileDownload) :
  Forall (fun m => n < m) (size_expected <$> l) ->
  filter (fun x => size_expected x = n) l = [].
Proof.
  induction l as [| x l IH]; intros H; [done |].
  inversion H; subst. rewrite filter_cons, decide_False by lia. by apply IH.
Qed.

Lemma insert_by_size_stable (n : Z) (d : FileDownload) (l : list FileDownload) :
  StronglySorted Z.le (size_expected <$> l) ->
  filter (fun x => size_expected x = n) (insert_by_size d l)
  = filter (fun x => size_expected x = n) l
    ++ filter (fun x => size_expected x = n) [d].
Proof.
  induction l as [| x l IH]; intros Hs; simpl; [done |].
  inversion Hs as [| ? ? Hs' Hx]; subst.
  destruct (size_expected d <? size_expected x)%Z eqn:E.
  - apply Z.ltb_lt in E.
    rewrite (filter_cons _ d (x :: l)), (filter_cons _ d []), filter_nil.
    destruct (decide (size_expected d = n)) as [Hd | Hd].
    + rewrite (filter_size_above n (x :: l)); [done |].
      simpl. constructor; [lia |].
      eapply Forall_impl; [exact Hx |]. simpl. intros. lia.
    + by rewrite app_nil_r.
  - rewrite !(filter_cons _ x). rewrite (IH Hs').
    by destruct (decide (size_expected x = n)).
Qed.

Lemma sort_by_size_spec (l : list FileDownload) :
  sort_by_size l ≡ₚ l
  /\ StronglySorted Z.le (size_expected <$> sort_by_size l)
  /\ forall n, filter (fun x => size_expected x = n) (sort_by_size l)
               = filter (fun x => size_expected x = n) l.
Proof.
  unfold sort_by_size.
  assert (forall acc,
    StronglySorted Z.le (size_expected <$> acc) ->
    foldl (fun acc d => insert_by_size d acc) acc l ≡ₚ acc ++ l
    /\ StronglySorted Z.le
         (size_expected <$> foldl (fun acc d => insert_by_size d acc) acc l)
    /\ forall n,
         filter (fun x => size_expected x = n)
                (foldl (fun acc d => insert_by_size d acc) acc l)
         = filter (fun x => size_expected x = n) (acc ++ l)) as H.
  { induction l as [| d l IH]; intros acc Hacc; simpl.
    - rewrite app_nil_r. done.
    - destruct (IH (insert_by_size d acc) (insert_by_size_sorted d acc Hacc))
        as (P & S & F).
      split; [| split; [exact S |]].
      + rewrite P, insert_by_size_perm. simpl. apply Permutation_middle.
      + intros n. rewrite F, !filter_app, insert_by_size_stable by done.
        rewrite (filter_cons _ d l), (filter_cons _ d []), filter_nil.
        destruct (decide (size_expected d = n)); simpl.
        * by rewrite <- app_assoc.
        * by rewrite app_nil_r. }
  apply (H []). constructor.
Qed.

Lemma filter_size_submit (n : Z) (dir : string) (l : list FileDownload) :
  filter (fun d => size_expected d = n) (submit dir <$> l)
  = submit dir <$> filter (fun d => size_expected d = n) l.
Proof.
  induction l as [| x l IH]; [done |].
  rewrite fmap_cons, !filter_cons, IH. simpl.
  by destruct (decide (size_expected x = n)).
Qed.

(** X5: [schedule_downloads] hands the units it is given to the pool each
    once, in the order of [size_expected], smallest first, units of the
    same size in the order they came in, and gives each the directory.
    The units are told by asset, url, file name and expected size; of
    their status and future nothing is said, as these are the worker's
    from the moment it is submitted. *)
Theorem X5_schedule_downloads_sorted (dl_list : list FileDownload)
    (directory_arg : string) :
  let l := schedule_downloads dl_list directory_arg in
  unit_key <$> l ≡ₚ unit_key <$> dl_list
  /\ StronglySorted Z.le (size_expected <$> l)
  /\ (forall n, unit_key <$> filter (fun d => size_expected d = n) l
                = unit_key <$> filter (fun d => size_expected d = n) dl_list)
  /\ Forall (fun d => directory d = directory_arg) l.
Proof.
  destruct (sort_by_size_spec dl_list) as (P & S & F).
  unfold schedule_downloads. simpl.
  assert (forall l : list FileDownload,
            unit_key <$> (submit directory_arg <$> l) = unit_key <$> l) as K.
  { intros l. rewrite <- list_fmap_compose. by apply list_fmap_ext. }
  split; [| split; [| split]].
  - by rewrite K, P.
  - rewrite <- list_fmap_compose.
    by rewrite (list_fmap_ext (size_expected ∘ submit directory_arg) size_expected
                  (sort_by_size dl_list)).
  - intros n. by rewrite filter_size_submit, K, (F n).
  - apply Forall_forall. intros d Hd.
    by apply list_elem_of_fmap in Hd as (x & -> & Hx).
Qed.
End ScheduleMore.

Section PollMore.
Import Os Py Api Addon Units SpecAssets.

Lemma bytes_of_cons d l : bytes_of (d :: l) = size_downloaded d + bytes_of l.
Proof. reflexivity. Qed.

Lemma bytes_of_nil : bytes_of [] = 0.
Proof. reflexivity. Qed.

Lemma check_downloads_from_spec (l : list FileDownload) (p0 p : Poll) :
  check_downloads_from l p0 = Returned p ->
  (all_done p = true <->
   all_done p0 = true /\ Forall (fun d => finished_ok d = true) l)
  /\ (Forall (fun d => finished_failed d = false) l ->
      any_error p = any_error p0 /\ res_error p = res_error p0
      /\ poll_size_downloaded p = poll_size_downloaded p0 + bytes_of l)
  /\ (Exists (fun d => finished_failed d = true) l ->
      exists l1 d res l2,
        l = l1 ++ d :: l2
        /\ Forall (fun d => finished_failed d = false) l1
        /\ fut d = Some (FutDone res) /\ ok res = false
        /\ any_error p = true /\ all_done p = false
        /\ res_error p = resp_error res
        /\ poll_size_downloaded p
           = poll_size_downloaded p0 + bytes_of (l1 ++ [d])).
Proof.
  revert p0. induction l as [| d l IH]; intros p0 H; simpl in H.
  - simplify_eq. split; [| split].
    + split; [intros; split; [done | constructor] | by intros []].
    + intros _. rewrite bytes_of_nil. repeat split. lia.
    + intros HE. inversion HE.
  - destruct (fut d) as [[| | res] |] eqn:Ef; try discriminate.
    + (* the worker has not returned *)
      assert (finished_ok d = false) as Hok by (unfold finished_ok; by rewrite Ef).
      assert (finished_failed d = false) as Hfl
        by (unfold finished_failed; by rewrite Ef).
      apply IH in H as (A & B & C).
      cbn [all_done any_error res_error poll_size_downloaded] in *.
      split; [| split].
      * split; [intros Hp; apply A in Hp as [? _]; done |].
        intros [_ HF]. inversion HF; subst. congruence.
      * intros HF. inversion HF; subst.
        destruct (B ltac:(done)) as (? & ? & ?).
        repeat split; try done. rewrite bytes_of_cons. lia.
      * intros HE. inversion HE as [| ? ? HE']; subst; [congruence |].
        destruct (C HE')
          as (l1 & d' & res & l2 & -> & Hl1 & Hf & Hr & ? & ? & ? & Hsz).
        exists (d :: l1), d', res, l2. repeat split; try done.
        -- by constructor.
        -- rewrite Hsz. change ((d :: l1) ++ [d']) with (d :: (l1 ++ [d'])).
           rewrite bytes_of_cons. lia.
    + (* the worker returned *)
      destruct (ok res) eqn:Eok; simpl in H.
      * assert (finished_ok d = true) as Hok
          by (unfold finished_ok; by rewrite Ef).
        assert (finished_failed d = false) as Hfl
          by (unfold finished_failed; by rewrite Ef, Eok).
        apply IH in H as (A & B & C).
        cbn [all_done any_error res_error poll_size_downloaded] in *.
        split; [| split].
        -- rewrite A. split.
           ++ intros [? ?]. split; [done |]. by constructor.
           ++ intros [? HF]. inversion HF; subst. done.
        -- intros HF. inversion HF; subst.
           destruct (B ltac:(done)) as (? & ? & ?).
           repeat split; try done. rewrite bytes_of_cons. lia.
        -- intros HE. inversion HE as [| ? ? HE']; subst; [congruence |].
           destruct (C HE')
             as (l1 & d' & r & l2 & -> & Hl1 & Hf & Hr & ? & ? & ? & Hsz).
           exists (d :: l1), d', r, l2. repeat split; try done.
           ++ by constructor.
           ++ rewrite Hsz. change ((d :: l1) ++ [d']) with (d :: (l1 ++ [d'])).
              rewrite bytes_of_cons. lia.
      * assert (finished_ok d = false) as Hok
          by (unfold finished_ok; by rewrite Ef).
        assert (finished_failed d = true) as Hfl
          by (unfold finished_failed; by rewrite Ef, Eok).
        simplify_eq. cbn [all_done any_error res_error poll_size_downloaded].
        split; [| split].
        -- split; [done |]. intros [_ HF]. inversion HF; subst. congruence.
        -- intros HF. inversion HF; subst. congruence.
        -- intros _. exists [], d, res, l. repeat split; try done.
           change ([] ++ [d]) with [d]. rewrite bytes_of_cons, bytes_of_nil. lia.
Qed.

(** X6: what [check_downloads] returns, when it returns. [all_done] holds
    exactly when the worker of every unit returned ok; [any_error] exactly
    when some worker returned an answer that is not ok, and then [all_done]
    is false, [res_error] is the error of the first such unit in the list,
    and the byte count stops at that unit (the loop breaks there); without
    an error the byte count is the sum of [size_downloaded] over all
    units. *)
Theorem X6_check_downloads (dl_list : list FileDownload) (p : Poll) :
  check_downloads dl_list = Returned p ->
  (all_done p = true <-> Forall (fun d => finished_ok d = true) dl_list)
  /\ (any_error p = true <-> Exists (fun d => finished_failed d = true) dl_list)
  /\ (any_error p = true -> all_done p = false)
  /\ (any_error p = false ->
      res_error p = None /\ poll_size_downloaded p = bytes_of dl_list)
  /\ (any_error p = true ->
      exists l1 d res l2,
        dl_list = l1 ++ d :: l2
        /\ Forall (fun d => finished_failed d = false) l1
        /\ fut d = Some (FutDone res) /\ ok res = false
        /\ res_error p = resp_error res
        /\ poll_size_downloaded p = bytes_of (l1 ++ [d])).
Proof.
  intros H. apply check_downloads_from_spec in H as (A & B & C).
  cbn [all_done any_error res_error poll_size_downloaded] in *.
  assert (any_error p = true
          <-> Exists (fun d => finished_failed d = true) dl_list) as Herr.
  { split.
    - intros Hp.
      destruct (decide (Exists (fun d => finished_failed d = true) dl_list))
        as [| Hn]; [done |].
      apply not_Exists_Forall in Hn; [| intros; apply _].
      assert (Forall (fun d => finished_failed d = false) dl_list) as Hf.
      { eapply Forall_impl; [exact Hn |]. simpl. intros x Hx.
        by destruct (finished_failed x). }
      apply B in Hf as (? & _). congruence.
    - intros HE. destruct (C HE) as (? & ? & ? & ? & ? & ? & ? & ? & ? & _). done. }
  split; [| split; [exact Herr | split; [| split]]].
  - rewrite A. split; [by intros [_ ?] | by intros ?].
  - intros Hp. apply Herr in Hp.
    destruct (C Hp) as (? & ? & ? & ? & ? & ? & ? & ? & ? & ? & _). done.
  - intros Hp.
    destruct (decide (Exists (fun d => finished_failed d = true) dl_list))
      as [HE | Hn].
    + apply Herr in HE. congruence.
    + apply not_Exists_Forall in Hn; [| intros; apply _].
      assert (Forall (fun d => finished_failed d = false) dl_list) as Hf.
      { eapply Forall_impl; [exact Hn |]. simpl. intros x Hx.
        by destruct (finished_failed x). }
      apply B in Hf as (_ & ? & ?). split; [done | lia].
  - intros Hp. apply Herr in Hp.
    destruct (C Hp) as (l1 & d & res & l2 & ? & ? & ? & ? & ? & ? & ? & ?).
    exists l1, d, res, l2. repeat split; try done.
Qed.
End PollMore.

Section CancelMore.
Import Os Py Api Addon Units SpecAssets.

Lemma cancel_download_spec (d d' : FileDownload) :
  cancel_download d = Returned d' ->
  is_Some (fut d)
  /\ status d' = status (set_status_cancelled d)
  /\ fut d' = match fut d with
              | Some FutPending => Some FutCancelled
              | f => f
              end
  /\ asset_id d' = asset_id d /\ url d' = url d /\ filename d' = filename d
  /\ directory d' = directory d /\ size_expected d' = size_expected d
  /\ size_downloaded d' = size_downloaded d.
Proof.
  unfold cancel_download.
  assert (fut (set_status_cancelled d) = fut d) as Hfut.
  { unfold set_status_cancelled. by destruct (negb _ && negb _). }
  assert (forall x, x = set_status_cancelled d ->
            asset_id x = asset_id d /\ url x = url d /\ filename x = filename d
            /\ directory x = directory d /\ size_expected x = size_expected d
            /\ size_downloaded x = size_downloaded d) as Hsame.
  { intros x ->. unfold set_status_cancelled. by destruct (negb _ && negb _). }
  rewrite Hfut. intros H.
  destruct (fut d) as [[| | res] |] eqn:E; [| | | done];
    injection H as <-; (split; [eauto |]);
    (split; [reflexivity |]); (split; [simpl; congruence |]);
    cbn [with_fut asset_id url filename directory size_expected size_downloaded];
    exact (Hsame _ eq_refl).
Qed.

Lemma status_set_status_cancelled (d : FileDownload) :
  status (set_status_cancelled d)
  = if bool_decide (status d = DONE \/ status d = ERROR)
    then status d else CANCELLED.
Proof.
  unfold set_status_cancelled.
  destruct (status d) eqn:E; simpl; rewrite ?E; reflexivity.
Qed.

Lemma run_pool_idle (net : Network) (runs : FileDownload -> bool)
    (l : list FileDownload) (w : World) :
  Forall (fun d => fut d ≠ Some FutPending) l ->
  run_pool net runs l w = (l, w).
Proof.
  induction l as [| d l IH]; intros H; simpl; [done |].
  inversion H as [| ? ? Hd Hl]; subst. rewrite (IH Hl).
  destruct (fut d) as [[| | res] |]; done.
Qed.

Lemma cancel_downloads_returns (dl_list : list FileDownload) :
  Forall (fun d => is_Some (fut d)) dl_list ->
  exists dl_list', cancel_downloads dl_list = Returned dl_list'.
Proof.
  unfold cancel_downloads.
  induction dl_list as [| d l IH]; intros H; simpl.
  - by eexists.
  - inversion H as [| ? ? [f Hf] Hl]; subst. destruct (IH Hl) as [l' ->].
    unfold cancel_download.
    assert (fut (set_status_cancelled d) = fut d) as ->.
    { unfold set_status_cancelled. by destruct (negb _ && negb _). }
    rewrite Hf. destruct f; simpl; by eexists.
Qed.
End CancelMore.

Section CancelWaiting.
Import Os Py Api Addon Units SpecAssets.
Variable running : FileDownload -> option Finish.

Lemma cancel_first_spec (d : FileDownload) (u : FileDownload * option Finish) :
  cancel_first running d = Returned u ->
  match running d, fut d with
  | Some finish, Some FutPending =>
      u = (set_status_cancelled d, Some finish)
  | _, _ => exists d', cancel_download d = Returned d' /\ u = (d', None)
  end.
Proof.
  unfold cancel_first, cancel_download.
  assert (fut (set_status_cancelled d) = fut d) as ->.
  { unfold set_status_cancelled. by destruct (negb _ && negb _). }
  destruct (fut d) as [[| | res] |]; [| | | done].
  - destruct (running d) as [finish |]; intros [= <-]; [done |]. by eexists.
  - intros [= <-]. destruct (running d); by eexists.
  - intros [= <-]. destruct (running d); by eexists.
Qed.

Lemma mapM_cancel_first_spec (l : list FileDownload)
    (us : list (FileDownload * option Finish)) :
  mapM (cancel_first running) l = Returned us ->
  Forall2 (fun d u => cancel_first running d = Returned u) l us.
Proof.
  revert us. induction l as [| d l IH]; intros us H; simpl in H.
  - unfold mret, Result_ret in H. simplify_eq. constructor.
  - destruct (cancel_first running d) as [e | u] eqn:E; simpl in H; [done |].
    destruct (mapM (cancel_first running) l) as [e | us'] eqn:E'; simpl in H;
      [done |].
    unfold mret, Result_ret in H. simplify_eq. constructor; [done |].
    by apply IH.
Qed.

Lemma wait_all_spec (us : list (FileDownload * option Finish))
    (l' : list FileDownload) :
  wait_all us = inr l' -> Forall2 (fun u d' => wait_for u = inr d') us l'.
Proof.
  revert l'. induction us as [| u us IH]; intros l' H; simpl in H.
  - simplify_eq. constructor.
  - destruct (wait_for u) as [e | d'] eqn:E; [done |].
    destruct (wait_all us) as [e | l''] eqn:E'; [done |].
    simplify_eq. constructor; [done |]. by apply IH.
Qed.

(** X7: [cancel_downloads], when it returns, leaves no future to run or
    running. A unit whose worker was in mid-transfer is as its worker left
    it, with the worker's answer. Every other unit is CANCELLED if it was
    not DONE or ERROR and else as it was; its future is cancelled if it
    had not started and keeps its answer if it had returned; nothing else
    of it changes. The pool does nothing with the units afterwards; and
    with no worker in mid-transfer the call does what the first loop alone
    does. *)
Theorem X7_cancel_downloads (dl_list dl_list' : list FileDownload) :
  cancel_downloads_waiting running dl_list = inr dl_list' ->
  Forall2 (fun d d' =>
             fut d' ≠ Some FutPending
             /\ match running d, fut d with
                | Some finish, Some FutPending =>
                    exists res d1,
                      finish (set_status_cancelled d)
                      = Some (Returned (res, d1))
                      /\ d' = with_fut (Some (FutDone res)) d1
                | _, _ =>
                    status d'
                    = (if bool_decide (status d = DONE \/ status d = ERROR)
                       then status d else CANCELLED)
                    /\ fut d' = match fut d with
                                | Some FutPending => Some FutCancelled
                                | f => f
                                end
                    /\ asset_id d' = asset_id d /\ url d' = url d
                    /\ filename d' = filename d /\ directory d' = directory d
                    /\ size_expected d' = size_expected d
                    /\ size_downloaded d' = size_downloaded d
                end)
          dl_list dl_list'
  /\ (forall net runs w, run_pool net runs dl_list' w = (dl_list', w))
  /\ (Forall (fun d => running d = None) dl_list ->
      cancel_downloads dl_list = Returned dl_list').
Proof.
  unfold cancel_downloads_waiting.
  destruct (mapM (cancel_first running) dl_list) as [e | us] eqn:E1; [done |].
  intros E2. apply mapM_cancel_first_spec in E1. apply wait_all_spec in E2.
  assert (Forall2 (fun d d' =>
            match running d, fut d with
            | Some finish, Some FutPending =>
                exists res d1,
                  finish (set_status_cancelled d) = Some (Returned (res, d1))
                  /\ d' = with_fut (Some (FutDone res)) d1
            | _, _ => cancel_download d = Returned d'
            end) dl_list dl_list') as H.
  { clear -E1 E2. revert dl_list' E2.
    induction E1 as [| d u l us Hd _ IH]; intros l' E2;
      inversion E2 as [| ? d' ? l'' Hw Hrest]; subst; constructor;
      [| by apply IH].
    apply cancel_first_spec in Hd.
    assert (fut (set_status_cancelled d) = fut d) as Hfut.
    { unfold set_status_cancelled. by destruct (negb _ && negb _). }
    unfold wait_for in Hw.
    destruct (running d) as [finish |] eqn:Er, (fut d) as [[| | res] |] eqn:Ef.
    - subst u. cbn [fst snd] in Hw. rewrite Hfut in Hw.
      destruct (finish (set_status_cancelled d)) as [[e | [res d1]] |];
        simplify_eq. by eexists _, _.
    - destruct Hd as (d0 & Hc & ->). cbn [fst snd] in Hw.
      pose proof Hc as Hc'. apply cancel_download_spec in Hc'
        as (_ & _ & Hf & _). rewrite Ef in Hf. rewrite Hf in Hw. by simplify_eq.
    - destruct Hd as (d0 & Hc & ->). cbn [fst snd] in Hw.
      pose proof Hc as Hc'. apply cancel_download_spec in Hc'
        as (_ & _ & Hf & _). rewrite Ef in Hf. rewrite Hf in Hw. by simplify_eq.
    - destruct Hd as (d0 & Hc & ->).
      unfold cancel_download in Hc. by rewrite Hfut in Hc.
    - destruct Hd as (d0 & Hc & ->). cbn [fst snd] in Hw.
      pose proof Hc as Hc'. apply cancel_download_spec in Hc'
        as (_ & _ & Hf & _). rewrite Ef in Hf. rewrite Hf in Hw. by simplify_eq.
    - destruct Hd as (d0 & Hc & ->). cbn [fst snd] in Hw.
      pose proof Hc as Hc'. apply cancel_download_spec in Hc'
        as (_ & _ & Hf & _). rewrite Ef in Hf. rewrite Hf in Hw. by simplify_eq.
    - destruct Hd as (d0 & Hc & ->). cbn [fst snd] in Hw.
      pose proof Hc as Hc'. apply cancel_download_spec in Hc'
        as (_ & _ & Hf & _). rewrite Ef in Hf. rewrite Hf in Hw. by simplify_eq.
    - destruct Hd as (d0 & Hc & ->).
      unfold cancel_download in Hc. by rewrite Hfut in Hc. }
  assert (Forall (fun d' => fut d' ≠ Some FutPending) dl_list') as Hidle.
  { clear -H. induction H as [| d d' l l' Hd _ IH]; constructor; [| done].
    destruct (running d) as [finish |], (fut d) as [[| | res] |] eqn:Ef;
      try (destruct Hd as (res0 & d1 & _ & ->); done);
      apply cancel_download_spec in Hd as (_ & _ & Hf & _);
      rewrite Hf, ?Ef; done. }
  split; [| split].
  - clear -H. induction H as [| d d' l l' Hd _ IH]; constructor; [| done].
    assert (cancel_download d = Returned d' ->
            fut d' ≠ Some FutPending
            /\ status d'
               = (if bool_decide (status d = DONE \/ status d = ERROR)
                  then status d else CANCELLED)
            /\ fut d' = match fut d with
                        | Some FutPending => Some FutCancelled
                        | f => f
                        end
            /\ asset_id d' = asset_id d /\ url d' = url d
            /\ filename d' = filename d /\ directory d' = directory d
            /\ size_expected d' = size_expected d
            /\ size_downloaded d' = size_downloaded d) as Hplain.
    { intros Hc. apply cancel_download_spec in Hc as (Hs & Hst & Hf & Hrest).
      rewrite status_set_status_cancelled in Hst.
      split; [| done]. rewrite Hf. by destruct (fut d) as [[| | res] |]. }
    destruct (running d) as [finish |], (fut d) as [[| | res] |] eqn:Ef;
      try (destruct Hd as (res0 & d1 & Hfin & ->);
           split; [done | by eexists _, _]);
      destruct (Hplain Hd) as [? ?]; rewrite ?Ef in *; done.
  - intros net runs w. by apply run_pool_idle.
  - intros Hnone. unfold cancel_downloads.
    clear -H Hnone. induction H as [| d d' l l' Hd _ IH]; [done |].
    inversion Hnone as [| ? ? Hr Hl]; subst. rewrite Hr in Hd.
    simpl. assert (cancel_download d = Returned d') as ->
      by (by destruct (fut d) as [[| | ?] |]).
    simpl. by rewrite (IH Hl).
Qed.
End CancelWaiting.


(** ** Renaming the finished files (addon.py) *)

Section RenameMore.
Import Os Py Api Addon Units SpecAssets.

(** One turn of the loop of [rename_downloads] removes no file but the
    unit's temporary one and creates none but its final one. *)
Lemma rename_one_mono (d : FileDownload) (r : Rename) :
  (forall q, q ≠ get_path d true -> is_Some (files (rn_world r) !! q) ->
             is_Some (files (rn_world (rename_one d r)) !! q))
  /\ (forall q, q ≠ get_path d false -> files (rn_world r) !! q = None ->
                files (rn_world (rename_one d r)) !! q = None)
  /\ (forall q, q ≠ get_path d true -> q ≠ get_path d false ->
                files (rn_world (rename_one d r)) !! q = files (rn_world r) !! q).
Proof.
  unfold rename_one.
  destruct (negb (path_exists (get_path d true) (rn_world r))
            && path_exists (get_path d false) (rn_world r)); [done |].
  unfold rename, remove.
  destruct (files (rn_world r) !! get_path d true) as [sz |] eqn:Et; [| done].
  case_bool_decide; [done |].
  destruct (path_exists (get_path d false) (rn_world r)
            && negb (rename_replaces (rn_world r))); simpl.
  - repeat split; intros q ?; intros.
    + by rewrite lookup_delete_ne.
    + destruct (decide (q = get_path d true)) as [-> |].
      * by rewrite lookup_delete_eq.
      * by rewrite lookup_delete_ne.
    + by rewrite lookup_delete_ne.
  - repeat split; intros q ?; intros.
    + destruct (decide (q = get_path d false)) as [-> |].
      * rewrite lookup_insert_eq. eauto.
      * rewrite lookup_insert_ne, lookup_delete_ne by done. done.
    + rewrite lookup_insert_ne by done.
      destruct (decide (q = get_path d true)) as [-> |].
      * by rewrite lookup_delete_eq.
      * by rewrite lookup_delete_ne.
    + rewrite lookup_insert_ne, lookup_delete_ne by done. done.
Qed.

(** A turn that keeps [all_successful] leaves the final file in place and
    no temporary file. *)
Lemma rename_one_success (d : FileDownload) (r : Rename) :
  rn_all_successful (rename_one d r) = true ->
  rn_raised (rename_one d r) = None ->
  rn_all_successful r = true
  /\ rn_list (rename_one d r) = rn_list r ++ [d]
  /\ is_Some (files (rn_world (rename_one d r)) !! get_path d false)
  /\ files (rn_world (rename_one d r)) !! get_path d true = None.
Proof.
  unfold rename_one.
  destruct (negb (path_exists (get_path d true) (rn_world r))
            && path_exists (get_path d false) (rn_world r)) eqn:Eskip.
  { simpl. intros ? _. apply andb_true_iff in Eskip as [E1 E2].
    apply negb_true_iff in E1. unfold path_exists in *.
    apply bool_decide_eq_false in E1. apply bool_decide_eq_true in E2.
    repeat split; try done.
    destruct (files (rn_world r) !! get_path d true) eqn:E; [| done].
    exfalso. apply E1. eauto. }
  unfold rename, remove.
  destruct (files (rn_world r) !! get_path d true) as [sz |] eqn:Et.
  2: { simpl. rewrite andb_false_r. done. }
  case_bool_decide.
  { simpl. rewrite andb_false_r. done. }
  destruct (path_exists (get_path d false) (rn_world r)
            && negb (rename_replaces (rn_world r))) eqn:Ex; simpl.
  - rewrite andb_true_r. intros ? _. apply andb_true_iff in Ex as [Ex _].
    unfold path_exists in Ex. apply bool_decide_eq_true in Ex.
    repeat split; try done.
    + rewrite lookup_delete_ne; [done |]. apply get_path_temp_ne.
    + by rewrite lookup_delete_eq.
  - rewrite andb_true_r. intros ? _. repeat split; try done.
    + rewrite lookup_insert_eq. eauto.
    + rewrite lookup_insert_ne by apply not_eq_sym, get_path_temp_ne.
      by rewrite lookup_delete_eq.
Qed.

(** The loop over a list of units in which no temporary name is a final
    name. *)
Lemma rename_loop_success (l : list FileDownload) (r : Rename) :
  rn_all_successful (rename_loop l r) = true ->
  rn_raised (rename_loop l r) = None ->
  rn_raised r = None ->
  (forall d1 d2, d1 ∈ l -> d2 ∈ l -> get_path d1 true ≠ get_path d2 false) ->
  rn_all_successful r = true
  /\ rn_list (rename_loop l r) = rn_list r ++ l
  /\ Forall (fun d =>
               is_Some (files (rn_world (rename_loop l r)) !! get_path d false)
               /\ files (rn_world (rename_loop l r)) !! get_path d true = None) l
  /\ (forall q, is_Some (files (rn_world r) !! q) ->
                (forall d, d ∈ l -> q ≠ get_path d true) ->
                is_Some (files (rn_world (rename_loop l r)) !! q))
  /\ (forall q, files (rn_world r) !! q = None ->
                (forall d, d ∈ l -> q ≠ get_path d false) ->
                files (rn_world (rename_loop l r)) !! q = None)
  /\ (forall q, (forall d, d ∈ l -> q ≠ get_path d true /\ q ≠ get_path d false) ->
                files (rn_world (rename_loop l r)) !! q = files (rn_world r) !! q).
Proof.
  revert r. induction l as [| d l IH]; intros r Hs Hr Hr0 Hdis; simpl in *.
  { rewrite app_nil_r. repeat split; try done. }
  destruct (rn_raised (rename_one d r)) as [e |] eqn:Er; [done |].
  destruct (IH (rename_one d r) Hs Hr Er) as (S1 & L1 & F1 & M1 & M2 & M3).
  { intros d1 d2 ? ?. apply Hdis; by apply list_elem_of_further. }
  destruct (rename_one_success d r S1 Er) as (S0 & L0 & Hfin & Htmp).
  destruct (rename_one_mono d r) as (O1 & O2 & O3).
  split; [done |]. split; [by rewrite L1, L0, <- app_assoc |].
  split; [| split; [| split]].
  - constructor; [| done]. split.
    + apply M1; [done |]. intros d2 Hd2. apply not_eq_sym, Hdis.
      * by apply list_elem_of_further.
      * apply list_elem_of_here.
    + apply M2; [done |]. intros d2 Hd2. apply Hdis.
      * apply list_elem_of_here.
      * by apply list_elem_of_further.
  - intros q Hq Hne. apply M1.
    + apply O1; [| done]. apply Hne, list_elem_of_here.
    + intros d2 Hd2. by apply Hne, list_elem_of_further.
  - intros q Hq Hne. apply M2.
    + apply O2; [| done]. apply Hne, list_elem_of_here.
    + intros d2 Hd2. by apply Hne, list_elem_of_further.
  - intros q Hne. rewrite M3.
    + apply O3; apply (Hne d), list_elem_of_here.
    + intros d2 Hd2. by apply Hne, list_elem_of_further.
Qed.

(** X8: when [rename_downloads] reports success for a list of units in
    which no unit's temporary name is another unit's final name, then
    afterwards every unit has its file under the final name and none under
    the temporary name, the units are as they were, and no other file was
    touched. *)
Theorem X8_rename_downloads_success (dl_list : list FileDownload) (w : World) :
  (forall d1 d2, d1 ∈ dl_list -> d2 ∈ dl_list ->
                 get_path d1 true ≠ get_path d2 false) ->
  rn_all_successful (rename_downloads dl_list w) = true ->
  rn_raised (rename_downloads dl_list w) = None ->
  let w' := rn_world (rename_downloads dl_list w) in
  rn_list (rename_downloads dl_list w) = dl_list
  /\ Forall (fun d => is_Some (files w' !! get_path d false)
                      /\ files w' !! get_path d true = None) dl_list
  /\ (forall q, (forall d, d ∈ dl_list ->
                           q ≠ get_path d true /\ q ≠ get_path d false) ->
                files w' !! q = files w !! q).
Proof.
  intros Hdis Hs Hr. unfold rename_downloads in *.
  destruct (rename_loop_success dl_list _ Hs Hr eq_refl Hdis)
    as (_ & L & F & _ & _ & M).
  simpl in *. done.
Qed.
End RenameMore.

Section RenameMessage.
Import Os Py Api Addon Units SpecAssets.

Lemma rename_loop_app (l1 l2 : list FileDownload) (r : Rename) :
  rn_raised (rename_loop l1 r) = None ->
  rename_loop (l1 ++ l2) r = rename_loop l2 (rename_loop l1 r).
Proof.
  revert r. induction l1 as [| d l1 IH]; intros r H; simpl in *; [done |].
  destruct (rn_raised (rename_one d r)) eqn:E; [done |]. by apply IH.
Qed.

(** X9: the message [rename_downloads] returns is that of the last unit
    that failed, whatever failed before it (the code's comment says the
    first): when the last unit of the list has neither its temporary nor
    its final file, or a temporary file the system refuses to rename, the
    call reports failure with the message of that unit, which is left
    ERROR with the message as its error. *)
Theorem X9_rename_error_is_the_last (l : list FileDownload) (d : FileDownload)
    (w : World) :
  let r1 := rename_downloads l w in
  let r := rename_downloads (l ++ [d]) w in
  rn_raised r1 = None ->
  (files (rn_world r1) !! get_path d true = None
   /\ files (rn_world r1) !! get_path d false = None)
  \/ (is_Some (files (rn_world r1) !! get_path d true)
      /\ get_path d true ∈ locked (rn_world r1)) ->
  rn_all_successful r = false
  /\ rn_raised r = None
  /\ rn_world r = rn_world r1
  /\ rn_error_msg r
     = (if bool_decide (is_Some (files (rn_world r1) !! get_path d true))
        then MSG_NO_PERMISSION else MSG_MISSING_FILE) +:+ get_path d true
  /\ exists d',
       rn_list r = rn_list r1 ++ [d']
       /\ status d' = ERROR
       /\ error d' = Some (rn_error_msg r).
Proof.
  intros r1 r Hr1 Hcase. subst r. unfold rename_downloads in *.
  rewrite rename_loop_app by exact Hr1. fold r1. simpl.
  unfold rename_one, path_exists, rename.
  destruct Hcase as [[Ht Hf] | [[sz Ht] Hl]].
  - rewrite Ht, Hf.
    rewrite !(bool_decide_eq_false_2 (is_Some None)) by (by intros [? ?]).
    simpl. rewrite andb_false_r.
    repeat split; try done. eexists. repeat split; done.
  - rewrite Ht. rewrite (bool_decide_eq_true_2 (is_Some (Some sz))) by eauto.
    simpl. rewrite (bool_decide_eq_true_2 _ Hl). simpl. rewrite andb_false_r.
    repeat split; try done. eexists. repeat split; done.
Qed.
End RenameMessage.

(** ** The retry loop of [download_asset] (addon.py) *)

Section RetriesExhausted.
Import Os Py Assets Api Addon Units SpecAssets.
Context `{AM : AssetsModule}.

Lemma download_update_quiet (env : Env) (asset size : Z) (a : State) :
  (forall n, user_cancels env n = false) ->
  asset ∉ download_cancelled a ->
  exists a',
    download_update env asset size a = (true, a')
    /\ progress_only a a' /\ ticks a' = S (ticks a).
Proof.
  intros Hu Hc. unfold download_update. rewrite Hu.
  eexists. split.
  - f_equal. unfold should_continue_asset_download. simpl.
    by apply bool_decide_eq_true.
  - split; [| done]. by repeat split.
Qed.

Lemma retry_loop_no_urls (env : Env) (asset : Z) (dd : DownloadData)
    (dir : string) (cb : bool) (retries : nat) (a : State) (w : World) :
  (forall is_retry n, download_urls env asset dd is_retry n = None) ->
  (forall n, user_cancels env n = false) ->
  asset ∉ download_cancelled a ->
  exists a',
    retry_loop env asset dd dir cb retries a w
      = (LoopExit false false false, [], a', w)
    /\ progress_only a a' /\ ticks a' = (ticks a + 2 * retries)%nat.
Proof.
  intros Hurls Hu. revert a.
  induction retries as [| n IH]; intros a Hc; cbn [retry_loop].
  - exists a. split; [done |]. split; [by repeat split | lia].
  - destruct (download_update_quiet env asset 1 a Hu Hc) as (a1 & -> & P1 & T1).
    unfold get_download_list. rewrite Hurls.
    assert (asset ∉ download_cancelled a1) as Hc1.
    { destruct P1 as (_ & -> & _). done. }
    destruct (download_update_quiet env asset 1 a1 Hu Hc1) as (a2 & -> & P2 & T2).
    cbn [negb].
    assert (asset ∉ download_cancelled a2) as Hc2.
    { destruct P2 as (_ & -> & _). done. }
    destruct (IH a2 Hc2) as (a3 & -> & P3 & T3).
    exists a3. split; [done |]. split; [| lia].
    unfold progress_only in *. 
    destruct P1 as (? & ? & ? & ? & ? & ? & ?).
    destruct P2 as (? & ? & ? & ? & ? & ? & ?).
    destruct P3 as (? & ? & ? & ? & ? & ? & ?).
    repeat split; congruence.
Qed.

(** X10: when the request for the download URLs fails on every one of the
    MAX_DOWNLOAD_RETRIES tries and the user never cancels, [download_asset]
    still returns True and calls [done_callback] with the asset and no
    error, as it does after a download that went through: no unit was
    scheduled, no file was touched, and the asset has left the queue. *)
Theorem X10_retries_exhausted_reported_done (env : Env) (asset_data : AssetData)
    (size : option string) (native_mesh : bool) (renderer : option string)
    (a : State) (w : World) (entry : QueueEntry) (dd : DownloadData)
    (logged : list string) (library_dir : string) (pf af : list string) :
  let asset := Assets.asset_id asset_data in
  let download_dir := path_join library_dir (asset_name (q_data entry)) in
  asset ∉ download_cancelled a ->
  download_queue a !! asset = Some entry ->
  get_download_data (settings a) (software_dl_dcc a) (q_data entry)
    (q_size entry) None native_mesh renderer = Returned (dd, logged) ->
  get_destination_library_directory (add_warnings logged a) w (q_data entry)
    = (Some library_dir, pf, af) ->
  makedirs env download_dir w = None ->
  Forall (fun e => e.2 = []) (walk env w download_dir) ->
  (forall is_retry n, download_urls env asset dd is_retry n = None) ->
  (forall n, user_cancels env n = false) ->
  let run := download_asset env asset_data size true native_mesh renderer a w in
  result run = Returned true
  /\ units run = []
  /\ world run = w
  /\ done_calls (addon run) = (asset, None) :: done_calls a
  /\ download_queue (addon run) !! asset = None
  /\ ticks (addon run) = (ticks a + 2 * MAX_DOWNLOAD_RETRIES)%nat.
Proof.
  intros asset download_dir Hc Hq Hdd Hdir Hmk Hwalk Hurls Hu run.
  subst run. unfold download_asset. fold asset.
  rewrite bool_decide_eq_false_2 by done. rewrite Hq, Hdd, Hdir.
  fold download_dir. rewrite Hmk.
  destruct (retry_loop_no_urls env asset dd download_dir true
              MAX_DOWNLOAD_RETRIES (add_warnings logged a) w Hurls Hu)
    as (a' & -> & P & T); [done |].
  simpl.
  assert (update_asset_data env asset download_dir a' w = (Returned (), a'))
    as ->.
  { unfold update_asset_data. case_bool_decide; [done |].
    rewrite bool_decide_eq_true_2; [done |].
    clear -Hwalk.
    induction Hwalk as [| [[p ds] fs] l Hx _ IH]; [done |].
    simpl in *. subst fs. simpl. apply IH. }
  destruct P as (? & ? & ? & ? & ? & ? & Hdone).
  simpl. repeat split; try done.
  - by rewrite Hdone.
  - apply lookup_delete_eq.
Qed.
End RetriesExhausted.

(** ** Reading the index (asset_index.py) *)

Section IndexQueries.
Import Py Assets Index SpecAssets.

Lemma dict_get_elem_of {K V} `{EqDecision K} (k : K) (v : V) (d : list (K * V)) :
  NoDup (dict_keys d) -> (dict_get k d = Some v <-> (k, v) ∈ d).
Proof.
  induction d as [| [k' v'] d IH]; simpl; intros Hnd.
  - split; [done | by intros ?%elem_of_nil].
  - apply NoDup_cons in Hnd as [Hk Hnd]. destruct (decide (k = k')) as [-> |].
    + split.
      * intros [= ->]. apply list_elem_of_here.
      * intros [[= ->] | Hin]%elem_of_cons; [done |].
        exfalso. apply Hk. unfold dict_keys.
        apply list_elem_of_fmap. by exists (k', v).
    + rewrite (IH Hnd). split.
      * intros ?. by apply list_elem_of_further.
      * intros [[= ? ?] | Hin]%elem_of_cons; done.
Qed.

Lemma filter_purchased_spec (p : bool) (ids : list Z) (idx : AssetIndex) :
  Forall (fun i => is_Some (dict_get i (all_assets idx))) ids ->
  exists r,
    filter_purchased p ids idx = Returned r
    /\ sublist r ids
    /\ forall i, i ∈ r <->
         i ∈ ids /\ exists a, dict_get i (all_assets idx) = Some a
                              /\ is_purchased a = Some p.
Proof.
  induction ids as [| i ids IH]; intros H; simpl.
  - exists []. split; [done |]. split; [constructor |].
    intros i. split; [by intros ?%elem_of_nil | by intros [?%elem_of_nil _]].
  - inversion H as [| ? ? [a Ha] Hrest]; subst.
    destruct (IH Hrest) as (r & -> & Hsub & Hr). rewrite Ha. simpl.
    eexists. split; [reflexivity |]. case_bool_decide as Hp.
    + split; [by constructor |]. intros j. rewrite !elem_of_cons, Hr. split.
      * intros [-> | [? ?]]; [split; [by left | eauto] | split; [by right | done]].
      * intros [[-> | ?] ?]; [by left | by right].
    + split; [by constructor |]. intros j. rewrite elem_of_cons, Hr. split.
      * intros [? ?]. split; [by right | done].
      * intros [[-> | ?] (a' & Ha' & Hp')]; [congruence | eauto].
Qed.

(** The ids [get_asset_id_list] returns for an index whose records are
    stored under their own ids. *)
Lemma get_asset_id_list_spec (type_filter : option AssetType)
    (purchased : option bool) (idx : AssetIndex) :
  index_wf idx ->
  exists l,
    get_asset_id_list type_filter purchased idx = Returned l
    /\ sublist l (dict_keys (all_assets idx))
    /\ forall i, i ∈ l <->
         exists a, dict_get i (all_assets idx) = Some a
                   /\ (type_filter = None \/ type_filter = Some (asset_type a))
                   /\ (forall p, purchased = Some p -> is_purchased a = Some p).
Proof.
  intros [Hnd Hwf]. unfold get_asset_id_list.
  set (P := fun a : AssetData =>
              type_filter = None \/ type_filter = Some (asset_type a)).
  set (ids := map asset_id (filter P (dict_values (all_assets idx)))).
  assert (sublist ids (dict_keys (all_assets idx))) as Hsub.
  { subst ids. unfold dict_values, dict_keys.
    clear Hnd. induction Hwf as [| [k a] d Hk _ IH]; [constructor |].
    simpl in *. rewrite filter_cons. destruct (decide (P a)); simpl.
    - rewrite Hk. by constructor.
    - by constructor. }
  assert (forall i, i ∈ ids <->
            exists a, dict_get i (all_assets idx) = Some a /\ P a) as Hids.
  { intros i. subst ids. rewrite list_elem_of_fmap. split.
    - intros (a & -> & Ha). apply list_elem_of_filter in Ha as [HP Ha].
      apply list_elem_of_fmap in Ha as ([k a'] & -> & Hin). simpl in *.
      exists a'. split; [| done]. apply dict_get_elem_of; [done |].
      rewrite Forall_forall in Hwf. specialize (Hwf _ Hin). simpl in Hwf.
      by rewrite Hwf.
    - intros (a & Ha & HP). exists a.
      apply dict_get_elem_of in Ha; [| done].
      rewrite Forall_forall in Hwf. pose proof (Hwf _ Ha) as Hk. simpl in Hk.
      split; [done |]. apply list_elem_of_filter. split; [done |].
      apply list_elem_of_fmap. by exists (i, a). }
  destruct purchased as [p |].
  - destruct (filter_purchased_spec p ids idx) as (r & -> & Hs & Hr).
    { apply Forall_forall. intros i Hi. apply Hids in Hi as (a & -> & _). eauto. }
    exists r. split; [done |]. split; [by etrans |].
    intros i. rewrite Hr, Hids. split.
    + intros [(a & Ha & HP) (a' & Ha' & Hp)]. exists a.
      split; [done |]. split; [done |]. intros p' [= <-]. congruence.
    + intros (a & Ha & HP & Hp). split; eauto.
  - exists ids. split; [done |]. split; [done |].
    intros i. rewrite Hids. split.
    + intros (a & Ha & HP). exists a. done.
    + intros (a & Ha & HP & _). eauto.
Qed.
(** X11: for an index whose records are stored under their own ids,
    [get_asset_id_list] never raises; it returns, in the order of the
    index, exactly the ids of the assets of the type asked for (any type
    for None) whose [is_purchased] equals the flag asked for (any for
    None). An asset whose purchase state is unknown ([is_purchased] None)
    is in neither the purchased nor the non-purchased list. *)
Theorem X11_get_asset_id_list (type_filter : option AssetType)
    (purchased : option bool) (idx : AssetIndex) :
  index_wf idx ->
  exists l,
    get_asset_id_list type_filter purchased idx = Returned l
    /\ sublist l (dict_keys (all_assets idx))
    /\ (forall i, i ∈ l <->
          exists a, dict_get i (all_assets idx) = Some a
                    /\ (type_filter = None \/ type_filter = Some (asset_type a))
                    /\ (forall p, purchased = Some p -> is_purchased a = Some p))
    /\ (forall i a p, purchased = Some p ->
          dict_get i (all_assets idx) = Some a -> is_purchased a = None ->
          i ∉ l).
Proof.
  intros Hwf.
  destruct (get_asset_id_list_spec type_filter purchased idx Hwf)
    as (l & Hl & Hsub & Hin).
  exists l. split; [done |]. split; [done |]. split; [done |].
  intros i a p -> Ha Hnone Hi. apply Hin in Hi as (a' & Ha' & _ & Hp).
  specialize (Hp p eq_refl). congruence.
Qed.

End IndexQueries.

Section LocalityMore.
Import Py Assets Index SpecAssets.
Context `{AM : AssetsModule}.

Lemma dict_get_foldl_set (f : string -> bool) (sizes : list string)
    (acc : list (string * bool)) (k : string) :
  dict_get k (foldl (fun d s => dict_set s (f s) d) acc sizes)
  = if bool_decide (k ∈ sizes) then Some (f k) else dict_get k acc.
Proof.
  revert acc. induction sizes as [| s sizes IH]; intros acc; simpl; [done |].
  rewrite IH. case_bool_decide as H1.
  - rewrite bool_decide_eq_true_2; [done |]. by apply list_elem_of_further.
  - destruct (decide (k = s)) as [-> |].
    + rewrite bool_decide_eq_true_2 by apply list_elem_of_here.
      apply dict_get_set_eq.
    + rewrite bool_decide_eq_false_2.
      * by apply dict_get_set_ne.
      * by intros [? | ?]%elem_of_cons.
Qed.

Lemma any_value_foldl_set (f : string -> bool) (sizes : list string)
    (acc : list (string * bool)) :
  Forall (fun e => e.2 = f e.1) acc ->
  any_value (foldl (fun d s => dict_set s (f s) d) acc sizes)
  = existsb f (dict_keys acc ++ sizes).
Proof.
  assert (forall acc, Forall (fun e : string * bool => e.2 = f e.1) acc ->
            any_value acc = existsb f (dict_keys acc)) as Hbase.
  { intros d Hd. unfold any_value, dict_values, dict_keys.
    induction Hd as [| [k v] d Hk _ IH]; [done |].
    cbn [fmap list_fmap existsb fst snd] in *. subst v. by f_equal. }
  revert acc. induction sizes as [| s sizes IH]; intros acc Hacc; simpl.
  - rewrite app_nil_r. by apply Hbase.
  - rewrite IH by (by apply dict_set_Forall).
    rewrite dict_set_keys. destruct (decide (s ∈ dict_keys acc)) as [Hs | Hs].
    + rewrite !existsb_app. simpl.
      destruct (f s) eqn:Efs; [| done].
      rewrite orb_true_r.
      assert (existsb f (dict_keys acc) = true) as ->; [| done].
      apply existsb_exists. exists s. split; [| done].
      by apply list_elem_of_In.
    + by rewrite <- app_assoc.
Qed.

(** X12: for a stored texture, HDRI or brush and a given workflow,
    [check_asset_is_local] answers from the file listing alone: with a size
    it is True exactly when the size is among the asset's sizes (the
    watermarked one counted only when asked for) and [get_maps] finds maps
    of the workflow in that size; without a size, when it does for some
    size. The stored [is_local] flag, the LOD and the model type play no
    part, and the index is left as it is. *)
Theorem X12_texture_is_local (idx : AssetIndex) (id : Z) (a : AssetData)
    (workflow : string) (size lod : option string)
    (model_type_arg : option ModelType) (native_only : bool) :
  dict_get id (all_assets idx) = Some a ->
  asset_type a ≠ MODEL -> asset_type a ≠ SUBSTANCE ->
  let sizes := get_size_list a (bool_decide (size = Some "WM")) in
  let has_maps := fun s => bool_decide (get_maps a workflow s ≠ []) in
  check_asset_is_local id (Some workflow) size lod model_type_arg native_only idx
  = (Returned (Some match size with
                    | Some sz => bool_decide (sz ∈ sizes) && has_maps sz
                    | None => existsb has_maps sizes
                    end), idx).
Proof.
  intros Ha Ht _ sizes has_maps. unfold check_asset_is_local. rewrite Ha.
  simpl. rewrite (bool_decide_eq_true_2 _ Ht).
  unfold check_asset_local_sizes. rewrite Ha. fold sizes.
  change (foldl _ [] sizes)
    with (foldl (fun d s => dict_set s (has_maps s) d) [] sizes).
  do 3 f_equal. destruct size as [sz |].
  - unfold in_and_true. rewrite dict_get_foldl_set.
    by case_bool_decide.
  - by rewrite any_value_foldl_set.
Qed.
End LocalityMore.

(** ** What a directory scan records (asset_index.py) *)

Section ScanRecords.
Import Py Assets Index Records SpecAssets.
Context `{AM : AssetsModule}.

(** X13: whatever a directory holds, every texture map [_analyze_files]
    records is a file the walk came by, kept with its directory, whose
    suffix is one of the image suffixes; every mesh is such a file with
    the suffix of its model type; no record is made of a preview file or of
    a file with _SOURCE in its name (nor, by its suffix, of the temporary
    file of a download); every record has a LOD; and what is listed as a
    preview has a preview name. *)
Theorem X13_scan_records (walk : Walk) (dir_asset workflow_fallback : string) :
  let seen := fun path filename =>
                exists dirs files,
                  (path, dirs, files) ∈ walk dir_asset /\ filename ∈ files in
  scan_ok seen (_analyze_files walk dir_asset workflow_fallback Scan_empty).
Proof.
  intros seen. unfold _analyze_files.
  assert (forall entries s,
            (forall e, e ∈ entries -> e ∈ walk dir_asset) ->
            scan_ok seen s ->
            scan_ok seen
              (foldl (fun s '(path, _, files) =>
                        foldl (fun s file =>
                                 _analyze_single_file path file
                                   workflow_fallback s)
                              s (Str.sorted_set files))
                     s entries)) as H.
  { induction entries as [| [[path dirs] files] entries IH]; intros s Hin Hs;
      simpl; [done |].
    apply IH; [intros e He; by apply Hin, list_elem_of_further |].
    assert (forall fs s0,
              (forall f, f ∈ fs -> f ∈ files) -> scan_ok seen s0 ->
              scan_ok seen
                (foldl (fun s file =>
                          _analyze_single_file path file workflow_fallback s)
                       s0 fs)) as Hfiles.
    { induction fs as [| f fs IHf]; intros s0 Hfs Hs0; simpl; [done |].
      apply IHf; [intros g Hg; by apply Hfs, list_elem_of_further |].
      apply _analyze_single_file_ok; [| done].
      exists dirs, files. split.
      - apply Hin, list_elem_of_here.
      - apply Hfs, list_elem_of_here. }
    apply Hfiles; [| done]. intros f. apply elem_of_sorted_set. }
  apply H; [done |]. by repeat split.
Qed.
End ScanRecords.

(** ** Locality with no library at hand (asset_index.py) *)

Section NoLibrary.
Import Py Assets Index Records SpecAssets.
Context `{AM : AssetsModule}.

Lemma clear_is_local_spec (ids : list Z) (idx : AssetIndex) :
  Forall (fun i => is_Some (get_asset i idx)) ids ->
  exists idx',
    clear_is_local ids idx = (Returned (), idx')
    /\ path_cache idx' = path_cache idx
    /\ forall j, get_asset j idx'
                 = if bool_decide (j ∈ ids)
                   then with_is_local (Some false) <$> get_asset j idx
                   else get_asset j idx.
Proof.
  revert idx. induction ids as [| i ids IH]; intros idx H; simpl.
  - exists idx. repeat split.
  - inversion H as [| ? ? [a Ha] Hrest]; subst. rewrite Ha.
    set (idx1 := set_assets (dict_set i (with_is_local (Some false) a)) idx).
    assert (forall j, get_asset j idx1
                      = if decide (j = i) then Some (with_is_local (Some false) a)
                        else get_asset j idx) as H1.
    { intros j. unfold get_asset, idx1. simpl. destruct (decide (j = i)) as [-> |].
      - apply dict_get_set_eq.
      - by apply dict_get_set_ne. }
    destruct (IH idx1) as (idx' & -> & Hp & Hget).
    { eapply Forall_impl; [exact Hrest |]. simpl. intros j [b Hb].
      rewrite H1. destruct (decide (j = i)); eauto. }
    exists idx'. split; [done |]. split; [done |].
    intros j. rewrite Hget, H1.
    destruct (decide (j = i)) as [-> |].
    + rewrite (bool_decide_eq_true_2 (i ∈ i :: ids)) by apply list_elem_of_here.
      rewrite Ha. simpl. by case_bool_decide.
    + case_bool_decide as Hj.
      * rewrite bool_decide_eq_true_2; [done |]. by apply list_elem_of_further.
      * rewrite bool_decide_eq_false_2; [done |].
        by intros [? | ?]%elem_of_cons.
Qed.

Lemma asset_name_dict_of_spec (ids : list Z) (idx : AssetIndex)
    (acc : list (string * Z)) :
  Forall (fun i => is_Some (get_asset i idx)) ids ->
  exists names,
    asset_name_dict_of ids idx acc = Returned names
    /\ (forall n i, dict_get n names = Some i ->
                    dict_get n acc = Some i
                    \/ (i ∈ ids /\ asset_name <$> get_asset i idx = Some n))
    /\ (forall n, is_Some (dict_get n acc) -> is_Some (dict_get n names))
    /\ (forall i a, i ∈ ids -> get_asset i idx = Some a ->
                    is_Some (dict_get (asset_name a) names)).
Proof.
  revert acc. induction ids as [| i ids IH]; intros acc H; simpl.
  - exists acc. split; [done |]. split; [by left |]. split; [done |].
    by intros i a ?%elem_of_nil.
  - inversion H as [| ? ? [a Ha] Hrest]; subst.
    unfold get_asset in Ha. rewrite Ha. simpl.
    destruct (IH (dict_set (asset_name a) i acc) Hrest) as (names & -> & N1 & N2 & N3).
    exists names. split; [done |]. split; [| split].
    + intros n j Hn. destruct (N1 n j Hn) as [Hacc | [Hj Hname]].
      * destruct (decide (asset_name a = n)) as [<- |].
        -- rewrite dict_get_set_eq in Hacc. simplify_eq. right.
           split; [apply list_elem_of_here |]. unfold get_asset. by rewrite Ha.
        -- rewrite dict_get_set_ne in Hacc by done. by left.
      * right. split; [by apply list_elem_of_further | done].
    + intros n Hn. apply N2. destruct (decide (asset_name a = n)) as [<- |].
      * rewrite dict_get_set_eq. eauto.
      * by rewrite dict_get_set_ne.
    + intros j b [-> | Hj]%elem_of_cons Hb.
      * unfold get_asset in Hb. simplify_eq. apply N2.
        rewrite dict_get_set_eq. eauto.
      * by eapply N3.
Qed.

(** X14: [update_all_local_assets] with an empty list of library
    directories, on an index whose records are stored under their own ids:
    it returns; every asset [get_asset_id_list] selects for the purchase
    flag is left with [is_local] False and nothing else of it changed,
    every other asset is untouched; the dictionary returned holds the name
    of every selected asset, each under the id of an asset of that name;
    and no directory is reported as unmatched. *)
Theorem X14_no_library_nothing_local (walk : Walk) (workflow_fallback : string)
    (purchased : option bool) (idx : AssetIndex) :
  index_wf idx ->
  exists ids names idx',
    get_asset_id_list None purchased idx = Returned ids
    /\ update_all_local_assets walk [] workflow_fallback purchased idx
       = (Returned (names, []), idx')
    /\ (forall j, get_asset j idx'
                  = if bool_decide (j ∈ ids)
                    then with_is_local (Some false) <$> get_asset j idx
                    else get_asset j idx)
    /\ (forall n i, dict_get n names = Some i ->
                    i ∈ ids /\ asset_name <$> get_asset i idx = Some n)
    /\ (forall i a, i ∈ ids -> get_asset i idx = Some a ->
                    is_Some (dict_get (asset_name a) names)).
Proof.
  intros Hwf.
  destruct (get_asset_id_list_spec None purchased idx Hwf)
    as (ids & Hids & _ & Hin).
  assert (Forall (fun i => is_Some (get_asset i idx)) ids) as Hall.
  { apply Forall_forall. intros i Hi. apply Hin in Hi as (a & Ha & _).
    unfold get_asset. rewrite Ha. eauto. }
  destruct (asset_name_dict_of_spec ids idx [] Hall) as (names & Hn & N1 & _ & N3).
  destruct (clear_is_local_spec ids idx Hall) as (idx' & Hc & _ & Hget).
  exists ids, names, idx'. split; [done |].
  split; [| split; [done | split; [| done]]].
  - unfold update_all_local_assets, select_assets. rewrite Hids, Hn, Hc.
    reflexivity.
  - intros n i Hni. by destruct (N1 n i Hni) as [? | ?].
Qed.
End NoLibrary.

Section UrlsCollect.
Import Api Units Urls.

Lemma collect_one_eq (asset : Z) (e : UrlDict) (c : Collect) :
  collect_one asset e c
  = if lacking e then inl (ud_url e)
    else if listed_source e then
      inr (mkCollect (dl_list c) (size_asset c) (model_exists c)
             (if Str.endswith ".fbx" (Str.lower (listed_name e))
              then Some (listed_name e, default "" (ud_url e), ud_bytes e)
              else source c)
             (reported c))
    else
      match find (fun check =>
                    bool_decide (name_key check = Str.lower (listed_name e)))
                 (dl_list c) with
      | Some check =>
          inr (mkCollect (dl_list c) (size_asset c + ud_bytes e)
                 (model_exists c) (source c)
                 (if bool_decide (size_expected check = ud_bytes e)
                  then reported c
                  else "asset_duplicate_file_url" :: reported c))
      | None =>
          inr (mkCollect (dl_list c ++ [unit_of asset e])
                 (size_asset c + ud_bytes e)
                 (if is_model_file (listed_name e) then true
                  else model_exists c)
                 (source c) (reported c))
      end.
Proof.
  unfold collect_one, lacking, listed_source, listed_name, unit_of, falsy.
  destruct e as [[u |] [f |] b]; simpl; try done.
  - destruct (bool_decide (u = "")), (bool_decide (f = "")); simpl; try done.
    destruct (Str.contains "_SOURCE" f); [| done].
    destruct c. simpl. by destruct (Str.endswith ".fbx" (Str.lower f)).
  - by destruct (bool_decide (u = "")).
Qed.

Lemma find_name_key (k : string) (l : list FileDownload) :
  match find (fun check => bool_decide (name_key check = k)) l with
  | Some check => check ∈ l /\ name_key check = k
  | None => k ∉ name_key <$> l
  end.
Proof.
  induction l as [| d l IH]; simpl.
  - apply not_elem_of_nil.
  - case_bool_decide as H.
    + split; [apply list_elem_of_here | done].
    + destruct (find _ l) as [check |].
      * destruct IH. split; [by apply list_elem_of_further | done].
      * intros [? | ?]%elem_of_cons; [congruence | done].
Qed.

Lemma lacking_false (e : UrlDict) :
  lacking e = false ->
  exists u f, ud_url e = Some u /\ ud_name e = Some f /\ u ≠ "" /\ f ≠ "".
Proof.
  unfold lacking, falsy. destruct (ud_url e) as [u |], (ud_name e) as [f |];
    try done.
  - intros [H1 H2]%orb_false_iff.
    apply bool_decide_eq_false in H1, H2. by exists u, f.
  - by rewrite orb_true_r.
Qed.

Lemma collect_one_made (asset : Z) (e : UrlDict) (c c' : Collect) :
  collect_one asset e c = inr c' -> units_made asset c -> units_made asset c'.
Proof.
  rewrite collect_one_eq. intros H (Hnd & Hu & Hm & Hs).
  destruct (lacking e) eqn:El; [done |].
  destruct (lacking_false e El) as (u & f & Eu & Ef & Hu0 & Hf0).
  assert (listed_name e = f) as Hname by (unfold listed_name; by rewrite Ef).
  destruct (listed_source e) eqn:Esrc.
  { simplify_eq. split; [done |]. split; [done |]. split; [done |]. simpl.
    intros f' u' s'. destruct (Str.endswith ".fbx" _) eqn:Efbx; [| by apply Hs].
    intros [= <- <- <-]. rewrite Eu. by repeat split. }
  pose proof (find_name_key (Str.lower (listed_name e)) (dl_list c)) as Hfind.
  destruct (find _ (dl_list c)) as [check |].
  { simplify_eq. done. }
  simplify_eq. unfold units_made. cbn [dl_list model_exists source].
  split; [| split; [| split; [| done]]].
  - rewrite fmap_app. apply NoDup_app. split; [done |]. split.
    + intros k Hk [-> | []%elem_of_nil]%elem_of_cons. done.
    + apply NoDup_singleton.
  - apply Forall_app. split; [done |]. constructor; [| done].
    unfold unit_of. rewrite Eu. simpl. repeat split; done.
  - intros Hme. destruct (is_model_file (listed_name e)) eqn:Emf; [done |].
    apply Forall_app. split; [by apply Hm |]. constructor; [| done]. done.
Qed.

Lemma collect_made (asset : Z) (l : list UrlDict) (c c' : Collect) :
  collect asset l c = inr c' -> units_made asset c -> units_made asset c'.
Proof.
  revert c. induction l as [| e l IH]; intros c; simpl.
  - by intros [= <-].
  - destruct (collect_one asset e c) as [| c1] eqn:E1; [done |].
    intros H Hc. eapply IH; [done |]. by eapply collect_one_made.
Qed.

Lemma collect_raises (asset : Z) (l : list UrlDict) (c : Collect) :
  match find lacking l with
  | Some e => collect asset l c = inl (ud_url e)
  | None => exists c', collect asset l c = inr c'
  end.
Proof.
  revert c. induction l as [| e l IH]; intros c; simpl.
  - by exists c.
  - rewrite collect_one_eq. destruct (lacking e); [done |].
    destruct (listed_source e); [apply IH |].
    destruct (find _ (dl_list c)); apply IH.
Qed.

Lemma collect_size (asset : Z) (l : list UrlDict) (c c' : Collect) :
  collect asset l c = inr c' ->
  size_asset c'
  = size_asset c + bytes_listed (filter (fun e => listed_source e = false) l).
Proof.
  revert c. induction l as [| e l IH]; intros c; simpl.
  - intros [= <-]. unfold bytes_listed. simpl. lia.
  - rewrite collect_one_eq. destruct (lacking e); [done |].
    rewrite filter_cons.
    destruct (listed_source e) eqn:Es.
    + rewrite decide_False by done. intros H. by rewrite (IH _ H).
    + rewrite decide_True by done.
      assert (bytes_listed (e :: filter (fun e => listed_source e = false) l)
              = ud_bytes e
                + bytes_listed (filter (fun e => listed_source e = false) l))
        as -> by done.
      destruct (find _ (dl_list c)); intros H; rewrite (IH _ H); simpl; lia.
Qed.

(** The units after the loop: those before it, then units made of listed
    entries that are no "_SOURCE" files; and every such entry has a unit of
    its name. *)
Lemma collect_units (asset : Z) (l : list UrlDict) (c c' : Collect) :
  collect asset l c = inr c' ->
  (exists made, dl_list c' = dl_list c ++ (unit_of asset <$> made)
                /\ made ⊆ filter (fun e => listed_source e = false) l)
  /\ (forall e, e ∈ l -> listed_source e = false ->
        Str.lower (listed_name e) ∈ name_key <$> dl_list c').
Proof.
  revert c. induction l as [| e l IH]; intros c; simpl.
  - intros [= <-]. split.
    + exists []. by rewrite app_nil_r.
    + by intros e []%elem_of_nil.
  - rewrite collect_one_eq. destruct (lacking e); [done |].
    rewrite filter_cons.
    destruct (listed_source e) eqn:Es.
    { rewrite decide_False by done. intros H.
      destruct (IH _ H) as [Hm Hall]. split; [done |].
      intros e' [-> | He']%elem_of_cons Hs'; [congruence | by apply Hall]. }
    rewrite decide_True by done.
    pose proof (find_name_key (Str.lower (listed_name e)) (dl_list c)) as Hf.
    destruct (find _ (dl_list c)) as [check |]; intros H;
      destruct (IH _ H) as [(made & Hm & Hsub) Hall];
      cbn [dl_list] in Hm.
    + split.
      * exists made. split; [done |].
        intros y Hy. apply list_elem_of_further. by apply Hsub.
      * intros e' [-> | He']%elem_of_cons Hs'; [| by apply Hall].
        destruct Hf as [Hin Hk]. rewrite Hm, fmap_app. apply elem_of_app.
        left. apply list_elem_of_fmap. by exists check.
    + split.
      * exists (e :: made). split.
        { rewrite Hm, <- app_assoc. done. }
        intros y [-> | Hy]%elem_of_cons;
          [apply list_elem_of_here | apply list_elem_of_further; by apply Hsub].
      * intros e' [-> | He']%elem_of_cons Hs'; [| by apply Hall].
        rewrite Hm, !fmap_app. apply elem_of_app. left. apply elem_of_app.
        right. apply list_elem_of_singleton. done.
Qed.

(** The loop reports duplicates only. *)
Lemma collect_reported (asset : Z) (l : list UrlDict) (c c' : Collect) :
  collect asset l c = inr c' ->
  "model_with_only_source_lod" ∉ reported c ->
  "model_with_only_source_lod" ∉ reported c'.
Proof.
  revert c. induction l as [| e l IH]; intros c; simpl.
  - by intros [= <-].
  - rewrite collect_one_eq. destruct (lacking e); [done |].
    destruct (listed_source e); [intros H Hc; by apply (IH _ H) |].
    destruct (find _ (dl_list c)) as [check |]; intros H Hc;
      apply (IH _ H); cbn [reported]; [| done].
    case_bool_decide; [done |].
    intros [? | ?]%elem_of_cons; [done | by apply Hc].
Qed.

Lemma units_made_empty (asset : Z) :
  units_made asset (mkCollect [] 0 false None []).
Proof.
  unfold units_made. cbn [dl_list model_exists source].
  split; [apply NoDup_nil_2 |]. split; [done |]. split; done.
Qed.

Lemma collect_source (asset : Z) (l : list UrlDict) (c c' : Collect) :
  collect asset l c = inr c' ->
  forall f u s, source c' = Some (f, u, s) ->
    source c = Some (f, u, s)
    \/ exists e, e ∈ l /\ new_FileDownload asset u f s = unit_of asset e.
Proof.
  revert c. induction l as [| e l IH]; intros c; simpl.
  - intros [= <-]. by left.
  - rewrite collect_one_eq. destruct (lacking e); [done |].
    assert (forall c1, collect asset l c1 = inr c' ->
              (forall f u s, source c1 = Some (f, u, s) ->
                 source c = Some (f, u, s)
                 \/ new_FileDownload asset u f s = unit_of asset e) ->
              forall f u s, source c' = Some (f, u, s) ->
                source c = Some (f, u, s)
                \/ exists e0, e0 ∈ e :: l
                              /\ new_FileDownload asset u f s = unit_of asset e0)
      as Hstep.
    { intros c1 H1 Hc1 f u s Hs.
      destruct (IH _ H1 f u s Hs) as [Hs1 | (e0 & He0 & Heq)].
      - destruct (Hc1 f u s Hs1) as [? | ?]; [by left |].
        right. exists e. split; [apply list_elem_of_here | done].
      - right. exists e0. split; [by apply list_elem_of_further | done]. }
    destruct (listed_source e).
    + intros H. apply (Hstep _ H). cbn [source]. intros f u s.
      destruct (Str.endswith ".fbx" _); [| by left].
      intros [= <- <- <-]. by right.
    + destruct (find _ (dl_list c)); intros H; apply (Hstep _ H);
        cbn [source]; intros; by left.
Qed.
End UrlsCollect.

Section UrlsOutcomes.
Import Api Units Urls.
Context (request_authenticated : bool -> RawResponse)
        (request_url : string -> RawResponse).


(** X16. One listed file that lacks its url or its name makes
    [download_asset_get_urls] raise [RuntimeError] with the url of the first
    such entry, whatever the other entries are; when no entry lacks
    either, the call returns its downloads. *)
Theorem X16_lacking_entry_raises (asset : Z) (is_retry : bool)
    (files : list UrlDict) :
  fetch_files_list request_authenticated request_url is_retry = inr files ->
  match first_lacking files with
  | Some e =>
      download_asset_get_urls request_authenticated request_url asset is_retry
      = inl (RuntimeError (ud_url e))
  | None => exists downloads size reported,
      download_asset_get_urls request_authenticated request_url asset is_retry
      = inr (Downloads downloads size reported)
  end.
Proof.
  intros Hf. unfold download_asset_get_urls, first_lacking. rewrite Hf.
  pose proof (collect_raises asset files (mkCollect [] 0 false None [])) as H.
  destruct (find lacking files) as [e |].
  - by rewrite H.
  - destruct H as [c' ->]. by eexists _, _, _.
Qed.

(** X17. The units [download_asset_get_urls] returns are fresh units of the
    asset with a url and a file name, and no two of them have the same file
    name. They are units of files that are no "_SOURCE" files, with names
    that differ even when case is ignored, followed by at most one unit of
    a "_SOURCE" file; that one is an ".fbx" file, is there only when none
    of the others is a model file, and is there exactly when
    "model_with_only_source_lod" was reported. *)
Theorem X17_units_returned (asset : Z) (is_retry : bool)
    (downloads : list FileDownload) (size : Z) (reported : list string) :
  download_asset_get_urls request_authenticated request_url asset is_retry
  = inr (Downloads downloads size reported) ->
  Forall (fun d => d = new_FileDownload asset (url d) (filename d)
                                        (size_expected d)
                   /\ url d ≠ "" /\ filename d ≠ "") downloads
  /\ NoDup (filename <$> downloads)
  /\ exists plain last,
       downloads = plain ++ last
       /\ NoDup (name_key <$> plain)
       /\ Forall (fun d => unit_source d = false) plain
       /\ ((last = [] /\ "model_with_only_source_lod" ∉ reported)
           \/ (exists d, last = [d]
                 /\ unit_source d = true
                 /\ Str.endswith ".fbx" (name_key d) = true
                 /\ Forall (fun d => is_model_file (filename d) = false) plain
                 /\ "model_with_only_source_lod" ∈ reported)).
Proof.
  unfold download_asset_get_urls.
  destruct (fetch_files_list request_authenticated request_url is_retry)
    as [early | files] eqn:Hf.
  { (* an early end gives no downloads *)
    unfold fetch_files_list in Hf. intros ->.
    destruct (negb (u_ok _)); [done |].
    destruct (b_url _) as [[u |] |]; try done.
    destruct (negb (r_ok _)); [done |]. by destruct (b_files _). }
  destruct (collect asset files _) as [| c] eqn:Hc; [done |].
  pose proof (collect_made _ _ _ _ Hc (units_made_empty asset))
    as (Hnd & Hu & Hm & Hs).
  pose proof (collect_reported _ _ _ _ Hc) as Hrep.
  assert (NoDup (filename <$> dl_list c)) as Hndf.
  { apply (NoDup_fmap_1 Str.lower). by rewrite <- list_fmap_compose. }
  assert (Forall (fun d => d = new_FileDownload asset (url d) (filename d)
                                                (size_expected d)
                           /\ url d ≠ "" /\ filename d ≠ "") (dl_list c))
    as Hshape.
  { eapply Forall_impl; [exact Hu |]. intros d (? & ? & ? & ?). done. }
  assert (Forall (fun d => unit_source d = false) (dl_list c)) as Hplain.
  { eapply Forall_impl; [exact Hu |]. by intros d (? & _). }
  unfold source_fallback.
  destruct (source c) as [[[f u] s] |] eqn:Es.
  - destruct (Hs f u s eq_refl) as (Hsrc & Hfbx & Hu0 & Hf0).
    destruct (model_exists c) eqn:Em; cbn [negb].
    + intros [= <- <- <-]. split; [done |]. split; [done |].
      exists (dl_list c), []. rewrite app_nil_r. split; [done |].
      split; [done |]. split; [done |]. left. split; [done |].
      apply Hrep. cbn [Urls.reported]. apply not_elem_of_nil.
    + cbn [dl_list Urls.size_asset Urls.reported]. intros [= <- <- <-].
      split; [| split].
      * apply Forall_app. split; [done |]. constructor; [| done]. done.
      * rewrite fmap_app. apply NoDup_app. split; [done |]. split.
        -- intros k Hk [-> | []%elem_of_nil]%elem_of_cons.
           apply list_elem_of_fmap in Hk as (d & Hd & Hin).
           rewrite Forall_forall in Hplain. specialize (Hplain d Hin).
           unfold unit_source in Hplain. rewrite <- Hd in Hplain.
           cbn [filename new_FileDownload] in Hplain. congruence.
        -- apply NoDup_singleton.
      * exists (dl_list c), [new_FileDownload asset u f s].
        split; [done |]. split; [done |]. split; [done |]. right.
        eexists. split; [done |]. split; [done |]. split; [done |].
        split; [by apply Hm |]. apply list_elem_of_here.
  - intros [= <- <- <-]. split; [done |]. split; [done |].
    exists (dl_list c), []. rewrite app_nil_r. split; [done |].
    split; [done |]. split; [done |]. left. split; [done |].
    apply Hrep. cbn [Urls.reported]. apply not_elem_of_nil.
Qed.

(** X18. The [size_asset] returned with the downloads is the sum of the
    sizes of all listed entries that are no "_SOURCE" files, duplicates
    counted and the "_SOURCE" unit of the fallback not, and every unit
    returned is made of a listed entry. When the names listed are of ASCII
    characters, every entry that is no "_SOURCE" file has a unit of its
    name, case ignored. *)
Theorem X18_size_and_cover (asset : Z) (is_retry : bool)
    (files : list UrlDict)
    (downloads : list FileDownload) (size : Z) (reported : list string) :
  fetch_files_list request_authenticated request_url is_retry = inr files ->
  download_asset_get_urls request_authenticated request_url asset is_retry
  = inr (Downloads downloads size reported) ->
  size = bytes_listed (filter (fun e => listed_source e = false) files)
  /\ (Forall (fun e => Text.isascii (listed_name e) = true) files ->
      forall e, e ∈ files -> listed_source e = false ->
        Str.lower (listed_name e) ∈ name_key <$> downloads)
  /\ (forall d, d ∈ downloads -> exists e, e ∈ files /\ d = unit_of asset e).
Proof.
  intros Hf. unfold download_asset_get_urls. rewrite Hf.
  destruct (collect asset files _) as [| c] eqn:Hc; [done |].
  pose proof (collect_size _ _ _ _ Hc) as Hsize.
  pose proof (collect_units _ _ _ _ Hc) as [(made & Hmade & Hsub) Hall].
  pose proof (collect_source _ _ _ _ Hc) as Hsrc.
  cbn [Urls.size_asset dl_list app] in Hsize, Hmade.
  assert (forall d, d ∈ dl_list c -> exists e, e ∈ files /\ d = unit_of asset e)
    as Hfrom.
  { intros d. rewrite Hmade. intros (e & -> & He)%list_elem_of_fmap.
    exists e. split; [| done]. apply Hsub in He.
    by apply list_elem_of_filter in He as [_ ?]. }
  assert (size_asset (source_fallback asset c) = size_asset c) as Hsz.
  { unfold source_fallback. destruct (source c) as [[[f u] s] |]; [| done].
    by destruct (negb (model_exists c)). }
  assert (exists last, dl_list (source_fallback asset c) = dl_list c ++ last
            /\ forall d, d ∈ last -> exists e, e ∈ files /\ d = unit_of asset e)
    as (last & Hdl & Hlast).
  { unfold source_fallback. destruct (source c) as [[[f u] s] |] eqn:Es.
    - destruct (negb (model_exists c)).
      + eexists. split; [done |].
        intros d ->%list_elem_of_singleton.
        destruct (Hsrc f u s eq_refl) as [? | ?]; done.
      + exists []. rewrite app_nil_r. split; [done |]. by intros d []%elem_of_nil.
    - exists []. rewrite app_nil_r. split; [done |]. by intros d []%elem_of_nil. }
  intros [= <- <- <-]. rewrite Hsz, Hdl. split; [lia |]. split.
  - intros _ e He Hs. rewrite fmap_app. apply elem_of_app. left.
    by apply Hall.
  - intros d [Hd | Hd]%elem_of_app; [by apply Hfrom | by apply Hlast].
Qed.

(** X19. When [download_asset_get_urls] hands back an answer instead of
    downloads, that answer is not ok and carries an error. *)
Theorem X19_answer_handed_back (asset : Z) (is_retry : bool)
    (res : UrlResponse) :
  download_asset_get_urls request_authenticated request_url asset is_retry
  = inr (NotOk res) ->
  u_ok res = false /\ is_Some (u_error res).
Proof.
  unfold download_asset_get_urls, fetch_files_list.
  set (first := get_download_url request_authenticated is_retry).
  assert (u_ok first = false -> is_Some (u_error first)) as Hfirst.
  { unfold first, get_download_url.
    destruct (r_ok (request_authenticated is_retry)) eqn:Eok.
    - destruct (message_expired _); [done |].
      destruct (_ && _); [done |]. cbn [as_it_came u_ok]. congruence.
    - destruct (r_error (request_authenticated is_retry)) as [e |] eqn:Ee;
        [| done].
      case_bool_decide; [| done]. cbn [as_it_came u_error]. by rewrite Ee. }
  destruct (u_ok first) eqn:Eok; cbn [negb].
  - destruct (b_url (u_body first)) as [[u |] |].
    + destruct (r_ok (request_url _)) eqn:Eok2; cbn [negb].
      * destruct (b_files _); [| done].
        by destruct (collect _ _ _).
      * intros [= <-]. cbn [u_ok u_error]. split; done.
    + by destruct (collect _ _ _).
    + by destruct (collect _ _ _).
  - intros [= <-]. split; [done | by apply Hfirst].
Qed.
End UrlsOutcomes.

Section LoadFresh.
Import Py Assets Index Records SpecAssets.

(** X15. [load_asset] of a record whose id the index does not hold yet
    stores the record as given: [get_asset] of the id finds it, every
    other id reads as before, the id comes after all ids held before, and
    an index that stores each record once under its own id still does. *)
Theorem X15_load_asset_fresh (asset_data : AssetData) (idx : AssetIndex) :
  dict_get (asset_id asset_data) (all_assets idx) = None ->
  exists idx',
    load_asset asset_data idx = (Returned (), idx')
    /\ get_asset (asset_id asset_data) idx' = Some asset_data
    /\ (forall j, j ≠ asset_id asset_data -> get_asset j idx' = get_asset j idx)
    /\ (index_wf idx -> index_wf idx'
        /\ dict_keys (all_assets idx')
           = dict_keys (all_assets idx) ++ [asset_id asset_data]).
Proof.
  intros Hnone. unfold load_asset, dict_mem.
  rewrite Hnone. rewrite bool_decide_eq_false_2 by (by intros [? ?]). simpl.
  eexists. split; [reflexivity |]. unfold get_asset. simpl.
  split; [apply dict_get_set_eq |].
  split; [intros j Hj; by apply dict_get_set_ne |].
  intros [Hnd Hwf]. split.
  - split; simpl.
    + by apply dict_set_NoDup.
    + by apply dict_set_Forall.
  - rewrite dict_set_keys. rewrite decide_False; [done |].
    intros Hin. unfold dict_keys in Hin.
    apply list_elem_of_fmap in Hin as ([k a] & Hk & Hin). simpl in Hk. subst k.
    apply dict_get_elem_of in Hin; [| done]. congruence.
Qed.
End LoadFresh.

Section SplitJoin.
Import Py Queries.

Lemma append_cons (a : ascii) (s t : string) :
  String a s +:+ t = String a (s +:+ t).
Proof. done. Qed.

Lemma append_nil_l (t : string) : "" +:+ t = t.
Proof. done. Qed.

Lemma append_nil_r (s : string) : s +:+ "" = s.
Proof.
  induction s as [| a s IH]; [done |]. by rewrite append_cons, IH.
Qed.

Lemma append_assoc (s t u : string) : (s +:+ t) +:+ u = s +:+ (t +:+ u).
Proof.
  induction s as [| a s IH]; [done |]. by rewrite !append_cons, IH.
Qed.

Lemma rev_app_append (s t : string) :
  String.rev_app s t = String.rev s +:+ t.
Proof.
  unfold String.rev. revert t. induction s as [| a s IH]; intros t; [done |].
  simpl. rewrite (IH (String a "")), (IH (String a t)).
  by rewrite append_assoc.
Qed.

Lemma split_aux_cur (c : ascii) (s cur : string) :
  Str.split_aux c s cur
  = match Str.split_aux c s "" with
    | [] => []
    | hd :: tl => (String.rev cur +:+ hd) :: tl
    end.
Proof.
  revert cur. induction s as [| a s IH]; intros cur; simpl.
  - by rewrite append_nil_r.
  - case_bool_decide.
    + by rewrite append_nil_r.
    + rewrite (IH (String a cur)), (IH (String a "")).
      destruct (Str.split_aux c s "") as [| hd tl]; [done |].
      unfold String.rev. simpl. rewrite (rev_app_append cur (String a "")).
      by rewrite append_assoc.
Qed.

(** [split] by its first character. *)
Lemma split_nil (c : ascii) : Str.split c "" = [""].
Proof. done. Qed.

Lemma split_cons (c a : ascii) (s : string) :
  Str.split c (String a s)
  = if bool_decide (a = c) then "" :: Str.split c s
    else match Str.split c s with
         | [] => []
         | hd :: tl => String a hd :: tl
         end.
Proof.
  unfold Str.split. simpl. case_bool_decide; [done |].
  by rewrite split_aux_cur.
Qed.

Lemma split_not_nil (c : ascii) (s : string) : Str.split c s ≠ [].
Proof.
  induction s as [| a s IH]; [done |]. rewrite split_cons.
  case_bool_decide; [done |]. by destruct (Str.split c s).
Qed.

Lemma join_cons_cons (sep x y : string) (l : list string) :
  join sep (x :: y :: l) = x +:+ sep +:+ join sep (y :: l).
Proof. done. Qed.

(** Joining what [split] gives with the separator gives the string back. *)
Lemma join_split (c : ascii) (s : string) :
  join (String c "") (Str.split c s) = s.
Proof.
  induction s as [| a s IH]; [done |]. rewrite split_cons.
  pose proof (split_not_nil c s) as Hne.
  destruct (Str.split c s) as [| hd tl] eqn:E; [done |].
  case_bool_decide as Hc.
  - rewrite join_cons_cons, IH. by rewrite Hc.
  - destruct tl as [| y tl].
    + simpl in *. by rewrite IH.
    + rewrite join_cons_cons in *. by rewrite append_cons, IH.
Qed.

Lemma contains_char_cons (c a : ascii) (s : string) :
  Str.contains (String c "") (String a s)
  = bool_decide (c = a) || Str.contains (String c "") s.
Proof.
  simpl. destruct s; simpl; by rewrite andb_true_r.
Qed.

Lemma contains_char_app (c : ascii) (a b : string) :
  Str.contains (String c "") (a +:+ String c b) = true.
Proof.
  induction a as [| x a IH].
  - rewrite append_nil_l, contains_char_cons.
    by rewrite bool_decide_eq_true_2.
  - rewrite append_cons, contains_char_cons, IH. apply orb_true_r.
Qed.

(** A string without the separator is the first part of what follows it. *)
Lemma split_app (c : ascii) (a b : string) :
  Str.contains (String c "") a = false ->
  Str.split c (a +:+ String c b) = a :: Str.split c b.
Proof.
  induction a as [| x a IH]; intros Hc.
  - rewrite append_nil_l, split_cons. by rewrite bool_decide_eq_true_2.
  - rewrite contains_char_cons in Hc.
    apply orb_false_iff in Hc as [Hx Ha]. apply bool_decide_eq_false in Hx.
    rewrite append_cons, split_cons.
    rewrite bool_decide_eq_false_2 by congruence. by rewrite (IH Ha).
Qed.

Lemma split_no_sep (c : ascii) (a : string) :
  Str.contains (String c "") a = false -> Str.split c a = [a].
Proof.
  induction a as [| x a IH]; intros Hc; [done |].
  rewrite contains_char_cons in Hc.
  apply orb_false_iff in Hc as [Hx Ha]. apply bool_decide_eq_false in Hx.
  rewrite split_cons. rewrite bool_decide_eq_false_2 by congruence.
  by rewrite (IH Ha).
Qed.

(** A string with the separator has at least two parts. *)
Lemma split_two (c : ascii) (s : string) :
  Str.contains (String c "") s = true ->
  exists p0 p1 rest, Str.split c s = p0 :: p1 :: rest.
Proof.
  induction s as [| a s IH]; [done |]. rewrite contains_char_cons.
  rewrite split_cons. intros Hc. destruct (decide (a = c)) as [-> | Ha].
  - rewrite bool_decide_eq_true_2 by done.
    pose proof (split_not_nil c s). destruct (Str.split c s) as [| p1 rest];
      [done |]. by eexists _, _, _.
  - rewrite bool_decide_eq_false_2 in Hc by congruence.
    rewrite bool_decide_eq_false_2 by done.
    destruct (IH Hc) as (p0 & p1 & rest & ->). by eexists _, _, _.
Qed.
End SplitJoin.

Section QueryCache.
Import Py Assets Index Queries.
Context {T : Type} `{EqDecision T}.
Variable TABLE : list (string * T).

(** A key that parses leaves the index as it was. *)
Lemma _query_key_to_tuple_returned (key : string) (chunk size : option Z)
    (idx idx' : AssetIndex) (t : QueryTuple T) :
  _query_key_to_tuple TABLE key chunk size idx = (Returned t, idx') ->
  idx' = idx /\ q_chunk t = chunk /\ q_chunk_size t = size.
Proof.
  unfold _query_key_to_tuple.
  destruct (Str.contains "/" key).
  - intros [= Ht <-]. split; [done |].
    destruct (Str.split "/" key !! 0%nat); [| done].
    destruct (Str.split "/" key !! 1%nat) as [n |]; [| done].
    simpl in Ht. destruct (dict_get n TABLE); [| done].
    simpl in Ht. by injection Ht as <-.
  - destruct (Str.contains "@" key); [| done].
    intros [= Ht <-]. split; [done |].
    destruct (Str.split "@" key !! 0%nat); [| done].
    destruct (Str.split "@" key !! 1%nat) as [n |]; [| done].
    simpl in Ht. destruct (dict_get n TABLE); [| done].
    simpl in Ht. by injection Ht as <-.
Qed.

(** X20. [_query_key_to_tuple] fails in two ways only: with [ValueError],
    after capturing "assetindex_query_unknown", for a key with neither "/"
    nor "@"; and with [KeyError], the index untouched, for a key whose
    second part is no name of [CATEGORY_NAME_TO_ASSET_TYPE]. It never
    fails for want of a part, and a key that parses leaves the index as it
    was. *)
Theorem X20_query_key_failures (key : string) (chunk size : option Z)
    (idx : AssetIndex) :
  let '(r, idx') := _query_key_to_tuple TABLE key chunk size idx in
  match r with
  | Returned t =>
      idx' = idx /\ q_chunk t = chunk /\ q_chunk_size t = size
      /\ (Str.contains "/" key = true -> query_search t = None)
  | Raised e =>
      (e = ValueError "Unknown query format"
       /\ Str.contains "/" key = false /\ Str.contains "@" key = false
       /\ idx' = capture_message "assetindex_query_unknown" idx)
      \/ (e = KeyError /\ idx' = idx
          /\ exists sep p0 name rest,
               (sep = "/"%char \/ sep = "@"%char)
               /\ Str.split sep key = p0 :: name :: rest
               /\ dict_get name TABLE = None)
  end.
Proof.
  unfold _query_key_to_tuple.
  destruct (Str.contains "/" key) eqn:Es.
  - destruct (split_two _ _ Es) as (p0 & p1 & rest & Hsp). rewrite Hsp.
    simpl. destruct (dict_get p1 TABLE) eqn:Hd; simpl.
    + done.
    + right. split; [done |]. split; [done |].
      exists "/"%char, p0, p1, rest. split; [by left | done].
  - destruct (Str.contains "@" key) eqn:Ea.
    + destruct (split_two _ _ Ea) as (p0 & p1 & rest & Hsp). rewrite Hsp.
      simpl. destruct (dict_get p1 TABLE) eqn:Hd; simpl.
      * done.
      * right. split; [done |]. split; [done |].
        exists "@"%char, p0, p1, rest. split; [by right | done].
    + by left.
Qed.

(** X21. A key "tab/type/category", where neither the tab nor the type
    name holds a "/" and the type name is one of
    [CATEGORY_NAME_TO_ASSET_TYPE], parses into the tab, the value of the
    type name and the category as written, further "/" and "@" in it
    included, with no search text; "tab/type" parses with no category. *)
Theorem X21_query_key_slash_format (tab name category : string) (ty : T)
    (chunk size : option Z) (idx : AssetIndex) :
  Str.contains "/" tab = false ->
  Str.contains "/" name = false ->
  dict_get name TABLE = Some ty ->
  _query_key_to_tuple TABLE (tab +:+ "/" +:+ name +:+ "/" +:+ category)
    chunk size idx
  = (Returned (mkQuery tab ty (Some category) None chunk size), idx)
  /\ _query_key_to_tuple TABLE (tab +:+ "/" +:+ name) chunk size idx
     = (Returned (mkQuery tab ty None None chunk size), idx).
Proof.
  intros Htab Hname Hty. unfold _query_key_to_tuple. split.
  - change ("/" +:+ name +:+ "/" +:+ category)
      with (String "/" (name +:+ String "/" category)).
    rewrite contains_char_app, split_app by done.
    rewrite split_app by done. simpl. rewrite Hty. simpl.
    pose proof (split_not_nil "/" category) as Hne.
    rewrite bool_decide_eq_true_2
      by (destruct (Str.split "/" category); [done | simpl; lia]).
    by rewrite drop_0, join_split.
  - change ("/" +:+ name) with (String "/" name).
    rewrite contains_char_app, split_app by done.
    rewrite split_no_sep by done. simpl. by rewrite Hty.
Qed.
End QueryCache.

Section SplitJoinMore.
Import Py Queries.

Lemma contains_char_nil (c : ascii) : Str.contains (String c "") "" = false.
Proof. done. Qed.

Lemma contains_char_append (c : ascii) (a b : string) :
  Str.contains (String c "") (a +:+ b)
  = Str.contains (String c "") a || Str.contains (String c "") b.
Proof.
  induction a as [| x a IH].
  - by rewrite append_nil_l, contains_char_nil.
  - by rewrite append_cons, !contains_char_cons, IH, orb_assoc.
Qed.
End SplitJoinMore.

Section QueryCacheSearch.
Import Py Assets Index Queries.
Context {T : Type} `{EqDecision T}.
Variable TABLE : list (string * T).

(** X22. In a key with "@" and no "/", the last part, in lower case, is
    the search text, here for a last part of ASCII characters:
    "tab@type@category@search" parses into the tab, the value of the type
    name, the category and the search text; "tab@type@search" into the
    empty category, not into none; and in "tab@type" the type name is the
    search text as well. *)
Theorem X22_query_key_search_format (tab name category search : string)
    (ty : T) (chunk size : option Z) (idx : AssetIndex) :
  Forall (fun s => Str.contains "/" s = false
                   /\ Str.contains "@" s = false)
         [tab; name; category; search] ->
  Text.isascii search = true ->
  Text.isascii name = true ->
  dict_get name TABLE = Some ty ->
  _query_key_to_tuple TABLE
    (tab +:+ "@" +:+ name +:+ "@" +:+ category +:+ "@" +:+ search)
    chunk size idx
  = (Returned (mkQuery tab ty (Some category) (Some (Str.lower search))
                 chunk size), idx)
  /\ _query_key_to_tuple TABLE (tab +:+ "@" +:+ name +:+ "@" +:+ search)
       chunk size idx
     = (Returned (mkQuery tab ty (Some "") (Some (Str.lower search))
                    chunk size), idx)
  /\ _query_key_to_tuple TABLE (tab +:+ "@" +:+ name) chunk size idx
     = (Returned (mkQuery tab ty None (Some (Str.lower name)) chunk size),
        idx).
Proof.
  intros Hparts _ _ Hty.
  apply Forall_cons in Hparts as [[Ht1 Ht2] Hparts].
  apply Forall_cons in Hparts as [[Hn1 Hn2] Hparts].
  apply Forall_cons in Hparts as [[Hc1 Hc2] Hparts].
  apply Forall_cons in Hparts as [[Hs1 Hs2] _].
  assert (Str.contains "/" "@" = false) as Hat by done.
  unfold _query_key_to_tuple. split; [| split].
  - assert (Str.contains "/"
              (tab +:+ "@" +:+ name +:+ "@" +:+ category +:+ "@" +:+ search)
            = false) as ->
      by (by rewrite !contains_char_append, Ht1, Hn1, Hc1, Hs1, Hat).
    change ("@" +:+ name +:+ "@" +:+ category +:+ "@" +:+ search)
      with (String "@" (name +:+ String "@" (category +:+ String "@" search))).
    rewrite contains_char_app.
    rewrite !split_app by done. rewrite split_no_sep by done.
    simpl. rewrite Hty. done.
  - assert (Str.contains "/" (tab +:+ "@" +:+ name +:+ "@" +:+ search)
            = false) as ->
      by (by rewrite !contains_char_append, Ht1, Hn1, Hs1, Hat).
    change ("@" +:+ name +:+ "@" +:+ search)
      with (String "@" (name +:+ String "@" search)).
    rewrite contains_char_app.
    rewrite !split_app by done. rewrite split_no_sep by done.
    simpl. rewrite Hty. done.
  - assert (Str.contains "/" (tab +:+ "@" +:+ name) = false) as ->
      by (by rewrite !contains_char_append, Ht1, Hn1, Hat).
    change ("@" +:+ name) with (String "@" name).
    rewrite contains_char_app.
    rewrite !split_app by done. rewrite split_no_sep by done.
    simpl. rewrite Hty. done.
Qed.
End QueryCacheSearch.

Section QueryCacheStore.
Import Py Assets Index Queries.
Context {T : Type} `{EqDecision T}.
Variable TABLE : list (string * T).

Lemma dict_get_del_eq {K V} `{EqDecision K} (k : K) (d : list (K * V)) :
  NoDup (dict_keys d) -> dict_get k (dict_del k d) = None.
Proof.
  unfold dict_keys. induction d as [| [k' v] d IH]; [done |].
  rewrite fmap_cons. intros [Hk Hd]%NoDup_cons. simpl.
  destruct (decide (k = k')) as [<- | Hne].
  - simpl in Hk. clear IH Hd. induction d as [| [k2 v2] d IH2]; [done |].
    simpl. rewrite fmap_cons, not_elem_of_cons in Hk. destruct Hk as [? ?].
    rewrite decide_False by done. by apply IH2.
  - simpl. rewrite decide_False by done. by apply IH.
Qed.

Lemma dict_get_del_ne {K V} `{EqDecision K} (k k' : K) (d : list (K * V)) :
  k ≠ k' -> dict_get k (dict_del k' d) = dict_get k d.
Proof.
  intros Hne. induction d as [| [k2 v2] d IH]; [done |]. simpl.
  destruct (decide (k' = k2)) as [<- | Hne2].
  - by rewrite decide_False.
  - simpl. by rewrite IH.
Qed.

Lemma dict_del_keys {K V} `{EqDecision K} (k : K) (d : list (K * V)) :
  NoDup (dict_keys d) ->
  NoDup (dict_keys (dict_del k d))
  /\ forall j, j ∈ dict_keys (dict_del k d) -> j ∈ dict_keys d.
Proof.
  unfold dict_keys. induction d as [| [k' v] d IH]; [done |].
  rewrite fmap_cons. intros [Hk Hd]%NoDup_cons. simpl.
  destruct (decide (k = k')) as [<- | Hne].
  - split; [done |]. intros j Hj. by apply list_elem_of_further.
  - destruct (IH Hd) as [IH1 IH2]. rewrite fmap_cons. split.
    + apply NoDup_cons. split; [| done]. intros Hin. by apply Hk, IH2.
    + intros j [-> | Hj]%elem_of_cons;
        [apply list_elem_of_here | by apply list_elem_of_further, IH2].
Qed.

(** Deleting the keys of a tab one by one. *)
Lemma flush_fold (tab : string) (keys : list (QueryTuple T))
    (cq : Cached (T:=T)) (t : QueryTuple T) :
  NoDup (dict_keys cq) ->
  let cq' :=
    foldl (fun cached_queries key =>
             if bool_decide (query_tab key = tab)
             then dict_del key cached_queries
             else cached_queries) cq keys in
  NoDup (dict_keys cq')
  /\ dict_get t cq'
     = if bool_decide (query_tab t = tab /\ t ∈ keys) then None
       else dict_get t cq.
Proof.
  revert cq. induction keys as [| k keys IH]; intros cq Hnd; simpl.
  - split; [done |]. rewrite bool_decide_eq_false_2; [done |].
    by intros [_ ?%elem_of_nil].
  - destruct (bool_decide (query_tab k = tab)) eqn:Ek.
    + apply bool_decide_eq_true in Ek.
      destruct (dict_del_keys k cq Hnd) as [Hnd' _].
      destruct (IH _ Hnd') as [IH1 IH2]. split; [done |].
      rewrite IH2. destruct (decide (t = k)) as [-> | Hne].
      * rewrite dict_get_del_eq by done.
        rewrite (bool_decide_eq_true_2 (_ /\ k ∈ k :: keys));
          [by case_bool_decide |].
        split; [done | apply list_elem_of_here].
      * rewrite dict_get_del_ne by done.
        apply (f_equal (fun b : bool => if b then None else dict_get t cq)).
        apply bool_decide_ext. rewrite elem_of_cons.
        split; [intros [? ?]; split; [done | by right] |].
        intros [? [? | ?]]; [done | by split].
    + apply bool_decide_eq_false in Ek.
      destruct (IH _ Hnd) as [IH1 IH2]. split; [done |]. rewrite IH2.
      apply (f_equal (fun b : bool => if b then None else dict_get t cq)).
      apply bool_decide_ext. rewrite elem_of_cons.
      split; [intros [? ?]; split; [done | by right] |].
      intros [? [-> | ?]]; [done | by split].
Qed.

(** X23. What [store_query] stores under a key, [query] gives back for
    every key that parses into the same tuple, with the same chunk and
    chunk size, and [query_exists] is true of it; keys that parse into
    another tuple read as before. *)
Theorem X23_store_then_query (asset_ids : list Z) (key key' : string)
    (chunk size chunk' size' : option Z) (idx : AssetIndex)
    (cq : Cached (T:=T)) (t t' : QueryTuple T) :
  _query_key_to_tuple TABLE key chunk size idx = (Returned t, idx) ->
  _query_key_to_tuple TABLE key' chunk' size' idx = (Returned t', idx) ->
  exists cq',
    store_query TABLE asset_ids key chunk size idx cq = (Returned (), idx, cq')
    /\ query TABLE key' chunk' size' idx cq'
       = (Returned (if decide (t' = t) then Some asset_ids
                    else dict_get t' cq), idx, cq')
    /\ query_exists TABLE key' chunk' size' idx cq'
       = (Returned (if decide (t' = t) then true else dict_mem t' cq),
          idx, cq')
    /\ (NoDup (dict_keys cq) -> NoDup (dict_keys cq')).
Proof.
  intros Ht Ht'. unfold store_query, query, query_exists. rewrite Ht.
  eexists. split; [done |]. rewrite Ht'. unfold dict_mem.
  destruct (decide (t' = t)) as [-> | Hne].
  - rewrite dict_get_set_eq. split; [done |]. split; [| apply dict_set_NoDup].
    by rewrite bool_decide_eq_true_2.
  - rewrite dict_get_set_ne by done. split; [done |]. split; [done |].
    apply dict_set_NoDup.
Qed.

(** X24. After [flush_queries_by_tab] the cache holds no query of the tab
    and every query of another tab as before. *)
Theorem X24_flush_queries_by_tab (tab : string) (cq : Cached (T:=T))
    (t : QueryTuple T) :
  NoDup (dict_keys cq) ->
  NoDup (dict_keys (flush_queries_by_tab tab cq))
  /\ dict_get t (flush_queries_by_tab tab cq)
     = if bool_decide (query_tab t = tab) then None else dict_get t cq.
Proof.
  intros Hnd. unfold flush_queries_by_tab.
  destruct (flush_fold tab (dict_keys cq) cq t Hnd) as [H1 H2].
  split; [done |]. rewrite H2.
  destruct (bool_decide (query_tab t = tab)) eqn:Et.
  - apply bool_decide_eq_true in Et. case_bool_decide as Hin; [done |].
    destruct (dict_get t cq) as [v |] eqn:Hg; [| done].
    exfalso. apply Hin. split; [done |].
    apply dict_get_elem_of in Hg; [| done].
    unfold dict_keys. apply list_elem_of_fmap. by exists (t, v).
  - apply bool_decide_eq_false in Et.
    rewrite bool_decide_eq_false_2; [done |]. by intros [? _].
Qed.
End QueryCacheStore.

Section MetaPayload.
Import Py Signals.
Context {V : Type}.

Lemma dict_get_update_other {K W} `{EqDecision K} (k : K)
    (other d : list (K * W)) :
  k ∉ other.*1 -> dict_get k (dict_update other d) = dict_get k d.
Proof.
  unfold dict_update. revert d.
  induction other as [| [k' v] other IH]; intros d Hk; [done |].
  rewrite fmap_cons, not_elem_of_cons in Hk. destruct Hk as [Hne Hk].
  simpl. rewrite (IH _ Hk). by apply dict_get_set_ne.
Qed.

(** X25. [_update_meta_payload] raises [TypeError] when the payload has a
    "meta" that is no dict. Otherwise it returns the payload with its
    other fields as they were, "platform" set, and a "meta" in which, for
    every key [common_meta] does not set: with the user opted out, "mp"
    and "optin" are [False] and nothing else is there, whatever meta the
    payload came with; with the user opted in, "optin" is [True],
    "software_version" is set, "mp" is [_mp_relevant] unless [skip_mp],
    and the other keys are as they came. *)
Theorem X25_update_meta_payload (self : Connector V)
    (payload : list (string * PayloadVal V)) (skip_mp : bool) :
  match dict_get "meta" payload with
  | Some (POther _) =>
      _update_meta_payload self payload skip_mp = Raised TypeError
  | came =>
      let meta_in := match came with Some (PDict m) => m | _ => [] end in
      exists payload' meta,
        _update_meta_payload self payload skip_mp = Returned payload'
        /\ dict_get "meta" payload' = Some (PDict meta)
        /\ dict_get "platform" payload' = Some (POther (_platform self))
        /\ (forall k, k ≠ "meta" -> k ≠ "platform" ->
              dict_get k payload' = dict_get k payload)
        /\ (forall k, k ∉ (common_meta self).*1 ->
              dict_get k meta
              = if _is_opted_in self then
                  if decide (k = "mp")
                  then Some (MBool (_mp_relevant self && negb skip_mp))
                  else if decide (k = "optin") then Some (MBool true)
                  else if decide (k = "software_version")
                  then Some (MOther (software_version self))
                  else dict_get k meta_in
                else
                  if decide (k = "mp" \/ k = "optin")
                  then Some (MBool false)
                  else None)
  end.
Proof.
  assert (forall meta_in payload0,
    dict_get "meta" payload0 = Some (PDict meta_in) ->
    (forall k, k ≠ "meta" -> dict_get k payload0 = dict_get k payload) ->
    exists payload' meta,
      match dict_get "meta" payload0 with
      | Some (PDict meta) =>
          let meta := dict_set "mp" (MBool (_mp_relevant self)) meta in
          let meta :=
            if _is_opted_in self then
              dict_set "software_version" (MOther (software_version self))
                (dict_set "optin" (MBool true) meta)
            else
              dict_set "optin" (MBool false) (dict_set "mp" (MBool false) []) in
          let meta :=
            if skip_mp then dict_set "mp" (MBool false) meta else meta in
          let meta := dict_update (common_meta self) meta in
          Returned (dict_set "platform" (POther (_platform self))
                      (dict_set "meta" (PDict meta) payload0))
      | Some (POther _) => Raised TypeError
      | None => Raised KeyError
      end = Returned payload'
      /\ dict_get "meta" payload' = Some (PDict meta)
      /\ dict_get "platform" payload' = Some (POther (_platform self))
      /\ (forall k, k ≠ "meta" -> k ≠ "platform" ->
            dict_get k payload' = dict_get k payload)
      /\ (forall k, k ∉ (common_meta self).*1 ->
            dict_get k meta
            = if _is_opted_in self then
                if decide (k = "mp")
                then Some (MBool (_mp_relevant self && negb skip_mp))
                else if decide (k = "optin") then Some (MBool true)
                else if decide (k = "software_version")
                then Some (MOther (software_version self))
                else dict_get k meta_in
              else
                if decide (k = "mp" \/ k = "optin")
                then Some (MBool false)
                else None)) as Hmain.
  { intros meta_in payload0 Hmeta Hrest. rewrite Hmeta.
    eexists _, _. split; [reflexivity |].
    split; [by rewrite dict_get_set_ne, dict_get_set_eq |].
    split; [by rewrite dict_get_set_eq |].
    split.
    { intros k Hk1 Hk2. rewrite !dict_get_set_ne by done. by apply Hrest. }
    intros k Hk. rewrite dict_get_update_other by done.
    destruct (_is_opted_in self).
    - destruct (decide (k = "mp")) as [-> | Hmp].
      + destruct skip_mp.
        * by rewrite dict_get_set_eq, andb_false_r.
        * rewrite !dict_get_set_ne by done.
          by rewrite dict_get_set_eq, andb_true_r.
      + assert (dict_get k
                  (if skip_mp
                   then dict_set "mp" (MBool false)
                          (dict_set "software_version"
                             (MOther (software_version self))
                             (dict_set "optin" (MBool true)
                                (dict_set "mp" (MBool (_mp_relevant self))
                                   meta_in)))
                   else dict_set "software_version"
                          (MOther (software_version self))
                          (dict_set "optin" (MBool true)
                             (dict_set "mp" (MBool (_mp_relevant self))
                                meta_in)))
                = dict_get k
                    (dict_set "software_version"
                       (MOther (software_version self))
                       (dict_set "optin" (MBool true)
                          (dict_set "mp" (MBool (_mp_relevant self))
                             meta_in)))) as ->.
        { destruct skip_mp; [| done]. by rewrite dict_get_set_ne. }
        destruct (decide (k = "optin")) as [-> | Hopt].
        * rewrite dict_get_set_ne by done. by rewrite dict_get_set_eq.
        * destruct (decide (k = "software_version")) as [-> | Hsv].
          -- by rewrite dict_get_set_eq.
          -- by rewrite !dict_get_set_ne.
    - destruct (decide (k = "mp" \/ k = "optin")) as [[-> | ->] | Hno].
      + by destruct skip_mp.
      + by destruct skip_mp.
      + assert (k ≠ "mp" /\ k ≠ "optin") as [Hmp Hopt]
          by (split; intros ->; apply Hno; [by left | by right]).
        destruct skip_mp; by rewrite !dict_get_set_ne. }
  unfold _update_meta_payload, dict_mem.
  destruct (dict_get "meta" payload) as [[m | v] |] eqn:Hm.
  - rewrite bool_decide_eq_true_2 by done. cbn [negb].
    by apply Hmain.
  - rewrite bool_decide_eq_true_2 by done. cbn [negb]. by rewrite Hm.
  - rewrite bool_decide_eq_false_2 by (by intros [? ?]). cbn [negb].
    apply Hmain.
    + by rewrite dict_get_set_eq.
    + intros k Hk. by rewrite dict_get_set_ne.
Qed.
End MetaPayload.

Section SignalEvents.
Import Py Signals.
Context {B Time : Type}.
Variable opted_in : bool.
Variable request : list string -> string -> Reply B.
Variable nonzero : Time -> bool.
Variable too_recent : Time -> Time -> bool.

Lemma _request_authenticated_sent (path : string) (s : Session Time) :
  let '(res, s') := _request_authenticated request path s in
  _last_screen_view s' = _last_screen_view s
  /\ (sent s' = sent s
      \/ (sent s' = path :: sent s
          /\ exists t, token s = Some t /\ t ≠ "")).
Proof.
  unfold _request_authenticated.
  destruct (token s) as [[| c t] |] eqn:Et; cbn; try (split; [done | by left]).
  destruct (match reply_error _ with Some _ => _ | None => _ end);
    (split; [done |]); right; (split; [done |]); by eexists.
Qed.

Lemma _signal_event_sent (event_name : string) (s : Session Time) :
  let '(res, s') := _signal_event opted_in request event_name s in
  _last_screen_view s' = _last_screen_view s
  /\ ((sent s' = sent s
       /\ (opted_in = false ->
             s' = s /\ s_ok res = false
             /\ s_error res = Some ERR_OPTED_OUT))
      \/ (sent s' = ("/t/" +:+ event_name) :: sent s
          /\ opted_in = true
          /\ exists t, token s = Some t /\ t ≠ "")).
Proof.
  unfold _signal_event. destruct opted_in; cbn [negb].
  - pose proof (_request_authenticated_sent ("/t/" +:+ event_name) s) as H.
    destruct (_request_authenticated _ _ _) as [res s'].
    destruct H as [H1 [H2 | [H2 H3]]].
    + split; [done |]. left. by split.
    + split; [done |]. right. by split.
  - split; [done |]. left. by split.
Qed.

(** X26. [signal_view_screen] makes at most one request, for
    "/t/view_screen", and makes it only when the user is opted in, a token
    is set, the screen name is one of the valid ones and the last view is
    not too recent. A view that is too recent is answered with
    [ERR_INTERVAL_VIEW] and changes nothing; every other call records its
    time as that of the last view, also when it sends nothing. *)
Theorem X26_signal_view_screen (now : Time) (screen_name : string)
    (s : Session Time) :
  let '(res, s') :=
    signal_view_screen opted_in request nonzero too_recent now screen_name s in
  (sent s' = sent s
   \/ (sent s' = "/t/view_screen" :: sent s
       /\ opted_in = true
       /\ (exists t, token s = Some t /\ t ≠ "")
       /\ screen_name ∈ valid_screens
       /\ view_refused nonzero too_recent now s = false))
  /\ (if view_refused nonzero too_recent now s
      then s' = s /\ s_ok res = false /\ s_error res = Some ERR_INTERVAL_VIEW
      else _last_screen_view s' = Some now)
  /\ (opted_in = false -> sent s' = sent s /\ s_ok res = false)
  /\ (screen_name ∉ valid_screens -> sent s' = sent s /\ s_ok res = false).
Proof.
  unfold signal_view_screen, view_refused.
  set (seen := mkSession (token s) (Some now) (sent s)).
  assert (let '(res, s') :=
            if negb (bool_decide (screen_name ∈ valid_screens))
            then (mkSignal (BodyInvalidScreen screen_name) false
                    (Some ERR_INVALID_SCREEN_NAME), seen)
            else _signal_event opted_in request "view_screen" seen in
          (sent s' = sent s
           \/ (sent s' = "/t/view_screen" :: sent s
               /\ opted_in = true
               /\ (exists t, token s = Some t /\ t ≠ "")
               /\ screen_name ∈ valid_screens))
          /\ _last_screen_view s' = Some now
          /\ (opted_in = false -> sent s' = sent s /\ s_ok res = false)
          /\ (screen_name ∉ valid_screens ->
                sent s' = sent s /\ s_ok res = false)) as Hproceed.
  { case_bool_decide as Hv; cbn [negb].
    - pose proof (_signal_event_sent "view_screen" seen) as H.
      destruct (_signal_event _ _ _ _) as [res s'].
      destruct H as [H1 [[H2 H3] | (H2 & H3 & H4)]].
      + split; [by left |]. split; [done |]. split; [| done].
        intros Ho. split; [done |]. by destruct (H3 Ho) as (_ & ? & _).
      + split; [right; by repeat split |]. split; [done |].
        split; [| done]. intros Ho. congruence.
    - split; [by left |]. split; [done |]. by split. }
  destruct (_last_screen_view s) as [last |] eqn:El.
  - destruct (nonzero last) eqn:En; cbn [andb].
    + destruct (too_recent now last) eqn:Er.
      * split; [by left |]. split; [done |]. by split.
      * destruct (if negb _ then _ else _) as [res s'].
        destruct Hproceed as (H1 & H2 & H3 & H4).
        split; [| by split].
        destruct H1 as [? | (? & ? & ? & ?)]; [by left | right; by repeat split].
    + destruct (if negb _ then _ else _) as [res s'].
      destruct Hproceed as (H1 & H2 & H3 & H4).
      split; [| by split].
      destruct H1 as [? | (? & ? & ? & ?)]; [by left | right; by repeat split].
  - destruct (if negb _ then _ else _) as [res s'].
    destruct Hproceed as (H1 & H2 & H3 & H4).
    split; [| by split].
    destruct H1 as [? | (? & ? & ? & ?)]; [by left | right; by repeat split].
Qed.

(** A view that is not refused records its time. *)
Lemma signal_view_screen_records (now : Time) (screen_name : string)
    (s : Session Time) :
  view_refused nonzero too_recent now s = false ->
  _last_screen_view
    (signal_view_screen opted_in request nonzero too_recent now screen_name s).2
  = Some now.
Proof.
  unfold signal_view_screen, view_refused.
  set (seen := mkSession (token s) (Some now) (sent s)).
  assert (_last_screen_view
            (if negb (bool_decide (screen_name ∈ valid_screens))
             then (mkSignal (BodyInvalidScreen screen_name) false
                     (Some ERR_INVALID_SCREEN_NAME), seen)
             else _signal_event opted_in request "view_screen" seen).2
          = Some now) as Hproceed.
  { destruct (negb _); [done |].
    pose proof (_signal_event_sent "view_screen" seen) as H.
    destruct (_signal_event _ _ _ _) as [res s']. by destruct H as [H _]. }
  destruct (_last_screen_view s) as [last |]; [| done].
  destruct (nonzero last); [| done]. cbn [andb]. by intros ->.
Qed.

(** X27. A view signalled too soon after a view that was not refused is
    refused with [ERR_INTERVAL_VIEW] and sends nothing, also when the
    earlier one sent nothing itself, for an invalid screen name, a user
    opted out or a missing token. *)
Theorem X27_view_after_view_refused (now1 now2 : Time)
    (screen1 screen2 : string) (s : Session Time) :
  view_refused nonzero too_recent now1 s = false ->
  nonzero now1 = true ->
  too_recent now2 now1 = true ->
  let s1 :=
    (signal_view_screen opted_in request nonzero too_recent now1 screen1 s).2 in
  signal_view_screen opted_in request nonzero too_recent now2 screen2 s1
  = (mkSignal BodyEmpty false (Some ERR_INTERVAL_VIEW), s1).
Proof.
  intros Hfree Hnz Hsoon s1.
  pose proof (signal_view_screen_records now1 screen1 s Hfree) as Hlast.
  fold s1 in Hlast. unfold signal_view_screen at 1.
  by rewrite Hlast, Hnz, Hsoon.
Qed.
End SignalEvents.

Section LibraryPaths.
Import Addon Library.

(** X28. [add_library_path] keeps the library paths free of duplicates and
    adds nothing but the path. A directory not yet among them is among
    them afterwards; as primary it takes the place of the first path,
    which is dropped, and is what [get_library_path] returns. A path that
    is no directory, or is among the paths already, changes nothing, so a
    path listed second does not become the primary one. *)
Theorem X28_add_library_path (isdir : string -> bool) (path : string)
    (primary : bool) (a : State) :
  NoDup (library_paths a) ->
  let a' := add_library_path isdir path primary a in
  NoDup (library_paths a')
  /\ (forall p, p ∈ library_paths a' -> p = path \/ p ∈ library_paths a)
  /\ (isdir path = false \/ path ∈ library_paths a -> a' = a)
  /\ (isdir path = true -> path ∉ library_paths a ->
        path ∈ library_paths a'
        /\ (primary = true ->
              get_library_path a' = Some path
              /\ library_paths a' = path :: tail (library_paths a))
        /\ (primary = false -> library_paths a' = library_paths a ++ [path])).
Proof.
  intros Hnd a'. unfold a', add_library_path.
  destruct (isdir path) eqn:Ed; cbn [negb].
  2: { split; [done |]. split; [by right |]. split; [done |]. done. }
  case_bool_decide as Hin.
  { split; [done |]. split; [by right |]. split; [done |]. done. }
  assert (NoDup (library_paths a ++ [path])) as Hnd_app.
  { apply NoDup_app. split; [done |]. split; [| apply NoDup_singleton].
    by intros x Hx ->%list_elem_of_singleton. }
  assert (forall p, p ∈ library_paths a ++ [path] ->
                    p = path \/ p ∈ library_paths a) as Hsub_app.
  { intros p [? | ->%list_elem_of_singleton]%elem_of_app; [by right | by left]. }
  unfold get_library_path.
  destruct (library_paths a) as [| first rest] eqn:El;
    cbn [set_library_paths library_paths]; rewrite ?El.
  - split; [done |]. split; [done |]. split; [by intros [? | ?] |].
    intros _ _. split; [apply list_elem_of_here |].
    split; [| done]. intros _. done.
  - destruct primary; cbn [set_library_paths library_paths]; rewrite ?El.
    + apply NoDup_cons in Hnd as [Hf Hr].
      rewrite not_elem_of_cons in Hin. destruct Hin as [Hne Hin].
      split; [by apply NoDup_cons |]. split.
      { intros p [-> | Hp]%elem_of_cons; [by left |].
        right. by apply list_elem_of_further. }
      split; [by intros [? | [? | ?]%elem_of_cons] |].
      intros _ _. split; [apply list_elem_of_here |]. split; done.
    + split; [done |]. split; [done |]. split; [by intros [? | ?] |].
      intros _ _. split; [| done].
      apply elem_of_app. right. apply list_elem_of_here.
Qed.
End LibraryPaths.

Section PatchUrl.
Import Py Queries Patch.
Variable int_of : string -> option Z.
Variable str_of : Z -> string.

Lemma split_once_spec (c : ascii) (s : string) :
  match split_once c s with
  | None => Str.contains (String c "") s = false
  | Some (x, y) =>
      s = x +:+ String c y /\ Str.contains (String c "") x = false
  end.
Proof.
  induction s as [| a s IH]; [done |]. simpl split_once.
  rewrite contains_char_cons. destruct (decide (a = c)) as [-> | Hne].
  - by rewrite bool_decide_eq_true_2.
  - rewrite bool_decide_eq_false_2 by done.
    destruct (split_once c s) as [[x y] |].
    + destruct IH as [-> IH]. split; [done |].
      rewrite contains_char_cons, IH. by rewrite bool_decide_eq_false_2.
    + rewrite IH. by rewrite bool_decide_eq_false_2.
Qed.

Lemma split_once_app (c : ascii) (x y : string) :
  Str.contains (String c "") x = false ->
  split_once c (x +:+ String c y) = Some (x, y).
Proof.
  induction x as [| a x IH]; intros Hx.
  - rewrite append_nil_l. simpl. by rewrite bool_decide_eq_true_2.
  - rewrite contains_char_cons in Hx.
    apply orb_false_iff in Hx as [Ha Hx]. apply bool_decide_eq_false in Ha.
    rewrite append_cons. simpl.
    rewrite bool_decide_eq_false_2 by congruence. by rewrite (IH Hx).
Qed.

Lemma patch_params_none (params : list string) :
  Forall (fun p => Str.startswith "v=" p = false) params ->
  patch_params int_of str_of params = Returned params.
Proof.
  induction 1 as [| p params Hp _ IH]; [done |].
  cbn [patch_params]. rewrite Hp. cbn [negb]. by rewrite IH.
Qed.

Lemma patch_params_app (pre rest : list string) :
  Forall (fun p => Str.startswith "v=" p = false) pre ->
  patch_params int_of str_of (pre ++ rest)
  = rest' ← patch_params int_of str_of rest; Returned (pre ++ rest').
Proof.
  induction 1 as [| p pre Hp _ IH].
  - simpl. by destruct (patch_params _ _ rest).
  - rewrite <- app_comm_cons. cbn [patch_params]. rewrite Hp. cbn [negb].
    rewrite IH. by destruct (patch_params _ _ rest).
Qed.

(** Splitting what [join] made of parts without the separator gives the
    parts. *)
Lemma split_join (c : ascii) (l : list string) :
  l ≠ [] ->
  Forall (fun p => Str.contains (String c "") p = false) l ->
  Str.split c (join (String c "") l) = l.
Proof.
  intros Hne Hl. induction Hl as [| p l Hp Hl IH]; [done |].
  destruct l as [| q l].
  - simpl. by apply split_no_sep.
  - rewrite join_cons_cons.
    change (String c "" +:+ join (String c "") (q :: l))
      with (String c (join (String c "") (q :: l))).
    rewrite split_app by done. by rewrite IH.
Qed.

(** X29. [patch_download_url_increment_version] raises [ValueError] for a
    url without "?". A url with "?" in which no parameter starts with "v="
    is returned as it is. *)
Theorem X29_patch_url_no_version (url : string) :
  match split_once "?" url with
  | None =>
      Str.contains "?" url = false
      /\ patch_download_url_increment_version int_of str_of url
         = Raised (ValueError "not enough values to unpack")
  | Some (base, params) =>
      url = base +:+ "?" +:+ params
      /\ (Forall (fun p => Str.startswith "v=" p = false)
            (Str.split "&" params) ->
          patch_download_url_increment_version int_of str_of url
          = Returned url)
  end.
Proof.
  unfold patch_download_url_increment_version.
  pose proof (split_once_spec "?" url) as H.
  destruct (split_once "?" url) as [[base params] |].
  - destruct H as [-> Hb]. split; [done |]. intros Hp.
    rewrite patch_params_none by done. simpl. by rewrite join_split.
  - done.
Qed.

(** X30. In a url "base?parameters" the first parameter that starts with
    "v=" is the only one changed: "v=" followed by a number becomes "v="
    followed by the next number; followed by what [int] does not take, it
    stays; and with a further "=" in it the call raises [ValueError]. The
    base, the parameters before it and all after it, further "v=" ones
    included, stay as they are. *)
Theorem X30_patch_url_version (base version : string)
    (before after : list string) :
  Str.contains "?" base = false ->
  Forall (fun p => Str.contains "&" p = false
                   /\ Str.startswith "v=" p = false) before ->
  Forall (fun p => Str.contains "&" p = false) after ->
  Str.contains "&" version = false ->
  let url_with v :=
    base +:+ "?" +:+ join "&" (before ++ ("v=" +:+ v) :: after) in
  patch_download_url_increment_version int_of str_of (url_with version)
  = if Str.contains "=" version
    then Raised (ValueError "too many values to unpack")
    else match int_of version with
         | Some n => Returned (url_with (str_of (n + 1)))
         | None => Returned (url_with version)
         end.
Proof.
  intros Hbase Hbefore Hafter Hv url_with.
  unfold patch_download_url_increment_version, url_with.
  change ("?" +:+ join "&" (before ++ ("v=" +:+ version) :: after))
    with (String "?" (join "&" (before ++ ("v=" +:+ version) :: after))).
  rewrite split_once_app by done.
  rewrite split_join; cycle 1.
  { by destruct before. }
  { apply Forall_app. split.
    - eapply Forall_impl; [exact Hbefore |]. by intros p [? _].
    - constructor; [| done].
      change ("v=" +:+ version) with (String "v" (String "=" version)).
      rewrite !contains_char_cons, Hv. done. }
  rewrite patch_params_app
    by (eapply Forall_impl; [exact Hbefore |]; by intros p [_ ?]).
  cbn [patch_params].
  change ("v=" +:+ version) with (String "v" (String "=" version)).
  assert (Str.startswith "v=" (String "v" (String "=" version)) = true) as ->.
  { by destruct version. }
  cbn [negb]. rewrite split_cons.
  rewrite bool_decide_eq_false_2 by done. rewrite split_cons.
  rewrite bool_decide_eq_true_2 by done.
  destruct (Str.contains "=" version) eqn:Ee.
  - destruct (split_two _ _ Ee) as (p0 & p1 & rest & ->). done.
  - rewrite split_no_sep by done.
    destruct (int_of version) as [n |]; done.
Qed.
End PatchUrl.

(** ** The properties at work on the scenarios *)

Section UnitScenarios.
Import Os Api Py Addon Units SpecAssets Scenarios.

Lemma X6_check_downloads_witness :
  exists p,
    check_downloads [unit_col_done; unit_nrm_failed; unit_col_done]
      = Returned p
    /\ any_error p = true /\ all_done p = false
    /\ res_error p = Some (ErrText ERR_CONNECTION)
    /\ poll_size_downloaded p = 16.
Proof.
  eexists. split; [reflexivity |].
  destruct (X6_check_downloads
              [unit_col_done; unit_nrm_failed; unit_col_done] _ eq_refl)
    as (_ & _ & Hdone & _ & Herr).
  split; [reflexivity |]. split; [exact (Hdone eq_refl) |].
  split; reflexivity.
Defined.

Lemma X7_cancel_downloads_witness :
  exists dl_list',
    cancel_downloads_waiting running_nrm
      [waiting_unit; unit_col_done; unit_nrm_running]
    = inr dl_list'
    /\ (status <$> dl_list') = [CANCELLED; DONE; ERROR]
    /\ (size_downloaded <$> dl_list') = [0; 12; 8]
    /\ forall net runs w, run_pool net runs dl_list' w = (dl_list', w).
Proof.
  eexists. split; [reflexivity |]. split; [reflexivity |].
  split; [reflexivity |].
  exact (proj1 (proj2 (X7_cancel_downloads running_nrm
                         [waiting_unit; unit_col_done; unit_nrm_running]
                         _ eq_refl))).
Defined.

Lemma X8_rename_downloads_success_witness :
  let r := rename_downloads [unit_col_done] world_temp_complete in
  rn_list r = [unit_col_done]
  /\ Forall (fun d => is_Some (files (rn_world r) !! get_path d false)
                      /\ files (rn_world r) !! get_path d true = None)
            [unit_col_done]
  /\ (forall q, (forall d, d ∈ [unit_col_done] ->
                           q ≠ get_path d true /\ q ≠ get_path d false) ->
                files (rn_world r) !! q = files world_temp_complete !! q).
Proof.
  apply (X8_rename_downloads_success [unit_col_done] world_temp_complete).
  - intros d1 d2 ->%list_elem_of_singleton ->%list_elem_of_singleton.
    discriminate.
  - reflexivity.
  - reflexivity.
Defined.

Lemma X9_rename_error_is_the_last_witness :
  let r := rename_downloads ([unit_nrm_failed] ++ [unit_col_done])
             world_empty in
  rn_all_successful r = false
  /\ rn_error_msg r = MSG_MISSING_FILE +:+ get_path unit_col_done true.
Proof.
  destruct (X9_rename_error_is_the_last [unit_nrm_failed] unit_col_done
              world_empty eq_refl (or_introl (conj eq_refl eq_refl)))
    as (H1 & _ & _ & H2 & _).
  split; [exact H1 | exact H2].
Defined.
End UnitScenarios.

Section IndexScenarios.
Import Os Api Py Assets Index Addon Records SpecAssets Scenarios.

Lemma index_library_wf : index_wf index_library.
Proof.
  split.
  - apply (bool_decide_unpack _). by vm_compute.
  - repeat constructor.
Qed.

Lemma X10_retries_exhausted_reported_done_witness :
  let run :=
    download_asset env_no_urls Metal001 (Some "4K") true false None
      addon_queued world_empty in
  result run = Returned true
  /\ units run = []
  /\ world run = world_empty
  /\ done_calls (addon run) = (42, None) :: done_calls addon_queued
  /\ download_queue (addon run) !! 42 = None
  /\ ticks (addon run) = (ticks addon_queued + 2 * MAX_DOWNLOAD_RETRIES)%nat.
Proof.
  eapply (X10_retries_exhausted_reported_done env_no_urls Metal001 (Some "4K")
           false None addon_queued world_empty
           (mkEntry Metal001 (Some "4K") None) _ _ "/lib" _ _).
  - apply not_elem_of_empty.
  - reflexivity.
  - reflexivity.
  - reflexivity.
  - reflexivity.
  - repeat constructor.
  - reflexivity.
  - reflexivity.
Defined.

Lemma X11_get_asset_id_list_witness :
  exists l,
    get_asset_id_list (Some TEXTURE) (Some true) index_library = Returned l
    /\ l = [42]
    /\ sublist l (dict_keys (all_assets index_library))
    /\ (forall i a p, Some true = Some p ->
          dict_get i (all_assets index_library) = Some a ->
          is_purchased a = None -> i ∉ l).
Proof.
  destruct (X11_get_asset_id_list (Some TEXTURE) (Some true) index_library
              index_library_wf) as (l & Hl & Hsub & _ & Hnone).
  exists l. split; [exact Hl |]. split; [| by split].
  vm_compute in Hl. by injection Hl as <-.
Defined.

Lemma X12_texture_is_local_witness :
  check_asset_is_local 42 (Some "REGULAR") (Some "4K") None None false
    index_library
  = (Returned (Some true), index_library).
Proof.
  exact (X12_texture_is_local index_library 42 Metal001_local "REGULAR"
           (Some "4K") None None false eq_refl
           ltac:(discriminate) ltac:(discriminate)).
Defined.

Lemma X14_no_library_nothing_local_witness :
  exists ids names idx',
    get_asset_id_list None (Some true) index_library = Returned ids
    /\ update_all_local_assets walk_two_libraries [] "REGULAR" (Some true)
         index_library
       = (Returned (names, []), idx')
    /\ (forall j, get_asset j idx'
                  = if bool_decide (j ∈ ids)
                    then with_is_local (Some false)
                           <$> get_asset j index_library
                    else get_asset j index_library).
Proof.
  destruct (X14_no_library_nothing_local walk_two_libraries "REGULAR"
              (Some true) index_library index_library_wf)
    as (ids & names & idx' & H1 & H2 & H3 & _).
  by exists ids, names, idx'.
Defined.

Lemma X15_load_asset_fresh_witness :
  exists idx',
    load_asset Chair003 index_metal = (Returned (), idx')
    /\ get_asset 77 idx' = Some Chair003
    /\ get_asset 42 idx' = Some Metal001
    /\ dict_keys (all_assets idx') = [42; 77].
Proof.
  destruct (X15_load_asset_fresh Chair003 index_metal eq_refl)
    as (idx' & H1 & H2 & H3 & H4).
  exists idx'. split; [exact H1 |]. split; [exact H2 |].
  split; [exact (H3 42 ltac:(discriminate)) |].
  apply H4. split; [apply NoDup_singleton | by repeat constructor].
Defined.
End IndexScenarios.

Section UrlScenarios.
Import Api Urls Scenarios.

Lemma X16_lacking_entry_raises_witness :
  download_asset_get_urls
    (answer_files [entry_col; entry_nameless; entry_source]) no_request_url
    42 false
  = inl (RuntimeError (Some "https://cdn/unnamed")).
Proof.
  exact (X16_lacking_entry_raises
           (answer_files [entry_col; entry_nameless; entry_source])
           no_request_url 42 false _ eq_refl).
Defined.

Lemma X17_units_returned_witness :
  exists downloads size reported,
    download_asset_get_urls
      (answer_files [entry_col; entry_col_again; entry_source]) no_request_url
      42 false
    = inr (Downloads downloads size reported)
    /\ (filename <$> downloads)
       = ["Metal001_COL_4K.jpg"; "Chair003_SOURCE.fbx"]
    /\ NoDup (filename <$> downloads)
    /\ Forall (fun d => d = new_FileDownload 42 (url d) (filename d)
                                             (size_expected d)
                        /\ url d ≠ "" /\ filename d ≠ "") downloads.
Proof.
  eexists _, _, _. split; [reflexivity |]. split; [reflexivity |].
  destruct (X17_units_returned
              (answer_files [entry_col; entry_col_again; entry_source])
              no_request_url 42 false _ _ _ eq_refl) as (H1 & H2 & _).
  split; [exact H2 | exact H1].
Defined.

Lemma X18_size_and_cover_witness :
  exists downloads reported,
    download_asset_get_urls
      (answer_files [entry_col; entry_col_again; entry_source]) no_request_url
      42 false
    = inr (Downloads downloads 22 reported)
    /\ (forall e, e ∈ [entry_col; entry_col_again; entry_source] ->
          listed_source e = false ->
          Str.lower (listed_name e) ∈ name_key <$> downloads)
    /\ (forall d, d ∈ downloads ->
          exists e, e ∈ [entry_col; entry_col_again; entry_source]
                    /\ d = unit_of 42 e).
Proof.
  eexists _, _. split; [reflexivity |].
  destruct (X18_size_and_cover
              (answer_files [entry_col; entry_col_again; entry_source])
              no_request_url 42 false _ _ _ _ eq_refl eq_refl)
    as (_ & Hcover & Hmade).
  split; [| exact Hmade]. apply Hcover. by repeat constructor.
Defined.

Lemma X19_answer_handed_back_witness :
  exists res,
    download_asset_get_urls answer_unauthorized no_request_url 42 false
    = inr (NotOk res)
    /\ u_ok res = false /\ is_Some (u_error res).
Proof.
  eexists. split; [reflexivity |].
  exact (X19_answer_handed_back answer_unauthorized no_request_url 42 false
           _ eq_refl).
Defined.
End UrlScenarios.

Section QueryScenarios.
Import Py Assets Index Queries SpecAssets Scenarios.

Lemma X21_query_key_slash_format_witness :
  _query_key_to_tuple type_names "my_assets/Textures/Wood/Oak@1" (Some 0)
    (Some 10) index_library
  = (Returned (mkQuery "my_assets" (Some TEXTURE) (Some "Wood/Oak@1") None
                 (Some 0) (Some 10)), index_library)
  /\ _query_key_to_tuple type_names "my_assets/Textures" (Some 0) (Some 10)
       index_library
     = (Returned (mkQuery "my_assets" (Some TEXTURE) None None (Some 0)
                    (Some 10)), index_library).
Proof.
  exact (X21_query_key_slash_format type_names "my_assets" "Textures"
           "Wood/Oak@1" (Some TEXTURE) (Some 0) (Some 10) index_library
           eq_refl eq_refl eq_refl).
Defined.

Lemma X22_query_key_search_format_witness :
  _query_key_to_tuple type_names "poliigon@Models@Furniture@Chair" None None
    index_library
  = (Returned (mkQuery "poliigon" (Some MODEL) (Some "Furniture")
                 (Some "chair") None None), index_library)
  /\ _query_key_to_tuple type_names "poliigon@Models@Chair" None None
       index_library
     = (Returned (mkQuery "poliigon" (Some MODEL) (Some "") (Some "chair")
                    None None), index_library)
  /\ _query_key_to_tuple type_names "poliigon@Models" None None index_library
     = (Returned (mkQuery "poliigon" (Some MODEL) None (Some "models") None
                    None), index_library).
Proof.
  apply (X22_query_key_search_format type_names "poliigon" "Models"
           "Furniture" "Chair" (Some MODEL) None None index_library).
  - repeat constructor.
  - reflexivity.
  - reflexivity.
  - reflexivity.
Defined.

Lemma X23_store_then_query_witness :
  exists cq',
    store_query type_names [7; 8] "poliigon@Models@Chair" None None
      index_library cache_my_textures
    = (Returned (), index_library, cq')
    /\ query type_names "poliigon@Models@CHAIR" None None index_library cq'
       = (Returned (Some [7; 8]), index_library, cq')
    /\ query_exists type_names "poliigon@Models@CHAIR" None None
         index_library cq'
       = (Returned true, index_library, cq').
Proof.
  destruct (X23_store_then_query type_names [7; 8] "poliigon@Models@Chair"
              "poliigon@Models@CHAIR" None None None None index_library
              cache_my_textures _ _ eq_refl eq_refl)
    as (cq' & H1 & H2 & H3 & _).
  exists cq'. split; [exact H1 |]. split; [exact H2 | exact H3].
Defined.

Lemma X24_flush_queries_by_tab_witness :
  dict_get (mkQuery "my_assets" (Some TEXTURE) None None (Some 0) (Some 10))
    (flush_queries_by_tab "my_assets" cache_my_textures)
  = None.
Proof.
  exact (proj2 (X24_flush_queries_by_tab "my_assets" cache_my_textures
                  (mkQuery "my_assets" (Some TEXTURE) None None (Some 0)
                     (Some 10))
                  (NoDup_singleton _))).
Defined.
End QueryScenarios.

Section SignalScenarios.
Import Signals Scenarios.

Lemma X27_view_after_view_refused_witness :
  let s1 :=
    (signal_view_screen false request_ok seconds_nonzero seconds_too_recent
       100 "no_such_screen" session_fresh).2 in
  signal_view_screen false request_ok seconds_nonzero seconds_too_recent
    101 "home" s1
  = (mkSignal BodyEmpty false (Some ERR_INTERVAL_VIEW), s1).
Proof.
  exact (X27_view_after_view_refused false request_ok seconds_nonzero
           seconds_too_recent 100 101 "no_such_screen" "home" session_fresh
           eq_refl eq_refl eq_refl).
Defined.
End SignalScenarios.

Section LibraryScenarios.
Import Addon Library SpecAssets.

Lemma X28_add_library_path_witness :
  let a' := add_library_path (fun _ => true) "/lib2" true addon_queued in
  NoDup (library_paths a')
  /\ library_paths a' = ["/lib2"]
  /\ get_library_path a' = Some "/lib2".
Proof.
  destruct (X28_add_library_path (fun _ => true) "/lib2" true addon_queued)
    as (H1 & _ & _ & H2).
  - apply NoDup_singleton.
  - split; [exact H1 |]. split; [reflexivity |].
    assert ("/lib2" ∉ library_paths addon_queued) as Hnot
      by (apply (bool_decide_unpack _); by vm_compute).
    destruct (H2 eq_refl Hnot) as (_ & H3 & _).
    exact (proj1 (H3 eq_refl)).
Defined.
End LibraryScenarios.

Section PatchScenarios.
Import Py Queries Patch Scenarios.

Lemma X30_patch_url_version_witness :
  patch_download_url_increment_version int_small str_small
    "https://cdn/file.jpg?sig=abc&v=7&v=9"
  = Returned "https://cdn/file.jpg?sig=abc&v=8&v=9".
Proof.
  apply (X30_patch_url_version int_small str_small "https://cdn/file.jpg" "7"
           ["sig=abc"] ["v=9"]).
  - reflexivity.
  - by repeat constructor.
  - by repeat constructor.
  - reflexivity.
Defined.
End PatchScenarios.
